(** * Recurring task lifecycle of the TPS global context menu

    A shallow embedding of the recurrence engine of the menu controller:
    [parseRecurrence], [incrementRecurrence], [matchesRecurrence],
    [computeNextOccurrence], [generateNextName], [getRecurrenceValue] and
    [handleRecurrenceCompletion], together with the pieces of the
    JavaScript platform they run on (strings, numbers, [Date]) and of the
    host application (vault and frontmatter store).

    Conventions of the embedding.
    - A string is held as the bytes of its UTF-8 form; [trim],
      [toUpperCase], [\s] and [.] work on its characters, with the white
      space, the line terminators and the case mappings of the
      platform; what the code compares with ASCII characters only (the
      separators, [\d], the prefix [RRULE:]) is read byte by byte.
    - A JavaScript number is [NaN], an infinity or the rational value of a
      double.  [Number] rounds the decimal text to the nearest double;
      arithmetic on numbers is carried out exactly, which is what the
      platform computes whenever the exact result is representable: the
      sums, differences and products below are of integers under 2^53,
      [%] is exact on doubles, and the two quotients (by the length of a
      day and by 7) are only used under [Math.floor], which the rounding
      of the quotient does not change for dates less than 2^27 days
      apart, nor as to its sign for any two dates.  [-0] is identified
      with [0].
    - A [Date] is its time value: [None] is the invalid date, [Some t] a
      number of milliseconds since the epoch with |t| <= 8.64e15.
    - The host supplies the time zone and its parser for date strings that
      are not in the ISO format: both are fields of [Host]. *)

From Stdlib Require Import ZArith QArith Qround Qcanon Ascii String List Lia Bool.
From stdpp Require Import base option gmap strings.

Local Open Scope string_scope.
Local Open Scope Z_scope.

(** ** Strings *)

Module Str.

Definition code (c : ascii) : Z := Z.of_nat (nat_of_ascii c).

Definition byte (n : Z) : ascii := ascii_of_nat (Z.to_nat n).

(** *** Characters

    A string is held as the bytes of its UTF-8 form (a lone surrogate
    as the three bytes of its value).  A character is a first byte
    with the continuation bytes that belong to it. *)

(** A continuation byte. *)
Definition isCont (c : ascii) : bool :=
  let n := code c in (128 <=? n) && (n <? 192).

(** The number of continuation bytes that follow a first byte. *)
Definition contLen (c : ascii) : nat :=
  let n := code c in
  if n <? 192 then 0%nat
  else if n <? 224 then 1%nat
  else if n <? 240 then 2%nat
  else if n <? 248 then 3%nat
  else 0%nat.

(** The scan for characters: the rest of the character being read,
    which takes up to [need] more continuation bytes, and the
    characters after it. *)
Fixpoint charsOpen (need : nat) (s : string) : string * list string :=
  match s with
  | EmptyString => (EmptyString, [])
  | String c r =>
      match need with
      | S k =>
          if isCont c then
            let (t, l) := charsOpen k r in (String c t, l)
          else
            let (t, l) := charsOpen (contLen c) r in
            (EmptyString, String c t :: l)
      | O =>
          let (t, l) := charsOpen (contLen c) r in
          (EmptyString, String c t :: l)
      end
  end.

(** The characters of a string, and the string of a list of
    characters. *)
Definition chars (s : string) : list string := snd (charsOpen 0 s).

Fixpoint join (l : list string) : string :=
  match l with
  | [] => EmptyString
  | x :: r => x +:+ join r
  end.

(** The character of a code point. *)
Definition utf8 (cp : Z) : string :=
  if cp <? 128 then String (byte cp) EmptyString
  else if cp <? 2048 then
    String (byte (192 + cp / 64)) (String (byte (128 + cp mod 64)) EmptyString)
  else if cp <? 65536 then
    String (byte (224 + cp / 4096))
      (String (byte (128 + (cp / 64) mod 64))
         (String (byte (128 + cp mod 64)) EmptyString))
  else
    String (byte (240 + cp / 262144))
      (String (byte (128 + (cp / 4096) mod 64))
         (String (byte (128 + (cp / 64) mod 64))
            (String (byte (128 + cp mod 64)) EmptyString))).

(** White space and line terminators (what [trim] strips, what [\s]
    matches and what [Number] skips): TAB, LF, VT, FF, CR, the
    characters of the class of space separators, LS, PS and the byte
    order mark. *)
Definition whiteSpaces : list string :=
  Eval vm_compute in
  List.map utf8
    [0x0009; 0x000A; 0x000B; 0x000C; 0x000D; 0x0020; 0x00A0; 0x1680;
     0x2000; 0x2001; 0x2002; 0x2003; 0x2004; 0x2005; 0x2006; 0x2007;
     0x2008; 0x2009; 0x200A; 0x2028; 0x2029; 0x202F; 0x205F; 0x3000;
     0xFEFF].

Definition isWhite (ch : string) : bool := existsb (String.eqb ch) whiteSpaces.

(** Line terminators (what [.] does not match): LF, CR, LS and PS. *)
Definition lineTerminators : list string :=
  Eval vm_compute in List.map utf8 [0x000A; 0x000D; 0x2028; 0x2029].

Definition isLineTerminator (ch : string) : bool :=
  existsb (String.eqb ch) lineTerminators.

Definition isDigit (c : ascii) : bool :=
  let n := code c in (48 <=? n) && (n <=? 57).

(** The upper case of an ASCII character. *)
Definition upperChar (c : ascii) : ascii :=
  let n := code c in
  if (97 <=? n) && (n <=? 122) then ascii_of_nat (Z.to_nat (n - 32)) else c.

(** The upper case of the other characters (the full case mappings of
    Unicode 14.0, which do not depend on context): each code point
    that has one with the code points it becomes. *)
Definition caseTable : list (Z * list Z) :=
  [
  (0x00B5, [0x039C]); (0x00DF, [0x0053; 0x0053]); (0x00E0, [0x00C0]);
  (0x00E1, [0x00C1]); (0x00E2, [0x00C2]); (0x00E3, [0x00C3]);
  (0x00E4, [0x00C4]); (0x00E5, [0x00C5]); (0x00E6, [0x00C6]);
  (0x00E7, [0x00C7]); (0x00E8, [0x00C8]); (0x00E9, [0x00C9]);
  (0x00EA, [0x00CA]); (0x00EB, [0x00CB]); (0x00EC, [0x00CC]);
  (0x00ED, [0x00CD]); (0x00EE, [0x00CE]); (0x00EF, [0x00CF]);
  (0x00F0, [0x00D0]); (0x00F1, [0x00D1]); (0x00F2, [0x00D2]);
  (0x00F3, [0x00D3]); (0x00F4, [0x00D4]); (0x00F5, [0x00D5]);
  (0x00F6, [0x00D6]); (0x00F8, [0x00D8]); (0x00F9, [0x00D9]);
  (0x00FA, [0x00DA]); (0x00FB, [0x00DB]); (0x00FC, [0x00DC]);
  (0x00FD, [0x00DD]); (0x00FE, [0x00DE]); (0x00FF, [0x0178]);
  (0x0101, [0x0100]); (0x0103, [0x0102]); (0x0105, [0x0104]);
  (0x0107, [0x0106]); (0x0109, [0x0108]); (0x010B, [0x010A]);
  (0x010D, [0x010C]); (0x010F, [0x010E]); (0x0111, [0x0110]);
  (0x0113, [0x0112]); (0x0115, [0x0114]); (0x0117, [0x0116]);
  (0x0119, [0x0118]); (0x011B, [0x011A]); (0x011D, [0x011C]);
  (0x011F, [0x011E]); (0x0121, [0x0120]); (0x0123, [0x0122]);
  (0x0125, [0x0124]); (0x0127, [0x0126]); (0x0129, [0x0128]);
  (0x012B, [0x012A]); (0x012D, [0x012C]); (0x012F, [0x012E]);
  (0x0131, [0x0049]); (0x0133, [0x0132]); (0x0135, [0x0134]);
  (0x0137, [0x0136]); (0x013A, [0x0139]); (0x013C, [0x013B]);
  (0x013E, [0x013D]); (0x0140, [0x013F]); (0x0142, [0x0141]);
  (0x0144, [0x0143]); (0x0146, [0x0145]); (0x0148, [0x0147]);
  (0x0149, [0x02BC; 0x004E]); (0x014B, [0x014A]); (0x014D, [0x014C]);
  (0x014F, [0x014E]); (0x0151, [0x0150]); (0x0153, [0x0152]);
  (0x0155, [0x0154]); (0x0157, [0x0156]); (0x0159, [0x0158]);
  (0x015B, [0x015A]); (0x015D, [0x015C]); (0x015F, [0x015E]);
  (0x0161, [0x0160]); (0x0163, [0x0162]); (0x0165, [0x0164]);
  (0x0167, [0x0166]); (0x0169, [0x0168]); (0x016B, [0x016A]);
  (0x016D, [0x016C]); (0x016F, [0x016E]); (0x0171, [0x0170]);
  (0x0173, [0x0172]); (0x0175, [0x0174]); (0x0177, [0x0176]);
  (0x017A, [0x0179]); (0x017C, [0x017B]); (0x017E, [0x017D]);
  (0x017F, [0x0053]); (0x0180, [0x0243]); (0x0183, [0x0182]);
  (0x0185, [0x0184]); (0x0188, [0x0187]); (0x018C, [0x018B]);
  (0x0192, [0x0191]); (0x0195, [0x01F6]); (0x0199, [0x0198]);
  (0x019A, [0x023D]); (0x019E, [0x0220]); (0x01A1, [0x01A0]);
  (0x01A3, [0x01A2]); (0x01A5, [0x01A4]); (0x01A8, [0x01A7]);
  (0x01AD, [0x01AC]); (0x01B0, [0x01AF]); (0x01B4, [0x01B3]);
  (0x01B6, [0x01B5]); (0x01B9, [0x01B8]); (0x01BD, [0x01BC]);
  (0x01BF, [0x01F7]); (0x01C5, [0x01C4]); (0x01C6, [0x01C4]);
  (0x01C8, [0x01C7]); (0x01C9, [0x01C7]); (0x01CB, [0x01CA]);
  (0x01CC, [0x01CA]); (0x01CE, [0x01CD]); (0x01D0, [0x01CF]);
  (0x01D2, [0x01D1]); (0x01D4, [0x01D3]); (0x01D6, [0x01D5]);
  (0x01D8, [0x01D7]); (0x01DA, [0x01D9]); (0x01DC, [0x01DB]);
  (0x01DD, [0x018E]); (0x01DF, [0x01DE]); (0x01E1, [0x01E0]);
  (0x01E3, [0x01E2]); (0x01E5, [0x01E4]); (0x01E7, [0x01E6]);
  (0x01E9, [0x01E8]); (0x01EB, [0x01EA]); (0x01ED, [0x01EC]);
  (0x01EF, [0x01EE]); (0x01F0, [0x004A; 0x030C]); (0x01F2, [0x01F1]);
  (0x01F3, [0x01F1]); (0x01F5, [0x01F4]); (0x01F9, [0x01F8]);
  (0x01FB, [0x01FA]); (0x01FD, [0x01FC]); (0x01FF, [0x01FE]);
  (0x0201, [0x0200]); (0x0203, [0x0202]); (0x0205, [0x0204]);
  (0x0207, [0x0206]); (0x0209, [0x0208]); (0x020B, [0x020A]);
  (0x020D, [0x020C]); (0x020F, [0x020E]); (0x0211, [0x0210]);
  (0x0213, [0x0212]); (0x0215, [0x0214]); (0x0217, [0x0216]);
  (0x0219, [0x0218]); (0x021B, [0x021A]); (0x021D, [0x021C]);
  (0x021F, [0x021E]); (0x0223, [0x0222]); (0x0225, [0x0224]);
  (0x0227, [0x0226]); (0x0229, [0x0228]); (0x022B, [0x022A]);
  (0x022D, [0x022C]); (0x022F, [0x022E]); (0x0231, [0x0230]);
  (0x0233, [0x0232]); (0x023C, [0x023B]); (0x023F, [0x2C7E]);
  (0x0240, [0x2C7F]); (0x0242, [0x0241]); (0x0247, [0x0246]);
  (0x0249, [0x0248]); (0x024B, [0x024A]); (0x024D, [0x024C]);
  (0x024F, [0x024E]); (0x0250, [0x2C6F]); (0x0251, [0x2C6D]);
  (0x0252, [0x2C70]); (0x0253, [0x0181]); (0x0254, [0x0186]);
  (0x0256, [0x0189]); (0x0257, [0x018A]); (0x0259, [0x018F]);
  (0x025B, [0x0190]); (0x025C, [0xA7AB]); (0x0260, [0x0193]);
  (0x0261, [0xA7AC]); (0x0263, [0x0194]); (0x0265, [0xA78D]);
  (0x0266, [0xA7AA]); (0x0268, [0x0197]); (0x0269, [0x0196]);
  (0x026A, [0xA7AE]); (0x026B, [0x2C62]); (0x026C, [0xA7AD]);
  (0x026F, [0x019C]); (0x0271, [0x2C6E]); (0x0272, [0x019D]);
  (0x0275, [0x019F]); (0x027D, [0x2C64]); (0x0280, [0x01A6]);
  (0x0282, [0xA7C5]); (0x0283, [0x01A9]); (0x0287, [0xA7B1]);
  (0x0288, [0x01AE]); (0x0289, [0x0244]); (0x028A, [0x01B1]);
  (0x028B, [0x01B2]); (0x028C, [0x0245]); (0x0292, [0x01B7]);
  (0x029D, [0xA7B2]); (0x029E, [0xA7B0]); (0x0345, [0x0399]);
  (0x0371, [0x0370]); (0x0373, [0x0372]); (0x0377, [0x0376]);
  (0x037B, [0x03FD]); (0x037C, [0x03FE]); (0x037D, [0x03FF]);
  (0x0390, [0x0399; 0x0308; 0x0301]); (0x03AC, [0x0386]);
  (0x03AD, [0x0388]); (0x03AE, [0x0389]); (0x03AF, [0x038A]);
  (0x03B0, [0x03A5; 0x0308; 0x0301]); (0x03B1, [0x0391]);
  (0x03B2, [0x0392]); (0x03B3, [0x0393]); (0x03B4, [0x0394]);
  (0x03B5, [0x0395]); (0x03B6, [0x0396]); (0x03B7, [0x0397]);
  (0x03B8, [0x0398]); (0x03B9, [0x0399]); (0x03BA, [0x039A]);
  (0x03BB, [0x039B]); (0x03BC, [0x039C]); (0x03BD, [0x039D]);
  (0x03BE, [0x039E]); (0x03BF, [0x039F]); (0x03C0, [0x03A0]);
  (0x03C1, [0x03A1]); (0x03C2, [0x03A3]); (0x03C3, [0x03A3]);
  (0x03C4, [0x03A4]); (0x03C5, [0x03A5]); (0x03C6, [0x03A6]);
  (0x03C7, [0x03A7]); (0x03C8, [0x03A8]); (0x03C9, [0x03A9]);
  (0x03CA, [0x03AA]); (0x03CB, [0x03AB]); (0x03CC, [0x038C]);
  (0x03CD, [0x038E]); (0x03CE, [0x038F]); (0x03D0, [0x0392]);
  (0x03D1, [0x0398]); (0x03D5, [0x03A6]); (0x03D6, [0x03A0]);
  (0x03D7, [0x03CF]); (0x03D9, [0x03D8]); (0x03DB, [0x03DA]);
  (0x03DD, [0x03DC]); (0x03DF, [0x03DE]); (0x03E1, [0x03E0]);
  (0x03E3, [0x03E2]); (0x03E5, [0x03E4]); (0x03E7, [0x03E6]);
  (0x03E9, [0x03E8]); (0x03EB, [0x03EA]); (0x03ED, [0x03EC]);
  (0x03EF, [0x03EE]); (0x03F0, [0x039A]); (0x03F1, [0x03A1]);
  (0x03F2, [0x03F9]); (0x03F3, [0x037F]); (0x03F5, [0x0395]);
  (0x03F8, [0x03F7]); (0x03FB, [0x03FA]); (0x0430, [0x0410]);
  (0x0431, [0x0411]); (0x0432, [0x0412]); (0x0433, [0x0413]);
  (0x0434, [0x0414]); (0x0435, [0x0415]); (0x0436, [0x0416]);
  (0x0437, [0x0417]); (0x0438, [0x0418]); (0x0439, [0x0419]);
  (0x043A, [0x041A]); (0x043B, [0x041B]); (0x043C, [0x041C]);
  (0x043D, [0x041D]); (0x043E, [0x041E]); (0x043F, [0x041F]);
  (0x0440, [0x0420]); (0x0441, [0x0421]); (0x0442, [0x0422]);
  (0x0443, [0x0423]); (0x0444, [0x0424]); (0x0445, [0x0425]);
  (0x0446, [0x0426]); (0x0447, [0x0427]); (0x0448, [0x0428]);
  (0x0449, [0x0429]); (0x044A, [0x042A]); (0x044B, [0x042B]);
  (0x044C, [0x042C]); (0x044D, [0x042D]); (0x044E, [0x042E]);
  (0x044F, [0x042F]); (0x0450, [0x0400]); (0x0451, [0x0401]);
  (0x0452, [0x0402]); (0x0453, [0x0403]); (0x0454, [0x0404]);
  (0x0455, [0x0405]); (0x0456, [0x0406]); (0x0457, [0x0407]);
  (0x0458, [0x0408]); (0x0459, [0x0409]); (0x045A, [0x040A]);
  (0x045B, [0x040B]); (0x045C, [0x040C]); (0x045D, [0x040D]);
  (0x045E, [0x040E]); (0x045F, [0x040F]); (0x0461, [0x0460]);
  (0x0463, [0x0462]); (0x0465, [0x0464]); (0x0467, [0x0466]);
  (0x0469, [0x0468]); (0x046B, [0x046A]); (0x046D, [0x046C]);
  (0x046F, [0x046E]); (0x0471, [0x0470]); (0x0473, [0x0472]);
  (0x0475, [0x0474]); (0x0477, [0x0476]); (0x0479, [0x0478]);
  (0x047B, [0x047A]); (0x047D, [0x047C]); (0x047F, [0x047E]);
  (0x0481, [0x0480]); (0x048B, [0x048A]); (0x048D, [0x048C]);
  (0x048F, [0x048E]); (0x0491, [0x0490]); (0x0493, [0x0492]);
  (0x0495, [0x0494]); (0x0497, [0x0496]); (0x0499, [0x0498]);
  (0x049B, [0x049A]); (0x049D, [0x049C]); (0x049F, [0x049E]);
  (0x04A1, [0x04A0]); (0x04A3, [0x04A2]); (0x04A5, [0x04A4]);
  (0x04A7, [0x04A6]); (0x04A9, [0x04A8]); (0x04AB, [0x04AA]);
  (0x04AD, [0x04AC]); (0x04AF, [0x04AE]); (0x04B1, [0x04B0]);
  (0x04B3, [0x04B2]); (0x04B5, [0x04B4]); (0x04B7, [0x04B6]);
  (0x04B9, [0x04B8]); (0x04BB, [0x04BA]); (0x04BD, [0x04BC]);
  (0x04BF, [0x04BE]); (0x04C2, [0x04C1]); (0x04C4, [0x04C3]);
  (0x04C6, [0x04C5]); (0x04C8, [0x04C7]); (0x04CA, [0x04C9]);
  (0x04CC, [0x04CB]); (0x04CE, [0x04CD]); (0x04CF, [0x04C0]);
  (0x04D1, [0x04D0]); (0x04D3, [0x04D2]); (0x04D5, [0x04D4]);
  (0x04D7, [0x04D6]); (0x04D9, [0x04D8]); (0x04DB, [0x04DA]);
  (0x04DD, [0x04DC]); (0x04DF, [0x04DE]); (0x04E1, [0x04E0]);
  (0x04E3, [0x04E2]); (0x04E5, [0x04E4]); (0x04E7, [0x04E6]);
  (0x04E9, [0x04E8]); (0x04EB, [0x04EA]); (0x04ED, [0x04EC]);
  (0x04EF, [0x04EE]); (0x04F1, [0x04F0]); (0x04F3, [0x04F2]);
  (0x04F5, [0x04F4]); (0x04F7, [0x04F6]); (0x04F9, [0x04F8]);
  (0x04FB, [0x04FA]); (0x04FD, [0x04FC]); (0x04FF, [0x04FE]);
  (0x0501, [0x0500]); (0x0503, [0x0502]); (0x0505, [0x0504]);
  (0x0507, [0x0506]); (0x0509, [0x0508]); (0x050B, [0x050A]);
  (0x050D, [0x050C]); (0x050F, [0x050E]); (0x0511, [0x0510]);
  (0x0513, [0x0512]); (0x0515, [0x0514]); (0x0517, [0x0516]);
  (0x0519, [0x0518]); (0x051B, [0x051A]); (0x051D, [0x051C]);
  (0x051F, [0x051E]); (0x0521, [0x0520]); (0x0523, [0x0522]);
  (0x0525, [0x0524]); (0x0527, [0x0526]); (0x0529, [0x0528]);
  (0x052B, [0x052A]); (0x052D, [0x052C]); (0x052F, [0x052E]);
  (0x0561, [0x0531]); (0x0562, [0x0532]); (0x0563, [0x0533]);
  (0x0564, [0x0534]); (0x0565, [0x0535]); (0x0566, [0x0536]);
  (0x0567, [0x0537]); (0x0568, [0x0538]); (0x0569, [0x0539]);
  (0x056A, [0x053A]); (0x056B, [0x053B]); (0x056C, [0x053C]);
  (0x056D, [0x053D]); (0x056E, [0x053E]); (0x056F, [0x053F]);
  (0x0570, [0x0540]); (0x0571, [0x0541]); (0x0572, [0x0542]);
  (0x0573, [0x0543]); (0x0574, [0x0544]); (0x0575, [0x0545]);
  (0x0576, [0x0546]); (0x0577, [0x0547]); (0x0578, [0x0548]);
  (0x0579, [0x0549]); (0x057A, [0x054A]); (0x057B, [0x054B]);
  (0x057C, [0x054C]); (0x057D, [0x054D]); (0x057E, [0x054E]);
  (0x057F, [0x054F]); (0x0580, [0x0550]); (0x0581, [0x0551]);
  (0x0582, [0x0552]); (0x0583, [0x0553]); (0x0584, [0x0554]);
  (0x0585, [0x0555]); (0x0586, [0x0556]); (0x0587, [0x0535; 0x0552]);
  (0x10D0, [0x1C90]); (0x10D1, [0x1C91]); (0x10D2, [0x1C92]);
  (0x10D3, [0x1C93]); (0x10D4, [0x1C94]); (0x10D5, [0x1C95]);
  (0x10D6, [0x1C96]); (0x10D7, [0x1C97]); (0x10D8, [0x1C98]);
  (0x10D9, [0x1C99]); (0x10DA, [0x1C9A]); (0x10DB, [0x1C9B]);
  (0x10DC, [0x1C9C]); (0x10DD, [0x1C9D]); (0x10DE, [0x1C9E]);
  (0x10DF, [0x1C9F]); (0x10E0, [0x1CA0]); (0x10E1, [0x1CA1]);
  (0x10E2, [0x1CA2]); (0x10E3, [0x1CA3]); (0x10E4, [0x1CA4]);
  (0x10E5, [0x1CA5]); (0x10E6, [0x1CA6]); (0x10E7, [0x1CA7]);
  (0x10E8, [0x1CA8]); (0x10E9, [0x1CA9]); (0x10EA, [0x1CAA]);
  (0x10EB, [0x1CAB]); (0x10EC, [0x1CAC]); (0x10ED, [0x1CAD]);
  (0x10EE, [0x1CAE]); (0x10EF, [0x1CAF]); (0x10F0, [0x1CB0]);
  (0x10F1, [0x1CB1]); (0x10F2, [0x1CB2]); (0x10F3, [0x1CB3]);
  (0x10F4, [0x1CB4]); (0x10F5, [0x1CB5]); (0x10F6, [0x1CB6]);
  (0x10F7, [0x1CB7]); (0x10F8, [0x1CB8]); (0x10F9, [0x1CB9]);
  (0x10FA, [0x1CBA]); (0x10FD, [0x1CBD]); (0x10FE, [0x1CBE]);
  (0x10FF, [0x1CBF]); (0x13F8, [0x13F0]); (0x13F9, [0x13F1]);
  (0x13FA, [0x13F2]); (0x13FB, [0x13F3]); (0x13FC, [0x13F4]);
  (0x13FD, [0x13F5]); (0x1C80, [0x0412]); (0x1C81, [0x0414]);
  (0x1C82, [0x041E]); (0x1C83, [0x0421]); (0x1C84, [0x0422]);
  (0x1C85, [0x0422]); (0x1C86, [0x042A]); (0x1C87, [0x0462]);
  (0x1C88, [0xA64A]); (0x1D79, [0xA77D]); (0x1D7D, [0x2C63]);
  (0x1D8E, [0xA7C6]); (0x1E01, [0x1E00]); (0x1E03, [0x1E02]);
  (0x1E05, [0x1E04]); (0x1E07, [0x1E06]); (0x1E09, [0x1E08]);
  (0x1E0B, [0x1E0A]); (0x1E0D, [0x1E0C]); (0x1E0F, [0x1E0E]);
  (0x1E11, [0x1E10]); (0x1E13, [0x1E12]); (0x1E15, [0x1E14]);
  (0x1E17, [0x1E16]); (0x1E19, [0x1E18]); (0x1E1B, [0x1E1A]);
  (0x1E1D, [0x1E1C]); (0x1E1F, [0x1E1E]); (0x1E21, [0x1E20]);
  (0x1E23, [0x1E22]); (0x1E25, [0x1E24]); (0x1E27, [0x1E26]);
  (0x1E29, [0x1E28]); (0x1E2B, [0x1E2A]); (0x1E2D, [0x1E2C]);
  (0x1E2F, [0x1E2E]); (0x1E31, [0x1E30]); (0x1E33, [0x1E32]);
  (0x1E35, [0x1E34]); (0x1E37, [0x1E36]); (0x1E39, [0x1E38]);
  (0x1E3B, [0x1E3A]); (0x1E3D, [0x1E3C]); (0x1E3F, [0x1E3E]);
  (0x1E41, [0x1E40]); (0x1E43, [0x1E42]); (0x1E45, [0x1E44]);
  (0x1E47, [0x1E46]); (0x1E49, [0x1E48]); (0x1E4B, [0x1E4A]);
  (0x1E4D, [0x1E4C]); (0x1E4F, [0x1E4E]); (0x1E51, [0x1E50]);
  (0x1E53, [0x1E52]); (0x1E55, [0x1E54]); (0x1E57, [0x1E56]);
  (0x1E59, [0x1E58]); (0x1E5B, [0x1E5A]); (0x1E5D, [0x1E5C]);
  (0x1E5F, [0x1E5E]); (0x1E61, [0x1E60]); (0x1E63, [0x1E62]);
  (0x1E65, [0x1E64]); (0x1E67, [0x1E66]); (0x1E69, [0x1E68]);
  (0x1E6B, [0x1E6A]); (0x1E6D, [0x1E6C]); (0x1E6F, [0x1E6E]);
  (0x1E71, [0x1E70]); (0x1E73, [0x1E72]); (0x1E75, [0x1E74]);
  (0x1E77, [0x1E76]); (0x1E79, [0x1E78]); (0x1E7B, [0x1E7A]);
  (0x1E7D, [0x1E7C]); (0x1E7F, [0x1E7E]); (0x1E81, [0x1E80]);
  (0x1E83, [0x1E82]); (0x1E85, [0x1E84]); (0x1E87, [0x1E86]);
  (0x1E89, [0x1E88]); (0x1E8B, [0x1E8A]); (0x1E8D, [0x1E8C]);
  (0x1E8F, [0x1E8E]); (0x1E91, [0x1E90]); (0x1E93, [0x1E92]);
  (0x1E95, [0x1E94]); (0x1E96, [0x0048; 0x0331]);
  (0x1E97, [0x0054; 0x0308]); (0x1E98, [0x0057; 0x030A]);
  (0x1E99, [0x0059; 0x030A]); (0x1E9A, [0x0041; 0x02BE]);
  (0x1E9B, [0x1E60]); (0x1EA1, [0x1EA0]); (0x1EA3, [0x1EA2]);
  (0x1EA5, [0x1EA4]); (0x1EA7, [0x1EA6]); (0x1EA9, [0x1EA8]);
  (0x1EAB, [0x1EAA]); (0x1EAD, [0x1EAC]); (0x1EAF, [0x1EAE]);
  (0x1EB1, [0x1EB0]); (0x1EB3, [0x1EB2]); (0x1EB5, [0x1EB4]);
  (0x1EB7, [0x1EB6]); (0x1EB9, [0x1EB8]); (0x1EBB, [0x1EBA]);
  (0x1EBD, [0x1EBC]); (0x1EBF, [0x1EBE]); (0x1EC1, [0x1EC0]);
  (0x1EC3, [0x1EC2]); (0x1EC5, [0x1EC4]); (0x1EC7, [0x1EC6]);
  (0x1EC9, [0x1EC8]); (0x1ECB, [0x1ECA]); (0x1ECD, [0x1ECC]);
  (0x1ECF, [0x1ECE]); (0x1ED1, [0x1ED0]); (0x1ED3, [0x1ED2]);
  (0x1ED5, [0x1ED4]); (0x1ED7, [0x1ED6]); (0x1ED9, [0x1ED8]);
  (0x1EDB, [0x1EDA]); (0x1EDD, [0x1EDC]); (0x1EDF, [0x1EDE]);
  (0x1EE1, [0x1EE0]); (0x1EE3, [0x1EE2]); (0x1EE5, [0x1EE4]);
  (0x1EE7, [0x1EE6]); (0x1EE9, [0x1EE8]); (0x1EEB, [0x1EEA]);
  (0x1EED, [0x1EEC]); (0x1EEF, [0x1EEE]); (0x1EF1, [0x1EF0]);
  (0x1EF3, [0x1EF2]); (0x1EF5, [0x1EF4]); (0x1EF7, [0x1EF6]);
  (0x1EF9, [0x1EF8]); (0x1EFB, [0x1EFA]); (0x1EFD, [0x1EFC]);
  (0x1EFF, [0x1EFE]); (0x1F00, [0x1F08]); (0x1F01, [0x1F09]);
  (0x1F02, [0x1F0A]); (0x1F03, [0x1F0B]); (0x1F04, [0x1F0C]);
  (0x1F05, [0x1F0D]); (0x1F06, [0x1F0E]); (0x1F07, [0x1F0F]);
  (0x1F10, [0x1F18]); (0x1F11, [0x1F19]); (0x1F12, [0x1F1A]);
  (0x1F13, [0x1F1B]); (0x1F14, [0x1F1C]); (0x1F15, [0x1F1D]);
  (0x1F20, [0x1F28]); (0x1F21, [0x1F29]); (0x1F22, [0x1F2A]);
  (0x1F23, [0x1F2B]); (0x1F24, [0x1F2C]); (0x1F25, [0x1F2D]);
  (0x1F26, [0x1F2E]); (0x1F27, [0x1F2F]); (0x1F30, [0x1F38]);
  (0x1F31, [0x1F39]); (0x1F32, [0x1F3A]); (0x1F33, [0x1F3B]);
  (0x1F34, [0x1F3C]); (0x1F35, [0x1F3D]); (0x1F36, [0x1F3E]);
  (0x1F37, [0x1F3F]); (0x1F40, [0x1F48]); (0x1F41, [0x1F49]);
  (0x1F42, [0x1F4A]); (0x1F43, [0x1F4B]); (0x1F44, [0x1F4C]);
  (0x1F45, [0x1F4D]); (0x1F50, [0x03A5; 0x0313]); (0x1F51, [0x1F59]);
  (0x1F52, [0x03A5; 0x0313; 0x0300]); (0x1F53, [0x1F5B]);
  (0x1F54, [0x03A5; 0x0313; 0x0301]); (0x1F55, [0x1F5D]);
  (0x1F56, [0x03A5; 0x0313; 0x0342]); (0x1F57, [0x1F5F]);
  (0x1F60, [0x1F68]); (0x1F61, [0x1F69]); (0x1F62, [0x1F6A]);
  (0x1F63, [0x1F6B]); (0x1F64, [0x1F6C]); (0x1F65, [0x1F6D]);
  (0x1F66, [0x1F6E]); (0x1F67, [0x1F6F]); (0x1F70, [0x1FBA]);
  (0x1F71, [0x1FBB]); (0x1F72, [0x1FC8]); (0x1F73, [0x1FC9]);
  (0x1F74, [0x1FCA]); (0x1F75, [0x1FCB]); (0x1F76, [0x1FDA]);
  (0x1F77, [0x1FDB]); (0x1F78, [0x1FF8]); (0x1F79, [0x1FF9]);
  (0x1F7A, [0x1FEA]); (0x1F7B, [0x1FEB]); (0x1F7C, [0x1FFA]);
  (0x1F7D, [0x1FFB]); (0x1F80, [0x1F08; 0x0399]);
  (0x1F81, [0x1F09; 0x0399]); (0x1F82, [0x1F0A; 0x0399]);
  (0x1F83, [0x1F0B; 0x0399]); (0x1F84, [0x1F0C; 0x0399]);
  (0x1F85, [0x1F0D; 0x0399]); (0x1F86, [0x1F0E; 0x0399]);
  (0x1F87, [0x1F0F; 0x0399]); (0x1F88, [0x1F08; 0x0399]);
  (0x1F89, [0x1F09; 0x0399]); (0x1F8A, [0x1F0A; 0x0399]);
  (0x1F8B, [0x1F0B; 0x0399]); (0x1F8C, [0x1F0C; 0x0399]);
  (0x1F8D, [0x1F0D; 0x0399]); (0x1F8E, [0x1F0E; 0x0399]);
  (0x1F8F, [0x1F0F; 0x0399]); (0x1F90, [0x1F28; 0x0399]);
  (0x1F91, [0x1F29; 0x0399]); (0x1F92, [0x1F2A; 0x0399]);
  (0x1F93, [0x1F2B; 0x0399]); (0x1F94, [0x1F2C; 0x0399]);
  (0x1F95, [0x1F2D; 0x0399]); (0x1F96, [0x1F2E; 0x0399]);
  (0x1F97, [0x1F2F; 0x0399]); (0x1F98, [0x1F28; 0x0399]);
  (0x1F99, [0x1F29; 0x0399]); (0x1F9A, [0x1F2A; 0x0399]);
  (0x1F9B, [0x1F2B; 0x0399]); (0x1F9C, [0x1F2C; 0x0399]);
  (0x1F9D, [0x1F2D; 0x0399]); (0x1F9E, [0x1F2E; 0x0399]);
  (0x1F9F, [0x1F2F; 0x0399]); (0x1FA0, [0x1F68; 0x0399]);
  (0x1FA1, [0x1F69; 0x0399]); (0x1FA2, [0x1F6A; 0x0399]);
  (0x1FA3, [0x1F6B; 0x0399]); (0x1FA4, [0x1F6C; 0x0399]);
  (0x1FA5, [0x1F6D; 0x0399]); (0x1FA6, [0x1F6E; 0x0399]);
  (0x1FA7, [0x1F6F; 0x0399]); (0x1FA8, [0x1F68; 0x0399]);
  (0x1FA9, [0x1F69; 0x0399]); (0x1FAA, [0x1F6A; 0x0399]);
  (0x1FAB, [0x1F6B; 0x0399]); (0x1FAC, [0x1F6C; 0x0399]);
  (0x1FAD, [0x1F6D; 0x0399]); (0x1FAE, [0x1F6E; 0x0399]);
  (0x1FAF, [0x1F6F; 0x0399]); (0x1FB0, [0x1FB8]); (0x1FB1, [0x1FB9]);
  (0x1FB2, [0x1FBA; 0x0399]); (0x1FB3, [0x0391; 0x0399]);
  (0x1FB4, [0x0386; 0x0399]); (0x1FB6, [0x0391; 0x0342]);
  (0x1FB7, [0x0391; 0x0342; 0x0399]); (0x1FBC, [0x0391; 0x0399]);
  (0x1FBE, [0x0399]); (0x1FC2, [0x1FCA; 0x0399]);
  (0x1FC3, [0x0397; 0x0399]); (0x1FC4, [0x0389; 0x0399]);
  (0x1FC6, [0x0397; 0x0342]); (0x1FC7, [0x0397; 0x0342; 0x0399]);
  (0x1FCC, [0x0397; 0x0399]); (0x1FD0, [0x1FD8]); (0x1FD1, [0x1FD9]);
  (0x1FD2, [0x0399; 0x0308; 0x0300]); (0x1FD3, [0x0399; 0x0308; 0x0301]);
  (0x1FD6, [0x0399; 0x0342]); (0x1FD7, [0x0399; 0x0308; 0x0342]);
  (0x1FE0, [0x1FE8]); (0x1FE1, [0x1FE9]);
  (0x1FE2, [0x03A5; 0x0308; 0x0300]); (0x1FE3, [0x03A5; 0x0308; 0x0301]);
  (0x1FE4, [0x03A1; 0x0313]); (0x1FE5, [0x1FEC]);
  (0x1FE6, [0x03A5; 0x0342]); (0x1FE7, [0x03A5; 0x0308; 0x0342]);
  (0x1FF2, [0x1FFA; 0x0399]); (0x1FF3, [0x03A9; 0x0399]);
  (0x1FF4, [0x038F; 0x0399]); (0x1FF6, [0x03A9; 0x0342]);
  (0x1FF7, [0x03A9; 0x0342; 0x0399]); (0x1FFC, [0x03A9; 0x0399]);
  (0x214E, [0x2132]); (0x2170, [0x2160]); (0x2171, [0x2161]);
  (0x2172, [0x2162]); (0x2173, [0x2163]); (0x2174, [0x2164]);
  (0x2175, [0x2165]); (0x2176, [0x2166]); (0x2177, [0x2167]);
  (0x2178, [0x2168]); (0x2179, [0x2169]); (0x217A, [0x216A]);
  (0x217B, [0x216B]); (0x217C, [0x216C]); (0x217D, [0x216D]);
  (0x217E, [0x216E]); (0x217F, [0x216F]); (0x2184, [0x2183]);
  (0x24D0, [0x24B6]); (0x24D1, [0x24B7]); (0x24D2, [0x24B8]);
  (0x24D3, [0x24B9]); (0x24D4, [0x24BA]); (0x24D5, [0x24BB]);
  (0x24D6, [0x24BC]); (0x24D7, [0x24BD]); (0x24D8, [0x24BE]);
  (0x24D9, [0x24BF]); (0x24DA, [0x24C0]); (0x24DB, [0x24C1]);
  (0x24DC, [0x24C2]); (0x24DD, [0x24C3]); (0x24DE, [0x24C4]);
  (0x24DF, [0x24C5]); (0x24E0, [0x24C6]); (0x24E1, [0x24C7]);
  (0x24E2, [0x24C8]); (0x24E3, [0x24C9]); (0x24E4, [0x24CA]);
  (0x24E5, [0x24CB]); (0x24E6, [0x24CC]); (0x24E7, [0x24CD]);
  (0x24E8, [0x24CE]); (0x24E9, [0x24CF]); (0x2C30, [0x2C00]);
  (0x2C31, [0x2C01]); (0x2C32, [0x2C02]); (0x2C33, [0x2C03]);
  (0x2C34, [0x2C04]); (0x2C35, [0x2C05]); (0x2C36, [0x2C06]);
  (0x2C37, [0x2C07]); (0x2C38, [0x2C08]); (0x2C39, [0x2C09]);
  (0x2C3A, [0x2C0A]); (0x2C3B, [0x2C0B]); (0x2C3C, [0x2C0C]);
  (0x2C3D, [0x2C0D]); (0x2C3E, [0x2C0E]); (0x2C3F, [0x2C0F]);
  (0x2C40, [0x2C10]); (0x2C41, [0x2C11]); (0x2C42, [0x2C12]);
  (0x2C43, [0x2C13]); (0x2C44, [0x2C14]); (0x2C45, [0x2C15]);
  (0x2C46, [0x2C16]); (0x2C47, [0x2C17]); (0x2C48, [0x2C18]);
  (0x2C49, [0x2C19]); (0x2C4A, [0x2C1A]); (0x2C4B, [0x2C1B]);
  (0x2C4C, [0x2C1C]); (0x2C4D, [0x2C1D]); (0x2C4E, [0x2C1E]);
  (0x2C4F, [0x2C1F]); (0x2C50, [0x2C20]); (0x2C51, [0x2C21]);
  (0x2C52, [0x2C22]); (0x2C53, [0x2C23]); (0x2C54, [0x2C24]);
  (0x2C55, [0x2C25]); (0x2C56, [0x2C26]); (0x2C57, [0x2C27]);
  (0x2C58, [0x2C28]); (0x2C59, [0x2C29]); (0x2C5A, [0x2C2A]);
  (0x2C5B, [0x2C2B]); (0x2C5C, [0x2C2C]); (0x2C5D, [0x2C2D]);
  (0x2C5E, [0x2C2E]); (0x2C5F, [0x2C2F]); (0x2C61, [0x2C60]);
  (0x2C65, [0x023A]); (0x2C66, [0x023E]); (0x2C68, [0x2C67]);
  (0x2C6A, [0x2C69]); (0x2C6C, [0x2C6B]); (0x2C73, [0x2C72]);
  (0x2C76, [0x2C75]); (0x2C81, [0x2C80]); (0x2C83, [0x2C82]);
  (0x2C85, [0x2C84]); (0x2C87, [0x2C86]); (0x2C89, [0x2C88]);
  (0x2C8B, [0x2C8A]); (0x2C8D, [0x2C8C]); (0x2C8F, [0x2C8E]);
  (0x2C91, [0x2C90]); (0x2C93, [0x2C92]); (0x2C95, [0x2C94]);
  (0x2C97, [0x2C96]); (0x2C99, [0x2C98]); (0x2C9B, [0x2C9A]);
  (0x2C9D, [0x2C9C]); (0x2C9F, [0x2C9E]); (0x2CA1, [0x2CA0]);
  (0x2CA3, [0x2CA2]); (0x2CA5, [0x2CA4]); (0x2CA7, [0x2CA6]);
  (0x2CA9, [0x2CA8]); (0x2CAB, [0x2CAA]); (0x2CAD, [0x2CAC]);
  (0x2CAF, [0x2CAE]); (0x2CB1, [0x2CB0]); (0x2CB3, [0x2CB2]);
  (0x2CB5, [0x2CB4]); (0x2CB7, [0x2CB6]); (0x2CB9, [0x2CB8]);
  (0x2CBB, [0x2CBA]); (0x2CBD, [0x2CBC]); (0x2CBF, [0x2CBE]);
  (0x2CC1, [0x2CC0]); (0x2CC3, [0x2CC2]); (0x2CC5, [0x2CC4]);
  (0x2CC7, [0x2CC6]); (0x2CC9, [0x2CC8]); (0x2CCB, [0x2CCA]);
  (0x2CCD, [0x2CCC]); (0x2CCF, [0x2CCE]); (0x2CD1, [0x2CD0]);
  (0x2CD3, [0x2CD2]); (0x2CD5, [0x2CD4]); (0x2CD7, [0x2CD6]);
  (0x2CD9, [0x2CD8]); (0x2CDB, [0x2CDA]); (0x2CDD, [0x2CDC]);
  (0x2CDF, [0x2CDE]); (0x2CE1, [0x2CE0]); (0x2CE3, [0x2CE2]);
  (0x2CEC, [0x2CEB]); (0x2CEE, [0x2CED]); (0x2CF3, [0x2CF2]);
  (0x2D00, [0x10A0]); (0x2D01, [0x10A1]); (0x2D02, [0x10A2]);
  (0x2D03, [0x10A3]); (0x2D04, [0x10A4]); (0x2D05, [0x10A5]);
  (0x2D06, [0x10A6]); (0x2D07, [0x10A7]); (0x2D08, [0x10A8]);
  (0x2D09, [0x10A9]); (0x2D0A, [0x10AA]); (0x2D0B, [0x10AB]);
  (0x2D0C, [0x10AC]); (0x2D0D, [0x10AD]); (0x2D0E, [0x10AE]);
  (0x2D0F, [0x10AF]); (0x2D10, [0x10B0]); (0x2D11, [0x10B1]);
  (0x2D12, [0x10B2]); (0x2D13, [0x10B3]); (0x2D14, [0x10B4]);
  (0x2D15, [0x10B5]); (0x2D16, [0x10B6]); (0x2D17, [0x10B7]);
  (0x2D18, [0x10B8]); (0x2D19, [0x10B9]); (0x2D1A, [0x10BA]);
  (0x2D1B, [0x10BB]); (0x2D1C, [0x10BC]); (0x2D1D, [0x10BD]);
  (0x2D1E, [0x10BE]); (0x2D1F, [0x10BF]); (0x2D20, [0x10C0]);
  (0x2D21, [0x10C1]); (0x2D22, [0x10C2]); (0x2D23, [0x10C3]);
  (0x2D24, [0x10C4]); (0x2D25, [0x10C5]); (0x2D27, [0x10C7]);
  (0x2D2D, [0x10CD]); (0xA641, [0xA640]); (0xA643, [0xA642]);
  (0xA645, [0xA644]); (0xA647, [0xA646]); (0xA649, [0xA648]);
  (0xA64B, [0xA64A]); (0xA64D, [0xA64C]); (0xA64F, [0xA64E]);
  (0xA651, [0xA650]); (0xA653, [0xA652]); (0xA655, [0xA654]);
  (0xA657, [0xA656]); (0xA659, [0xA658]); (0xA65B, [0xA65A]);
  (0xA65D, [0xA65C]); (0xA65F, [0xA65E]); (0xA661, [0xA660]);
  (0xA663, [0xA662]); (0xA665, [0xA664]); (0xA667, [0xA666]);
  (0xA669, [0xA668]); (0xA66B, [0xA66A]); (0xA66D, [0xA66C]);
  (0xA681, [0xA680]); (0xA683, [0xA682]); (0xA685, [0xA684]);
  (0xA687, [0xA686]); (0xA689, [0xA688]); (0xA68B, [0xA68A]);
  (0xA68D, [0xA68C]); (0xA68F, [0xA68E]); (0xA691, [0xA690]);
  (0xA693, [0xA692]); (0xA695, [0xA694]); (0xA697, [0xA696]);
  (0xA699, [0xA698]); (0xA69B, [0xA69A]); (0xA723, [0xA722]);
  (0xA725, [0xA724]); (0xA727, [0xA726]); (0xA729, [0xA728]);
  (0xA72B, [0xA72A]); (0xA72D, [0xA72C]); (0xA72F, [0xA72E]);
  (0xA733, [0xA732]); (0xA735, [0xA734]); (0xA737, [0xA736]);
  (0xA739, [0xA738]); (0xA73B, [0xA73A]); (0xA73D, [0xA73C]);
  (0xA73F, [0xA73E]); (0xA741, [0xA740]); (0xA743, [0xA742]);
  (0xA745, [0xA744]); (0xA747, [0xA746]); (0xA749, [0xA748]);
  (0xA74B, [0xA74A]); (0xA74D, [0xA74C]); (0xA74F, [0xA74E]);
  (0xA751, [0xA750]); (0xA753, [0xA752]); (0xA755, [0xA754]);
  (0xA757, [0xA756]); (0xA759, [0xA758]); (0xA75B, [0xA75A]);
  (0xA75D, [0xA75C]); (0xA75F, [0xA75E]); (0xA761, [0xA760]);
  (0xA763, [0xA762]); (0xA765, [0xA764]); (0xA767, [0xA766]);
  (0xA769, [0xA768]); (0xA76B, [0xA76A]); (0xA76D, [0xA76C]);
  (0xA76F, [0xA76E]); (0xA77A, [0xA779]); (0xA77C, [0xA77B]);
  (0xA77F, [0xA77E]); (0xA781, [0xA780]); (0xA783, [0xA782]);
  (0xA785, [0xA784]); (0xA787, [0xA786]); (0xA78C, [0xA78B]);
  (0xA791, [0xA790]); (0xA793, [0xA792]); (0xA794, [0xA7C4]);
  (0xA797, [0xA796]); (0xA799, [0xA798]); (0xA79B, [0xA79A]);
  (0xA79D, [0xA79C]); (0xA79F, [0xA79E]); (0xA7A1, [0xA7A0]);
  (0xA7A3, [0xA7A2]); (0xA7A5, [0xA7A4]); (0xA7A7, [0xA7A6]);
  (0xA7A9, [0xA7A8]); (0xA7B5, [0xA7B4]); (0xA7B7, [0xA7B6]);
  (0xA7B9, [0xA7B8]); (0xA7BB, [0xA7BA]); (0xA7BD, [0xA7BC]);
  (0xA7BF, [0xA7BE]); (0xA7C1, [0xA7C0]); (0xA7C3, [0xA7C2]);
  (0xA7C8, [0xA7C7]); (0xA7CA, [0xA7C9]); (0xA7D1, [0xA7D0]);
  (0xA7D7, [0xA7D6]); (0xA7D9, [0xA7D8]); (0xA7F6, [0xA7F5]);
  (0xAB53, [0xA7B3]); (0xAB70, [0x13A0]); (0xAB71, [0x13A1]);
  (0xAB72, [0x13A2]); (0xAB73, [0x13A3]); (0xAB74, [0x13A4]);
  (0xAB75, [0x13A5]); (0xAB76, [0x13A6]); (0xAB77, [0x13A7]);
  (0xAB78, [0x13A8]); (0xAB79, [0x13A9]); (0xAB7A, [0x13AA]);
  (0xAB7B, [0x13AB]); (0xAB7C, [0x13AC]); (0xAB7D, [0x13AD]);
  (0xAB7E, [0x13AE]); (0xAB7F, [0x13AF]); (0xAB80, [0x13B0]);
  (0xAB81, [0x13B1]); (0xAB82, [0x13B2]); (0xAB83, [0x13B3]);
  (0xAB84, [0x13B4]); (0xAB85, [0x13B5]); (0xAB86, [0x13B6]);
  (0xAB87, [0x13B7]); (0xAB88, [0x13B8]); (0xAB89, [0x13B9]);
  (0xAB8A, [0x13BA]); (0xAB8B, [0x13BB]); (0xAB8C, [0x13BC]);
  (0xAB8D, [0x13BD]); (0xAB8E, [0x13BE]); (0xAB8F, [0x13BF]);
  (0xAB90, [0x13C0]); (0xAB91, [0x13C1]); (0xAB92, [0x13C2]);
  (0xAB93, [0x13C3]); (0xAB94, [0x13C4]); (0xAB95, [0x13C5]);
  (0xAB96, [0x13C6]); (0xAB97, [0x13C7]); (0xAB98, [0x13C8]);
  (0xAB99, [0x13C9]); (0xAB9A, [0x13CA]); (0xAB9B, [0x13CB]);
  (0xAB9C, [0x13CC]); (0xAB9D, [0x13CD]); (0xAB9E, [0x13CE]);
  (0xAB9F, [0x13CF]); (0xABA0, [0x13D0]); (0xABA1, [0x13D1]);
  (0xABA2, [0x13D2]); (0xABA3, [0x13D3]); (0xABA4, [0x13D4]);
  (0xABA5, [0x13D5]); (0xABA6, [0x13D6]); (0xABA7, [0x13D7]);
  (0xABA8, [0x13D8]); (0xABA9, [0x13D9]); (0xABAA, [0x13DA]);
  (0xABAB, [0x13DB]); (0xABAC, [0x13DC]); (0xABAD, [0x13DD]);
  (0xABAE, [0x13DE]); (0xABAF, [0x13DF]); (0xABB0, [0x13E0]);
  (0xABB1, [0x13E1]); (0xABB2, [0x13E2]); (0xABB3, [0x13E3]);
  (0xABB4, [0x13E4]); (0xABB5, [0x13E5]); (0xABB6, [0x13E6]);
  (0xABB7, [0x13E7]); (0xABB8, [0x13E8]); (0xABB9, [0x13E9]);
  (0xABBA, [0x13EA]); (0xABBB, [0x13EB]); (0xABBC, [0x13EC]);
  (0xABBD, [0x13ED]); (0xABBE, [0x13EE]); (0xABBF, [0x13EF]);
  (0xFB00, [0x0046; 0x0046]); (0xFB01, [0x0046; 0x0049]);
  (0xFB02, [0x0046; 0x004C]); (0xFB03, [0x0046; 0x0046; 0x0049]);
  (0xFB04, [0x0046; 0x0046; 0x004C]); (0xFB05, [0x0053; 0x0054]);
  (0xFB06, [0x0053; 0x0054]); (0xFB13, [0x0544; 0x0546]);
  (0xFB14, [0x0544; 0x0535]); (0xFB15, [0x0544; 0x053B]);
  (0xFB16, [0x054E; 0x0546]); (0xFB17, [0x0544; 0x053D]);
  (0xFF41, [0xFF21]); (0xFF42, [0xFF22]); (0xFF43, [0xFF23]);
  (0xFF44, [0xFF24]); (0xFF45, [0xFF25]); (0xFF46, [0xFF26]);
  (0xFF47, [0xFF27]); (0xFF48, [0xFF28]); (0xFF49, [0xFF29]);
  (0xFF4A, [0xFF2A]); (0xFF4B, [0xFF2B]); (0xFF4C, [0xFF2C]);
  (0xFF4D, [0xFF2D]); (0xFF4E, [0xFF2E]); (0xFF4F, [0xFF2F]);
  (0xFF50, [0xFF30]); (0xFF51, [0xFF31]); (0xFF52, [0xFF32]);
  (0xFF53, [0xFF33]); (0xFF54, [0xFF34]); (0xFF55, [0xFF35]);
  (0xFF56, [0xFF36]); (0xFF57, [0xFF37]); (0xFF58, [0xFF38]);
  (0xFF59, [0xFF39]); (0xFF5A, [0xFF3A]); (0x10428, [0x10400]);
  (0x10429, [0x10401]); (0x1042A, [0x10402]); (0x1042B, [0x10403]);
  (0x1042C, [0x10404]); (0x1042D, [0x10405]); (0x1042E, [0x10406]);
  (0x1042F, [0x10407]); (0x10430, [0x10408]); (0x10431, [0x10409]);
  (0x10432, [0x1040A]); (0x10433, [0x1040B]); (0x10434, [0x1040C]);
  (0x10435, [0x1040D]); (0x10436, [0x1040E]); (0x10437, [0x1040F]);
  (0x10438, [0x10410]); (0x10439, [0x10411]); (0x1043A, [0x10412]);
  (0x1043B, [0x10413]); (0x1043C, [0x10414]); (0x1043D, [0x10415]);
  (0x1043E, [0x10416]); (0x1043F, [0x10417]); (0x10440, [0x10418]);
  (0x10441, [0x10419]); (0x10442, [0x1041A]); (0x10443, [0x1041B]);
  (0x10444, [0x1041C]); (0x10445, [0x1041D]); (0x10446, [0x1041E]);
  (0x10447, [0x1041F]); (0x10448, [0x10420]); (0x10449, [0x10421]);
  (0x1044A, [0x10422]); (0x1044B, [0x10423]); (0x1044C, [0x10424]);
  (0x1044D, [0x10425]); (0x1044E, [0x10426]); (0x1044F, [0x10427]);
  (0x104D8, [0x104B0]); (0x104D9, [0x104B1]); (0x104DA, [0x104B2]);
  (0x104DB, [0x104B3]); (0x104DC, [0x104B4]); (0x104DD, [0x104B5]);
  (0x104DE, [0x104B6]); (0x104DF, [0x104B7]); (0x104E0, [0x104B8]);
  (0x104E1, [0x104B9]); (0x104E2, [0x104BA]); (0x104E3, [0x104BB]);
  (0x104E4, [0x104BC]); (0x104E5, [0x104BD]); (0x104E6, [0x104BE]);
  (0x104E7, [0x104BF]); (0x104E8, [0x104C0]); (0x104E9, [0x104C1]);
  (0x104EA, [0x104C2]); (0x104EB, [0x104C3]); (0x104EC, [0x104C4]);
  (0x104ED, [0x104C5]); (0x104EE, [0x104C6]); (0x104EF, [0x104C7]);
  (0x104F0, [0x104C8]); (0x104F1, [0x104C9]); (0x104F2, [0x104CA]);
  (0x104F3, [0x104CB]); (0x104F4, [0x104CC]); (0x104F5, [0x104CD]);
  (0x104F6, [0x104CE]); (0x104F7, [0x104CF]); (0x104F8, [0x104D0]);
  (0x104F9, [0x104D1]); (0x104FA, [0x104D2]); (0x104FB, [0x104D3]);
  (0x10597, [0x10570]); (0x10598, [0x10571]); (0x10599, [0x10572]);
  (0x1059A, [0x10573]); (0x1059B, [0x10574]); (0x1059C, [0x10575]);
  (0x1059D, [0x10576]); (0x1059E, [0x10577]); (0x1059F, [0x10578]);
  (0x105A0, [0x10579]); (0x105A1, [0x1057A]); (0x105A3, [0x1057C]);
  (0x105A4, [0x1057D]); (0x105A5, [0x1057E]); (0x105A6, [0x1057F]);
  (0x105A7, [0x10580]); (0x105A8, [0x10581]); (0x105A9, [0x10582]);
  (0x105AA, [0x10583]); (0x105AB, [0x10584]); (0x105AC, [0x10585]);
  (0x105AD, [0x10586]); (0x105AE, [0x10587]); (0x105AF, [0x10588]);
  (0x105B0, [0x10589]); (0x105B1, [0x1058A]); (0x105B3, [0x1058C]);
  (0x105B4, [0x1058D]); (0x105B5, [0x1058E]); (0x105B6, [0x1058F]);
  (0x105B7, [0x10590]); (0x105B8, [0x10591]); (0x105B9, [0x10592]);
  (0x105BB, [0x10594]); (0x105BC, [0x10595]); (0x10CC0, [0x10C80]);
  (0x10CC1, [0x10C81]); (0x10CC2, [0x10C82]); (0x10CC3, [0x10C83]);
  (0x10CC4, [0x10C84]); (0x10CC5, [0x10C85]); (0x10CC6, [0x10C86]);
  (0x10CC7, [0x10C87]); (0x10CC8, [0x10C88]); (0x10CC9, [0x10C89]);
  (0x10CCA, [0x10C8A]); (0x10CCB, [0x10C8B]); (0x10CCC, [0x10C8C]);
  (0x10CCD, [0x10C8D]); (0x10CCE, [0x10C8E]); (0x10CCF, [0x10C8F]);
  (0x10CD0, [0x10C90]); (0x10CD1, [0x10C91]); (0x10CD2, [0x10C92]);
  (0x10CD3, [0x10C93]); (0x10CD4, [0x10C94]); (0x10CD5, [0x10C95]);
  (0x10CD6, [0x10C96]); (0x10CD7, [0x10C97]); (0x10CD8, [0x10C98]);
  (0x10CD9, [0x10C99]); (0x10CDA, [0x10C9A]); (0x10CDB, [0x10C9B]);
  (0x10CDC, [0x10C9C]); (0x10CDD, [0x10C9D]); (0x10CDE, [0x10C9E]);
  (0x10CDF, [0x10C9F]); (0x10CE0, [0x10CA0]); (0x10CE1, [0x10CA1]);
  (0x10CE2, [0x10CA2]); (0x10CE3, [0x10CA3]); (0x10CE4, [0x10CA4]);
  (0x10CE5, [0x10CA5]); (0x10CE6, [0x10CA6]); (0x10CE7, [0x10CA7]);
  (0x10CE8, [0x10CA8]); (0x10CE9, [0x10CA9]); (0x10CEA, [0x10CAA]);
  (0x10CEB, [0x10CAB]); (0x10CEC, [0x10CAC]); (0x10CED, [0x10CAD]);
  (0x10CEE, [0x10CAE]); (0x10CEF, [0x10CAF]); (0x10CF0, [0x10CB0]);
  (0x10CF1, [0x10CB1]); (0x10CF2, [0x10CB2]); (0x118C0, [0x118A0]);
  (0x118C1, [0x118A1]); (0x118C2, [0x118A2]); (0x118C3, [0x118A3]);
  (0x118C4, [0x118A4]); (0x118C5, [0x118A5]); (0x118C6, [0x118A6]);
  (0x118C7, [0x118A7]); (0x118C8, [0x118A8]); (0x118C9, [0x118A9]);
  (0x118CA, [0x118AA]); (0x118CB, [0x118AB]); (0x118CC, [0x118AC]);
  (0x118CD, [0x118AD]); (0x118CE, [0x118AE]); (0x118CF, [0x118AF]);
  (0x118D0, [0x118B0]); (0x118D1, [0x118B1]); (0x118D2, [0x118B2]);
  (0x118D3, [0x118B3]); (0x118D4, [0x118B4]); (0x118D5, [0x118B5]);
  (0x118D6, [0x118B6]); (0x118D7, [0x118B7]); (0x118D8, [0x118B8]);
  (0x118D9, [0x118B9]); (0x118DA, [0x118BA]); (0x118DB, [0x118BB]);
  (0x118DC, [0x118BC]); (0x118DD, [0x118BD]); (0x118DE, [0x118BE]);
  (0x118DF, [0x118BF]); (0x16E60, [0x16E40]); (0x16E61, [0x16E41]);
  (0x16E62, [0x16E42]); (0x16E63, [0x16E43]); (0x16E64, [0x16E44]);
  (0x16E65, [0x16E45]); (0x16E66, [0x16E46]); (0x16E67, [0x16E47]);
  (0x16E68, [0x16E48]); (0x16E69, [0x16E49]); (0x16E6A, [0x16E4A]);
  (0x16E6B, [0x16E4B]); (0x16E6C, [0x16E4C]); (0x16E6D, [0x16E4D]);
  (0x16E6E, [0x16E4E]); (0x16E6F, [0x16E4F]); (0x16E70, [0x16E50]);
  (0x16E71, [0x16E51]); (0x16E72, [0x16E52]); (0x16E73, [0x16E53]);
  (0x16E74, [0x16E54]); (0x16E75, [0x16E55]); (0x16E76, [0x16E56]);
  (0x16E77, [0x16E57]); (0x16E78, [0x16E58]); (0x16E79, [0x16E59]);
  (0x16E7A, [0x16E5A]); (0x16E7B, [0x16E5B]); (0x16E7C, [0x16E5C]);
  (0x16E7D, [0x16E5D]); (0x16E7E, [0x16E5E]); (0x16E7F, [0x16E5F]);
  (0x1E922, [0x1E900]); (0x1E923, [0x1E901]); (0x1E924, [0x1E902]);
  (0x1E925, [0x1E903]); (0x1E926, [0x1E904]); (0x1E927, [0x1E905]);
  (0x1E928, [0x1E906]); (0x1E929, [0x1E907]); (0x1E92A, [0x1E908]);
  (0x1E92B, [0x1E909]); (0x1E92C, [0x1E90A]); (0x1E92D, [0x1E90B]);
  (0x1E92E, [0x1E90C]); (0x1E92F, [0x1E90D]); (0x1E930, [0x1E90E]);
  (0x1E931, [0x1E90F]); (0x1E932, [0x1E910]); (0x1E933, [0x1E911]);
  (0x1E934, [0x1E912]); (0x1E935, [0x1E913]); (0x1E936, [0x1E914]);
  (0x1E937, [0x1E915]); (0x1E938, [0x1E916]); (0x1E939, [0x1E917]);
  (0x1E93A, [0x1E918]); (0x1E93B, [0x1E919]); (0x1E93C, [0x1E91A]);
  (0x1E93D, [0x1E91B]); (0x1E93E, [0x1E91C]); (0x1E93F, [0x1E91D]);
  (0x1E940, [0x1E91E]); (0x1E941, [0x1E91F]); (0x1E942, [0x1E920]);
  (0x1E943, [0x1E921])
  ].

(** The table on characters. *)
Definition caseBytes : list (string * string) :=
  Eval vm_compute in
  List.map (fun e : Z * list Z => (utf8 (fst e), join (List.map utf8 (snd e))))
           caseTable.

Fixpoint assoc (k : string) (l : list (string * string)) : option string :=
  match l with
  | [] => None
  | (k', v) :: r => if String.eqb k k' then Some v else assoc k r
  end.

(** The upper case of a character. *)
Definition upperOf (ch : string) : string :=
  match ch with
  | String c EmptyString => String (upperChar c) EmptyString
  | _ => default ch (assoc ch caseBytes)
  end.

Definition toUpperCase (s : string) : string :=
  join (List.map upperOf (chars s)).

(** A list without the elements at its front, and at its end, that
    pass a test. *)
Fixpoint dropWhile {A : Type} (p : A -> bool) (l : list A) : list A :=
  match l with
  | [] => []
  | x :: r => if p x then dropWhile p r else l
  end.

Fixpoint dropEnd {A : Type} (p : A -> bool) (l : list A) : list A :=
  match l with
  | [] => []
  | x :: r => if forallb p l then [] else x :: dropEnd p r
  end.

(** [s.trimStart()] and [s.trim()]. *)
Definition trimStart (s : string) : string := join (dropWhile isWhite (chars s)).

Definition trim (s : string) : string :=
  join (dropEnd isWhite (dropWhile isWhite (chars s))).

(** [s.split(sep)] for a one-character separator: never empty. *)
Fixpoint split (sep : ascii) (s : string) : list string :=
  match s with
  | EmptyString => [EmptyString]
  | String c r =>
      if Ascii.eqb c sep then EmptyString :: split sep r
      else match split sep r with
           | [] => [String c EmptyString]
           | p :: ps => String c p :: ps
           end
  end.

Definition isEmpty (s : string) : bool :=
  match s with EmptyString => true | _ => false end.

(** [!!s]: a string is truthy when it is not empty. *)
Definition truthy (s : string) : bool := negb (isEmpty s).

(** [s.slice(0, n)] and [s.slice(n)] for [0 <= n]. *)
Fixpoint take (n : nat) (s : string) : string :=
  match n, s with
  | S k, String c r => String c (take k r)
  | _, _ => EmptyString
  end.

Fixpoint drop (n : nat) (s : string) : string :=
  match n, s with
  | S k, String _ r => drop k r
  | _, _ => s
  end.

(** Case-insensitive prefix test, the prefix given in upper case: the
    test of an expression with the flag [i], which pairs an ASCII
    letter of the expression with its two cases only. *)
Fixpoint startsWithCI (p s : string) : bool :=
  match p, s with
  | EmptyString, _ => true
  | String a p', String b s' => Ascii.eqb a (upperChar b) && startsWithCI p' s'
  | _, EmptyString => false
  end.

(** [s.replace(/^RRULE:/i, '')]. *)
Definition stripRRulePrefix (s : string) : string :=
  if startsWithCI "RRULE:" s then drop 6 s else s.

End Str.

(** ** Numbers *)

Inductive number : Type :=
| NaN
| PInf
| NInf
| Fin (q : Q).

Module Num.

Definition ofZ (z : Z) : number := Fin (inject_Z z).

Definition isNaN (x : number) : bool :=
  match x with NaN => true | _ => false end.

Definition neg (x : number) : number :=
  match x with
  | NaN => NaN | PInf => NInf | NInf => PInf
  | Fin q => Fin (Qred (- q))
  end.

Definition add (x y : number) : number :=
  match x, y with
  | NaN, _ | _, NaN => NaN
  | PInf, NInf | NInf, PInf => NaN
  | PInf, _ | _, PInf => PInf
  | NInf, _ | _, NInf => NInf
  | Fin a, Fin b => Fin (Qred (a + b))
  end.

Definition sub (x y : number) : number := add x (neg y).

Definition sgn (x : number) : Z :=
  match x with
  | NaN => 0 | PInf => 1 | NInf => -1
  | Fin q => Z.sgn (Qnum q)
  end.

Definition ofSign (s : Z) : number :=
  if s =? 0 then NaN else if 0 <? s then PInf else NInf.

Definition mul (x y : number) : number :=
  match x, y with
  | NaN, _ | _, NaN => NaN
  | Fin a, Fin b => Fin (Qred (a * b))
  | _, _ => ofSign (sgn x * sgn y)
  end.

Definition div (x y : number) : number :=
  match x, y with
  | NaN, _ | _, NaN => NaN
  | Fin a, Fin b =>
      if Qeq_bool b 0 then ofSign (sgn x) else Fin (Qred (a / b))
  | Fin _, _ => Fin 0
  | _, Fin _ => ofSign (sgn x * (if Z.sgn (sgn y) =? -1 then -1 else 1))
  | _, _ => NaN
  end.

(** [Math.floor]. *)
Definition floor (x : number) : number :=
  match x with
  | Fin q => ofZ (Qfloor q)
  | _ => x
  end.

(** Rounding towards zero. *)
Definition truncQ (q : Q) : Z := Z.quot (Qnum q) (Zpos (Qden q)).

(** [x % y]: the remainder has the sign of the dividend. *)
Definition rem (x y : number) : number :=
  match x, y with
  | Fin a, Fin b =>
      if Qeq_bool b 0 then NaN
      else Fin (Qred (a - b * inject_Z (truncQ (a / b))))
  | Fin a, (PInf | NInf) => Fin a
  | _, _ => NaN
  end.

Definition lt (x y : number) : bool :=
  match x, y with
  | NaN, _ | _, NaN => false
  | _, NInf => false
  | NInf, _ => true
  | PInf, _ => false
  | _, PInf => true
  | Fin a, Fin b => negb (Qle_bool b a)
  end.

Definition gt (x y : number) : bool := lt y x.

Definition le (x y : number) : bool :=
  match x, y with
  | NaN, _ | _, NaN => false
  | NInf, _ => true
  | _, PInf => true
  | _, NInf => false
  | PInf, _ => false
  | Fin a, Fin b => Qle_bool a b
  end.

(** [x === y] on numbers. *)
Definition strictEq (x y : number) : bool :=
  match x, y with
  | Fin a, Fin b => Qeq_bool a b
  | PInf, PInf | NInf, NInf => true
  | _, _ => false
  end.

(** [!!x]. *)
Definition truthy (x : number) : bool :=
  match x with
  | NaN => false
  | Fin q => negb (Qeq_bool q 0)
  | _ => true
  end.

(** [x || d]. *)
Definition orElse (x d : number) : number := if truthy x then x else d.

(** The integer a finite integral number denotes. *)
Definition toInteger (x : number) : option Z :=
  match x with
  | Fin q => if Qeq_bool q (inject_Z (Qfloor q)) then Some (Qfloor q) else None
  | _ => None
  end.

(** *** [Number(text)]: the StringNumericLiteral grammar *)

(** The double nearest to the positive rational [p/d], ties to even;
    [e] is the binary exponent of [p/d] and [qe] the exponent of the
    last place of its 53-bit significand (or of the subnormals). *)
Definition roundPos (p d : Z) : number :=
  let e0 := Z.log2 p - Z.log2 d in
  let below := if 0 <=? e0 then p <? d * 2 ^ e0 else p * 2 ^ (- e0) <? d in
  let e := if below then e0 - 1 else e0 in
  let qe := Z.max (e - 52) (-1074) in
  let n := if 0 <=? qe then p else p * 2 ^ (- qe) in
  let dn := if 0 <=? qe then d * 2 ^ qe else d in
  let m := n / dn in
  let r := n mod dn in
  let m' := if 2 * r <? dn then m
            else if dn <? 2 * r then m + 1
            else if Z.even m then m else m + 1 in
  if (971 <? qe) || ((qe =? 971) && (2 ^ 53 <=? m')) then PInf
  else if 0 <=? qe then Fin (inject_Z (m' * 2 ^ qe))
  else Fin (Qred (Qmake m' (Z.to_pos (2 ^ (- qe))))).

Definition roundDouble (q : Q) : number :=
  let p := Qnum q in
  if p =? 0 then Fin 0
  else if 0 <? p then roundPos p (Zpos (Qden q))
  else neg (roundPos (- p) (Zpos (Qden q))).

Definition digitVal (base : Z) (c : ascii) : option Z :=
  let n := Str.code c in
  let v := if Str.isDigit c then n - 48
           else if (97 <=? n) && (n <=? 102) then n - 87
           else if (65 <=? n) && (n <=? 70) then n - 55
           else -1 in
  if (0 <=? v) && (v <? base) then Some v else None.

(** The value of a string made of digits of the base only. *)
Fixpoint digitsValue (base acc : Z) (s : string) : option Z :=
  match s with
  | EmptyString => Some acc
  | String c r =>
      match digitVal base c with
      | Some v => digitsValue base (acc * base + v) r
      | None => None
      end
  end.

(** The longest prefix of decimal digits, and what follows it. *)
Fixpoint spanDigits (s : string) : string * string :=
  match s with
  | EmptyString => (EmptyString, EmptyString)
  | String c r =>
      if Str.isDigit c
      then let (d, rest) := spanDigits r in (String c d, rest)
      else (EmptyString, s)
  end.

Definition decimalValue (s : string) : Z :=
  match digitsValue 10 0 s with Some v => v | None => 0 end.

(** ExponentPart, or nothing: [e], an optional sign, digits. *)
Definition exponentPart (s : string) : option Z :=
  match s with
  | EmptyString => Some 0
  | String c r =>
      if Ascii.eqb (Str.upperChar c) "E"%char then
        let '(sign, ds) :=
          match r with
          | String "+"%char r' => (1, r')
          | String "-"%char r' => (-1, r')
          | _ => (1, r)
          end in
        if Str.isEmpty ds then None
        else match digitsValue 10 0 ds with
             | Some v => Some (sign * v)
             | None => None
             end
      else None
  end.

(** StrUnsignedDecimalLiteral. *)
Definition unsignedDecimal (s : string) : option number :=
  if String.eqb s "Infinity" then Some PInf else
  let (ip, r1) := spanDigits s in
  let '(fp, r2) :=
    match r1 with
    | String "."%char r => spanDigits r
    | _ => (EmptyString, r1)
    end in
  if Str.isEmpty ip && Str.isEmpty fp then None
  else
    match exponentPart r2 with
    | None => None
    | Some ex =>
        let k := Z.of_nat (String.length fp) in
        let n := decimalValue ip * 10 ^ k + decimalValue fp in
        let mv := if k <=? ex then inject_Z (n * 10 ^ (ex - k))
                  else Qmake n (Z.to_pos (10 ^ (k - ex))) in
        Some (roundDouble mv)
    end.

(** NonDecimalIntegerLiteral: [0x], [0o] or [0b] and digits. *)
Definition nonDecimal (s : string) : option (option number) :=
  match s with
  | String "0"%char (String c ds) =>
      let base := match Str.upperChar c with
                  | "X"%char => 16 | "O"%char => 8 | "B"%char => 2
                  | _ => 0
                  end in
      if base =? 0 then None
      else if Str.isEmpty ds then Some None
      else Some (match digitsValue base 0 ds with
                 | Some v => Some (roundDouble (inject_Z v))
                 | None => None
                 end)
  | _ => None
  end.

(** [Number(s)] for a string [s]. *)
Definition ofString (s : string) : number :=
  let t := Str.trim s in
  if Str.isEmpty t then Fin 0
  else match nonDecimal t with
       | Some (Some x) => x
       | Some None => NaN
       | None =>
           let r := match t with
                    | String "+"%char u => unsignedDecimal u
                    | String "-"%char u => option_map neg (unsignedDecimal u)
                    | _ => unsignedDecimal t
                    end in
           match r with Some x => x | None => NaN end
       end.

End Num.

(** ** Exceptions *)

Inductive JsError : Type :=
| TypeError
| RangeError
| HostError.

Inductive Result (A : Type) : Type :=
| Ok (a : A)
| Throw (e : JsError).
Arguments Ok {A} a.
Arguments Throw {A} e.

Definition rbind {A B : Type} (r : Result A) (k : A -> Result B) : Result B :=
  match r with
  | Ok a => k a
  | Throw e => Throw e
  end.

Notation "'let!' x ':=' r 'in' k" := (rbind r (fun x => k))
  (at level 10, x name, r at level 100, k at level 200).

(** ** Values of frontmatter fields *)

(** What the YAML frontmatter of a note holds.  An array or a mapping is
    represented by the string its conversion to a primitive gives, the
    only thing the code below can observe of it. *)
Inductive jsval : Type :=
| VUndefined
| VNull
| VBool (b : bool)
| VNum (x : number)
| VStr (s : string)
| VObject (repr : string).

Module Value.

(** [!!v]. *)
Definition truthy (v : jsval) : bool :=
  match v with
  | VUndefined | VNull => false
  | VBool b => b
  | VNum x => Num.truthy x
  | VStr s => Str.truthy s
  | VObject _ => true
  end.

(** [a || b]. *)
Definition orElse (a b : jsval) : jsval := if truthy a then a else b.

(** [v == null]. *)
Definition nullish (v : jsval) : bool :=
  match v with
  | VUndefined | VNull => true
  | _ => false
  end.

(** [v === s] for a string [s]. *)
Definition isStr (v : jsval) (s : string) : bool :=
  match v with
  | VStr s' => String.eqb s' s
  | _ => false
  end.

(** [Number(v)]. *)
Definition toNumber (v : jsval) : number :=
  match v with
  | VUndefined => NaN
  | VNull => Fin 0
  | VBool b => if b then Fin 1 else Fin 0
  | VNum x => x
  | VStr s => Num.ofString s
  | VObject repr => Num.ofString repr
  end.

End Value.

(** ** Dates *)

(** The host of the program: the offset of local time from UTC, in
    milliseconds, at a UTC instant and at a local time value, and the
    parser the platform falls back to for date strings outside the ISO
    format. *)
Record Host : Type := {
  tzaUTC : Z -> Z;
  tzaLocal : Z -> Z;
  legacyParse : string -> option Z
}.

Definition Date : Type := option Z.

Module JsDate.

Definition msPerDay : Z := 86400000.
Definition msPerHour : Z := 3600000.
Definition msPerMinute : Z := 60000.
Definition msPerSecond : Z := 1000.
Definition maxTime : Z := 8640000000000000.

Definition Day (t : Z) : Z := t / msPerDay.
Definition TimeWithinDay (t : Z) : Z := t mod msPerDay.

Definition DaysInYear (y : Z) : Z :=
  if negb (y mod 4 =? 0) then 365
  else if negb (y mod 100 =? 0) then 366
  else if negb (y mod 400 =? 0) then 365
  else 366.

Definition DayFromYear (y : Z) : Z :=
  365 * (y - 1970) + (y - 1969) / 4 - (y - 1901) / 100 + (y - 1601) / 400.

Definition TimeFromYear (y : Z) : Z := msPerDay * DayFromYear y.

(** The year of a day number: the largest [y] with
    [DayFromYear y <= d], found from an estimate that is off by at
    most one. *)
Definition YearFromDay (d : Z) : Z :=
  let y := 1970 + (400 * d) / 146097 in
  if d <? DayFromYear y then y - 1
  else if DayFromYear (y + 1) <=? d then y + 1
  else y.

Definition YearFromTime (t : Z) : Z := YearFromDay (Day t).

Definition InLeapYear (t : Z) : Z :=
  if DaysInYear (YearFromTime t) =? 366 then 1 else 0.

Definition DayWithinYear (t : Z) : Z := Day t - DayFromYear (YearFromTime t).

(** The day within the year on which month [m] starts. *)
Definition monthStart (leap m : Z) : Z :=
  if m =? 0 then 0
  else if m =? 1 then 31
  else if m =? 2 then 59 + leap
  else if m =? 3 then 90 + leap
  else if m =? 4 then 120 + leap
  else if m =? 5 then 151 + leap
  else if m =? 6 then 181 + leap
  else if m =? 7 then 212 + leap
  else if m =? 8 then 243 + leap
  else if m =? 9 then 273 + leap
  else if m =? 10 then 304 + leap
  else 334 + leap.

Definition MonthFromTime (t : Z) : Z :=
  let d := DayWithinYear t in
  let leap := InLeapYear t in
  if d <? 31 then 0
  else if d <? 59 + leap then 1
  else if d <? 90 + leap then 2
  else if d <? 120 + leap then 3
  else if d <? 151 + leap then 4
  else if d <? 181 + leap then 5
  else if d <? 212 + leap then 6
  else if d <? 243 + leap then 7
  else if d <? 273 + leap then 8
  else if d <? 304 + leap then 9
  else if d <? 334 + leap then 10
  else 11.

Definition DateFromTime (t : Z) : Z :=
  DayWithinYear t - monthStart (InLeapYear t) (MonthFromTime t) + 1.

Definition WeekDay (t : Z) : Z := (Day t + 4) mod 7.

Definition HourFromTime (t : Z) : Z := (t / msPerHour) mod 24.
Definition MinFromTime (t : Z) : Z := (t / msPerMinute) mod 60.
Definition SecFromTime (t : Z) : Z := (t / msPerSecond) mod 60.
Definition msFromTime (t : Z) : Z := t mod msPerSecond.

Definition MakeTime (hour min sec ms : Z) : Z :=
  hour * msPerHour + min * msPerMinute + sec * msPerSecond + ms.

(** The day number of the day [date] of month [month] of [year]; the
    month may lie outside 0..11 and the date outside the month. *)
Definition MakeDay (year month date : Z) : Z :=
  let ym := year + month / 12 in
  let mn := month mod 12 in
  let leap := if DaysInYear ym =? 366 then 1 else 0 in
  DayFromYear ym + monthStart leap mn + date - 1.

Definition MakeDate (day time : Z) : Z := day * msPerDay + time.

Definition TimeClip (t : Z) : Date :=
  if Z.abs t <=? maxTime then Some t else None.

(** [new Date(x)] for a number [x]. *)
Definition ofNumber (x : number) : Date :=
  match x with
  | Fin q => TimeClip (Num.truncQ q)
  | _ => None
  end.

Definition getTime (d : Date) : number :=
  match d with
  | Some t => Num.ofZ t
  | None => NaN
  end.

Definition DaysInMonth (year month : Z) : Z :=
  MakeDay year (month + 1) 1 - MakeDay year month 1.

(** *** The ISO date-time format *)

Fixpoint readDigits (n : nat) (acc : Z) (s : string) : option (Z * string) :=
  match n with
  | O => Some (acc, s)
  | S k =>
      match s with
      | String c r =>
          if Str.isDigit c then readDigits k (acc * 10 + (Str.code c - 48)) r
          else None
      | EmptyString => None
      end
  end.

Definition readYear (s : string) : option (Z * string) :=
  match s with
  | String "+"%char r => readDigits 6 0 r
  | String "-"%char r =>
      match readDigits 6 0 r with
      | Some (y, r') => if y =? 0 then None else Some (- y, r')
      | None => None
      end
  | _ => readDigits 4 0 s
  end.

(** [-NN], or nothing. *)
Definition readDashed (s : string) : option (option Z * string) :=
  match s with
  | String "-"%char r =>
      match readDigits 2 0 r with
      | Some (v, r') => Some (Some v, r')
      | None => None
      end
  | _ => Some (None, s)
  end.

(** [:ss] and [.sss], both optional. *)
Definition readSeconds (s : string) : option (Z * Z * string) :=
  match s with
  | String ":"%char r =>
      match readDigits 2 0 r with
      | Some (sec, String "."%char r') =>
          match readDigits 3 0 r' with
          | Some (ms, r'') => Some (sec, ms, r'')
          | None => None
          end
      | Some (sec, r') => Some (sec, 0, r')
      | None => None
      end
  | _ => Some (0, 0, s)
  end.

(** The UTC offset in milliseconds, [None] when the time is local. *)
Definition readOffset (s : string) : option (option Z) :=
  match s with
  | EmptyString => Some None
  | String c r =>
      if String.eqb s "Z" then Some (Some 0)
      else
        let sign := if Ascii.eqb c "+"%char then 1
                    else if Ascii.eqb c "-"%char then -1 else 0 in
        if sign =? 0 then None
        else match readDigits 2 0 r with
             | Some (hh, String ":"%char r') =>
                 match readDigits 2 0 r' with
                 | Some (mm, EmptyString) =>
                     if (hh <=? 23) && (mm <=? 59)
                     then Some (Some (sign * (hh * msPerHour + mm * msPerMinute)))
                     else None
                 | _ => None
                 end
             | _ => None
             end
  end.

(** The time of day and the UTC offset of [HH:mm...]. *)
Definition readTime (s : string) : option (Z * option Z) :=
  match readDigits 2 0 s with
  | Some (hh, String ":"%char r) =>
      match readDigits 2 0 r with
      | Some (mm, r') =>
          match readSeconds r' with
          | Some (sec, ms, r'') =>
              match readOffset r'' with
              | Some off =>
                  if ((hh <=? 23) && (mm <=? 59) && (sec <=? 59))
                     || ((hh =? 24) && (mm =? 0) && (sec =? 0) && (ms =? 0))
                  then Some (MakeTime hh mm sec ms, off)
                  else None
              | None => None
              end
          | None => None
          end
      | None => None
      end
  | _ => None
  end.

(** A string of the ISO format: its time value read as UTC, and
    whether it is a local time (a date-time form without offset). *)
Definition parseISO (s : string) : option (Z * bool) :=
  match readYear s with
  | None => None
  | Some (y, r1) =>
      match readDashed r1 with
      | None => None
      | Some (mo, r2) =>
          match (match mo with
                 | Some _ => readDashed r2
                 | None => Some (None, r2)
                 end) with
          | None => None
          | Some (dy, r3) =>
              let m := match mo with Some m => m | None => 1 end in
              let d := match dy with Some d => d | None => 1 end in
              if (1 <=? m) && (m <=? 12) && (1 <=? d)
                 && (d <=? DaysInMonth y (m - 1))
              then
                let day := MakeDay y (m - 1) d in
                match r3 with
                | EmptyString => Some (MakeDate day 0, false)
                | String "T"%char r4 =>
                    match readTime r4 with
                    | Some (time, Some off) =>
                        Some (MakeDate day time - off, false)
                    | Some (time, None) => Some (MakeDate day time, true)
                    | None => None
                    end
                | _ => None
                end
              else None
          end
      end
  end.

(** *** Formatting *)

Definition digitChar (n : Z) : ascii := ascii_of_nat (Z.to_nat (48 + n mod 10)).

(** The last [w] decimal digits of [n]. *)
Fixpoint pad (w : nat) (n : Z) : string :=
  match w with
  | O => EmptyString
  | S k => pad k (n / 10) +:+ String (digitChar n) EmptyString
  end.

Definition yearString (y : Z) : string :=
  if (0 <=? y) && (y <=? 9999) then pad 4 y
  else (if y <? 0 then "-" else "+") +:+ pad 6 (Z.abs y).

(** [d.toISOString()]: a RangeError on the invalid date. *)
Definition toISOString (d : Date) : Result string :=
  match d with
  | None => Throw RangeError
  | Some t =>
      Ok (yearString (YearFromTime t) +:+ "-" +:+ pad 2 (MonthFromTime t + 1)
          +:+ "-" +:+ pad 2 (DateFromTime t)
          +:+ "T" +:+ pad 2 (HourFromTime t) +:+ ":" +:+ pad 2 (MinFromTime t)
          +:+ ":" +:+ pad 2 (SecFromTime t) +:+ "." +:+ pad 3 (msFromTime t)
          +:+ "Z")
  end.

Section WithHost.

Variable host : Host.

Definition LocalTime (t : Z) : Z := t + tzaUTC host t.
Definition UTC (t : Z) : Z := t - tzaLocal host t.

(** [new Date(s)] for a string [s]. *)
Definition ofString (s : string) : Date :=
  match parseISO s with
  | Some (t, true) => TimeClip (UTC t)
  | Some (t, false) => TimeClip t
  | None =>
      match legacyParse host s with
      | Some t => TimeClip t
      | None => None
      end
  end.

(** [new Date(v)]. *)
Definition ofValue (v : jsval) : Date :=
  match v with
  | VStr s => ofString s
  | VObject repr => ofString repr
  | VUndefined => None
  | _ => ofNumber (Value.toNumber v)
  end.

Definition localField (f : Z -> Z) (d : Date) : number :=
  match d with
  | Some t => Num.ofZ (f (LocalTime t))
  | None => NaN
  end.

Definition getFullYear : Date -> number := localField YearFromTime.
Definition getMonth : Date -> number := localField MonthFromTime.
Definition getDate : Date -> number := localField DateFromTime.
Definition getDay : Date -> number := localField WeekDay.

(** [d.setDate(dt)], returning the date as updated. *)
Definition setDate (d : Date) (dt : number) : Date :=
  match d, dt with
  | Some tv, Fin q =>
      let t := LocalTime tv in
      let newDate :=
        MakeDate (MakeDay (YearFromTime t) (MonthFromTime t) (Num.truncQ q))
                 (TimeWithinDay t) in
      TimeClip (UTC newDate)
  | _, _ => None
  end.

(** [d.setMonth(m)], returning the date as updated. *)
Definition setMonth (d : Date) (m : number) : Date :=
  match d, m with
  | Some tv, Fin q =>
      let t := LocalTime tv in
      let newDate :=
        MakeDate (MakeDay (YearFromTime t) (Num.truncQ q) (DateFromTime t))
                 (TimeWithinDay t) in
      TimeClip (UTC newDate)
  | _, _ => None
  end.

End WithHost.

End JsDate.

(** ** The recurrence rule *)

Record ParsedRecurrence : Type := {
  freq : option string;
  interval : number;
  byDay : list string
}.

Module Recurrence.

Definition maxIterations : nat := 500.

(** [!x] for a value that is a string or [undefined]. *)
Definition falsy (x : option string) : bool :=
  match x with
  | Some s => Str.isEmpty s
  | None => true
  end.

(** [x.trim()]: a TypeError when [x] is [undefined]. *)
Definition callTrim (x : option string) : Result string :=
  match x with
  | Some s => Ok (Str.trim s)
  | None => Throw TypeError
  end.

(** The body of the [forEach] of [parseRecurrence], on the rule
    accumulated so far. *)
Definition parsePart (result : ParsedRecurrence) (part : string)
  : Result ParsedRecurrence :=
  let fields := Str.split "="%char part in
  let key := fields !! 0%nat in
  let val := fields !! 1%nat in
  if falsy key || falsy val then Ok result
  else
    let! k0 := callTrim key in
    let k := Str.toUpperCase k0 in
    let! v := callTrim val in
    if String.eqb k "FREQ" then
      Ok {| freq := Some (Str.toUpperCase v);
            interval := interval result;
            byDay := byDay result |}
    else if String.eqb k "INTERVAL" then
      let num := Num.ofString v in
      if negb (Num.isNaN num) && Num.gt num (Fin 0) then
        Ok {| freq := freq result; interval := num; byDay := byDay result |}
      else Ok result
    else if String.eqb k "BYDAY" then
      Ok {| freq := freq result;
            interval := interval result;
            byDay := List.filter Str.truthy
                       (List.map Str.trim
                          (Str.split ","%char (Str.toUpperCase v))) |}
    else Ok result.

Fixpoint forEachPart (parts : list string) (result : ParsedRecurrence)
  : Result ParsedRecurrence :=
  match parts with
  | [] => Ok result
  | part :: rest =>
      let! result' := parsePart result part in
      forEachPart rest result'
  end.

Definition emptyRule : ParsedRecurrence :=
  {| freq := None; interval := Fin 1; byDay := [] |}.

Definition parseRecurrence (rrule : string) : Result ParsedRecurrence :=
  let body := Str.trim (Str.stripRRulePrefix rrule) in
  let result := emptyRule in
  if Str.isEmpty body then Ok result
  else forEachPart (Str.split ";"%char body) result.

(** [parsed.freq || 'DAILY']. *)
Definition freqOrDaily (parsed : ParsedRecurrence) : string :=
  match freq parsed with
  | Some f => if Str.truthy f then f else "DAILY"
  | None => "DAILY"
  end.

(** [!parsed.freq]. *)
Definition noFreq (parsed : ParsedRecurrence) : bool := falsy (freq parsed).

Definition weekdayCodes : list string :=
  ["SU"; "MO"; "TU"; "WE"; "TH"; "FR"; "SA"].

Definition getWeekdayCode (day : number) : string :=
  let entry := match Num.toInteger day with
               | Some i => if 0 <=? i then weekdayCodes !! Z.to_nat i else None
               | None => None
               end in
  if falsy entry then "MO" else default "MO" entry.

(** [l.includes(x)]. *)
Definition includes (l : list string) (x : string) : bool :=
  List.existsb (String.eqb x) l.

Section WithHost.

Variable host : Host.

Definition incrementRecurrence (date : Date) (parsed : ParsedRecurrence) : Date :=
  let next := JsDate.ofNumber (JsDate.getTime date) in
  let freq := freqOrDaily parsed in
  if String.eqb freq "MONTHLY" then
    JsDate.setMonth host next (Num.add (JsDate.getMonth host next) (Fin 1))
  else
    JsDate.setDate host next (Num.add (JsDate.getDate host next) (Fin 1)).

Definition matchesRecurrence (candidate base : Date) (parsed : ParsedRecurrence)
  : bool :=
  let freq := freqOrDaily parsed in
  let interval := Num.orElse (interval parsed) (Fin 1) in
  let daysDiff :=
    Num.floor (Num.div (Num.sub (JsDate.getTime candidate) (JsDate.getTime base))
                       (Num.ofZ (1000 * 60 * 60 * 24))) in
  if Num.le daysDiff (Fin 0) then false
  else if String.eqb freq "DAILY" then
    Num.strictEq (Num.rem daysDiff interval) (Fin 0)
  else if String.eqb freq "WEEKLY" && Num.gt daysDiff (Fin 0) then
    let weeksDiff := Num.floor (Num.div daysDiff (Fin 7)) in
    if negb (Num.strictEq (Num.rem weeksDiff interval) (Fin 0)) then false
    else if negb (Nat.eqb (List.length (byDay parsed)) 0) then
      let dayCode := getWeekdayCode (JsDate.getDay host candidate) in
      includes (byDay parsed) dayCode
    else true
  else if String.eqb freq "MONTHLY" then
    let monthsDiff :=
      Num.add
        (Num.mul (Num.sub (JsDate.getFullYear host candidate)
                          (JsDate.getFullYear host base)) (Fin 12))
        (Num.sub (JsDate.getMonth host candidate) (JsDate.getMonth host base)) in
    if Num.le monthsDiff (Fin 0) then false
    else if negb (Num.strictEq (Num.rem monthsDiff interval) (Fin 0)) then false
    else Num.strictEq (JsDate.getDate host candidate) (JsDate.getDate host base)
  else String.eqb freq "DAILY".

(** The [while] loop of [computeNextOccurrence]: [remaining] is
    [maxIterations - iterations]. *)
Fixpoint search (parsed : ParsedRecurrence) (baseDate : Date)
    (remaining : nat) (candidate : Date) : option Date :=
  match remaining with
  | O => None
  | S remaining' =>
      let candidate' := incrementRecurrence candidate parsed in
      if matchesRecurrence candidate' baseDate parsed then Some candidate'
      else search parsed baseDate remaining' candidate'
  end.

(** [computeNextOccurrence]: [None] is [null]; an exception of the
    body is caught and gives [null] too.  [scheduled] is declared a
    string and is whatever the frontmatter holds. *)
Definition computeNextOccurrence (rrule : string) (scheduled : jsval)
  : option Date :=
  match parseRecurrence rrule with
  | Throw _ => None
  | Ok parsed =>
      let baseDate := JsDate.ofValue host scheduled in
      if Num.isNaN (JsDate.getTime baseDate) || noFreq parsed then None
      else search parsed baseDate maxIterations
                  (JsDate.ofNumber (JsDate.getTime baseDate))
  end.

End WithHost.

End Recurrence.

(** ** Names of successor files *)

Module NameGen.

(** The backslash. *)
Definition backslash : ascii := ascii_of_nat 92.

Definition notSeparator (c : ascii) : bool :=
  negb (Ascii.eqb c "."%char || Ascii.eqb c "/"%char || Ascii.eqb c backslash).

Fixpoint allNotSeparator (s : string) : bool :=
  match s with
  | EmptyString => true
  | String c r => notSeparator c && allNotSeparator r
  end.

(** The match of [/(\.[^./\\]+)$/], tried from the left. *)
Fixpoint extMatch (s : string) : option string :=
  match s with
  | EmptyString => None
  | String c r =>
      if Ascii.eqb c "."%char && Str.truthy r && allNotSeparator r then Some s
      else extMatch r
  end.

Fixpoint digitsThen (n : nat) (s : string) : option string :=
  match n with
  | O => Some s
  | S k =>
      match s with
      | String c r => if Str.isDigit c then digitsThen k r else None
      | EmptyString => None
      end
  end.

Definition dashThen (s : string) : option string :=
  match s with
  | String "-"%char r => Some r
  | _ => None
  end.

(** [\d{4}-\d{2}-\d{2}] at the start of [s]: what follows it. *)
Definition dateToken (s : string) : option string :=
  match digitsThen 4 s with
  | Some r1 =>
      match dashThen r1 with
      | Some r2 =>
          match digitsThen 2 r2 with
          | Some r3 =>
              match dashThen r3 with
              | Some r4 => digitsThen 2 r4
              | None => None
              end
          | None => None
          end
      | None => None
      end
  | None => None
  end.

(** [.*\d{4}-\d{2}-\d{2}] matches at the start of the characters
    [l]. *)
Fixpoint laterDate (l : list string) : bool :=
  match dateToken (Str.join l) with
  | Some _ => true
  | None =>
      match l with
      | ch :: r => if Str.isLineTerminator ch then false else laterDate r
      | [] => false
      end
  end.

(** [(.*?)(\d{4}-\d{2}-\d{2})(?!.*\d{4}-\d{2}-\d{2})$] matches at the
    start of the characters [l]: the text of the first group, the
    shortest first. *)
Fixpoint matchHere (l : list string) : option string :=
  let here := match dateToken (Str.join l) with
              | Some rest => negb (laterDate (Str.chars rest)) && Str.isEmpty rest
              | None => false
              end in
  if here then Some EmptyString
  else match l with
       | ch :: r =>
           if Str.isLineTerminator ch then None
           else option_map (String.append ch) (matchHere r)
       | [] => None
       end.

(** [s.replace(re, (match, prefix) => `${prefix.trim()} ${dateStr}`)]
    for the expression of [matchHere] and the characters [l] of [s]:
    the leftmost match is replaced, and it reaches the end of [s]. *)
Fixpoint replaceTrailingDate (dateStr : string) (l : list string) : string :=
  match matchHere l with
  | Some prefix => Str.trim prefix +:+ " " +:+ dateStr
  | None =>
      match l with
      | ch :: r => ch +:+ replaceTrailingDate dateStr r
      | [] => EmptyString
      end
  end.

Definition generateNextName (originalName : string) (nextDate : Date)
  : Result string :=
  let! iso := JsDate.toISOString nextDate in
  let dateStr := Str.take 10 iso in
  let extM := extMatch originalName in
  let ext := default EmptyString extM in
  let baseName :=
    Str.trim (match extM with
              | Some _ =>
                  Str.take (String.length originalName - String.length ext)
                           originalName
              | None => originalName
              end) in
  let replaced := replaceTrailingDate dateStr (Str.chars baseName) in
  if negb (String.eqb replaced baseName) then Ok (Str.trim replaced +:+ ext)
  else
    Ok (baseName +:+ (if Str.truthy baseName then " " else "") +:+ dateStr +:+ ext).

End NameGen.

(** ** The vault and the completion workflow *)

(** A file handle of the host: its path, its name, its name without
    extension and the path of its folder. *)
Record TFile : Type := {
  path : string;
  name : string;
  basename : string;
  parentPath : option string
}.

(** What the vault holds at a path. *)
Inductive Node : Type :=
| FileNode (content : string) (frontmatter : gmap string jsval)
| FolderNode.

(** An asynchronous operation on the vault: it may throw, and what it
    wrote before throwing stays written. *)
Definition Async (A : Type) : Type :=
  gmap string Node -> Result A * gmap string Node.

Definition aret {A : Type} (a : A) : Async A := fun v => (Ok a, v).

Definition abind {A B : Type} (m : Async A) (k : A -> Async B) : Async B :=
  fun v =>
    match m v with
    | (Ok a, v') => k a v'
    | (Throw e, v') => (Throw e, v')
    end.

Definition alift {A : Type} (r : Result A) : Async A := fun v => (r, v).

Notation "'await' x ':=' m 'in' k" := (abind m (fun x => k))
  (at level 10, x name, m at level 100, k at level 200).

Module Workflow.

(** [fm.key]. *)
Definition field (fm : gmap string jsval) (key : string) : jsval :=
  default VUndefined (fm !! key).

(** *** The host application *)

(** [app.fileManager.processFrontMatter(file, fn)]: the frontmatter of
    the file is replaced by what [fn] makes of it. *)
Definition processFrontMatter (file : TFile)
    (fn : gmap string jsval -> gmap string jsval) : Async unit :=
  fun v =>
    match v !! path file with
    | Some (FileNode c fm) => (Ok tt, <[path file := FileNode c (fn fm)]> v)
    | _ => (Throw HostError, v)
    end.

(** [vault.getAbstractFileByPath(p)]. *)
Definition getAbstractFileByPath (p : string) : Async (option Node) :=
  fun v => (Ok (v !! p), v).

(** [vault.copy(file, newPath)]: fails when the destination exists. *)
Definition copy (file : TFile) (newPath : string) : Async unit :=
  fun v =>
    match v !! path file, v !! newPath with
    | Some (FileNode c fm), None => (Ok tt, <[newPath := FileNode c fm]> v)
    | _, _ => (Throw HostError, v)
    end.

(** What follows the last [sep] of [s], if there is one. *)
Fixpoint afterLast (sep : ascii) (s : string) : option string :=
  match s with
  | EmptyString => None
  | String c r =>
      match afterLast sep r with
      | Some t => Some t
      | None => if Ascii.eqb c sep then Some r else None
      end
  end.

(** The handle the host gives for the file at path [p]. *)
Definition fileAt (p : string) : TFile :=
  let nm := default p (afterLast "/"%char p) in
  let base :=
    match afterLast "."%char nm with
    | Some ext => Str.take (String.length nm - String.length ext - 1) nm
    | None => nm
    end in
  let parent :=
    match afterLast "/"%char p with
    | Some _ => Str.take (String.length p - String.length nm - 1) p
    | None => "/"
    end in
  {| path := p; name := nm; basename := base; parentPath := Some parent |}.

(** *** The controller *)

Definition getRecurrenceValue (fm : option (gmap string jsval)) : string :=
  match fm with
  | None => EmptyString
  | Some fm =>
      let val := Value.orElse (field fm "recurrenceRule") (field fm "recurrence") in
      match val with
      | VStr s => s
      | _ => EmptyString
      end
  end.

Definition updateFrontmatterValue (file : TFile) (key : string) (value : jsval)
  : Async unit :=
  processFrontMatter file (fun fm =>
    if Value.nullish value || Value.isStr value "" then delete key fm
    else <[key := value]> fm).

(** [setRecurrenceFields(file, fm, value)], returning [fm] as mutated. *)
Definition setRecurrenceFields (file : TFile) (fm : gmap string jsval)
    (value : string) : Async (gmap string jsval) :=
  let trimmed := Str.trim value in
  await _ := processFrontMatter file (fun frontmatter =>
      delete "recurrence"
        (if Str.truthy trimmed then <["recurrenceRule" := VStr trimmed]> frontmatter
         else delete "recurrenceRule" frontmatter)) in
  aret (if Str.truthy trimmed
        then delete "recurrence" (<["recurrenceRule" := VStr trimmed]> fm)
        else delete "recurrence" (delete "recurrenceRule" fm)).

Section WithHost.

Variable host : Host.

Definition computeEndISO (fm : gmap string jsval) : Result string :=
  let scheduled := field fm "scheduled" in
  let timeEstimate := Value.toNumber (field fm "timeEstimate") in
  if negb (Value.truthy scheduled) then Ok EmptyString
  else
    let scheduledDate := JsDate.ofValue host scheduled in
    if Num.isNaN (JsDate.getTime scheduledDate) then Ok EmptyString
    else if negb (Num.truthy timeEstimate) || Num.isNaN timeEstimate
    then Ok EmptyString
    else
      let endDate :=
        JsDate.ofNumber
          (Num.add (JsDate.getTime scheduledDate)
                   (Num.mul timeEstimate (Fin 60000))) in
      JsDate.toISOString endDate.

Definition handleRecurrenceCompletion (file : TFile) (fm : gmap string jsval)
  : Async unit :=
  let recurrence := getRecurrenceValue (Some fm) in
  if negb (Str.truthy recurrence) then aret tt
  else
    let scheduled := field fm "scheduled" in
    if negb (Value.truthy scheduled) then aret tt
    else
      match Recurrence.computeNextOccurrence host recurrence scheduled with
      | None => aret tt
      | Some nextDate =>
          let parentPath := default EmptyString (parentPath file) in
          await newName := alift (NameGen.generateNextName (name file) nextDate) in
          let newPath :=
            if Str.truthy parentPath then parentPath +:+ "/" +:+ newName
            else newName in
          await existing := getAbstractFileByPath newPath in
          match existing with
          | Some _ => aret tt
          | None =>
              await _ := copy file newPath in
              await newFile := getAbstractFileByPath newPath in
              match newFile with
              | Some (FileNode _ _) =>
                  let newFile := fileAt newPath in
                  await _ := updateFrontmatterValue newFile "recurrenceRule" VNull in
                  await _ := updateFrontmatterValue newFile "recurrence" VNull in
                  await _ := updateFrontmatterValue newFile "status" (VStr "open") in
                  await newScheduledISO := alift (JsDate.toISOString nextDate) in
                  await _ := updateFrontmatterValue newFile "scheduled"
                          (VStr newScheduledISO) in
                  let timeEstimate := Value.toNumber (field fm "timeEstimate") in
                  await endISO :=
                    alift (computeEndISO
                             (<["timeEstimate" := VNum timeEstimate]>
                                {["scheduled" := VStr newScheduledISO]})) in
                  await _ := updateFrontmatterValue newFile "sheduledEnd"
                          (if Str.truthy endISO then VStr endISO else VNull) in
                  updateFrontmatterValue newFile "title" (VStr (basename newFile))
              | _ => aret tt
              end
          end
      end.

(** The handler of the status row for one entry: the file and the
    copy [fm] of its frontmatter the menu holds, returned as mutated. *)
Definition onStatusChange (value : string) (file : TFile)
    (fm : gmap string jsval) : Async (gmap string jsval) :=
  let oldStatus := Value.orElse (field fm "status") (VStr "open") in
  await _ := updateFrontmatterValue file "status" (VStr value) in
  let fm := <["status" := VStr value]> fm in
  await fm :=
    (if String.eqb value "blocked" then setRecurrenceFields file fm ""
     else aret fm) in
  await _ :=
    (if (String.eqb value "complete" || String.eqb value "wont-do")
        && negb (Value.isStr oldStatus value)
     then handleRecurrenceCompletion file fm
     else aret tt) in
  aret fm.

End WithHost.

End Workflow.

(** ** Hosts *)

(** A host whose local time is at a constant offset [c] from UTC. *)
Definition fixedHost (c : Z) (lp : string -> option Z) : Host :=
  {| tzaUTC := fun _ => c; tzaLocal := fun _ => c; legacyParse := lp |}.

Definition utcHost : Host := fixedHost 0 (fun _ => None).

(** A host on United States Eastern time around March 2024: UTC-5 until
    2024-03-10T07:00Z, when the clocks go from 02:00 to 03:00, and UTC-4
    from then on. *)
Definition easternHost : Host :=
  {| tzaUTC := fun t => if t <? 1710054000000 then -18000000 else -14400000;
     tzaLocal := fun t => if t <? 1710039600000 then -18000000 else -14400000;
     legacyParse := fun _ => None |}.

(** ** Notions used in the statements *)

(** [k % x === 0] for an integer [k]. *)
Definition divides (x : number) (k : Z) : bool :=
  Num.strictEq (Num.rem (Num.ofZ k) x) (Fin 0).

(** [x > 0]: a positive number, not [NaN]. *)
Definition positive (x : number) : bool := Num.gt x (Fin 0).

(** The text of a rule as [parseRecurrence] cuts it: the body after the
    prefix, and its parts; an empty body has none. *)
Definition ruleBody (rrule : string) : string :=
  Str.trim (Str.stripRRulePrefix rrule).

Definition ruleParts (rrule : string) : list string :=
  if Str.isEmpty (ruleBody rrule) then [] else Str.split ";"%char (ruleBody rrule).

(** The key of a part [KEY=VALUE], trimmed and in upper case, when both
    the key and the value are there; and its value, trimmed. *)
Definition partKey (part : string) : option string :=
  match Str.split "="%char part with
  | k :: v :: _ =>
      if Str.truthy k && Str.truthy v then Some (Str.toUpperCase (Str.trim k))
      else None
  | _ => None
  end.

Definition partValue (part : string) : string :=
  match Str.split "="%char part with
  | _ :: v :: _ => Str.trim v
  | _ => EmptyString
  end.

(** An INTERVAL value the parser accepts: numeric and positive. *)
Definition validInterval (v : string) : bool :=
  negb (Num.isNaN (Num.ofString v)) && positive (Num.ofString v).

(** A part that is an INTERVAL with an accepted value. *)
Definition setsInterval (part : string) : bool :=
  match partKey part with
  | Some k => String.eqb k "INTERVAL" && validInterval (partValue part)
  | None => false
  end.

(** A part the parser cannot use: malformed, of an unknown key, or an
    INTERVAL whose value is not accepted. *)
Definition unusablePart (part : string) : bool :=
  match partKey part with
  | None => true
  | Some k =>
      if String.eqb k "FREQ" then false
      else if String.eqb k "INTERVAL" then negb (validInterval (partValue part))
      else if String.eqb k "BYDAY" then false
      else true
  end.

(** The candidate reached after [k] steps from [start]. *)
Definition candidateAt (host : Host) (parsed : ParsedRecurrence) (start : Date)
    (k : nat) : Date :=
  Nat.iter k (fun d => Recurrence.incrementRecurrence host d parsed) start.

(** Whole days elapsed from [b] to [c], and calendar months from the
    local month of [b] to that of [c]. *)
Definition daysBetween (c b : Z) : Z := (c - b) / JsDate.msPerDay.

Definition monthsBetween (host : Host) (c b : Z) : Z :=
  (JsDate.YearFromTime (JsDate.LocalTime host c)
   - JsDate.YearFromTime (JsDate.LocalTime host b)) * 12
  + (JsDate.MonthFromTime (JsDate.LocalTime host c)
     - JsDate.MonthFromTime (JsDate.LocalTime host b)).

(** The weekday code of a time in the host's zone. *)
Definition weekdayCodeOf (host : Host) (t : Z) : string :=
  Recurrence.getWeekdayCode (Num.ofZ (JsDate.WeekDay (JsDate.LocalTime host t))).

(** The same rule with another frequency. *)
Definition withFreq (f : string) (parsed : ParsedRecurrence) : ParsedRecurrence :=
  {| freq := Some f; interval := interval parsed; byDay := byDay parsed |}.

(** [typeof v !== 'string']. *)
Definition notString (v : jsval) : bool :=
  match v with
  | VStr _ => false
  | _ => true
  end.

(** The local time one month after the local time [l], as [setMonth]
    computes it. *)
Definition monthStepLocal (l : Z) : Z :=
  JsDate.MakeDate
    (JsDate.MakeDay (JsDate.YearFromTime l) (JsDate.MonthFromTime l + 1)
                    (JsDate.DateFromTime l))
    (JsDate.TimeWithinDay l).

(** The path at which the successor of [file] is created. *)
Definition destinationPath (file : TFile) (newName : string) : string :=
  let parent := default EmptyString (parentPath file) in
  if Str.truthy parent then parent +:+ "/" +:+ newName else newName.

(** A task whose [recurrenceRule] is the number 0 and whose legacy
    [recurrence] field is a rule; its file, and a vault holding it. *)
Definition legacyTask : gmap string jsval :=
  <["recurrenceRule" := VNum (Fin 0)]>
    (<["recurrence" := VStr "RRULE:FREQ=DAILY"]>
       (<["scheduled" := VStr "2024-01-01T09:00"]> ∅)).

Definition legacyFile : TFile :=
  {| path := "Tasks/Water plants 2024-01-01.md";
     name := "Water plants 2024-01-01.md";
     basename := "Water plants 2024-01-01";
     parentPath := Some "Tasks" |}.

Definition legacyVault : gmap string Node :=
  <["Tasks/Water plants 2024-01-01.md" := FileNode "" legacyTask]>
    (<["Tasks" := FolderNode]> ∅).

(** What one part does to the rule: nothing, or it sets one field. *)
Inductive PartEffect (result : ParsedRecurrence) : ParsedRecurrence -> Prop :=
| EffectNone : PartEffect result result
| EffectFreq (f : string) :
    PartEffect result
      {| freq := Some f; interval := interval result; byDay := byDay result |}
| EffectInterval (num : number) :
    positive num = true ->
    PartEffect result
      {| freq := freq result; interval := num; byDay := byDay result |}
| EffectByDay (l : list string) :
    PartEffect result
      {| freq := freq result; interval := interval result; byDay := l |}.


(** ** The rest of the controller *)

(** A file of the menu with the copy of its frontmatter the menu holds. *)
Record FileEntry : Type := {
  file : TFile;
  frontmatter : gmap string jsval
}.

(** The value of the [tags] property of a frontmatter, with the items
    of an array spelled out; a value that is not an array is a
    [TagsScalar], [undefined] when the property is absent. *)
Inductive tagsval : Type :=
| TagsScalar (v : jsval)
| TagsList (items : list jsval).

Module Controller.

(** *** Recurrence rules *)

Definition normalizeRecurrence (value : string) : string :=
  if negb (Str.truthy value) then EmptyString
  else
    let trimmed := Str.trim value in
    if negb (Str.truthy trimmed) then EmptyString
    else if Str.startsWithCI "RRULE:" trimmed then trimmed
    else "RRULE:" +:+ trimmed.

(** [applyToEntries(entries, fn)]: [fn] runs on the entries in turn
    and stops at the first that throws; the frontmatter copies are
    returned as [fn] mutated them. *)
Fixpoint applyToEntries (entries : list FileEntry)
    (fn : TFile -> gmap string jsval -> Async (gmap string jsval))
  : Async (list FileEntry) :=
  match entries with
  | [] => aret []
  | entry :: rest =>
      await fm := fn (file entry) (frontmatter entry) in
      await rest' := applyToEntries rest fn in
      aret ({| file := file entry; frontmatter := fm |} :: rest')
  end.

(** [applyRecurrenceRuleToEntries(entries, value, closeMenu)], as to
    the vault and the frontmatter copies. *)
Definition applyRecurrenceRuleToEntries (entries : list FileEntry)
    (value : string) : Async (list FileEntry) :=
  let normalized := normalizeRecurrence value in
  applyToEntries entries (fun file fm =>
    Workflow.setRecurrenceFields file fm normalized).

(** *** File lists *)

(** The body of the [forEach] of [normalizeFileList] on the set
    [seen] and the array [result]; an item that is no file handle is
    [None]. *)
Definition addFile (st : gset string * list TFile) (item : option TFile)
  : gset string * list TFile :=
  match item with
  | None => st
  | Some f =>
      if decide (path f ∈ fst st) then st
      else ({[path f]} ∪ fst st, (snd st ++ [f])%list)
  end.

Definition normalizeFileList (files : list (option TFile)) : list TFile :=
  snd (fold_left addFile files (∅, [])).

(** *** Dates of the input rows *)

(** The decimal digits of a natural number, most significant first
    ([fuel] bounds their number). *)
Fixpoint digitsOf (fuel : nat) (n : Z) (acc : string) : string :=
  match fuel with
  | O => acc
  | S k =>
      let acc' := String (JsDate.digitChar n) acc in
      if n <? 10 then acc' else digitsOf k (n / 10) acc'
  end.

(** [String(n)] for an integer [n]. *)
Definition intToString (n : Z) : string :=
  if n <? 0
  then "-" +:+ digitsOf (S (Z.to_nat (Z.log2 (- n)))) (- n) EmptyString
  else digitsOf (S (Z.to_nat (Z.log2 n))) n EmptyString.

(** [s.padStart(2, '0')]. *)
Definition padStart2 (s : string) : string :=
  match s with
  | EmptyString => "00"
  | String c EmptyString => String "0"%char s
  | _ => s
  end.

(** [String(n).padStart(2, '0')]. *)
Definition pad (n : Z) : string := padStart2 (intToString n).

Section WithHost.

Variable host : Host.

(** [formatDateForInput(value)]: the fields of a valid date are
    integers, in the host's zone. *)
Definition formatDateForInput (value : jsval) : string :=
  if negb (Value.truthy value) then EmptyString
  else
    match JsDate.ofValue host value with
    | None => EmptyString
    | Some t =>
        let l := JsDate.LocalTime host t in
        intToString (JsDate.YearFromTime l) +:+ "-"
        +:+ pad (JsDate.MonthFromTime l + 1) +:+ "-"
        +:+ pad (JsDate.DateFromTime l) +:+ "T"
        +:+ pad (JsDate.HourFromTime l) +:+ ":"
        +:+ pad (JsDate.MinFromTime l)
    end.

(** [normalizeInputDate(value)]: [None] is [null]. *)
Definition normalizeInputDate (value : string) : Result (option string) :=
  if negb (Str.truthy value) then Ok None
  else
    let date := JsDate.ofString host value in
    if Num.isNaN (JsDate.getTime date) then Ok None
    else let! iso := JsDate.toISOString date in Ok (Some iso).

End WithHost.

(** *** Titles *)

Definition doubleQuote : ascii := ascii_of_nat 34.

(** A character the title row replaces: backslash, slash, colon,
    star, question mark, double quote, angle brackets and bar. *)
Definition forbiddenByte (c : ascii) : bool :=
  Ascii.eqb c NameGen.backslash || Ascii.eqb c "/"%char || Ascii.eqb c ":"%char
  || Ascii.eqb c "*"%char || Ascii.eqb c "?"%char || Ascii.eqb c doubleQuote
  || Ascii.eqb c "<"%char || Ascii.eqb c ">"%char || Ascii.eqb c "|"%char.

Definition forbiddenChar (ch : string) : bool :=
  match ch with
  | String c EmptyString => forbiddenByte c
  | _ => false
  end.

(** The first [replace] of [sanitizeFileName]: each such character
    becomes a space. *)
Definition cleared (ch : string) : string :=
  if forbiddenChar ch then " " else ch.

Definition replaceForbidden (s : string) : string :=
  Str.join (List.map cleared (Str.chars s)).

(** [s.replace(/\s+/g, ' ')] on the characters of [s]: each run of
    white space becomes one space; [inRun] tells that the run the scan
    is in has been replaced already. *)
Fixpoint collapseFrom (inRun : bool) (l : list string) : list string :=
  match l with
  | [] => []
  | ch :: r =>
      if Str.isWhite ch then
        if inRun then collapseFrom true r
        else " " :: collapseFrom true r
      else ch :: collapseFrom false r
  end.

Definition collapseSpaces (s : string) : string :=
  Str.join (collapseFrom false (Str.chars s)).

(** The [sanitizeFileName] of the title row, on a string. *)
Definition sanitizeFileName (val fallback : string) : string :=
  let str := Str.trim val in
  if negb (Str.truthy str) then fallback
  else
    let cleaned := Str.trim (collapseSpaces (replaceForbidden str)) in
    if Str.truthy cleaned then cleaned else fallback.

(** *** Tags *)

(** A character of the class [[#\-\s]]. *)
Definition tagPrefixChar (ch : string) : bool :=
  String.eqb ch "#" || String.eqb ch "-" || Str.isWhite ch.

(** [s.replace(/^[#\-\s]+/, '')]. *)
Definition stripTagPrefix (s : string) : string :=
  Str.join (Str.dropWhile tagPrefixChar (Str.chars s)).

Definition normalizeTag (tag : jsval) : string :=
  match tag with
  | VStr s => if Str.truthy s then Str.trim (stripTagPrefix s) else EmptyString
  | _ => EmptyString
  end.

(** [extractTags(fm)], from the [tags] property of [fm]. *)
Definition extractTags (tags : tagsval) : list string :=
  let result :=
    match tags with
    | TagsList items =>
        List.flat_map
          (fun t => match t with
                    | VStr _ => [normalizeTag t]
                    | _ => []
                    end) items
    | TagsScalar (VStr s) => [normalizeTag (VStr s)]
    | TagsScalar _ => []
    end in
  List.filter Str.truthy result.

(** [!!fm.tags]: an array is truthy. *)
Definition tagsTruthy (tags : tagsval) : bool :=
  match tags with
  | TagsScalar v => Value.truthy v
  | TagsList _ => true
  end.

(** [items.map((t) => normalizeTag(t)).filter(Boolean)]. *)
Definition normalizedItems (items : list jsval) : list string :=
  List.filter Str.truthy (List.map normalizeTag items).

(** [addTagToFile(file, tag)] on the [tags] property of the file: the
    value returned ([None] is [null]) and the property afterwards. *)
Definition addTagToFile (tags : tagsval) (tag : string)
  : option string * tagsval :=
  let normalized := normalizeTag (VStr tag) in
  if negb (Str.truthy normalized) then (None, tags)
  else
    let items0 :=
      match tags with
      | TagsList items => items
      | TagsScalar (VStr s) => if Str.truthy s then [VStr s] else []
      | TagsScalar _ => []
      end in
    let items1 := normalizedItems items0 in
    let items2 :=
      if Recurrence.includes items1 normalized then items1
      else (items1 ++ [normalized])%list in
    (Some normalized, TagsList (List.map VStr items2)).

(** [removeTagFromFile(file, tag)] on the [tags] property of the
    file; a deleted property is [undefined]. *)
Definition removeTagFromFile (tags : tagsval) (tag : string) : tagsval :=
  if negb (tagsTruthy tags) then tags
  else
    match tags with
    | TagsList items =>
        let kept :=
          List.filter (fun t => Str.truthy t && negb (String.eqb t tag))
                      (List.map normalizeTag items) in
        if Nat.eqb (List.length kept) 0 then TagsScalar VUndefined
        else TagsList (List.map VStr kept)
    | TagsScalar v =>
        if String.eqb (normalizeTag v) tag then TagsScalar VUndefined
        else tags
    end.

End Controller.

(** ** More notions used in the statements *)

(** [updateFrontmatterValue] on one frontmatter: the key is set, or
    deleted for [null], [undefined] and the empty string. *)
Definition assign (key : string) (value : jsval) (fm : gmap string jsval)
  : gmap string jsval :=
  if Value.nullish value || Value.isStr value "" then delete key fm
  else <[key := value]> fm.

(** The frontmatter of the successor made from the stored frontmatter
    [fm0] of the completed task. *)
Definition successorFrontmatter (fm0 : gmap string jsval)
    (scheduledISO endISO title : string) : gmap string jsval :=
  assign "title" (VStr title)
    (assign "sheduledEnd" (if Str.truthy endISO then VStr endISO else VNull)
       (assign "scheduled" (VStr scheduledISO)
          (assign "status" (VStr "open")
             (assign "recurrence" VNull
                (assign "recurrenceRule" VNull fm0))))).

(** The object literal [{ scheduled, timeEstimate }] that
    [handleRecurrenceCompletion] hands to [computeEndISO]. *)
Definition endInput (fm : gmap string jsval) (scheduledISO : string)
  : gmap string jsval :=
  <["timeEstimate" := VNum (Value.toNumber (Workflow.field fm "timeEstimate"))]>
    {["scheduled" := VStr scheduledISO]}.

(** A string without line terminator. *)
Definition oneLine (s : string) : bool :=
  forallb (fun ch => negb (Str.isLineTerminator ch)) (Str.chars s).

(** A suffix of the string is a date [YYYY-MM-DD]. *)
Fixpoint endsWithDate (s : string) : bool :=
  match NameGen.dateToken s with
  | Some EmptyString => true
  | _ =>
      match s with
      | String _ r => endsWithDate r
      | EmptyString => false
      end
  end.

(** An extension: not empty, and without dot, slash or backslash. *)
Definition isExtension (e : string) : bool :=
  Str.truthy e && NameGen.allNotSeparator e.

(** The date stamp [generateNextName] takes from a date. *)
Definition dateStamp (t : Z) : string :=
  match JsDate.toISOString (Some t) with
  | Ok iso => Str.take 10 iso
  | Throw _ => EmptyString
  end.

(** Every byte of the string satisfies the test. *)
Fixpoint allChars (p : ascii -> bool) (s : string) : bool :=
  match s with
  | EmptyString => true
  | String c r => p c && allChars p r
  end.

(** A visible ASCII character. *)
Definition visible (c : ascii) : bool := (33 <=? Str.code c) && (Str.code c <? 127).

(** A tag as [normalizeTag] leaves it: not empty, and unchanged by
    [normalizeTag]. *)
Definition normalTag (t : string) : Prop :=
  Str.truthy t = true /\ Controller.normalizeTag (VStr t) = t.

(** A character that may stay in a title, and one that is no white
    space other than the space. *)
Definition notForbidden (ch : string) : bool := negb (Controller.forbiddenChar ch).

Definition spaceOrNotWhite (ch : string) : bool :=
  negb (Str.isWhite ch) || String.eqb ch " ".

(** No two white-space characters follow each other. *)
Fixpoint noDoubleWhite (l : list string) : bool :=
  match l with
  | a :: ((b :: _) as r) => negb (Str.isWhite a && Str.isWhite b) && noDoubleWhite r
  | _ => true
  end.

(** A title as [sanitizeFileName] leaves it: not empty, without white
    space around it, without forbidden character, and with single
    spaces as its only white space. *)
Definition cleanName (s : string) : bool :=
  Str.truthy s && String.eqb (Str.trim s) s
  && forallb notForbidden (Str.chars s)
  && forallb spaceOrNotWhite (Str.chars s) && noDoubleWhite (Str.chars s).

(** A list that does not start, and one that does not end, with an
    element passing the test. *)
Definition headNot {A : Type} (p : A -> bool) (l : list A) : Prop :=
  match l with
  | x :: _ => p x = false
  | [] => True
  end.

Definition endNot {A : Type} (p : A -> bool) (l : list A) : Prop :=
  Str.dropEnd p l = l.

(** *** Lists of characters

    The shape of the lists [Str.chars] gives: each element is a first
    byte with at most the continuation bytes that belong to it, and an
    element that lacks some is not followed by a continuation byte. *)

Definition startsCont (s : string) : bool :=
  match s with
  | String c _ => Str.isCont c
  | EmptyString => false
  end.

Definition startsContL (l : list string) : bool :=
  match l with
  | ch :: _ => startsCont ch
  | [] => false
  end.

Definition isChar (ch : string) : bool :=
  match ch with
  | String c t => allChars Str.isCont t && (String.length t <=? Str.contLen c)%nat
  | EmptyString => false
  end.

Definition closed (ch : string) : bool :=
  match ch with
  | String c t => (String.length t =? Str.contLen c)%nat
  | EmptyString => false
  end.

Fixpoint proper (l : list string) : bool :=
  match l with
  | [] => true
  | ch :: r => isChar ch && (closed ch || negb (startsContL r)) && proper r
  end.

(** A complete character that is not a lone continuation byte. *)
Definition solid (ch : string) : bool :=
  isChar ch && closed ch && negb (startsCont ch).

(** A character that is its own upper case, and one that is not white
    space. *)
Definition upperFixed (ch : string) : bool := String.eqb (Str.upperOf ch) ch.

Definition notWhite (ch : string) : bool := negb (Str.isWhite ch).

(** The characters of the upper case of a list of characters. *)
Definition upperChars (l : list string) : list string :=
  flat_map (fun ch => Str.chars (Str.upperOf ch)) l.

(** What the upper case of a character is made of: complete characters
    that are their own upper case and not white space. *)
Definition upperText (r : string) : bool :=
  Str.truthy r && forallb solid (Str.chars r)
  && forallb upperFixed (Str.chars r) && forallb notWhite (Str.chars r).

(** ** The End row *)

(** [Math.round]: the integer nearest to a finite number, the larger of
    two equally near ones; numbers are exact here, as in [Num]. *)
Definition mathRound (x : number) : number :=
  match x with
  | Fin q => Num.ofZ (Qfloor (q + (1 # 2)))
  | _ => x
  end.

(** [Math.max(x, y)]. *)
Definition mathMax (x y : number) : number :=
  if Num.isNaN x || Num.isNaN y then NaN
  else if Num.lt x y then y else x.

Module EndRow.

Section WithHost.

Variable host : Host.

(** The change handler of [createEndRow] up to its writes: the new
    end and the minutes it writes, [None] when it returns before
    writing. *)
Definition newEnd (firstFm : gmap string jsval) (inputValue : string)
  : Result (option (string * number)) :=
  if negb (Value.truthy (Workflow.field firstFm "scheduled")) then Ok None
  else
    let! newEndISO := Controller.normalizeInputDate host inputValue in
    match newEndISO with
    | None => Ok None
    | Some newEndISO =>
        if negb (Str.truthy newEndISO) then Ok None
        else
          let scheduledDate :=
            JsDate.ofValue host (Workflow.field firstFm "scheduled") in
          if Num.isNaN (JsDate.getTime scheduledDate) then Ok None
          else
            let endDate := JsDate.ofString host newEndISO in
            if Num.isNaN (JsDate.getTime endDate) then Ok None
            else
              let diffMs :=
                Num.sub (JsDate.getTime endDate)
                        (JsDate.getTime scheduledDate) in
              let minutes :=
                mathMax (Fin 0) (mathRound (Num.div diffMs (Fin 60000))) in
              Ok (Some (newEndISO, minutes))
    end.

(** What the handler does to one entry. *)
Definition writeEnd (newEndISO : string) (minutes : number) (file : TFile)
    (fm : gmap string jsval) : Async (gmap string jsval) :=
  if negb (Value.truthy (Workflow.field fm "scheduled")) then aret fm
  else
    await _ := Workflow.updateFrontmatterValue file "timeEstimate"
                 (VNum minutes) in
    let fm := <["timeEstimate" := VNum minutes]> fm in
    await _ := Workflow.updateFrontmatterValue file "sheduledEnd"
                 (VStr newEndISO) in
    aret (<["sheduledEnd" := VStr newEndISO]> fm).

(** The change handler on the entries of the menu, the first of
    which holds [firstFm]; the entries are returned as mutated. *)
Definition onChange (entries : list FileEntry) (inputValue : string)
  : Async (list FileEntry) :=
  let firstFm :=
    match entries with
    | entry :: _ => frontmatter entry
    | [] => ∅
    end in
  await choice := alift (newEnd firstFm inputValue) in
  match choice with
  | None => aret entries
  | Some (newEndISO, minutes) =>
      Controller.applyToEntries entries (writeEnd newEndISO minutes)
  end.

End WithHost.

End EndRow.

(** A field of a parsed rule as the parser leaves it: in upper case and
    without white space around it. *)
Definition normalField (s : string) : Prop :=
  Str.toUpperCase s = s /\ Str.trim s = s.
(** * Properties *)

(** ** Arithmetic on integral numbers *)

Section NumFacts.

Lemma Qred_inject_Z (z : Z) : Qred (inject_Z z) = inject_Z z.
Proof.
  apply Qred_identity. simpl. apply Z.gcd_1_r.
Qed.

Lemma Qred_eq_inject_Z (q : Q) (z : Z) : (q == inject_Z z)%Q -> Qred q = inject_Z z.
Proof.
  intros H. rewrite <- Qred_inject_Z. apply Qred_complete. exact H.
Qed.

Lemma neg_ofZ (a : Z) : Num.neg (Num.ofZ a) = Num.ofZ (- a).
Proof.
  unfold Num.neg, Num.ofZ. f_equal. apply Qred_eq_inject_Z.
  rewrite inject_Z_opp. reflexivity.
Qed.

Lemma add_ofZ (a b : Z) : Num.add (Num.ofZ a) (Num.ofZ b) = Num.ofZ (a + b).
Proof.
  unfold Num.add, Num.ofZ. f_equal. apply Qred_eq_inject_Z.
  rewrite inject_Z_plus. reflexivity.
Qed.

Lemma sub_ofZ (a b : Z) : Num.sub (Num.ofZ a) (Num.ofZ b) = Num.ofZ (a - b).
Proof.
  unfold Num.sub. rewrite neg_ofZ, add_ofZ. reflexivity.
Qed.

Lemma mul_ofZ (a b : Z) : Num.mul (Num.ofZ a) (Num.ofZ b) = Num.ofZ (a * b).
Proof.
  unfold Num.mul, Num.ofZ. f_equal. apply Qred_eq_inject_Z.
  rewrite inject_Z_mult. reflexivity.
Qed.

Lemma Qfloor_div_inject (a d : Z) :
  0 < d -> Qfloor (inject_Z a / inject_Z d) = a / d.
Proof.
  intros Hd. destruct d as [|p|p]; try lia.
  unfold Qdiv, Qinv, Qmult, inject_Z, Qfloor. simpl.
  rewrite Z.mul_1_r. reflexivity.
Qed.

Lemma floor_div_ofZ (a d : Z) :
  0 < d -> Num.floor (Num.div (Num.ofZ a) (Num.ofZ d)) = Num.ofZ (a / d).
Proof.
  intros Hd. unfold Num.div, Num.ofZ.
  destruct (Qeq_bool (inject_Z d) 0) eqn:E.
  - apply Qeq_bool_iff in E. unfold Qeq in E. simpl in E. lia.
  - unfold Num.floor, Num.ofZ. f_equal. f_equal.
    rewrite (Qfloor_comp _ _ (Qred_correct _)).
    apply Qfloor_div_inject. exact Hd.
Qed.

Lemma le_ofZ (a b : Z) : Num.le (Num.ofZ a) (Num.ofZ b) = (a <=? b).
Proof.
  unfold Num.le, Num.ofZ, Qle_bool, inject_Z. simpl.
  rewrite !Z.mul_1_r. reflexivity.
Qed.

Lemma lt_ofZ (a b : Z) : Num.lt (Num.ofZ a) (Num.ofZ b) = (a <? b).
Proof.
  unfold Num.lt, Num.ofZ, Qle_bool, inject_Z. simpl.
  rewrite !Z.mul_1_r. rewrite Z.ltb_antisym. reflexivity.
Qed.

Lemma strictEq_ofZ (a b : Z) : Num.strictEq (Num.ofZ a) (Num.ofZ b) = (a =? b).
Proof.
  unfold Num.strictEq, Num.ofZ, Qeq_bool, inject_Z. simpl.
  rewrite !Z.mul_1_r. reflexivity.
Qed.

Lemma truncQ_inject_Z (z : Z) : Num.truncQ (inject_Z z) = z.
Proof.
  unfold Num.truncQ. simpl. apply Z.quot_1_r.
Qed.

Lemma toInteger_ofZ (z : Z) : Num.toInteger (Num.ofZ z) = Some z.
Proof.
  unfold Num.toInteger, Num.ofZ. rewrite Qfloor_Z.
  rewrite (proj2 (Qeq_bool_iff _ _)); [reflexivity | reflexivity].
Qed.

(** On a positive integral divisor, [%] is the remainder of the
    division of integers. *)
Lemma divides_integer (q : Q) (n k : Z) :
  (q == inject_Z n)%Q -> 0 < n -> 0 <= k ->
  divides (Fin q) k = (k mod n =? 0).
Proof.
  intros Hq Hn Hk. unfold divides, Num.rem, Num.ofZ.
  destruct (Qeq_bool q 0) eqn:E.
  - apply Qeq_bool_iff in E. rewrite Hq in E. unfold Qeq in E. simpl in E. lia.
  - unfold Num.strictEq.
    assert (Ht : Num.truncQ (inject_Z k / q) = k / n).
    { assert (Hd : (inject_Z k / q == inject_Z k / inject_Z n)%Q)
        by (rewrite Hq; reflexivity).
      unfold Num.truncQ.
      rewrite Z.quot_div_nonneg.
      - change (Qfloor (inject_Z k / q) = k / n).
        rewrite (Qfloor_comp _ _ Hd). apply Qfloor_div_inject. exact Hn.
      - assert (H0 : (0 <= inject_Z k / q)%Q).
        { rewrite Hd. apply Qle_shift_div_l.
          - unfold Qlt. simpl. lia.
          - rewrite Qmult_0_l. unfold Qle. simpl. lia. }
        unfold Qle in H0. change (Qnum 0) with 0 in H0.
        change (QDen 0) with 1 in H0.
        rewrite Z.mul_0_l, Z.mul_1_r in H0. exact H0.
      - reflexivity. }
    rewrite Ht.
    assert (Hv : (inject_Z k - q * inject_Z (k / n) == inject_Z (k mod n))%Q).
    { rewrite Hq. unfold Qeq. simpl. rewrite Z.mod_eq by lia. lia. }
    rewrite (Qred_eq_inject_Z _ _ Hv).
    unfold Qeq_bool, inject_Z. simpl. rewrite Z.mul_1_r. reflexivity.
Qed.

End NumFacts.

(** ** Dates *)

Section DateFacts.

Import JsDate.

Lemma TimeClip_valid (t : Z) : Z.abs t <= maxTime -> TimeClip t = Some t.
Proof.
  intros H. unfold TimeClip. apply Z.leb_le in H. rewrite H. reflexivity.
Qed.

Lemma TimeClip_Some (t u : Z) : TimeClip t = Some u -> u = t /\ Z.abs t <= maxTime.
Proof.
  unfold TimeClip. destruct (Z.abs t <=? maxTime) eqn:E; [|discriminate].
  intros [= <-]. apply Z.leb_le in E. split; [reflexivity | exact E].
Qed.

Lemma ofNumber_ofZ (t : Z) : ofNumber (Num.ofZ t) = TimeClip t.
Proof.
  unfold ofNumber, Num.ofZ. rewrite truncQ_inject_Z. reflexivity.
Qed.

(** Copying a date, [new Date(d.getTime())], gives the same date. *)
Lemma ofNumber_getTime (d : Date) :
  match d with Some t => Z.abs t <= maxTime | None => True end ->
  ofNumber (getTime d) = d.
Proof.
  destruct d as [t|]; [|reflexivity].
  intros H. unfold getTime. rewrite ofNumber_ofZ. apply TimeClip_valid. exact H.
Qed.

Lemma ofNumber_Some (x : number) (t : Z) :
  ofNumber x = Some t -> Z.abs t <= maxTime.
Proof.
  destruct x; simpl; try discriminate.
  intros H. apply TimeClip_Some in H. destruct H as [-> H]. exact H.
Qed.

(** Every date the program builds from a value is within the range
    of time values. *)
Lemma ofValue_Some (host : Host) (v : jsval) (t : Z) :
  ofValue host v = Some t -> Z.abs t <= maxTime.
Proof.
  assert (Hs : forall s, ofString host s = Some t -> Z.abs t <= maxTime).
  { intros s. unfold ofString.
    destruct (parseISO s) as [[u [|]]|].
    - intros H. apply TimeClip_Some in H. destruct H as [-> H]. exact H.
    - intros H. apply TimeClip_Some in H. destruct H as [-> H]. exact H.
    - destruct (legacyParse host s); [|discriminate].
      intros H. apply TimeClip_Some in H. destruct H as [-> H]. exact H. }
  destruct v; unfold ofValue; try discriminate;
    try apply ofNumber_Some; apply Hs.
Qed.

Lemma MonthFromTime_range (t : Z) : 0 <= MonthFromTime t <= 11.
Proof.
  unfold MonthFromTime.
  repeat match goal with
         | |- context [if ?b then _ else _] => destruct b
         end; lia.
Qed.

(** The day number of a time is rebuilt from its year, month and
    date; further days are counted on from there. *)
Lemma MakeDay_fields (t k : Z) :
  MakeDay (YearFromTime t) (MonthFromTime t) (DateFromTime t + k) = Day t + k.
Proof.
  pose proof (MonthFromTime_range t) as Hm.
  unfold MakeDay.
  rewrite (Z.div_small (MonthFromTime t) 12) by lia.
  rewrite (Z.mod_small (MonthFromTime t) 12) by lia.
  rewrite Z.add_0_r.
  unfold DateFromTime, DayWithinYear, InLeapYear. lia.
Qed.

Lemma Day_TimeWithinDay (t : Z) : MakeDate (Day t) (TimeWithinDay t) = t.
Proof.
  unfold MakeDate, Day, TimeWithinDay, msPerDay.
  pose proof (Z.div_mod t 86400000). lia.
Qed.

Lemma Day_add_days (t k : Z) : Day (t + k * msPerDay) = Day t + k.
Proof.
  unfold Day. apply Z.div_add. unfold msPerDay. lia.
Qed.

Lemma TimeWithinDay_add_days (t k : Z) :
  TimeWithinDay (t + k * msPerDay) = TimeWithinDay t.
Proof.
  unfold TimeWithinDay. apply Z.mod_add. unfold msPerDay. lia.
Qed.

(** In a host at a constant offset, [d.setDate(d.getDate() + 1)] moves
    the time value by the length of one day. *)
Lemma setDate_next_fixed (c : Z) (lp : string -> option Z) (tv : Z) :
  setDate (fixedHost c lp) (Some tv)
          (Num.add (getDate (fixedHost c lp) (Some tv)) (Fin 1))
  = TimeClip (tv + msPerDay).
Proof.
  unfold setDate, getDate, localField, LocalTime, UTC, fixedHost.
  cbn [tzaUTC tzaLocal].
  change (Fin 1) with (Num.ofZ 1). rewrite add_ofZ. unfold Num.ofZ.
  rewrite truncQ_inject_Z. rewrite MakeDay_fields.
  f_equal. unfold MakeDate.
  pose proof (Day_TimeWithinDay (tv + c)) as H. unfold MakeDate in H. lia.
Qed.

End DateFacts.

(** ** Parsing a rule *)

Section ParseFacts.

Import Recurrence.

Lemma parsePart_effect (result : ParsedRecurrence) (part : string) :
  exists result', parsePart result part = Ok result' /\ PartEffect result result'.
Proof.
  unfold parsePart.
  destruct (Str.split "=" part !! 0%nat) as [k|]; cbn [falsy orb];
    [|eexists; split; [reflexivity | constructor]].
  destruct (Str.split "=" part !! 1%nat) as [v|];
    [|rewrite orb_true_r; eexists; split; [reflexivity | constructor]].
  cbn [falsy].
  destruct (Str.isEmpty k || Str.isEmpty v);
    [eexists; split; [reflexivity | constructor]|].
  cbn [callTrim rbind].
  destruct (String.eqb _ "FREQ");
    [eexists; split; [reflexivity | constructor]|].
  destruct (String.eqb _ "INTERVAL").
  - destruct (negb (Num.isNaN (Num.ofString (Str.trim v)))
              && Num.gt (Num.ofString (Str.trim v)) (Fin 0)) eqn:E.
    + eexists; split; [reflexivity|]. constructor.
      apply andb_true_iff in E. apply E.
    + eexists; split; [reflexivity | constructor].
  - destruct (String.eqb _ "BYDAY");
      eexists; (split; [reflexivity | constructor]).
Qed.

Lemma forEachPart_total (parts : list string) (result : ParsedRecurrence) :
  exists result', forEachPart parts result = Ok result'.
Proof.
  revert result. induction parts as [|part rest IH]; intros result.
  - exists result. reflexivity.
  - destruct (parsePart_effect result part) as (r1 & H1 & _).
    cbn [forEachPart]. rewrite H1. cbn [rbind]. apply IH.
Qed.

(** [parseRecurrence] returns a rule on every text. *)
Lemma parseRecurrence_total (rrule : string) :
  exists parsed, parseRecurrence rrule = Ok parsed.
Proof.
  unfold parseRecurrence.
  destruct (Str.isEmpty _); [eexists; reflexivity | apply forEachPart_total].
Qed.

Lemma forEachPart_positive (parts : list string) (result result' : ParsedRecurrence) :
  positive (interval result) = true ->
  forEachPart parts result = Ok result' ->
  positive (interval result') = true.
Proof.
  revert result. induction parts as [|part rest IH]; intros result Hpos.
  - intros [= <-]. exact Hpos.
  - cbn [forEachPart].
    destruct (parsePart_effect result part) as (r1 & H1 & He).
    rewrite H1. cbn [rbind]. apply IH.
    destruct He; cbn [interval]; assumption.
Qed.

(** The interval of a parsed rule is a positive number. *)
Lemma parseRecurrence_positive (rrule : string) (parsed : ParsedRecurrence) :
  parseRecurrence rrule = Ok parsed -> positive (interval parsed) = true.
Proof.
  unfold parseRecurrence. destruct (Str.isEmpty _).
  - intros [= <-]. reflexivity.
  - apply forEachPart_positive. reflexivity.
Qed.

(** [parsePart] in terms of the key and the value of the part. *)
Lemma parsePart_key (result : ParsedRecurrence) (part : string) :
  parsePart result part =
  match partKey part with
  | None => Ok result
  | Some k =>
      if String.eqb k "FREQ" then
        Ok {| freq := Some (Str.toUpperCase (partValue part));
              interval := interval result; byDay := byDay result |}
      else if String.eqb k "INTERVAL" then
        if validInterval (partValue part) then
          Ok {| freq := freq result; interval := Num.ofString (partValue part);
                byDay := byDay result |}
        else Ok result
      else if String.eqb k "BYDAY" then
        Ok {| freq := freq result; interval := interval result;
              byDay := List.filter Str.truthy
                         (List.map Str.trim
                            (Str.split ","%char (Str.toUpperCase (partValue part)))) |}
      else Ok result
  end.
Proof.
  unfold parsePart, partKey, partValue, validInterval, positive.
  destruct (Str.split "=" part) as [|k [|v rest]]; try reflexivity.
  - cbn. rewrite orb_true_r. reflexivity.
  - cbn [lookup list_lookup falsy]. unfold Str.truthy.
    destruct (Str.isEmpty k); [reflexivity|].
    destruct (Str.isEmpty v); [reflexivity|].
    reflexivity.
Qed.

Lemma parsePart_unusable (result : ParsedRecurrence) (part : string) :
  unusablePart part = true -> parsePart result part = Ok result.
Proof.
  rewrite parsePart_key. unfold unusablePart.
  destruct (partKey part) as [k|]; [|reflexivity].
  destruct (String.eqb k "FREQ"); [discriminate|].
  destruct (String.eqb k "INTERVAL").
  - intros H. apply negb_true_iff in H. rewrite H. reflexivity.
  - destruct (String.eqb k "BYDAY"); [discriminate | reflexivity].
Qed.

Lemma forEachPart_unusable (parts : list string) (result : ParsedRecurrence) :
  forallb unusablePart parts = true -> forEachPart parts result = Ok result.
Proof.
  induction parts as [|part rest IH]; [reflexivity|].
  cbn [forallb]. intros H. apply andb_true_iff in H. destruct H as [H1 H2].
  cbn [forEachPart]. rewrite (parsePart_unusable _ _ H1). cbn [rbind].
  apply IH. exact H2.
Qed.

Lemma parsePart_keeps_interval (result result' : ParsedRecurrence) (part : string) :
  setsInterval part = false ->
  parsePart result part = Ok result' -> interval result' = interval result.
Proof.
  rewrite parsePart_key. unfold setsInterval.
  destruct (partKey part) as [k|]; [|intros _ [= <-]; reflexivity].
  destruct (String.eqb k "FREQ"); [intros _ [= <-]; reflexivity|].
  destruct (String.eqb k "INTERVAL").
  - cbn [andb]. intros ->. intros [= <-]. reflexivity.
  - destruct (String.eqb k "BYDAY"); intros _ [= <-]; reflexivity.
Qed.

Lemma forEachPart_keeps_interval (parts : list string)
    (result result' : ParsedRecurrence) :
  existsb setsInterval parts = false ->
  forEachPart parts result = Ok result' -> interval result' = interval result.
Proof.
  revert result. induction parts as [|part rest IH]; intros result.
  - intros _ [= <-]. reflexivity.
  - cbn [existsb forEachPart]. intros H.
    apply orb_false_iff in H. destruct H as [H1 H2].
    destruct (parsePart result part) as [r1|e] eqn:E; [|discriminate].
    cbn [rbind]. intros Hr. rewrite (IH _ H2 Hr).
    apply (parsePart_keeps_interval _ _ _ H1 E).
Qed.

Lemma parseRecurrence_parts (rrule : string) :
  parseRecurrence rrule = forEachPart (ruleParts rrule) emptyRule.
Proof.
  unfold parseRecurrence, ruleParts, ruleBody.
  destruct (Str.isEmpty _); reflexivity.
Qed.

(** On a positive interval, [interval || 1] is the interval. *)
Lemma orElse_positive (x : number) :
  positive x = true -> Num.orElse x (Fin 1) = x.
Proof.
  unfold positive, Num.orElse, Num.gt, Num.lt, Num.truthy.
  destruct x as [| | |q]; try discriminate; try reflexivity.
  intros H. apply negb_true_iff in H.
  destruct (Qeq_bool q 0) eqn:E; [|reflexivity].
  apply Qeq_bool_iff in E.
  assert (Hle : Qle_bool q 0 = true).
  { apply Qle_bool_iff. rewrite E. apply Qle_refl. }
  rewrite Hle in H. discriminate.
Qed.

End ParseFacts.

(** ** Matching and searching *)

Section MatchFacts.

Import Recurrence.

Variable host : Host.

(** [matchesRecurrence] on two valid dates, in integer arithmetic. *)
Lemma matchesRecurrence_integers (c b : Z) (parsed : ParsedRecurrence) :
  matchesRecurrence host (Some c) (Some b) parsed =
  let freq := freqOrDaily parsed in
  let iv := Num.orElse (interval parsed) (Fin 1) in
  let dd := daysBetween c b in
  if dd <=? 0 then false
  else if String.eqb freq "DAILY" then divides iv dd
  else if String.eqb freq "WEEKLY" then
    if negb (divides iv (dd / 7)) then false
    else if negb (Nat.eqb (List.length (byDay parsed)) 0)
         then includes (byDay parsed) (weekdayCodeOf host c)
         else true
  else if String.eqb freq "MONTHLY" then
    let md := monthsBetween host c b in
    if md <=? 0 then false
    else if negb (divides iv md) then false
    else JsDate.DateFromTime (JsDate.LocalTime host c)
         =? JsDate.DateFromTime (JsDate.LocalTime host b)
  else false.
Proof.
  unfold matchesRecurrence, JsDate.getTime, JsDate.getFullYear, JsDate.getMonth,
    JsDate.getDate, JsDate.getDay, JsDate.localField.
  change (1000 * 60 * 60 * 24) with JsDate.msPerDay.
  change (Fin 0) with (Num.ofZ 0). change (Fin 7) with (Num.ofZ 7).
  change (Fin 12) with (Num.ofZ 12).
  rewrite sub_ofZ. rewrite floor_div_ofZ by (unfold JsDate.msPerDay; lia).
  fold (daysBetween c b). rewrite le_ofZ.
  cbv zeta.
  destruct (daysBetween c b <=? 0) eqn:Edd; [reflexivity|].
  destruct (String.eqb (freqOrDaily parsed) "DAILY") eqn:Ed; [reflexivity|].
  unfold Num.gt. rewrite lt_ofZ.
  assert (Hpos : (0 <? daysBetween c b) = true)
    by (apply Z.ltb_lt; apply Z.leb_gt in Edd; exact Edd).
  rewrite Hpos, andb_true_r.
  destruct (String.eqb (freqOrDaily parsed) "WEEKLY") eqn:Ew.
  - rewrite floor_div_ofZ by lia. reflexivity.
  - destruct (String.eqb (freqOrDaily parsed) "MONTHLY") eqn:Em; [|reflexivity].
    rewrite !sub_ofZ, mul_ofZ, add_ofZ. fold (monthsBetween host c b).
    rewrite le_ofZ, strictEq_ofZ. reflexivity.
Qed.

(** An invalid candidate matches nothing. *)
Lemma matchesRecurrence_invalid (b : Date) (parsed : ParsedRecurrence) :
  matchesRecurrence host None b parsed = false.
Proof.
  unfold matchesRecurrence. cbn [JsDate.getTime].
  unfold JsDate.getFullYear, JsDate.getMonth, JsDate.getDate, JsDate.localField.
  cbn [Num.sub Num.add Num.neg Num.div Num.floor Num.le Num.gt Num.lt Num.rem
       Num.mul Num.strictEq negb andb].
  destruct (String.eqb (freqOrDaily parsed) "DAILY"); [reflexivity|].
  rewrite andb_false_r.
  destruct (String.eqb (freqOrDaily parsed) "MONTHLY"); reflexivity.
Qed.

(** A frequency other than the three known ones matches nothing. *)
Lemma matchesRecurrence_unknown (c b : Date) (parsed : ParsedRecurrence) :
  String.eqb (freqOrDaily parsed) "DAILY" = false ->
  String.eqb (freqOrDaily parsed) "WEEKLY" = false ->
  String.eqb (freqOrDaily parsed) "MONTHLY" = false ->
  matchesRecurrence host c b parsed = false.
Proof.
  intros Hd Hw Hm. unfold matchesRecurrence.
  rewrite Hd, Hw, Hm. cbn [andb].
  destruct (Num.le _ _); reflexivity.
Qed.

Lemma search_S (parsed : ParsedRecurrence) (b : Date) (n : nat) (cand : Date) :
  search host parsed b (S n) cand =
  if matchesRecurrence host (incrementRecurrence host cand parsed) b parsed
  then Some (incrementRecurrence host cand parsed)
  else search host parsed b n (incrementRecurrence host cand parsed).
Proof. reflexivity. Qed.

Lemma candidateAt_S (parsed : ParsedRecurrence) (start : Date) (k : nat) :
  candidateAt host parsed start (S k) =
  candidateAt host parsed (incrementRecurrence host start parsed) k.
Proof.
  unfold candidateAt. rewrite Nat.iter_succ_r. reflexivity.
Qed.

(** The search returns the first of the next [n] candidates that
    matches. *)
Lemma search_Some (parsed : ParsedRecurrence) (b : Date) (n : nat)
    (start d : Date) :
  search host parsed b n start = Some d ->
  exists k : nat,
    (1 <= k <= n)%nat
    /\ d = candidateAt host parsed start k
    /\ matchesRecurrence host d b parsed = true
    /\ forall j : nat, (1 <= j < k)%nat ->
         matchesRecurrence host (candidateAt host parsed start j) b parsed = false.
Proof.
  revert start. induction n as [|n IH]; intros start; [discriminate|].
  rewrite search_S.
  destruct (matchesRecurrence host (incrementRecurrence host start parsed) b parsed)
    eqn:E.
  - intros [= <-]. exists 1%nat. repeat split; try lia; try exact E.
  - intros H. destruct (IH _ H) as (k & Hk & Hd & Hm & Hfirst).
    exists (S k). rewrite candidateAt_S. repeat split; try lia; try assumption.
    intros j Hj. destruct j as [|j]; [lia|].
    rewrite candidateAt_S. destruct j as [|j]; [exact E|].
    apply Hfirst. lia.
Qed.

(** It returns nothing when none of them matches. *)
Lemma search_None (parsed : ParsedRecurrence) (b : Date) (n : nat) (start : Date) :
  (forall k : nat, (1 <= k <= n)%nat ->
     matchesRecurrence host (candidateAt host parsed start k) b parsed = false) ->
  search host parsed b n start = None.
Proof.
  revert start. induction n as [|n IH]; intros start H; [reflexivity|].
  rewrite search_S.
  pose proof (H 1%nat ltac:(lia)) as H1.
  change (candidateAt host parsed start 1)
    with (incrementRecurrence host start parsed) in H1.
  rewrite H1.
  apply IH. intros k Hk. rewrite <- candidateAt_S. apply H. lia.
Qed.

(** What [computeNextOccurrence] comes to on a rule that parses and
    an anchor that is valid. *)
Lemma computeNextOccurrence_search (rrule : string) (scheduled : jsval)
    (parsed : ParsedRecurrence) (b : Z) :
  parseRecurrence rrule = Ok parsed ->
  JsDate.ofValue host scheduled = Some b ->
  computeNextOccurrence host rrule scheduled =
  if noFreq parsed then None
  else search host parsed (Some b) maxIterations (Some b).
Proof.
  intros Hp Hb. unfold computeNextOccurrence. rewrite Hp, Hb.
  rewrite (ofNumber_getTime (Some b)) by (apply (ofValue_Some _ _ _ Hb)).
  reflexivity.
Qed.

Lemma computeNextOccurrence_invalid (rrule : string) (scheduled : jsval) :
  JsDate.ofValue host scheduled = None ->
  computeNextOccurrence host rrule scheduled = None.
Proof.
  intros Hb. unfold computeNextOccurrence.
  destruct (parseRecurrence rrule); [|reflexivity].
  rewrite Hb. reflexivity.
Qed.

End MatchFacts.

(** ** Stepping by days in a host at a constant offset *)

Section FixedOffset.

Import Recurrence.

Variable c : Z.
Variable lp : string -> option Z.

Lemma increment_day_fixed (t : Z) (parsed : ParsedRecurrence) :
  String.eqb (freqOrDaily parsed) "MONTHLY" = false ->
  Z.abs t <= JsDate.maxTime ->
  incrementRecurrence (fixedHost c lp) (Some t) parsed
  = JsDate.TimeClip (t + JsDate.msPerDay).
Proof.
  intros Hm Ht. unfold incrementRecurrence.
  rewrite (ofNumber_getTime (Some t)) by exact Ht.
  rewrite Hm. apply setDate_next_fixed.
Qed.

Lemma ofString_local_fixed (s : string) (l : Z) :
  JsDate.parseISO s = Some (l, true) ->
  Z.abs (l - c) <= JsDate.maxTime ->
  JsDate.ofString (fixedHost c lp) s = Some (l - c).
Proof.
  intros Hp Hl. unfold JsDate.ofString. rewrite Hp.
  unfold JsDate.UTC, fixedHost. cbn [tzaLocal].
  apply TimeClip_valid. exact Hl.
Qed.

Lemma daysBetween_steps (b k : Z) : daysBetween (b + k * JsDate.msPerDay) b = k.
Proof.
  unfold daysBetween.
  replace (b + k * JsDate.msPerDay - b) with (k * JsDate.msPerDay) by lia.
  apply Z.div_mul. unfold JsDate.msPerDay. lia.
Qed.

End FixedOffset.

(** ** Stepping by days where the offset of local time stays the same *)

Section SteadyOffset.

Import Recurrence.

Variable host : Host.
Variable c : Z.

(** [d.setDate(d.getDate() + 1)] moves the time value by the length of
    one day when local time is at the same offset before and after. *)
Lemma setDate_next_steady (tv : Z) :
  tzaUTC host tv = c ->
  tzaLocal host (tv + JsDate.msPerDay + c) = c ->
  JsDate.setDate host (Some tv) (Num.add (JsDate.getDate host (Some tv)) (Fin 1))
  = JsDate.TimeClip (tv + JsDate.msPerDay).
Proof.
  intros Hu Hl.
  unfold JsDate.setDate, JsDate.getDate, JsDate.localField, JsDate.LocalTime,
    JsDate.UTC.
  rewrite Hu.
  change (Fin 1) with (Num.ofZ 1). rewrite add_ofZ. unfold Num.ofZ.
  rewrite truncQ_inject_Z. rewrite MakeDay_fields.
  assert (E : JsDate.MakeDate (JsDate.Day (tv + c) + 1) (JsDate.TimeWithinDay (tv + c))
              = tv + JsDate.msPerDay + c).
  { pose proof (Day_TimeWithinDay (tv + c)) as H.
    unfold JsDate.MakeDate in *. lia. }
  rewrite E, Hl. f_equal. lia.
Qed.

Lemma increment_day_steady (t : Z) (parsed : ParsedRecurrence) :
  String.eqb (freqOrDaily parsed) "MONTHLY" = false ->
  Z.abs t <= JsDate.maxTime ->
  tzaUTC host t = c ->
  tzaLocal host (t + JsDate.msPerDay + c) = c ->
  incrementRecurrence host (Some t) parsed = JsDate.TimeClip (t + JsDate.msPerDay).
Proof.
  intros Hm Ht Hu Hl. unfold incrementRecurrence.
  rewrite (ofNumber_getTime (Some t)) by exact Ht.
  rewrite Hm. apply setDate_next_steady; assumption.
Qed.

(** A DAILY rule of interval [n]: from the candidate [k] days after the
    anchor, the search stops [n] days after the anchor. *)
Lemma search_daily_steady (parsed : ParsedRecurrence) (q : Q) (n b : Z) :
  freqOrDaily parsed = "DAILY" ->
  interval parsed = Fin q -> (q == inject_Z n)%Q -> 1 <= n ->
  Z.abs b <= JsDate.maxTime ->
  b + n * JsDate.msPerDay <= JsDate.maxTime ->
  (forall k, 0 <= k <= n -> tzaUTC host (b + k * JsDate.msPerDay) = c) ->
  (forall k, 1 <= k <= n -> tzaLocal host (b + k * JsDate.msPerDay + c) = c) ->
  forall (fuel : nat) (k : Z),
    0 <= k < n -> n - k <= Z.of_nat fuel ->
    search host parsed (Some b) fuel (Some (b + k * JsDate.msPerDay))
    = Some (Some (b + n * JsDate.msPerDay)).
Proof.
  intros Hf Hi Hq Hn Hb Hmax Hu Hl.
  assert (Hiv : Num.orElse (interval parsed) (Fin 1) = Fin q).
  { rewrite Hi. apply orElse_positive. unfold positive, Num.gt, Num.lt.
    apply negb_true_iff. destruct (Qle_bool q 0) eqn:E; [|reflexivity].
    apply Qle_bool_iff in E. rewrite Hq in E. unfold Qle in E. simpl in E. lia. }
  induction fuel as [|fuel IH]; intros k Hk Hfuel; [lia|].
  rewrite search_S.
  assert (Hstep : incrementRecurrence host (Some (b + k * JsDate.msPerDay)) parsed
                  = Some (b + (k + 1) * JsDate.msPerDay)).
  { rewrite increment_day_steady.
    - replace (b + k * JsDate.msPerDay + JsDate.msPerDay)
        with (b + (k + 1) * JsDate.msPerDay) by lia.
      apply TimeClip_valid. unfold JsDate.msPerDay in *. lia.
    - rewrite Hf. reflexivity.
    - unfold JsDate.msPerDay in *. lia.
    - apply Hu. lia.
    - replace (b + k * JsDate.msPerDay + JsDate.msPerDay + c)
        with (b + (k + 1) * JsDate.msPerDay + c) by lia.
      apply Hl. lia. }
  rewrite Hstep. rewrite matchesRecurrence_integers. cbv zeta.
  rewrite daysBetween_steps, Hf, Hiv.
  replace (k + 1 <=? 0) with false by (symmetry; apply Z.leb_gt; lia).
  cbn [String.eqb Ascii.eqb Bool.eqb andb].
  rewrite (divides_integer q n (k + 1) Hq) by lia.
  destruct (Z.eq_dec (k + 1) n) as [E|E].
  - rewrite E, Z.mod_same by lia. reflexivity.
  - rewrite Z.mod_small by lia.
    replace (k + 1 =? 0) with false by (symmetry; apply Z.eqb_neq; lia).
    apply IH; lia.
Qed.

End SteadyOffset.

(** ** The claims on the next occurrence *)

(** C1 (amended).  Let local time be at one offset [c] from UTC at the
    anchor and at the same time on each of the [n] days after it (as it
    is wherever the offset does not change between the anchor and [n]
    days later).  Then for a rule parsed from text with frequency DAILY
    and an integer interval [n], [1 <= n <= 500], and a valid anchor
    from which [n] days can still be counted within the range of dates,
    [computeNextOccurrence] returns the anchor advanced by exactly [n]
    calendar days at the same time of day; in particular
    [RRULE:FREQ=DAILY;INTERVAL=2] from 2024-01-01T09:00 gives
    2024-01-03T09:00 in every host whose offset is the same on these
    three days. *)
Theorem daily_next_occurrence_steady_offset :
  (forall (host : Host) (c : Z) (rrule : string) (scheduled : jsval)
          (parsed : ParsedRecurrence) (n anchor : Z),
      Recurrence.parseRecurrence rrule = Ok parsed ->
      freq parsed = Some "DAILY" ->
      Num.strictEq (interval parsed) (Num.ofZ n) = true ->
      1 <= n <= 500 ->
      JsDate.ofValue host scheduled = Some anchor ->
      anchor + n * JsDate.msPerDay <= JsDate.maxTime ->
      (forall k, 0 <= k <= n ->
         tzaUTC host (anchor + k * JsDate.msPerDay) = c) ->
      (forall k, 1 <= k <= n ->
         tzaLocal host (anchor + k * JsDate.msPerDay + c) = c) ->
      let next := anchor + n * JsDate.msPerDay in
      Recurrence.computeNextOccurrence host rrule scheduled = Some (Some next)
      /\ JsDate.Day (JsDate.LocalTime host next)
         = JsDate.Day (JsDate.LocalTime host anchor) + n
      /\ JsDate.TimeWithinDay (JsDate.LocalTime host next)
         = JsDate.TimeWithinDay (JsDate.LocalTime host anchor))
  /\ (forall (host : Host) (c : Z),
        Z.abs c <= JsDate.msPerDay ->
        (forall k, 0 <= k <= 2 ->
           tzaUTC host (1704099600000 - c + k * JsDate.msPerDay) = c) ->
        (forall k, 0 <= k <= 2 ->
           tzaLocal host (1704099600000 + k * JsDate.msPerDay) = c) ->
        Recurrence.computeNextOccurrence host
          "RRULE:FREQ=DAILY;INTERVAL=2" (VStr "2024-01-01T09:00")
        = Some (JsDate.ofString host "2024-01-03T09:00")).
Proof.
  assert (General :
    forall (host : Host) (c : Z) (rrule : string) (scheduled : jsval)
           (parsed : ParsedRecurrence) (n anchor : Z),
      Recurrence.parseRecurrence rrule = Ok parsed ->
      freq parsed = Some "DAILY" ->
      Num.strictEq (interval parsed) (Num.ofZ n) = true ->
      1 <= n <= 500 ->
      JsDate.ofValue host scheduled = Some anchor ->
      anchor + n * JsDate.msPerDay <= JsDate.maxTime ->
      (forall k, 0 <= k <= n ->
         tzaUTC host (anchor + k * JsDate.msPerDay) = c) ->
      (forall k, 1 <= k <= n ->
         tzaLocal host (anchor + k * JsDate.msPerDay + c) = c) ->
      Recurrence.computeNextOccurrence host rrule scheduled
      = Some (Some (anchor + n * JsDate.msPerDay))).
  { intros host c rrule scheduled parsed n anchor Hp Hf Hi Hn Ha Hmax Hu Hl.
    rewrite (computeNextOccurrence_search _ _ _ _ _ Hp Ha).
    unfold Recurrence.noFreq. rewrite Hf. cbn [Recurrence.falsy Str.isEmpty].
    destruct (interval parsed) as [| | |q] eqn:Eq; try discriminate.
    pose proof (ofValue_Some _ _ _ Ha) as Hvalid.
    replace (Some anchor) with (Some (anchor + 0 * JsDate.msPerDay)) at 2
      by (f_equal; lia).
    apply (search_daily_steady host c parsed q n anchor); try assumption; try lia.
    - unfold Recurrence.freqOrDaily. rewrite Hf. reflexivity.
    - apply Qeq_bool_iff. exact Hi.
    - unfold Recurrence.maxIterations. lia. }
  split.
  - intros host c rrule scheduled parsed n anchor Hp Hf Hi Hn Ha Hmax Hu Hl next.
    split; [apply (General host c rrule scheduled parsed n anchor); assumption|].
    unfold next, JsDate.LocalTime.
    pose proof (Hu 0 ltac:(lia)) as H0.
    replace (anchor + 0 * JsDate.msPerDay) with anchor in H0 by lia.
    rewrite (Hu n) by lia. rewrite H0.
    replace (anchor + n * JsDate.msPerDay + c)
      with (anchor + c + n * JsDate.msPerDay) by lia.
    split; [apply Day_add_days | apply TimeWithinDay_add_days].
  - intros host c Hc Hu Hl.
    assert (Hlocal : forall (s : string) (k : Z),
              0 <= k <= 2 ->
              JsDate.parseISO s = Some (1704099600000 + k * JsDate.msPerDay, true) ->
              JsDate.ofString host s
              = Some (1704099600000 - c + k * JsDate.msPerDay)).
    { intros s k Hk Hs. unfold JsDate.ofString. rewrite Hs.
      unfold JsDate.UTC. rewrite (Hl k Hk).
      replace (1704099600000 + k * JsDate.msPerDay - c)
        with (1704099600000 - c + k * JsDate.msPerDay) by lia.
      apply TimeClip_valid.
      unfold JsDate.maxTime, JsDate.msPerDay in *. lia. }
    assert (Ha : JsDate.ofValue host (VStr "2024-01-01T09:00")
                 = Some (1704099600000 - c)).
    { cbn [JsDate.ofValue]. rewrite (Hlocal _ 0); [f_equal; lia | lia |].
      vm_compute. reflexivity. }
    assert (Hp : Recurrence.parseRecurrence "RRULE:FREQ=DAILY;INTERVAL=2"
                 = Ok {| freq := Some "DAILY"; interval := Fin 2; byDay := [] |})
      by (vm_compute; reflexivity).
    rewrite (General host c "RRULE:FREQ=DAILY;INTERVAL=2" (VStr "2024-01-01T09:00")
               _ 2 (1704099600000 - c) Hp eq_refl eq_refl ltac:(lia) Ha).
    + rewrite (Hlocal "2024-01-03T09:00" 2); [reflexivity | lia |].
      vm_compute. reflexivity.
    + unfold JsDate.maxTime, JsDate.msPerDay in *. lia.
    + intros k Hk. apply Hu. lia.
    + intros k Hk.
      replace (1704099600000 - c + k * JsDate.msPerDay + c)
        with (1704099600000 + k * JsDate.msPerDay) by lia.
      apply Hl. lia.
Qed.

Lemma daily_next_occurrence_steady_offset_witness :
  Recurrence.computeNextOccurrence easternHost
    "RRULE:FREQ=DAILY;INTERVAL=2" (VStr "2024-01-01T09:00")
  = Some (Some (1704117600000 + 2 * JsDate.msPerDay)).
Proof.
  apply (proj1 daily_next_occurrence_steady_offset easternHost (-18000000)
           "RRULE:FREQ=DAILY;INTERVAL=2" (VStr "2024-01-01T09:00")
           {| freq := Some "DAILY"; interval := Fin 2; byDay := [] |} 2 1704117600000).
  - vm_compute. reflexivity.
  - reflexivity.
  - reflexivity.
  - lia.
  - vm_compute. reflexivity.
  - vm_compute. discriminate.
  - intros k Hk. unfold easternHost, JsDate.msPerDay. cbn [tzaUTC].
    destruct (Z.ltb_spec (1704117600000 + k * 86400000) 1710054000000);
      [reflexivity | lia].
  - intros k Hk. unfold easternHost, JsDate.msPerDay. cbn [tzaLocal].
    destruct (Z.ltb_spec (1704117600000 + k * 86400000 + -18000000) 1710039600000);
      [reflexivity | lia].
Defined.

(** C1 (as stated) fails where the offset of local time changes: on
    United States Eastern time a daily rule anchored on 2024-03-09T09:00
    rejects its first candidate, 2024-03-10T09:00, which is only 23
    hours after the anchor since the clocks go forward on that day, and
    returns 2024-03-11T09:00, two calendar days after the anchor. *)
Lemma daily_across_clock_change :
  let host := easternHost in
  let daily := {| freq := Some "DAILY"; interval := Fin 1; byDay := [] |} in
  let anchor := 1709992800000 in
  let first := 1710075600000 in
  let next := 1710162000000 in
  Recurrence.parseRecurrence "RRULE:FREQ=DAILY;INTERVAL=1" = Ok daily
  /\ JsDate.ofValue host (VStr "2024-03-09T09:00") = Some anchor
  /\ Recurrence.incrementRecurrence host (Some anchor) daily = Some first
  /\ Some first = JsDate.ofString host "2024-03-10T09:00"
  /\ first - anchor = 23 * JsDate.msPerHour
  /\ Recurrence.matchesRecurrence host (Some first) (Some anchor) daily = false
  /\ Recurrence.computeNextOccurrence host "RRULE:FREQ=DAILY;INTERVAL=1"
       (VStr "2024-03-09T09:00") = Some (Some next)
  /\ Some next = JsDate.ofString host "2024-03-11T09:00"
  /\ JsDate.Day (JsDate.LocalTime host next)
     = JsDate.Day (JsDate.LocalTime host anchor) + 2
  /\ JsDate.Day (JsDate.LocalTime host next)
     <> JsDate.Day (JsDate.LocalTime host anchor) + 1.
Proof.
  vm_compute. repeat split; discriminate.
Qed.

Section WeekdayFacts.

Import Recurrence.

Lemma WeekDay_range (t : Z) : 0 <= JsDate.WeekDay t <= 6.
Proof.
  unfold JsDate.WeekDay. pose proof (Z.mod_pos_bound (JsDate.Day t + 4) 7). lia.
Qed.

(** The code of a weekday number is the entry of the table. *)
Lemma getWeekdayCode_table (i : Z) :
  0 <= i <= 6 ->
  weekdayCodes !! Z.to_nat i = Some (getWeekdayCode (Num.ofZ i)).
Proof.
  intros Hi. unfold getWeekdayCode. rewrite toInteger_ofZ.
  replace (0 <=? i) with true by (symmetry; apply Z.leb_le; lia).
  assert (H : i = 0 \/ i = 1 \/ i = 2 \/ i = 3 \/ i = 4 \/ i = 5 \/ i = 6) by lia.
  destruct H as [->|[->|[->|[->|[->|[->| ->]]]]]]; reflexivity.
Qed.

(** Whatever the number, [getWeekdayCode] answers with a code of the
    table. *)
Lemma getWeekdayCode_in (x : number) : In (getWeekdayCode x) weekdayCodes.
Proof.
  unfold getWeekdayCode.
  destruct (Num.toInteger x) as [i|]; [|cbn; tauto].
  destruct (0 <=? i); [|cbn; tauto].
  destruct (Z.to_nat i) as [|[|[|[|[|[|[|n]]]]]]]; cbn; tauto.
Qed.

Lemma includes_In (l : list string) (x : string) :
  includes l x = true <-> In x l.
Proof.
  unfold includes. rewrite existsb_exists. split.
  - intros (y & Hy & E). apply String.eqb_eq in E. subst. exact Hy.
  - intros H. exists x. split; [exact H | apply String.eqb_refl].
Qed.

Lemma weekdayCodeOf_fixed (c : Z) (lp : string -> option Z) (l : Z) :
  weekdayCodeOf (fixedHost c lp) (l - c) = weekdayCodeOf utcHost l.
Proof.
  unfold weekdayCodeOf, JsDate.LocalTime, utcHost, fixedHost. cbn [tzaUTC].
  do 3 f_equal. lia.
Qed.

End WeekdayFacts.

(** C2.  For a WEEKLY rule with a non-empty weekday set, a timestamp
    returned by [computeNextOccurrence] is more than a whole day after
    the anchor, falls on a weekday whose code is in the set, and lies
    in a week whose offset [floor(daysDiff / 7)] from the anchor is a
    multiple of the interval; in particular
    [RRULE:FREQ=WEEKLY;BYDAY=MO,WE,FR] from Monday 2024-01-01T09:00
    gives Wednesday 2024-01-03T09:00. *)
Theorem weekly_occurrence_on_listed_weekday :
  (forall (host : Host) (rrule : string) (scheduled : jsval)
          (parsed : ParsedRecurrence) (d : Date),
      Recurrence.parseRecurrence rrule = Ok parsed ->
      freq parsed = Some "WEEKLY" ->
      byDay parsed <> [] ->
      Recurrence.computeNextOccurrence host rrule scheduled = Some d ->
      exists c b : Z,
        d = Some c
        /\ JsDate.ofValue host scheduled = Some b
        /\ 0 < daysBetween c b
        /\ Recurrence.weekdayCodes
             !! Z.to_nat (JsDate.WeekDay (JsDate.LocalTime host c))
           = Some (weekdayCodeOf host c)
        /\ In (weekdayCodeOf host c) (byDay parsed)
        /\ divides (interval parsed) (daysBetween c b / 7) = true)
  /\ (forall (c : Z) (lp : string -> option Z),
        Z.abs c <= JsDate.msPerDay ->
        let host := fixedHost c lp in
        Recurrence.computeNextOccurrence host
          "RRULE:FREQ=WEEKLY;BYDAY=MO,WE,FR" (VStr "2024-01-01T09:00")
        = Some (JsDate.ofString host "2024-01-03T09:00")
        /\ (exists a, JsDate.ofString host "2024-01-01T09:00" = Some a
                      /\ weekdayCodeOf host a = "MO")
        /\ (exists n, JsDate.ofString host "2024-01-03T09:00" = Some n
                      /\ weekdayCodeOf host n = "WE")).
Proof.
  split.
  - intros host rrule scheduled parsed d Hp Hf Hby Hres.
    destruct (JsDate.ofValue host scheduled) as [b|] eqn:Hb;
      [|rewrite computeNextOccurrence_invalid in Hres by exact Hb; discriminate].
    rewrite (computeNextOccurrence_search _ _ _ _ _ Hp Hb) in Hres.
    destruct (Recurrence.noFreq parsed); [discriminate|].
    apply search_Some in Hres. destruct Hres as (k & _ & _ & Hm & _).
    destruct d as [c|]; [|rewrite matchesRecurrence_invalid in Hm; discriminate].
    exists c, b. split; [reflexivity|]. split; [reflexivity|].
    rewrite matchesRecurrence_integers in Hm. cbv zeta in Hm.
    rewrite (orElse_positive _ (parseRecurrence_positive _ _ Hp)) in Hm.
    unfold Recurrence.freqOrDaily in Hm. rewrite Hf in Hm.
    cbn [Str.truthy Str.isEmpty negb String.eqb Ascii.eqb Bool.eqb] in Hm.
    destruct (daysBetween c b <=? 0) eqn:Edd; [discriminate|].
    apply Z.leb_gt in Edd. split; [exact Edd|].
    split; [apply getWeekdayCode_table, WeekDay_range|].
    destruct (divides (interval parsed) (daysBetween c b / 7)); [|discriminate].
    cbn [negb] in Hm.
    destruct (byDay parsed) as [|x l] eqn:El; [congruence|].
    cbn [List.length Nat.eqb negb] in Hm.
    split; [apply includes_In; exact Hm | reflexivity].
  - intros c lp Hc host. subst host.
    assert (Ha : JsDate.ofString (fixedHost c lp) "2024-01-01T09:00" = Some (1704099600000 - c)).
    { apply ofString_local_fixed; [vm_compute; reflexivity|].
      unfold JsDate.maxTime, JsDate.msPerDay in *. lia. }
    assert (Hn : JsDate.ofString (fixedHost c lp) "2024-01-03T09:00" = Some (1704272400000 - c)).
    { apply ofString_local_fixed; [vm_compute; reflexivity|].
      unfold JsDate.maxTime, JsDate.msPerDay in *. lia. }
    split; [|split].
    + set (parsed := {| freq := Some "WEEKLY"; interval := Fin 1;
                        byDay := ["MO"; "WE"; "FR"] |}).
      rewrite (computeNextOccurrence_search (fixedHost c lp) _ _ parsed (1704099600000 - c));
        [|vm_compute; reflexivity | exact Ha].
      cbn [Recurrence.noFreq Recurrence.falsy parsed freq Str.isEmpty].
      change Recurrence.maxIterations with (S (S 498)).
      rewrite search_S. rewrite increment_day_fixed;
        [|reflexivity | unfold JsDate.maxTime, JsDate.msPerDay in *; lia].
      rewrite TimeClip_valid
        by (unfold JsDate.maxTime, JsDate.msPerDay in *; lia).
      replace (1704099600000 - c + JsDate.msPerDay)
        with (1704099600000 - c + 1 * JsDate.msPerDay) by lia.
      rewrite matchesRecurrence_integers. cbv zeta.
      rewrite daysBetween_steps.
      replace (1704099600000 - c + 1 * JsDate.msPerDay)
        with (1704186000000 - c) by (unfold JsDate.msPerDay; lia).
      rewrite weekdayCodeOf_fixed.
      replace (weekdayCodeOf utcHost 1704186000000) with "TU"
        by (vm_compute; reflexivity).
      cbv beta iota delta
        [Recurrence.freqOrDaily parsed freq byDay interval Str.truthy Str.isEmpty
         negb Z.leb Z.compare String.eqb Ascii.eqb Bool.eqb Recurrence.includes
         List.existsb List.length Nat.eqb orb andb].
      replace (divides (Num.orElse (Fin 1) (Fin 1)) (1 / 7)) with true
        by (vm_compute; reflexivity).
      cbv beta iota delta [negb].
      rewrite search_S. rewrite increment_day_fixed;
        [|reflexivity | unfold JsDate.maxTime, JsDate.msPerDay in *; lia].
      rewrite TimeClip_valid
        by (unfold JsDate.maxTime, JsDate.msPerDay in *; lia).
      replace (1704186000000 - c + JsDate.msPerDay)
        with (1704099600000 - c + 2 * JsDate.msPerDay)
        by (unfold JsDate.msPerDay; lia).
      rewrite matchesRecurrence_integers. cbv zeta.
      rewrite daysBetween_steps.
      replace (1704099600000 - c + 2 * JsDate.msPerDay)
        with (1704272400000 - c) by (unfold JsDate.msPerDay; lia).
      rewrite weekdayCodeOf_fixed.
      replace (weekdayCodeOf utcHost 1704272400000) with "WE"
        by (vm_compute; reflexivity).
      cbv beta iota delta
        [Recurrence.freqOrDaily parsed freq byDay interval Str.truthy Str.isEmpty
         negb Z.leb Z.compare String.eqb Ascii.eqb Bool.eqb Recurrence.includes
         List.existsb List.length Nat.eqb orb andb].
      replace (divides (Num.orElse (Fin 1) (Fin 1)) (2 / 7)) with true
        by (vm_compute; reflexivity).
      cbv beta iota delta [negb].
      rewrite Hn. reflexivity.
    + exists (1704099600000 - c). split; [exact Ha|].
      rewrite weekdayCodeOf_fixed. vm_compute. reflexivity.
    + exists (1704272400000 - c). split; [exact Hn|].
      rewrite weekdayCodeOf_fixed. vm_compute. reflexivity.
Qed.

Lemma weekly_occurrence_on_listed_weekday_witness :
  exists c b : Z,
    Some (1704272400000 : Z) = Some c
    /\ JsDate.ofValue utcHost (VStr "2024-01-01T09:00") = Some b
    /\ 0 < daysBetween c b
    /\ Recurrence.weekdayCodes
         !! Z.to_nat (JsDate.WeekDay (JsDate.LocalTime utcHost c))
       = Some (weekdayCodeOf utcHost c)
    /\ In (weekdayCodeOf utcHost c) ["MO"; "WE"; "FR"]
    /\ divides (Fin 1) (daysBetween c b / 7) = true.
Proof.
  apply (proj1 weekly_occurrence_on_listed_weekday utcHost
           "RRULE:FREQ=WEEKLY;BYDAY=MO,WE,FR" (VStr "2024-01-01T09:00")
           {| freq := Some "WEEKLY"; interval := Fin 1; byDay := ["MO"; "WE"; "FR"] |}
           (Some 1704272400000)).
  - vm_compute. reflexivity.
  - reflexivity.
  - discriminate.
  - vm_compute. reflexivity.
Defined.

(** ** Calendar months *)

Section CalendarFacts.

Import JsDate.

Local Ltac div_lia := Z.div_mod_to_equations; lia.

Lemma DaysInYear_cases (y : Z) : DaysInYear y = 365 \/ DaysInYear y = 366.
Proof.
  unfold DaysInYear.
  repeat match goal with
         | |- context [if ?b then _ else _] => destruct b
         end; auto.
Qed.

Lemma DayFromYear_succ (y : Z) : DayFromYear (y + 1) = DayFromYear y + DaysInYear y.
Proof.
  unfold DayFromYear, DaysInYear.
  destruct (y mod 4 =? 0) eqn:E4; cbn [negb].
  - apply Z.eqb_eq in E4.
    destruct (y mod 100 =? 0) eqn:E100; cbn [negb].
    + apply Z.eqb_eq in E100.
      destruct (y mod 400 =? 0) eqn:E400; cbn [negb].
      * apply Z.eqb_eq in E400. div_lia.
      * apply Z.eqb_neq in E400. div_lia.
    + apply Z.eqb_neq in E100. div_lia.
  - apply Z.eqb_neq in E4. div_lia.
Qed.

Lemma DayFromYear_mono (y1 y2 : Z) : y1 <= y2 -> DayFromYear y1 <= DayFromYear y2.
Proof.
  unfold DayFromYear. div_lia.
Qed.

(** [YearFromDay] is the year of the day: the largest [y] with
    [DayFromYear y <= d]. *)
Lemma YearFromDay_spec (d : Z) :
  DayFromYear (YearFromDay d) <= d < DayFromYear (YearFromDay d + 1).
Proof.
  unfold YearFromDay.
  destruct (d <? DayFromYear (1970 + 400 * d / 146097)) eqn:E1.
  - apply Z.ltb_lt in E1. unfold DayFromYear in *. div_lia.
  - apply Z.ltb_ge in E1.
    destruct (DayFromYear (1970 + 400 * d / 146097 + 1) <=? d) eqn:E2.
    + apply Z.leb_le in E2. unfold DayFromYear in *. div_lia.
    + apply Z.leb_gt in E2. split; assumption.
Qed.

Lemma YearFromDay_unique (d y : Z) :
  DayFromYear y <= d < DayFromYear (y + 1) -> YearFromDay d = y.
Proof.
  intros H. pose proof (YearFromDay_spec d) as S.
  destruct (Z.lt_trichotomy (YearFromDay d) y) as [L|[E|L]]; [|exact E|].
  - assert (M : YearFromDay d + 1 <= y) by lia.
    apply DayFromYear_mono in M. lia.
  - assert (M : y + 1 <= YearFromDay d) by lia.
    apply DayFromYear_mono in M. lia.
Qed.

Lemma DayWithinYear_range (t : Z) :
  0 <= DayWithinYear t < DaysInYear (YearFromTime t).
Proof.
  unfold DayWithinYear, YearFromTime.
  pose proof (YearFromDay_spec (Day t)) as S.
  rewrite DayFromYear_succ in S. lia.
Qed.

Lemma InLeapYear_DaysInYear (t : Z) :
  InLeapYear t = DaysInYear (YearFromTime t) - 365.
Proof.
  unfold InLeapYear.
  destruct (DaysInYear_cases (YearFromTime t)) as [H|H]; rewrite H; reflexivity.
Qed.

(** The day number of a time, from its calendar fields. *)
Lemma Day_fields (t : Z) :
  Day t = DayFromYear (YearFromTime t)
          + monthStart (InLeapYear t) (MonthFromTime t) + DateFromTime t - 1.
Proof.
  unfold DateFromTime, DayWithinYear. lia.
Qed.

Lemma monthStart_later (leap m1 m2 : Z) :
  0 <= leap <= 1 -> 0 <= m1 -> m1 < m2 -> m2 <= 11 ->
  monthStart leap m1 + 28 <= monthStart leap m2.
Proof.
  intros Hl H1 H12 H2.
  assert (C1 : m1 = 0 \/ m1 = 1 \/ m1 = 2 \/ m1 = 3 \/ m1 = 4 \/ m1 = 5 \/ m1 = 6
               \/ m1 = 7 \/ m1 = 8 \/ m1 = 9 \/ m1 = 10) by lia.
  assert (C2 : m2 = 1 \/ m2 = 2 \/ m2 = 3 \/ m2 = 4 \/ m2 = 5 \/ m2 = 6
               \/ m2 = 7 \/ m2 = 8 \/ m2 = 9 \/ m2 = 10 \/ m2 = 11) by lia.
  destruct C1 as [->|[->|[->|[->|[->|[->|[->|[->|[->|[->| ->]]]]]]]]]];
    destruct C2 as [->|[->|[->|[->|[->|[->|[->|[->|[->|[->| ->]]]]]]]]]];
    cbn [monthStart Z.eqb Pos.eqb]; lia.
Qed.

Lemma monthStart_bounds (leap m : Z) :
  0 <= leap <= 1 -> 0 <= monthStart leap m <= 334 + leap.
Proof.
  intros Hl. unfold monthStart.
  repeat match goal with
         | |- context [if ?b then _ else _] => destruct b
         end; lia.
Qed.

(** Two times on the same day of the month, the second in a later
    calendar month, are at least 28 day numbers apart. *)
Lemma later_month_same_date (lc lb : Z) :
  0 < (YearFromTime lc - YearFromTime lb) * 12
      + (MonthFromTime lc - MonthFromTime lb) ->
  DateFromTime lc = DateFromTime lb ->
  Day lb + 28 <= Day lc.
Proof.
  intros Hm Hd.
  rewrite (Day_fields lc), (Day_fields lb), Hd.
  pose proof (MonthFromTime_range lc) as Rc.
  pose proof (MonthFromTime_range lb) as Rb.
  rewrite !InLeapYear_DaysInYear.
  destruct (Z.eq_dec (YearFromTime lc) (YearFromTime lb)) as [E|E].
  - rewrite E.
    pose proof (DaysInYear_cases (YearFromTime lb)) as Hy.
    pose proof (monthStart_later (DaysInYear (YearFromTime lb) - 365)
                  (MonthFromTime lb) (MonthFromTime lc)) as H.
    lia.
  - assert (Hy : YearFromTime lb + 1 <= YearFromTime lc) by lia.
    apply DayFromYear_mono in Hy. rewrite DayFromYear_succ in Hy.
    pose proof (DaysInYear_cases (YearFromTime lb)) as Hb.
    pose proof (DaysInYear_cases (YearFromTime lc)) as Hc.
    pose proof (monthStart_bounds (DaysInYear (YearFromTime lb) - 365)
                  (MonthFromTime lb)) as Bb.
    pose proof (monthStart_bounds (DaysInYear (YearFromTime lc) - 365)
                  (MonthFromTime lc)) as Bc.
    lia.
Qed.

(** The date of a time is a day of its month. *)
Lemma DateFromTime_range (t : Z) : 1 <= DateFromTime t <= 31.
Proof.
  pose proof (DayWithinYear_range t) as R.
  unfold DateFromTime, MonthFromTime.
  pose proof (InLeapYear_DaysInYear t) as L.
  pose proof (DaysInYear_cases (YearFromTime t)) as C.
  repeat match goal with
         | |- context [if ?b then _ else _] =>
             let E := fresh "E" in
             destruct b eqn:E;
             [apply Z.ltb_lt in E | apply Z.ltb_ge in E]
         end;
    cbn [monthStart Z.eqb Pos.eqb]; lia.
Qed.

Lemma Day_bounds (t : Z) : Day t * msPerDay <= t < (Day t + 1) * msPerDay.
Proof.
  unfold Day, msPerDay. div_lia.
Qed.

(** So, in a host whose offset from UTC never exceeds a day, the
    second is more than a whole day after the first. *)
Lemma later_month_days_between (host : Host) (c b : Z) :
  (forall t, Z.abs (tzaUTC host t) <= msPerDay) ->
  0 < monthsBetween host c b ->
  DateFromTime (LocalTime host c) = DateFromTime (LocalTime host b) ->
  0 < daysBetween c b.
Proof.
  intros Htz Hm Hd.
  pose proof (later_month_same_date _ _ Hm Hd) as H.
  pose proof (Day_bounds (LocalTime host c)) as Bc.
  pose proof (Day_bounds (LocalTime host b)) as Bb.
  pose proof (Htz c) as Tc. pose proof (Htz b) as Tb.
  unfold LocalTime in *.
  unfold daysBetween.
  apply Z.div_str_pos. unfold msPerDay in *. lia.
Qed.

End CalendarFacts.

Section FixedOffsetMonths.

Import Recurrence.

Variable c : Z.
Variable lp : string -> option Z.

Lemma LocalTime_fixed (l : Z) : JsDate.LocalTime (fixedHost c lp) (l - c) = l.
Proof.
  unfold JsDate.LocalTime, fixedHost. cbn [tzaUTC]. lia.
Qed.

Lemma LocalTime_utc (l : Z) : JsDate.LocalTime utcHost l = l.
Proof.
  unfold JsDate.LocalTime, utcHost, fixedHost. cbn [tzaUTC]. lia.
Qed.

(** Matching depends on the local times only. *)
Lemma matchesRecurrence_fixed (a b : Z) (parsed : ParsedRecurrence) :
  matchesRecurrence (fixedHost c lp) (Some (a - c)) (Some (b - c)) parsed
  = matchesRecurrence utcHost (Some a) (Some b) parsed.
Proof.
  rewrite !matchesRecurrence_integers. cbv zeta.
  unfold weekdayCodeOf, monthsBetween, daysBetween.
  rewrite !LocalTime_fixed, !LocalTime_utc.
  replace (a - c - (b - c)) with (a - b) by lia.
  reflexivity.
Qed.

Lemma increment_month_fixed (l : Z) (parsed : ParsedRecurrence) :
  String.eqb (freqOrDaily parsed) "MONTHLY" = true ->
  Z.abs (l - c) <= JsDate.maxTime ->
  incrementRecurrence (fixedHost c lp) (Some (l - c)) parsed
  = JsDate.TimeClip (monthStepLocal l - c).
Proof.
  intros Hm Hl. unfold incrementRecurrence.
  rewrite (ofNumber_getTime (Some (l - c))) by exact Hl.
  rewrite Hm.
  unfold JsDate.setMonth, JsDate.getMonth, JsDate.localField.
  rewrite LocalTime_fixed.
  change (Fin 1) with (Num.ofZ 1). rewrite add_ofZ. unfold Num.ofZ.
  rewrite truncQ_inject_Z.
  unfold JsDate.UTC, fixedHost. cbn [tzaLocal]. reflexivity.
Qed.

End FixedOffsetMonths.

(** C3.  For a MONTHLY rule, a candidate matches relative to the anchor
    exactly when the calendar-month difference between anchor and
    candidate is strictly positive, divisible by the interval, and the
    candidate's day of the month is the anchor's (the host's offset from
    UTC being under a day, as that of every time zone is); in particular
    [RRULE:FREQ=MONTHLY] from 2024-01-15T09:00 gives 2024-02-15T09:00. *)
Theorem monthly_match_condition :
  (forall (host : Host) (rrule : string) (parsed : ParsedRecurrence) (c b : Z),
      (forall t, Z.abs (tzaUTC host t) <= JsDate.msPerDay) ->
      Recurrence.parseRecurrence rrule = Ok parsed ->
      freq parsed = Some "MONTHLY" ->
      (Recurrence.matchesRecurrence host (Some c) (Some b) parsed = true
       <-> (0 < monthsBetween host c b
            /\ divides (interval parsed) (monthsBetween host c b) = true
            /\ JsDate.DateFromTime (JsDate.LocalTime host c)
               = JsDate.DateFromTime (JsDate.LocalTime host b))))
  /\ (forall (c : Z) (lp : string -> option Z),
        Z.abs c <= JsDate.msPerDay ->
        Recurrence.computeNextOccurrence (fixedHost c lp)
          "RRULE:FREQ=MONTHLY" (VStr "2024-01-15T09:00")
        = Some (JsDate.ofString (fixedHost c lp) "2024-02-15T09:00")).
Proof.
  split.
  - intros host rrule parsed c b Htz Hp Hf.
    rewrite matchesRecurrence_integers. cbv zeta.
    rewrite (orElse_positive _ (parseRecurrence_positive _ _ Hp)).
    unfold Recurrence.freqOrDaily. rewrite Hf.
    cbn [Str.truthy Str.isEmpty negb String.eqb Ascii.eqb Bool.eqb].
    split.
    + destruct (daysBetween c b <=? 0); [discriminate|].
      destruct (monthsBetween host c b <=? 0) eqn:Em; [discriminate|].
      apply Z.leb_gt in Em.
      destruct (divides (interval parsed) (monthsBetween host c b));
        [|discriminate].
      cbn [negb]. intros H. apply Z.eqb_eq in H. auto.
    + intros (Hm & Hdiv & Hd).
      pose proof (later_month_days_between host c b Htz Hm Hd) as Hdd.
      replace (daysBetween c b <=? 0) with false
        by (symmetry; apply Z.leb_gt; exact Hdd).
      replace (monthsBetween host c b <=? 0) with false
        by (symmetry; apply Z.leb_gt; exact Hm).
      rewrite Hdiv. cbn [negb]. apply Z.eqb_eq. exact Hd.
  - intros c lp Hc.
    set (parsed := {| freq := Some "MONTHLY"; interval := Fin 1; byDay := [] |}).
    assert (Ha : JsDate.ofValue (fixedHost c lp) (VStr "2024-01-15T09:00")
                 = Some (1705309200000 - c)).
    { apply ofString_local_fixed; [vm_compute; reflexivity|].
      unfold JsDate.maxTime, JsDate.msPerDay in *. lia. }
    rewrite (computeNextOccurrence_search (fixedHost c lp) _ _ parsed
               (1705309200000 - c));
      [|vm_compute; reflexivity | exact Ha].
    cbn [Recurrence.noFreq Recurrence.falsy parsed freq Str.isEmpty].
    change Recurrence.maxIterations with (S 499).
    rewrite search_S.
    rewrite increment_month_fixed;
      [|reflexivity | unfold JsDate.maxTime, JsDate.msPerDay in *; lia].
    replace (monthStepLocal 1705309200000) with 1707987600000
      by (vm_compute; reflexivity).
    rewrite TimeClip_valid by (unfold JsDate.maxTime, JsDate.msPerDay in *; lia).
    rewrite matchesRecurrence_fixed.
    replace (Recurrence.matchesRecurrence utcHost (Some 1707987600000)
               (Some 1705309200000) parsed) with true
      by (vm_compute; reflexivity).
    rewrite (ofString_local_fixed c lp "2024-02-15T09:00" 1707987600000);
      [reflexivity | vm_compute; reflexivity
       | unfold JsDate.maxTime, JsDate.msPerDay in *; lia].
Qed.

Lemma monthly_match_condition_witness :
  Recurrence.matchesRecurrence utcHost (Some 1707987600000) (Some 1705309200000)
    {| freq := Some "MONTHLY"; interval := Fin 1; byDay := [] |} = true
  <-> (0 < monthsBetween utcHost 1707987600000 1705309200000
       /\ divides (Fin 1) (monthsBetween utcHost 1707987600000 1705309200000) = true
       /\ JsDate.DateFromTime (JsDate.LocalTime utcHost 1707987600000)
          = JsDate.DateFromTime (JsDate.LocalTime utcHost 1705309200000)).
Proof.
  apply (proj1 monthly_match_condition utcHost "RRULE:FREQ=MONTHLY"
           {| freq := Some "MONTHLY"; interval := Fin 1; byDay := [] |}).
  - intros t. vm_compute. discriminate.
  - vm_compute. reflexivity.
  - reflexivity.
Defined.

(** C4.  [computeNextOccurrence] always returns: what it returns is the
    first of the 500 candidates stepped from the anchor that matches,
    and it is [null] whenever none of these 500 matches, as for a rule
    that nothing can satisfy (a weekday set of malformed codes). *)
Theorem search_is_bounded (host : Host) (rrule : string) (scheduled : jsval) :
  (forall d : Date,
      Recurrence.computeNextOccurrence host rrule scheduled = Some d ->
      exists (parsed : ParsedRecurrence) (b : Z) (k : nat),
        Recurrence.parseRecurrence rrule = Ok parsed
        /\ JsDate.ofValue host scheduled = Some b
        /\ (1 <= k <= 500)%nat
        /\ d = candidateAt host parsed (Some b) k
        /\ Recurrence.matchesRecurrence host d (Some b) parsed = true
        /\ forall j : nat, (1 <= j < k)%nat ->
             Recurrence.matchesRecurrence host
               (candidateAt host parsed (Some b) j) (Some b) parsed = false)
  /\ (forall parsed : ParsedRecurrence,
        Recurrence.parseRecurrence rrule = Ok parsed ->
        (forall k : nat, (1 <= k <= 500)%nat ->
           Recurrence.matchesRecurrence host
             (candidateAt host parsed (JsDate.ofValue host scheduled) k)
             (JsDate.ofValue host scheduled) parsed = false) ->
        Recurrence.computeNextOccurrence host rrule scheduled = None)
  /\ Recurrence.computeNextOccurrence host "RRULE:FREQ=WEEKLY;BYDAY=XX" scheduled
     = None.
Proof.
  split; [|split].
  - intros d Hres.
    destruct (Recurrence.parseRecurrence rrule) as [parsed|e] eqn:Hp;
      [|unfold Recurrence.computeNextOccurrence in Hres; rewrite Hp in Hres;
        discriminate].
    destruct (JsDate.ofValue host scheduled) as [b|] eqn:Hb;
      [|rewrite computeNextOccurrence_invalid in Hres by exact Hb; discriminate].
    rewrite (computeNextOccurrence_search _ _ _ _ _ Hp Hb) in Hres.
    destruct (Recurrence.noFreq parsed); [discriminate|].
    apply search_Some in Hres. destruct Hres as (k & Hk & Hd & Hm & Hfirst).
    exists parsed, b, k. unfold Recurrence.maxIterations in Hk.
    repeat split; try assumption; lia.
  - intros parsed Hp Hnone.
    destruct (JsDate.ofValue host scheduled) as [b|] eqn:Hb;
      [|apply computeNextOccurrence_invalid; exact Hb].
    rewrite (computeNextOccurrence_search _ _ _ _ _ Hp Hb).
    destruct (Recurrence.noFreq parsed); [reflexivity|].
    apply search_None. exact Hnone.
  - destruct (JsDate.ofValue host scheduled) as [b|] eqn:Hb;
      [|apply computeNextOccurrence_invalid; exact Hb].
    set (parsed := {| freq := Some "WEEKLY"; interval := Fin 1; byDay := ["XX"] |}).
    rewrite (computeNextOccurrence_search host _ _ parsed b);
      [|vm_compute; reflexivity | exact Hb].
    cbn [Recurrence.noFreq Recurrence.falsy parsed freq Str.isEmpty].
    apply search_None. intros k _.
    destruct (candidateAt host parsed (Some b) k) as [c|];
      [|apply matchesRecurrence_invalid].
    rewrite matchesRecurrence_integers. cbv zeta.
    destruct (daysBetween c b <=? 0); [reflexivity|].
    cbn [Recurrence.freqOrDaily parsed freq byDay interval Str.truthy Str.isEmpty
         negb String.eqb Ascii.eqb Bool.eqb List.length Nat.eqb].
    destruct (negb (divides _ _)); [reflexivity|].
    unfold weekdayCodeOf.
    pose proof (getWeekdayCode_in
                  (Num.ofZ (JsDate.WeekDay (JsDate.LocalTime host c)))) as Hin.
    cbn [Recurrence.weekdayCodes In] in Hin.
    destruct Hin as [<-|[<-|[<-|[<-|[<-|[<-|[<-|[]]]]]]]]; reflexivity.
Qed.

Lemma search_is_bounded_witness :
  exists (parsed : ParsedRecurrence) (b : Z) (k : nat),
    Recurrence.parseRecurrence "RRULE:FREQ=DAILY;INTERVAL=2" = Ok parsed
    /\ JsDate.ofValue utcHost (VStr "2024-01-01T09:00") = Some b
    /\ (1 <= k <= 500)%nat
    /\ Some 1704272400000 = candidateAt utcHost parsed (Some b) k
    /\ Recurrence.matchesRecurrence utcHost (Some 1704272400000) (Some b) parsed
       = true
    /\ forall j : nat, (1 <= j < k)%nat ->
         Recurrence.matchesRecurrence utcHost
           (candidateAt utcHost parsed (Some b) j) (Some b) parsed = false.
Proof.
  apply (proj1 (search_is_bounded utcHost "RRULE:FREQ=DAILY;INTERVAL=2"
                  (VStr "2024-01-01T09:00")) (Some 1704272400000)).
  vm_compute. reflexivity.
Defined.

(** C8 (amended).  For a rule whose frequency is present but is not
    DAILY, WEEKLY or MONTHLY, the search steps by one day as for DAILY,
    but the matching test rejects every candidate, so that
    [computeNextOccurrence] returns [null] whatever the anchor. *)
Theorem unknown_frequency_never_matches (host : Host) (rrule : string)
    (scheduled : jsval) (parsed : ParsedRecurrence) (f : string) :
  Recurrence.parseRecurrence rrule = Ok parsed ->
  freq parsed = Some f ->
  f <> "" -> f <> "DAILY" -> f <> "WEEKLY" -> f <> "MONTHLY" ->
  Recurrence.computeNextOccurrence host rrule scheduled = None
  /\ (forall d : Date,
        Recurrence.incrementRecurrence host d parsed
        = Recurrence.incrementRecurrence host d (withFreq "DAILY" parsed))
  /\ (forall c b : Date, Recurrence.matchesRecurrence host c b parsed = false).
Proof.
  intros Hp Hf He Hd Hw Hm.
  assert (Hfreq : Recurrence.freqOrDaily parsed = f).
  { unfold Recurrence.freqOrDaily. rewrite Hf.
    destruct f; [congruence | reflexivity]. }
  assert (Hmatch : forall c b : Date,
             Recurrence.matchesRecurrence host c b parsed = false).
  { intros c b. apply matchesRecurrence_unknown; rewrite Hfreq;
      apply String.eqb_neq; assumption. }
  split; [|split].
  - destruct (JsDate.ofValue host scheduled) as [b|] eqn:Hb;
      [|apply computeNextOccurrence_invalid; exact Hb].
    rewrite (computeNextOccurrence_search _ _ _ _ _ Hp Hb).
    destruct (Recurrence.noFreq parsed); [reflexivity|].
    apply search_None. intros k _. apply Hmatch.
  - intros d. unfold Recurrence.incrementRecurrence. rewrite Hfreq.
    replace (String.eqb f "MONTHLY") with false
      by (symmetry; apply String.eqb_neq; assumption).
    reflexivity.
  - exact Hmatch.
Qed.

Lemma unknown_frequency_never_matches_witness :
  Recurrence.computeNextOccurrence utcHost "RRULE:FREQ=YEARLY"
    (VStr "2024-01-01T09:00") = None
  /\ (forall d : Date,
        Recurrence.incrementRecurrence utcHost d
          {| freq := Some "YEARLY"; interval := Fin 1; byDay := [] |}
        = Recurrence.incrementRecurrence utcHost d
            (withFreq "DAILY"
               {| freq := Some "YEARLY"; interval := Fin 1; byDay := [] |}))
  /\ (forall c b : Date,
        Recurrence.matchesRecurrence utcHost c b
          {| freq := Some "YEARLY"; interval := Fin 1; byDay := [] |} = false).
Proof.
  apply (unknown_frequency_never_matches utcHost "RRULE:FREQ=YEARLY"
           (VStr "2024-01-01T09:00")
           {| freq := Some "YEARLY"; interval := Fin 1; byDay := [] |} "YEARLY").
  - vm_compute. reflexivity.
  - reflexivity.
  - discriminate.
  - discriminate.
  - discriminate.
  - discriminate.
Defined.

(** C8 (as stated) fails: a YEARLY rule from 2024-01-01T09:00 has no
    next occurrence, where the same rule with frequency DAILY has
    2024-01-02T09:00. *)
Lemma unknown_frequency_differs_from_daily :
  let yearly := {| freq := Some "YEARLY"; interval := Fin 1; byDay := [] |} in
  Recurrence.parseRecurrence "RRULE:FREQ=YEARLY" = Ok yearly
  /\ Recurrence.parseRecurrence "RRULE:FREQ=DAILY" = Ok (withFreq "DAILY" yearly)
  /\ Recurrence.computeNextOccurrence utcHost "RRULE:FREQ=YEARLY"
       (VStr "2024-01-01T09:00") = None
  /\ Recurrence.computeNextOccurrence utcHost "RRULE:FREQ=DAILY"
       (VStr "2024-01-01T09:00")
     = Some (JsDate.ofString utcHost "2024-01-02T09:00")
  /\ Recurrence.computeNextOccurrence utcHost "RRULE:FREQ=YEARLY"
       (VStr "2024-01-01T09:00")
     <> Recurrence.computeNextOccurrence utcHost "RRULE:FREQ=DAILY"
          (VStr "2024-01-01T09:00").
Proof.
  vm_compute. repeat split; discriminate.
Qed.

(** ** The claims on rule texts *)

(** C7.  [parseRecurrence] raises no error on any text; a text that is
    empty or has no usable part (each part is malformed, of an unknown
    key, or an INTERVAL that is not a positive number) gives the rule
    with no frequency, interval 1 and no weekday; and an INTERVAL whose
    value is not a positive number leaves the rule as it was. *)
Theorem parse_never_fails (rrule : string) (result : ParsedRecurrence)
    (part : string) :
  (exists parsed, Recurrence.parseRecurrence rrule = Ok parsed)
  /\ (forallb unusablePart (ruleParts rrule) = true ->
      Recurrence.parseRecurrence rrule
      = Ok {| freq := None; interval := Fin 1; byDay := [] |})
  /\ (partKey part = Some "INTERVAL" ->
      validInterval (partValue part) = false ->
      Recurrence.parsePart result part = Ok result).
Proof.
  split; [apply parseRecurrence_total|]. split.
  - intros H. rewrite parseRecurrence_parts.
    apply forEachPart_unusable. exact H.
  - intros Hk Hv. apply parsePart_unusable. unfold unusablePart.
    rewrite Hk, Hv. reflexivity.
Qed.

Lemma parse_never_fails_witness :
  (exists parsed,
      Recurrence.parseRecurrence "rrule: nonsense;=2;FREQ;COUNT=3;INTERVAL=-1"
      = Ok parsed)
  /\ Recurrence.parseRecurrence "rrule: nonsense;=2;FREQ;COUNT=3;INTERVAL=-1"
     = Ok {| freq := None; interval := Fin 1; byDay := [] |}
  /\ Recurrence.parsePart
       {| freq := Some "DAILY"; interval := Fin 3; byDay := [] |} "interval = abc"
     = Ok {| freq := Some "DAILY"; interval := Fin 3; byDay := [] |}.
Proof.
  destruct (parse_never_fails "rrule: nonsense;=2;FREQ;COUNT=3;INTERVAL=-1"
              {| freq := Some "DAILY"; interval := Fin 3; byDay := [] |}
              "interval = abc") as (H1 & H2 & H3).
  split; [exact H1|]. split.
  - apply H2. vm_compute. reflexivity.
  - apply H3; vm_compute; reflexivity.
Defined.

(** C9 (amended).  The interval of the rule parsed from any text is a
    positive number, not necessarily an integer, and it is 1 whenever
    the text has no INTERVAL part with a positive numeric value. *)
Theorem parsed_interval_positive (rrule : string) (parsed : ParsedRecurrence) :
  Recurrence.parseRecurrence rrule = Ok parsed ->
  positive (interval parsed) = true
  /\ Num.isNaN (interval parsed) = false
  /\ (existsb setsInterval (ruleParts rrule) = false -> interval parsed = Fin 1).
Proof.
  intros Hp. pose proof (parseRecurrence_positive _ _ Hp) as Hpos.
  split; [exact Hpos|]. split.
  - destruct (interval parsed); try reflexivity. discriminate.
  - intros H. rewrite parseRecurrence_parts in Hp.
    apply (forEachPart_keeps_interval _ _ _ H Hp).
Qed.

Lemma parsed_interval_positive_witness :
  positive (Fin 1) = true
  /\ Num.isNaN (Fin 1) = false
  /\ (existsb setsInterval (ruleParts "RRULE:FREQ=WEEKLY;INTERVAL=0;BYDAY=MO")
      = false -> Fin 1 = Fin 1).
Proof.
  apply (parsed_interval_positive "RRULE:FREQ=WEEKLY;INTERVAL=0;BYDAY=MO"
           {| freq := Some "WEEKLY"; interval := Fin 1; byDay := ["MO"] |}).
  vm_compute. reflexivity.
Defined.

(** C9 (as stated) fails: [INTERVAL=1.5] is accepted and gives the
    interval 1.5, which is not an integer. *)
Lemma parsed_interval_not_integer :
  Recurrence.parseRecurrence "RRULE:FREQ=DAILY;INTERVAL=1.5"
  = Ok {| freq := Some "DAILY"; interval := Fin (3 # 2); byDay := [] |}
  /\ Num.toInteger (Fin (3 # 2)) = None
  /\ Recurrence.computeNextOccurrence utcHost "RRULE:FREQ=DAILY;INTERVAL=1.5"
       (VStr "2024-01-01T09:00")
     = Some (JsDate.ofString utcHost "2024-01-04T09:00").
Proof.
  vm_compute. repeat split.
Qed.

(** ** The claims on names and on the workflow *)

(** C5 (the code at the failing input).  When the name already ends
    with the stamp of the target date, the replacement leaves the base
    as it is, the code takes this for a base without a date and appends
    the stamp a second time. *)
Theorem next_name_same_date_appends :
  NameGen.generateNextName "Weekly Report 2024-01-01.md"
    (JsDate.ofString utcHost "2024-01-08")
  = Ok "Weekly Report 2024-01-08.md"
  /\ NameGen.generateNextName "Weekly Report 2024-01-08.md"
       (JsDate.ofString utcHost "2024-01-08")
     = Ok "Weekly Report 2024-01-08 2024-01-08.md".
Proof.
  vm_compute. split; reflexivity.
Qed.

Section WorkflowFacts.

Import Workflow.

Lemma updateFrontmatterValue_set (file : TFile) (key : string) (s : string)
    (v v1 : gmap string Node) :
  Str.truthy s = true ->
  updateFrontmatterValue file key (VStr s) v = (Ok tt, v1) ->
  exists content fm0,
    v !! path file = Some (FileNode content fm0)
    /\ v1 = <[path file := FileNode content (<[key := VStr s]> fm0)]> v.
Proof.
  intros Hs. unfold updateFrontmatterValue, processFrontMatter.
  destruct (v !! path file) as [[content fm0|]|]; try discriminate.
  intros [= <-]. exists content, fm0. split; [reflexivity|].
  cbn [Value.nullish Value.isStr orb].
  destruct s; [discriminate|]. reflexivity.
Qed.

(** With a file or folder at the destination, the completion handler
    leaves the vault as it finds it. *)
Lemma handleRecurrenceCompletion_collision (host : Host) (file : TFile)
    (fm : gmap string jsval) (v : gmap string Node) (nextDate : Date)
    (newName : string) :
  Recurrence.computeNextOccurrence host (getRecurrenceValue (Some fm))
    (field fm "scheduled") = Some nextDate ->
  NameGen.generateNextName (name file) nextDate = Ok newName ->
  is_Some (v !! destinationPath file newName) ->
  handleRecurrenceCompletion host file fm v = (Ok tt, v).
Proof.
  intros Hn Hg [node Hex]. unfold handleRecurrenceCompletion.
  destruct (negb (Str.truthy (getRecurrenceValue (Some fm)))); [reflexivity|].
  destruct (negb (Value.truthy (field fm "scheduled"))); [reflexivity|].
  rewrite Hn, Hg. unfold abind, alift, getAbstractFileByPath.
  fold (destinationPath file newName). rewrite Hex. reflexivity.
Qed.

End WorkflowFacts.

(** C6.  When the status of a task is set to [complete] or [wont-do]
    and a file or folder already exists at the destination computed for
    the successor, nothing is created and no field of the source is
    changed beyond the status written: the vault is left as the status
    write made it, and the copy of the frontmatter the menu holds gets
    the new status only. *)
Theorem collision_guard (host : Host) (value : string) (file : TFile)
    (fm : gmap string jsval) (v v1 : gmap string Node) (nextDate : Date)
    (newName : string) :
  value = "complete" \/ value = "wont-do" ->
  Workflow.updateFrontmatterValue file "status" (VStr value) v = (Ok tt, v1) ->
  Recurrence.computeNextOccurrence host
    (Workflow.getRecurrenceValue (Some (<["status" := VStr value]> fm)))
    (Workflow.field (<["status" := VStr value]> fm) "scheduled") = Some nextDate ->
  NameGen.generateNextName (name file) nextDate = Ok newName ->
  is_Some (v1 !! destinationPath file newName) ->
  Workflow.handleRecurrenceCompletion host file (<["status" := VStr value]> fm) v1
  = (Ok tt, v1)
  /\ Workflow.onStatusChange host value file fm v
     = (Ok (<["status" := VStr value]> fm), v1)
  /\ exists content fm0,
       v !! path file = Some (FileNode content fm0)
       /\ v1 = <[path file := FileNode content (<["status" := VStr value]> fm0)]> v.
Proof.
  intros Hv Hu Hn Hg Hex.
  pose proof (handleRecurrenceCompletion_collision host file _ v1 _ _ Hn Hg Hex)
    as Hh.
  split; [exact Hh|]. split.
  - unfold Workflow.onStatusChange, abind. rewrite Hu.
    replace (String.eqb value "blocked") with false
      by (destruct Hv as [-> | ->]; reflexivity).
    unfold aret at 1.
    destruct ((String.eqb value "complete" || String.eqb value "wont-do")
              && negb (Value.isStr
                         (Value.orElse (Workflow.field fm "status") (VStr "open"))
                         value)).
    + rewrite Hh. reflexivity.
    + reflexivity.
  - apply (updateFrontmatterValue_set file "status" value v v1);
      [destruct Hv as [-> | ->]; reflexivity | exact Hu].
Qed.

Lemma collision_guard_witness :
  let taken := <["Tasks/Water plants 2024-01-02.md" := FileNode "" ∅]> legacyVault in
  let v1 := <["Tasks/Water plants 2024-01-01.md" :=
                FileNode "" (<["status" := VStr "complete"]> legacyTask)]> taken in
  Workflow.handleRecurrenceCompletion utcHost legacyFile
    (<["status" := VStr "complete"]> legacyTask) v1 = (Ok tt, v1)
  /\ Workflow.onStatusChange utcHost "complete" legacyFile legacyTask taken
     = (Ok (<["status" := VStr "complete"]> legacyTask), v1)
  /\ exists content fm0,
       taken !! path legacyFile = Some (FileNode content fm0)
       /\ v1 = <[path legacyFile :=
                   FileNode content (<["status" := VStr "complete"]> fm0)]> taken.
Proof.
  intros taken v1.
  apply (collision_guard utcHost "complete" legacyFile legacyTask taken v1
           (Some 1704186000000) "Water plants 2024-01-02.md").
  - left. reflexivity.
  - vm_compute. reflexivity.
  - vm_compute. reflexivity.
  - vm_compute. reflexivity.
  - vm_compute. eexists. reflexivity.
Defined.

(** C10 (amended).  The recurrence value is read from [recurrenceRule]
    when that field is truthy and from the legacy [recurrence] field
    otherwise; whenever the field so selected holds a value that is not
    a string, the recurrence value is the empty string and completing
    the task creates no successor and raises no error. *)
Theorem non_string_recurrence_is_inert (host : Host) (file : TFile)
    (fm : gmap string jsval) (v : gmap string Node) :
  (Value.truthy (Workflow.field fm "recurrenceRule") = true
   /\ notString (Workflow.field fm "recurrenceRule") = true)
  \/ (Value.truthy (Workflow.field fm "recurrenceRule") = false
      /\ notString (Workflow.field fm "recurrence") = true) ->
  Workflow.getRecurrenceValue (Some fm) = ""
  /\ Workflow.handleRecurrenceCompletion host file fm v = (Ok tt, v).
Proof.
  intros H.
  assert (Hr : Workflow.getRecurrenceValue (Some fm) = "").
  { unfold Workflow.getRecurrenceValue, Value.orElse.
    destruct H as [[Ht Hs] | [Ht Hs]]; rewrite Ht.
    - destruct (Workflow.field fm "recurrenceRule"); try reflexivity. discriminate.
    - destruct (Workflow.field fm "recurrence"); try reflexivity. discriminate. }
  split; [exact Hr|].
  unfold Workflow.handleRecurrenceCompletion. rewrite Hr. reflexivity.
Qed.

Lemma non_string_recurrence_is_inert_witness :
  let fm := <["recurrenceRule" := VObject "RRULE:FREQ=DAILY"]> legacyTask in
  Workflow.getRecurrenceValue (Some fm) = ""
  /\ Workflow.handleRecurrenceCompletion utcHost legacyFile fm legacyVault
     = (Ok tt, legacyVault).
Proof.
  intros fm.
  apply (non_string_recurrence_is_inert utcHost legacyFile fm legacyVault).
  left. split; vm_compute; reflexivity.
Defined.

(** C10 (as stated) fails: a [recurrenceRule] holding the number 0 is
    present and is not a string, yet the value read is the rule of the
    legacy [recurrence] field, and completing the task creates the
    successor. *)
Lemma falsy_recurrence_rule_falls_back :
  notString (Workflow.field legacyTask "recurrenceRule") = true
  /\ Workflow.getRecurrenceValue (Some legacyTask) = "RRULE:FREQ=DAILY"
  /\ legacyVault !! "Tasks/Water plants 2024-01-02.md" = None
  /\ (exists content,
        snd (Workflow.handleRecurrenceCompletion utcHost legacyFile legacyTask
               legacyVault)
          !! "Tasks/Water plants 2024-01-02.md"
        = Some (FileNode content
                  (<["title" := VStr "Water plants 2024-01-02"]>
                     (<["scheduled" := VStr "2024-01-02T09:00:00.000Z"]>
                        (<["status" := VStr "open"]> ∅))))).
Proof.
  split; [reflexivity|]. split; [reflexivity|]. split; [reflexivity|].
  exists "". vm_compute. reflexivity.
Qed.

(** * Further properties of the controller *)

(** ** The next occurrence *)

Section OccurrenceFacts.

Import Recurrence.

Variable host : Host.

Lemma incrementRecurrence_Some (d : Date) (parsed : ParsedRecurrence) (c : Z) :
  incrementRecurrence host d parsed = Some c -> Z.abs c <= JsDate.maxTime.
Proof.
  unfold incrementRecurrence, JsDate.setMonth, JsDate.setDate.
  destruct (String.eqb (freqOrDaily parsed) "MONTHLY").
  - destruct (JsDate.ofNumber (JsDate.getTime d)); [|discriminate].
    destruct (Num.add _ _); try discriminate.
    intros H. apply TimeClip_Some in H. destruct H as [-> H]. exact H.
  - destruct (JsDate.ofNumber (JsDate.getTime d)); [|discriminate].
    destruct (Num.add _ _); try discriminate.
    intros H. apply TimeClip_Some in H. destruct H as [-> H]. exact H.
Qed.

Lemma candidateAt_Some (parsed : ParsedRecurrence) (start : Date) (k : nat) (c : Z) :
  (1 <= k)%nat ->
  candidateAt host parsed start k = Some c -> Z.abs c <= JsDate.maxTime.
Proof.
  destruct k as [|k]; [lia|]. intros _. unfold candidateAt.
  cbn [Nat.iter nat_rect]. apply incrementRecurrence_Some.
Qed.

Lemma divides_zero (x : number) : positive x = true -> divides x 0 = true.
Proof.
  unfold positive, Num.gt, Num.lt, divides, Num.rem, Num.ofZ.
  destruct x as [| | |q]; try discriminate; [reflexivity|].
  intros H. apply negb_true_iff in H.
  destruct (Qeq_bool q 0) eqn:E.
  - apply Qeq_bool_iff in E.
    assert (Hle : Qle_bool q 0 = true)
      by (apply Qle_bool_iff; rewrite E; apply Qle_refl).
    congruence.
  - unfold Num.strictEq. apply Qeq_bool_iff. rewrite Qred_correct.
    assert (Ht : Num.truncQ (inject_Z 0 / q) = 0).
    { unfold Num.truncQ, Qdiv, Qmult, inject_Z. cbn [Qnum Qden].
      rewrite Z.mul_0_l. apply Z.quot_0_l. lia. }
    rewrite Ht. unfold Qeq. cbn. lia.
Qed.

Lemma computeNextOccurrence_noFreq (rrule : string) (scheduled : jsval)
    (parsed : ParsedRecurrence) :
  parseRecurrence rrule = Ok parsed -> noFreq parsed = true ->
  computeNextOccurrence host rrule scheduled = None.
Proof.
  intros Hp Hn. unfold computeNextOccurrence. rewrite Hp, Hn.
  rewrite orb_true_r. reflexivity.
Qed.

End OccurrenceFacts.

(** X1.  Whatever the rule, the host and the anchor, an occurrence
    returned by [computeNextOccurrence] is a valid date, at least
    24 hours after the anchor, so that its [toISOString] cannot throw. *)
Theorem next_occurrence_is_later (host : Host) (rrule : string)
    (scheduled : jsval) (d : Date) :
  Recurrence.computeNextOccurrence host rrule scheduled = Some d ->
  exists c b : Z,
    d = Some c
    /\ JsDate.ofValue host scheduled = Some b
    /\ Z.abs c <= JsDate.maxTime
    /\ JsDate.msPerDay <= c - b
    /\ exists iso, JsDate.toISOString d = Ok iso.
Proof.
  intros Hres.
  destruct (Recurrence.parseRecurrence rrule) as [parsed|e] eqn:Hp;
    [|unfold Recurrence.computeNextOccurrence in Hres; rewrite Hp in Hres;
      discriminate].
  destruct (JsDate.ofValue host scheduled) as [b|] eqn:Hb;
    [|rewrite computeNextOccurrence_invalid in Hres by exact Hb; discriminate].
  rewrite (computeNextOccurrence_search _ _ _ _ _ Hp Hb) in Hres.
  destruct (Recurrence.noFreq parsed); [discriminate|].
  apply search_Some in Hres. destruct Hres as (k & Hk & Hd & Hm & _).
  destruct d as [c|]; [|rewrite matchesRecurrence_invalid in Hm; discriminate].
  exists c, b. split; [reflexivity|]. split; [reflexivity|].
  split; [apply (candidateAt_Some host parsed (Some b) k c); [lia | auto]|].
  split.
  - rewrite matchesRecurrence_integers in Hm. cbv zeta in Hm.
    destruct (daysBetween c b <=? 0) eqn:E; [discriminate|].
    apply Z.leb_gt in E. unfold daysBetween, JsDate.msPerDay in *.
    Z.div_mod_to_equations. lia.
  - eexists. reflexivity.
Qed.

Lemma next_occurrence_is_later_witness :
  exists c b : Z,
    Some 1707987600000 = Some c
    /\ JsDate.ofValue utcHost (VStr "2024-01-15T09:00") = Some b
    /\ Z.abs c <= JsDate.maxTime
    /\ JsDate.msPerDay <= c - b
    /\ exists iso, JsDate.toISOString (Some 1707987600000) = Ok iso.
Proof.
  apply (next_occurrence_is_later utcHost "RRULE:FREQ=MONTHLY"
           (VStr "2024-01-15T09:00") (Some 1707987600000)).
  vm_compute. reflexivity.
Defined.

(** X2.  A WEEKLY rule without weekdays repeats the next day: in a host
    at a constant offset, whatever its interval, its next occurrence is
    the anchor advanced by one day (the first candidates are in week 0
    from the anchor, and 0 is a multiple of every interval). *)
Theorem weekly_without_weekdays_is_next_day (c : Z) (lp : string -> option Z)
    (rrule : string) (scheduled : jsval) (parsed : ParsedRecurrence) (anchor : Z) :
  Recurrence.parseRecurrence rrule = Ok parsed ->
  freq parsed = Some "WEEKLY" ->
  byDay parsed = [] ->
  JsDate.ofValue (fixedHost c lp) scheduled = Some anchor ->
  anchor + JsDate.msPerDay <= JsDate.maxTime ->
  Recurrence.computeNextOccurrence (fixedHost c lp) rrule scheduled
  = Some (Some (anchor + JsDate.msPerDay)).
Proof.
  intros Hp Hf Hby Ha Hmax.
  pose proof (ofValue_Some _ _ _ Ha) as Hvalid.
  rewrite (computeNextOccurrence_search _ _ _ _ _ Hp Ha).
  unfold Recurrence.noFreq. rewrite Hf. cbn [Recurrence.falsy Str.isEmpty].
  assert (Hfreq : Recurrence.freqOrDaily parsed = "WEEKLY")
    by (unfold Recurrence.freqOrDaily; rewrite Hf; reflexivity).
  change Recurrence.maxIterations with (S 499). rewrite search_S.
  rewrite increment_day_fixed; [|rewrite Hfreq; reflexivity | exact Hvalid].
  rewrite TimeClip_valid by (unfold JsDate.maxTime, JsDate.msPerDay in *; lia).
  replace (anchor + JsDate.msPerDay) with (anchor + 1 * JsDate.msPerDay) by lia.
  rewrite matchesRecurrence_integers. cbv zeta.
  rewrite daysBetween_steps, Hfreq, Hby.
  rewrite (orElse_positive _ (parseRecurrence_positive _ _ Hp)).
  change (1 / 7) with 0.
  rewrite (divides_zero _ (parseRecurrence_positive _ _ Hp)).
  reflexivity.
Qed.

Lemma weekly_without_weekdays_is_next_day_witness :
  Recurrence.computeNextOccurrence (fixedHost 0 (fun _ => None))
    "RRULE:FREQ=WEEKLY;INTERVAL=2" (VStr "2024-01-01T09:00")
  = Some (Some (1704099600000 + JsDate.msPerDay)).
Proof.
  apply (weekly_without_weekdays_is_next_day 0 (fun _ => None)
           "RRULE:FREQ=WEEKLY;INTERVAL=2" (VStr "2024-01-01T09:00")
           {| freq := Some "WEEKLY"; interval := Fin 2; byDay := [] |}).
  - vm_compute. reflexivity.
  - reflexivity.
  - reflexivity.
  - vm_compute. reflexivity.
  - vm_compute. discriminate.
Defined.

(** X3.  A task without the prerequisites spawns nothing and raises no
    error: no recurrence value, no [scheduled] value, a [scheduled]
    value that is not a date, or a rule without frequency. *)
Theorem missing_prerequisite_is_noop (host : Host) (file : TFile)
    (fm : gmap string jsval) (v : gmap string Node) :
  Workflow.getRecurrenceValue (Some fm) = ""
  \/ Value.truthy (Workflow.field fm "scheduled") = false
  \/ JsDate.ofValue host (Workflow.field fm "scheduled") = None
  \/ (exists parsed,
        Recurrence.parseRecurrence (Workflow.getRecurrenceValue (Some fm))
        = Ok parsed /\ Recurrence.noFreq parsed = true) ->
  Workflow.handleRecurrenceCompletion host file fm v = (Ok tt, v).
Proof.
  intros H. unfold Workflow.handleRecurrenceCompletion.
  destruct (negb (Str.truthy (Workflow.getRecurrenceValue (Some fm)))) eqn:Er;
    [reflexivity|].
  destruct (negb (Value.truthy (Workflow.field fm "scheduled"))) eqn:Es;
    [reflexivity|].
  destruct H as [H|[H|[H|(parsed & Hp & Hn)]]].
  - rewrite H in Er. discriminate.
  - rewrite H in Es. discriminate.
  - rewrite computeNextOccurrence_invalid by exact H. reflexivity.
  - rewrite (computeNextOccurrence_noFreq host _ _ parsed Hp Hn). reflexivity.
Qed.

Lemma missing_prerequisite_is_noop_witness :
  let fm := <["recurrenceRule" := VStr "RRULE:INTERVAL=2"]>
              (<["scheduled" := VStr "2024-01-01T09:00"]> ∅) in
  Workflow.handleRecurrenceCompletion utcHost legacyFile fm legacyVault
  = (Ok tt, legacyVault).
Proof.
  intros fm.
  apply (missing_prerequisite_is_noop utcHost legacyFile fm legacyVault).
  right. right. right.
  exists {| freq := None; interval := Fin 2; byDay := [] |}.
  split; vm_compute; reflexivity.
Defined.
(** ** Strings *)

Section StringFacts.

Import Str.

Local Open Scope list_scope.

Lemma app_cons (c : ascii) (a b : string) : String c a +:+ b = String c (a +:+ b).
Proof. reflexivity. Qed.

Lemma app_nil_l (b : string) : EmptyString +:+ b = b.
Proof. reflexivity. Qed.

Lemma app_nil_r (a : string) : a +:+ EmptyString = a.
Proof.
  induction a as [|c a IH]; [reflexivity|]. rewrite app_cons, IH. reflexivity.
Qed.

Lemma app_assoc (a b c : string) : (a +:+ b) +:+ c = a +:+ (b +:+ c).
Proof.
  induction a as [|x a IH]; [reflexivity|]. rewrite !app_cons, IH. reflexivity.
Qed.

Lemma app_length (a b : string) :
  String.length (a +:+ b) = (String.length a + String.length b)%nat.
Proof.
  induction a as [|x a IH]; [reflexivity|].
  rewrite app_cons. cbn [String.length]. rewrite IH. reflexivity.
Qed.

Lemma take_app (a b : string) : take (String.length a) (a +:+ b) = a.
Proof.
  induction a as [|x a IH]; [destruct b; reflexivity|].
  rewrite app_cons. cbn [String.length take]. rewrite IH. reflexivity.
Qed.

Lemma app_eq_nil (a b : string) : a +:+ b = EmptyString -> a = EmptyString.
Proof. destruct a; [reflexivity | discriminate]. Qed.

Lemma truthy_app_l (a b : string) : truthy a = true -> truthy (a +:+ b) = true.
Proof. destruct a; [discriminate | reflexivity]. Qed.

(** *** Lists cut at their front and at their end *)

Section Cuts.

Context {A : Type} (p : A -> bool).

Lemma dropWhile_suffix (l : list A) :
  exists l0, l = l0 ++ dropWhile p l /\ forallb p l0 = true.
Proof.
  induction l as [|x r IH]; [exists []; split; reflexivity|].
  cbn [dropWhile]. destruct (p x) eqn:E.
  - destruct IH as (l0 & H & Hp). exists (x :: l0). split.
    + cbn [app]. rewrite <- H. reflexivity.
    + cbn [forallb]. rewrite E, Hp. reflexivity.
  - exists []. split; reflexivity.
Qed.

Lemma headNot_dropWhile (l : list A) : headNot p (dropWhile p l).
Proof.
  induction l as [|x r IH]; [exact I|].
  cbn [dropWhile]. destruct (p x) eqn:E; [exact IH | exact E].
Qed.

Lemma dropWhile_fixed (l : list A) : headNot p l -> dropWhile p l = l.
Proof.
  destruct l as [|x r]; [reflexivity|].
  cbn [headNot dropWhile]. intros ->. reflexivity.
Qed.

Lemma dropWhile_app_keep (a b : list A) :
  headNot p b -> dropWhile p (a ++ b) = dropWhile p a ++ b.
Proof.
  intros Hb. induction a as [|x a IH].
  - cbn [app dropWhile]. apply dropWhile_fixed. exact Hb.
  - cbn [app dropWhile]. destruct (p x); [exact IH | reflexivity].
Qed.

Lemma dropEnd_prefix (l : list A) :
  exists l1, l = dropEnd p l ++ l1 /\ forallb p l1 = true.
Proof.
  induction l as [|x r IH]; [exists []; split; reflexivity|].
  cbn [dropEnd]. destruct (forallb p (x :: r)) eqn:E.
  - exists (x :: r). split; [reflexivity | exact E].
  - destruct IH as (l1 & H & Hp). exists l1. split; [|exact Hp].
    cbn [app]. rewrite <- H. reflexivity.
Qed.

Lemma dropEnd_all (l : list A) : forallb p l = true -> dropEnd p l = [].
Proof.
  destruct l as [|x r]; [reflexivity|]. cbn [dropEnd]. intros ->. reflexivity.
Qed.

Lemma forallb_dropEnd (l : list A) :
  forallb p (dropEnd p l) = true -> forallb p l = true.
Proof.
  induction l as [|x r IH]; [reflexivity|].
  cbn [dropEnd]. destruct (forallb p (x :: r)) eqn:E; [reflexivity|].
  cbn [forallb] in *. intros H. apply andb_true_iff in H. destruct H as [Hx Hr].
  rewrite Hx, (IH Hr) in E. discriminate.
Qed.

Lemma dropEnd_idem (l : list A) : dropEnd p (dropEnd p l) = dropEnd p l.
Proof.
  induction l as [|x r IH]; [reflexivity|].
  cbn [dropEnd]. destruct (forallb p (x :: r)) eqn:E; [reflexivity|].
  cbn [dropEnd]. rewrite IH.
  destruct (forallb p (x :: dropEnd p r)) eqn:E'; [|reflexivity].
  exfalso. cbn [forallb] in E, E'. apply andb_true_iff in E'.
  destruct E' as [Hx Hr]. rewrite Hx, (forallb_dropEnd _ Hr) in E. discriminate.
Qed.

Lemma headNot_dropEnd (l : list A) : headNot p l -> headNot p (dropEnd p l).
Proof.
  destruct l as [|x r]; [intros _; exact I|].
  cbn [dropEnd]. destruct (forallb p (x :: r)); [intros _; exact I|].
  intros H. exact H.
Qed.

Lemma endNot_dropEnd (l : list A) : endNot p (dropEnd p l).
Proof. apply dropEnd_idem. Qed.

Lemma endNot_forallb (l : list A) : endNot p l -> l <> [] -> forallb p l = false.
Proof.
  intros H Hn. destruct (forallb p l) eqn:E; [|reflexivity].
  exfalso. apply Hn. rewrite <- H. apply dropEnd_all. exact E.
Qed.

Lemma forallb_app_false (a b : list A) :
  forallb p b = false -> forallb p (a ++ b) = false.
Proof. intros H. rewrite forallb_app, H. apply andb_false_r. Qed.

Lemma dropEnd_app_keep (a b : list A) :
  endNot p b -> b <> [] -> dropEnd p (a ++ b) = a ++ b.
Proof.
  intros Hb Hn. induction a as [|x a IH]; [exact Hb|].
  cbn [app dropEnd].
  change (x :: a ++ b) with ((x :: a) ++ b).
  rewrite (forallb_app_false (x :: a) b (endNot_forallb b Hb Hn)).
  rewrite IH. reflexivity.
Qed.

Lemma dropEnd_app_all (a w : list A) :
  forallb p w = true -> dropEnd p (a ++ w) = dropEnd p a.
Proof.
  intros Hw. induction a as [|x a IH].
  - cbn [app]. apply dropEnd_all. exact Hw.
  - cbn [app dropEnd]. change (x :: a ++ w) with ((x :: a) ++ w).
    rewrite forallb_app, Hw, andb_true_r, IH. reflexivity.
Qed.

Lemma endNot_app (a b : list A) : endNot p b -> b <> [] -> endNot p (a ++ b).
Proof. apply dropEnd_app_keep. Qed.

Lemma endNot_single (x : A) : p x = false -> endNot p [x].
Proof.
  intros H. unfold endNot. cbn [dropEnd forallb]. rewrite H. reflexivity.
Qed.

(** A list cut at both ends is left as it is by a second cut. *)
Lemma cut_cut (l : list A) :
  dropEnd p (dropWhile p (dropEnd p (dropWhile p l))) = dropEnd p (dropWhile p l).
Proof.
  rewrite (dropWhile_fixed (dropEnd p (dropWhile p l))).
  - apply dropEnd_idem.
  - apply headNot_dropEnd, headNot_dropWhile.
Qed.

Lemma cut_fixed (l : list A) :
  headNot p l -> endNot p l -> dropEnd p (dropWhile p l) = l.
Proof. intros Hh He. rewrite (dropWhile_fixed l Hh). exact He. Qed.

End Cuts.

(** *** Characters *)

Lemma join_app (a b : list string) : join (a ++ b) = join a +:+ join b.
Proof.
  induction a as [|x a IH]; [reflexivity|].
  cbn [app join]. rewrite IH, app_assoc. reflexivity.
Qed.

Lemma charsOpen_join (s : string) :
  forall n, fst (charsOpen n s) +:+ join (snd (charsOpen n s)) = s.
Proof.
  induction s as [|c r IH]; intros n; [reflexivity|].
  cbn [charsOpen]. destruct n as [|k].
  - specialize (IH (contLen c)). destruct (charsOpen (contLen c) r) as [t l].
    cbn [fst snd join] in *. rewrite app_nil_l, app_cons, IH. reflexivity.
  - destruct (isCont c).
    + specialize (IH k). destruct (charsOpen k r) as [t l].
      cbn [fst snd] in *. rewrite app_cons, IH. reflexivity.
    + specialize (IH (contLen c)). destruct (charsOpen (contLen c) r) as [t l].
      cbn [fst snd join] in *. rewrite app_nil_l, app_cons, IH. reflexivity.
Qed.

Lemma fst_charsOpen (s : string) : fst (charsOpen 0 s) = EmptyString.
Proof.
  destruct s as [|c r]; [reflexivity|]. cbn [charsOpen].
  destruct (charsOpen (contLen c) r). reflexivity.
Qed.

Lemma join_chars (s : string) : join (chars s) = s.
Proof.
  unfold chars. pose proof (charsOpen_join s 0) as H.
  rewrite fst_charsOpen, app_nil_l in H. exact H.
Qed.

Lemma charsOpen_chars (n : nat) (s : string) :
  startsCont s = false -> charsOpen n s = (EmptyString, chars s).
Proof.
  unfold chars. destruct s as [|c r]; [destruct n; reflexivity|].
  cbn [startsCont charsOpen]. intros ->.
  destruct n; destruct (charsOpen (contLen c) r); reflexivity.
Qed.

Lemma charsOpen_zero (s : string) : charsOpen 0 s = (EmptyString, chars s).
Proof.
  unfold chars. destruct s as [|c r]; [reflexivity|].
  cbn [charsOpen]. destruct (charsOpen (contLen c) r). reflexivity.
Qed.

Lemma chars_cons (c : ascii) (r : string) :
  chars (String c r)
  = String c (fst (charsOpen (contLen c) r)) :: snd (charsOpen (contLen c) r).
Proof.
  unfold chars. cbn [charsOpen]. destruct (charsOpen (contLen c) r). reflexivity.
Qed.

(** The scan of the rest of a character followed by further text. *)
Lemma charsOpen_rest (t rest : string) :
  allChars isCont t = true ->
  forall k, (String.length t <= k)%nat ->
    String.length t = k \/ startsCont rest = false ->
    charsOpen k (t +:+ rest) = (t, chars rest).
Proof.
  induction t as [|c t IH]; intros Hc k Hk Hr.
  - rewrite app_nil_l. destruct Hr as [<-|Hr].
    + apply charsOpen_zero.
    + apply charsOpen_chars. exact Hr.
  - cbn [allChars] in Hc. apply andb_true_iff in Hc. destruct Hc as [Hc Ht].
    cbn [String.length] in Hk, Hr. destruct k as [|k]; [lia|].
    rewrite app_cons. cbn [charsOpen]. rewrite Hc.
    rewrite (IH Ht k); [reflexivity | lia | destruct Hr; [left; lia | right; assumption]].
Qed.

Lemma chars_char_app (ch rest : string) :
  isChar ch = true -> closed ch = true \/ startsCont rest = false ->
  chars (ch +:+ rest) = ch :: chars rest.
Proof.
  destruct ch as [|c t]; [discriminate|].
  cbn [isChar closed]. intros H Hr. apply andb_true_iff in H.
  destruct H as [Hc Hl]. apply Nat.leb_le in Hl.
  rewrite app_cons, chars_cons, (charsOpen_rest t rest Hc _ Hl); [reflexivity|].
  destruct Hr as [Hr|Hr]; [left; apply Nat.eqb_eq; exact Hr | right; exact Hr].
Qed.

Lemma chars_char (ch : string) : isChar ch = true -> chars ch = [ch].
Proof.
  intros H. rewrite <- (app_nil_r ch) at 1.
  rewrite (chars_char_app ch EmptyString H); [reflexivity | right; reflexivity].
Qed.

Lemma startsCont_join (l : list string) :
  proper l = true -> startsCont (join l) = startsContL l.
Proof.
  destruct l as [|ch r]; [reflexivity|].
  cbn [proper join startsContL]. intros H.
  apply andb_true_iff in H. destruct H as [H _].
  apply andb_true_iff in H. destruct H as [H _].
  destruct ch; [discriminate | reflexivity].
Qed.

(** A list of that shape is the list of the characters of its string. *)
Lemma chars_join (l : list string) : proper l = true -> chars (join l) = l.
Proof.
  induction l as [|ch r IH]; [reflexivity|].
  intros H. pose proof H as H'. cbn [proper] in H.
  apply andb_true_iff in H. destruct H as [H Hr].
  apply andb_true_iff in H. destruct H as [Hc Hn].
  cbn [join]. rewrite (chars_char_app ch (join r) Hc).
  - rewrite (IH Hr). reflexivity.
  - apply orb_true_iff in Hn. destruct Hn as [Hn|Hn]; [left; exact Hn|].
    right. rewrite (startsCont_join r Hr). apply negb_true_iff. exact Hn.
Qed.

Lemma charsOpen_proper (s : string) :
  forall n,
    allChars isCont (fst (charsOpen n s)) = true
    /\ (String.length (fst (charsOpen n s)) <= n)%nat
    /\ (String.length (fst (charsOpen n s)) = n
        \/ startsContL (snd (charsOpen n s)) = false)
    /\ proper (snd (charsOpen n s)) = true.
Proof.
  induction s as [|c r IH]; intros n.
  - cbn. split; [reflexivity|]. split; [lia|]. split; [right|]; reflexivity.
  - assert (Head : forall m,
              allChars isCont (fst (charsOpen m r)) = true ->
              (String.length (fst (charsOpen m r)) <= m)%nat ->
              m = contLen c ->
              String.length (fst (charsOpen m r)) = m
              \/ startsContL (snd (charsOpen m r)) = false ->
              proper (snd (charsOpen m r)) = true ->
              proper (String c (fst (charsOpen m r)) :: snd (charsOpen m r)) = true).
    { intros m H1 H2 -> H3 H4. cbn [proper isChar closed].
      rewrite H1, H4. apply Nat.leb_le in H2. rewrite H2.
      cbn [andb]. rewrite andb_true_r.
      destruct H3 as [H3|H3].
      - apply Nat.eqb_eq in H3. rewrite H3. reflexivity.
      - rewrite H3. apply orb_true_r. }
    cbn [charsOpen]. destruct n as [|k].
    + destruct (IH (contLen c)) as (H1 & H2 & H3 & H4).
      pose proof (Head _ H1 H2 eq_refl H3 H4) as HH.
      destruct (charsOpen (contLen c) r) as [t l]. cbn [fst snd] in *.
      split; [reflexivity|]. split; [cbn; lia|]. split; [left; reflexivity | exact HH].
    + destruct (isCont c) eqn:Ec.
      * destruct (IH k) as (H1 & H2 & H3 & H4).
        destruct (charsOpen k r) as [t l]. cbn [fst snd allChars String.length] in *.
        rewrite Ec, H1. split; [reflexivity|]. split; [lia|].
        split; [destruct H3; [left; lia | right; assumption] | exact H4].
      * destruct (IH (contLen c)) as (H1 & H2 & H3 & H4).
        pose proof (Head _ H1 H2 eq_refl H3 H4) as HH.
        destruct (charsOpen (contLen c) r) as [t l]. cbn [fst snd] in *.
        split; [reflexivity|]. split; [cbn; lia|].
        split; [right; cbn [startsContL startsCont]; exact Ec | exact HH].
Qed.

Lemma proper_chars (s : string) : proper (chars s) = true.
Proof. apply (charsOpen_proper s 0). Qed.

Lemma proper_cons (ch : string) (l : list string) :
  proper (ch :: l) = true -> isChar ch = true /\ proper l = true.
Proof.
  cbn [proper]. intros H. apply andb_true_iff in H. destruct H as [H Hr].
  apply andb_true_iff in H. destruct H as [Hc _]. split; assumption.
Qed.

Lemma proper_app_r (a b : list string) : proper (a ++ b) = true -> proper b = true.
Proof.
  induction a as [|x a IH]; [trivial|].
  cbn [app]. intros H. apply proper_cons in H. apply IH, H.
Qed.

Lemma proper_app_l (a b : list string) : proper (a ++ b) = true -> proper a = true.
Proof.
  induction a as [|x a IH]; [reflexivity|].
  cbn [app proper]. intros H. apply andb_true_iff in H. destruct H as [H Hr].
  apply andb_true_iff in H. destruct H as [Hc Hn].
  rewrite Hc, (IH Hr), andb_true_r. cbn [andb].
  destruct a as [|y a]; [apply orb_true_r | exact Hn].
Qed.

Lemma proper_dropWhile (p : string -> bool) (l : list string) :
  proper l = true -> proper (dropWhile p l) = true.
Proof.
  intros H. destruct (dropWhile_suffix p l) as (l0 & E & _).
  rewrite E in H. apply proper_app_r in H. exact H.
Qed.

Lemma proper_dropEnd (p : string -> bool) (l : list string) :
  proper l = true -> proper (dropEnd p l) = true.
Proof.
  intros H. destruct (dropEnd_prefix p l) as (l1 & E & _).
  rewrite E in H. apply proper_app_l in H. exact H.
Qed.

Lemma proper_forall (l : list string) :
  proper l = true -> forallb isChar l = true.
Proof.
  induction l as [|x l IH]; [reflexivity|].
  intros H. apply proper_cons in H. cbn [forallb].
  rewrite (proj1 H), (IH (proj2 H)). reflexivity.
Qed.

(** Complete characters can be put before any list of that shape. *)
Lemma proper_solid_app (a b : list string) :
  forallb solid a = true -> proper b = true -> proper (a ++ b) = true.
Proof.
  intros Ha Hb. induction a as [|x a IH]; [exact Hb|].
  cbn [forallb] in Ha. apply andb_true_iff in Ha. destruct Ha as [Hx Ha].
  cbn [app proper]. rewrite (IH Ha), andb_true_r.
  unfold solid in Hx. apply andb_true_iff in Hx. destruct Hx as [Hx _].
  apply andb_true_iff in Hx. destruct Hx as [H1 H2]. rewrite H1, H2. reflexivity.
Qed.

Lemma startsContL_solid_app (a b : list string) :
  forallb solid a = true -> a <> [] -> startsContL (a ++ b) = false.
Proof.
  destruct a as [|x a]; [intros _ H; contradiction|].
  cbn [forallb app startsContL]. intros H _.
  apply andb_true_iff in H. destruct H as [H _].
  unfold solid in H. apply andb_true_iff in H. destruct H as [_ H].
  apply negb_true_iff. exact H.
Qed.

(** Each character replaced by itself or by complete characters. *)
Lemma proper_flat_map (g : string -> list string) (l : list string) :
  (forall ch, isChar ch = true ->
     g ch = [ch] \/ (g ch <> [] /\ forallb solid (g ch) = true)) ->
  proper l = true ->
  proper (flat_map g l) = true
  /\ (startsContL l = false -> startsContL (flat_map g l) = false).
Proof.
  intros Hg. induction l as [|x l IH]; [split; reflexivity|].
  intros H. pose proof (proper_cons _ _ H) as [Hc Hl].
  destruct (IH Hl) as [IH1 IH2]. cbn [flat_map].
  destruct (Hg x Hc) as [E|[En Es]].
  - rewrite E. cbn [app]. split.
    + cbn [proper] in *. rewrite Hc, IH1, andb_true_r. cbn [andb].
      apply andb_true_iff in H. destruct H as [H _].
      apply andb_true_iff in H. destruct H as [_ H].
      apply orb_true_iff in H. destruct H as [H|H]; [rewrite H; reflexivity|].
      apply negb_true_iff in H. rewrite (IH2 H). apply orb_true_r.
    + cbn [startsContL]. trivial.
  - split.
    + apply proper_solid_app; assumption.
    + intros _. apply startsContL_solid_app; assumption.
Qed.

Lemma join_flat_map (g : string -> list string) (l : list string) :
  join (flat_map g l) = join (List.map (fun ch => join (g ch)) l).
Proof.
  induction l as [|x l IH]; [reflexivity|].
  cbn [flat_map List.map join]. rewrite join_app, IH. reflexivity.
Qed.

(** The characters of a text before one that does not start with a
    continuation byte. *)
Lemma charsOpen_app (a b : string) :
  startsCont b = false ->
  forall n, charsOpen n (a +:+ b)
            = (fst (charsOpen n a), snd (charsOpen n a) ++ chars b).
Proof.
  intros Hb. induction a as [|c a IH]; intros n.
  - rewrite app_nil_l. cbn [charsOpen fst snd app]. apply charsOpen_chars. exact Hb.
  - rewrite app_cons. cbn [charsOpen]. destruct n as [|k].
    + rewrite (IH (contLen c)). destruct (charsOpen (contLen c) a). reflexivity.
    + destruct (isCont c).
      * rewrite (IH k). destruct (charsOpen k a). reflexivity.
      * rewrite (IH (contLen c)). destruct (charsOpen (contLen c) a). reflexivity.
Qed.

Lemma chars_app (a b : string) :
  startsCont b = false -> chars (a +:+ b) = chars a ++ chars b.
Proof.
  intros Hb. unfold chars at 1. rewrite (charsOpen_app a b Hb). reflexivity.
Qed.

(** An ASCII character is a character of its own. *)
Lemma chars_ascii (c : ascii) (r : string) :
  code c < 128 -> chars (String c r) = String c EmptyString :: chars r.
Proof.
  intros H. rewrite chars_cons.
  assert (E : contLen c = 0%nat).
  { unfold contLen. destruct (Z.ltb_spec (code c) 192); [reflexivity | lia]. }
  rewrite E, charsOpen_zero. reflexivity.
Qed.

Lemma ascii_not_cont (c : ascii) : code c < 128 -> isCont c = false.
Proof.
  intros H. unfold isCont. destruct (Z.leb_spec 128 (code c)); [lia | reflexivity].
Qed.

(** *** White space *)

Lemma isWhite_ascii (c : ascii) :
  isWhite (String c EmptyString)
  = ((code c =? 9) || (code c =? 10) || (code c =? 11) || (code c =? 12)
     || (code c =? 13) || (code c =? 32)).
Proof.
  destruct c as [[] [] [] [] [] [] [] []]; vm_compute; reflexivity.
Qed.

Lemma chars_trim (s : string) :
  chars (trim s) = dropEnd isWhite (dropWhile isWhite (chars s)).
Proof.
  unfold trim. apply chars_join, proper_dropEnd, proper_dropWhile, proper_chars.
Qed.

Lemma trim_idem (s : string) : trim (trim s) = trim s.
Proof.
  unfold trim at 1. rewrite chars_trim, cut_cut. reflexivity.
Qed.

(** A text is trimmed when its characters neither start nor end with
    white space. *)
Lemma trim_fixed (s : string) :
  headNot isWhite (chars s) -> endNot isWhite (chars s) -> trim s = s.
Proof.
  intros Hh He. unfold trim. rewrite (cut_fixed _ _ Hh He). apply join_chars.
Qed.

Lemma trim_ends (s : string) :
  headNot isWhite (chars (trim s)) /\ endNot isWhite (chars (trim s)).
Proof.
  rewrite chars_trim. split.
  - apply headNot_dropEnd, headNot_dropWhile.
  - apply endNot_dropEnd.
Qed.

Lemma chars_eq_nil (s : string) : chars s = [] -> s = EmptyString.
Proof. intros H. rewrite <- (join_chars s), H. reflexivity. Qed.

Lemma truthy_chars (s : string) : truthy s = true -> chars s <> [].
Proof. intros H E. apply chars_eq_nil in E. subst s. discriminate. Qed.

(** Cutting the white space at the front first gives the same text. *)
Lemma trimStart_trim (s : string) : trim (trimStart s) = trim s.
Proof.
  unfold trim at 1, trimStart.
  rewrite (chars_join _ (proper_dropWhile _ _ (proper_chars s))).
  rewrite (dropWhile_fixed isWhite (dropWhile isWhite (chars s)))
    by apply headNot_dropWhile.
  reflexivity.
Qed.

Lemma trim_fixed_ends (s : string) :
  trim s = s -> headNot isWhite (chars s) /\ endNot isWhite (chars s).
Proof. intros H. rewrite <- H. apply trim_ends. Qed.

(** A visible ASCII character put before a trimmed text. *)
Lemma trim_cons_ascii (c : ascii) (s : string) :
  code c < 128 -> isWhite (String c EmptyString) = false ->
  trim s = s -> truthy s = true -> trim (String c s) = String c s.
Proof.
  intros Hc Hw Hs Ht. apply trim_fixed; rewrite (chars_ascii c s Hc).
  - exact Hw.
  - apply (endNot_app isWhite [String c EmptyString] (chars s)).
    + apply (trim_fixed_ends s Hs).
    + apply truthy_chars. exact Ht.
Qed.

End StringFacts.

(** ** Canonical rule texts *)

(** X4.  [normalizeRecurrence] gives a canonical text: it is empty or
    starts with the prefix [RRULE:] (in any case of letters), it has no
    white space around it, normalising it again changes nothing, and it
    parses to the rule the trimmed input parses to. *)
Theorem normalizeRecurrence_canonical (value : string) :
  let n := Controller.normalizeRecurrence value in
  Controller.normalizeRecurrence n = n
  /\ (n = "" \/ Str.startsWithCI "RRULE:" n = true)
  /\ Str.trim n = n
  /\ Recurrence.parseRecurrence n = Recurrence.parseRecurrence (Str.trim value).
Proof.
  destruct value as [|c0 r0]; [cbn; auto|].
  set (value := String c0 r0).
  destruct (Str.truthy (Str.trim value)) eqn:Ht.
  - set (t := Str.trim value) in *.
    assert (Hid : Str.trim t = t) by apply trim_idem.
    destruct (Str.startsWithCI "RRULE:" t) eqn:E.
    + assert (Hn : Controller.normalizeRecurrence value = t).
      { unfold Controller.normalizeRecurrence. fold t. rewrite Ht, E. reflexivity. }
      rewrite Hn. cbv zeta. split; [|split; [|split]].
      * unfold Controller.normalizeRecurrence. rewrite Hid, Ht, E.
        destruct t; [discriminate | reflexivity].
      * right. exact E.
      * exact Hid.
      * reflexivity.
    + assert (Hn : Controller.normalizeRecurrence value = "RRULE:" +:+ t).
      { unfold Controller.normalizeRecurrence. fold t. rewrite Ht, E. reflexivity. }
      rewrite Hn. cbv zeta.
      assert (Hr : Str.trim ("RRULE:" +:+ t) = "RRULE:" +:+ t).
      { change ("RRULE:" +:+ t)
          with (String "R" (String "R" (String "U" (String "L"
                  (String "E" (String ":" t)))))).
        repeat (apply trim_cons_ascii;
                [vm_compute; reflexivity | vm_compute; reflexivity |
                 | first [reflexivity | exact Ht]]).
        exact Hid. }
      split; [|split; [|split]].
      * unfold Controller.normalizeRecurrence. rewrite Hr. reflexivity.
      * right. reflexivity.
      * exact Hr.
      * unfold Recurrence.parseRecurrence.
        change (Str.stripRRulePrefix ("RRULE:" +:+ t)) with t.
        unfold Str.stripRRulePrefix. rewrite E. reflexivity.
  - assert (H : Str.trim value = "")
      by (destruct (Str.trim value); [reflexivity | discriminate]).
    assert (Hn : Controller.normalizeRecurrence value = "")
      by (unfold Controller.normalizeRecurrence; rewrite H; reflexivity).
    rewrite Hn, H. cbn. auto.
Qed.

(** ** The frontmatter store *)

Section StoreFacts.

Import Workflow.

Lemma updateFrontmatterValue_run (file : TFile) (key : string) (value : jsval)
    (v : gmap string Node) (content : string) (fm0 : gmap string jsval) :
  v !! path file = Some (FileNode content fm0) ->
  updateFrontmatterValue file key value v
  = (Ok tt, <[path file := FileNode content (assign key value fm0)]> v).
Proof.
  intros H. unfold updateFrontmatterValue, processFrontMatter. rewrite H.
  reflexivity.
Qed.

Lemma updateFrontmatterValue_at (p key : string) (value : jsval)
    (v : gmap string Node) (content : string) (fm0 : gmap string jsval) :
  updateFrontmatterValue (fileAt p) key value (<[p := FileNode content fm0]> v)
  = (Ok tt, <[p := FileNode content (assign key value fm0)]> v).
Proof.
  rewrite (updateFrontmatterValue_run _ _ _ _ content fm0).
  - cbn [path fileAt]. rewrite insert_insert_eq. reflexivity.
  - cbn [path fileAt]. apply lookup_insert_eq.
Qed.

Lemma field_assign_same (key : string) (value : jsval) (fm : gmap string jsval) :
  field (assign key value fm) key
  = if Value.nullish value || Value.isStr value "" then VUndefined else value.
Proof.
  unfold field, assign.
  destruct (Value.nullish value || Value.isStr value "").
  - rewrite lookup_delete_eq. reflexivity.
  - rewrite lookup_insert_eq. reflexivity.
Qed.

Lemma lookup_assign_other (key k : string) (value : jsval)
    (fm : gmap string jsval) :
  k <> key -> assign key value fm !! k = fm !! k.
Proof.
  intros H. unfold assign.
  destruct (Value.nullish value || Value.isStr value "").
  - apply lookup_delete_ne. congruence.
  - apply lookup_insert_ne. congruence.
Qed.

Lemma field_assign_other (key k : string) (value : jsval)
    (fm : gmap string jsval) :
  k <> key -> field (assign key value fm) k = field fm k.
Proof.
  intros H. unfold field. rewrite lookup_assign_other by exact H. reflexivity.
Qed.

(** The frontmatter [setRecurrenceFields] leaves for the rule [n]. *)
Lemma recurrence_fields_read (n : string) (fm : gmap string jsval) :
  let fm' := delete "recurrence"
               (if Str.truthy n then <["recurrenceRule" := VStr n]> fm
                else delete "recurrenceRule" fm) in
  getRecurrenceValue (Some fm') = n /\ fm' !! "recurrence" = None.
Proof.
  cbv zeta. split; [|apply lookup_delete_eq].
  unfold getRecurrenceValue, field.
  rewrite lookup_delete_eq.
  rewrite lookup_delete_ne by discriminate.
  destruct n as [|c r]; cbn [Str.truthy Str.isEmpty negb].
  - rewrite lookup_delete_eq. reflexivity.
  - rewrite lookup_insert_eq. reflexivity.
Qed.

Lemma setRecurrenceFields_run (file : TFile) (fm : gmap string jsval)
    (n : string) (v : gmap string Node) (content : string)
    (fm0 : gmap string jsval) :
  Str.trim n = n ->
  v !! path file = Some (FileNode content fm0) ->
  setRecurrenceFields file fm n v
  = (Ok (delete "recurrence"
           (if Str.truthy n then <["recurrenceRule" := VStr n]> fm
            else delete "recurrenceRule" fm)),
     <[path file :=
         FileNode content
           (delete "recurrence"
              (if Str.truthy n then <["recurrenceRule" := VStr n]> fm0
               else delete "recurrenceRule" fm0))]> v).
Proof.
  intros Hn H. unfold setRecurrenceFields, abind, processFrontMatter.
  rewrite Hn, H. unfold aret. destruct (Str.truthy n); reflexivity.
Qed.

End StoreFacts.

(** X5.  [updateFrontmatterValue] on a file of the vault writes one
    field of that file and nothing else: the field reads back as the
    value written (as absent, when the value is [null], [undefined] or
    the empty string), the other fields of the file and the other
    entries of the vault are as before. *)
Theorem frontmatter_update_round_trip (file : TFile) (key : string) (value : jsval)
    (v : gmap string Node) (content : string) (fm0 : gmap string jsval) :
  v !! path file = Some (FileNode content fm0) ->
  exists (v' : gmap string Node) (fm' : gmap string jsval),
    Workflow.updateFrontmatterValue file key value v = (Ok tt, v')
    /\ v' !! path file = Some (FileNode content fm')
    /\ Workflow.field fm' key
       = (if Value.nullish value || Value.isStr value "" then VUndefined
          else value)
    /\ (forall k, k <> key -> fm' !! k = fm0 !! k)
    /\ (forall p, p <> path file -> v' !! p = v !! p).
Proof.
  intros H. eexists. exists (assign key value fm0).
  split; [apply updateFrontmatterValue_run; exact H|].
  split; [apply lookup_insert_eq|].
  split; [apply field_assign_same|].
  split.
  - intros k Hk. apply lookup_assign_other. exact Hk.
  - intros p Hp. apply lookup_insert_ne. congruence.
Qed.

Lemma frontmatter_update_round_trip_witness :
  exists (v' : gmap string Node) (fm' : gmap string jsval),
    Workflow.updateFrontmatterValue legacyFile "priority" (VStr "high") legacyVault
    = (Ok tt, v')
    /\ v' !! path legacyFile = Some (FileNode "" fm')
    /\ Workflow.field fm' "priority"
       = (if Value.nullish (VStr "high") || Value.isStr (VStr "high") ""
          then VUndefined else VStr "high")
    /\ (forall k, k <> "priority" -> fm' !! k = legacyTask !! k)
    /\ (forall p, p <> path legacyFile -> v' !! p = legacyVault !! p).
Proof.
  apply (frontmatter_update_round_trip legacyFile "priority" (VStr "high")
           legacyVault "" legacyTask).
  vm_compute. reflexivity.
Defined.

(** ** Setting and clearing the rule *)

Section RuleSetting.

Import Workflow.

(** [applyToEntries] with [setRecurrenceFields] for a trimmed rule
    [n], over entries whose files are in the vault. *)
Lemma applyToEntries_setRecurrenceFields (n : string) (entries : list FileEntry) :
  Str.trim n = n ->
  forall v : gmap string Node,
    (forall e, In e entries ->
       exists c fm0, v !! path (file e) = Some (FileNode c fm0)) ->
    exists (entries' : list FileEntry) (v' : gmap string Node),
      Controller.applyToEntries entries
        (fun f fm => setRecurrenceFields f fm n) v = (Ok entries', v')
      /\ List.map file entries' = List.map file entries
      /\ (forall e, In e entries' ->
            getRecurrenceValue (Some (frontmatter e)) = n
            /\ frontmatter e !! "recurrence" = None)
      /\ (forall p c fm0, v !! p = Some (FileNode c fm0) ->
            exists fm', v' !! p = Some (FileNode c fm')
              /\ ((forall e, In e entries -> path (file e) <> p) -> fm' = fm0)
              /\ ((exists e, In e entries /\ path (file e) = p) ->
                  getRecurrenceValue (Some fm') = n
                  /\ fm' !! "recurrence" = None))
      /\ (forall p, v !! p = None \/ v !! p = Some FolderNode -> v' !! p = v !! p).
Proof.
  intros Hn. induction entries as [|e rest IH]; intros v Hex.
  - exists [], v. split; [reflexivity|]. split; [reflexivity|].
    split; [intros e []|]. split.
    + intros p c fm0 Hp. exists fm0. split; [exact Hp|].
      split; [reflexivity|]. intros (e & [] & _).
    + reflexivity.
  - destruct (Hex e (or_introl eq_refl)) as (c0 & fm0 & He).
    cbn [Controller.applyToEntries]. unfold abind at 1.
    rewrite (setRecurrenceFields_run _ _ _ _ c0 fm0 Hn He).
    set (g := fun fm : gmap string jsval =>
                delete "recurrence"
                  (if Str.truthy n then <["recurrenceRule" := VStr n]> fm
                   else delete "recurrenceRule" fm)).
    fold (g (frontmatter e)). fold (g fm0).
    set (v1 := <[path (file e) := FileNode c0 (g fm0)]> v).
    assert (Hex1 : forall e', In e' rest ->
               exists c fm1, v1 !! path (file e') = Some (FileNode c fm1)).
    { intros e' Hin. unfold v1.
      destruct (String.eq_dec (path (file e)) (path (file e'))) as [E|E].
      - rewrite <- E, lookup_insert_eq. eauto.
      - rewrite lookup_insert_ne by exact E. apply Hex. right. exact Hin. }
    destruct (IH v1 Hex1) as (rest' & v' & Hrun & Hfiles & Hcopies & Hstored & Hnone).
    exists ({| file := file e; frontmatter := g (frontmatter e) |} :: rest'), v'.
    unfold abind. rewrite Hrun. unfold aret.
    split; [reflexivity|].
    split; [cbn [List.map file]; rewrite Hfiles; reflexivity|].
    split.
    { intros e' [<-|Hin]; [|apply Hcopies; exact Hin].
      cbn [frontmatter]. apply (recurrence_fields_read n). }
    split.
    + intros p c fm1 Hp.
      destruct (String.eq_dec (path (file e)) p) as [E|E].
      * subst p. rewrite He in Hp. injection Hp as <- <-.
        destruct (Hstored (path (file e)) c0 (g fm0)) as (fm' & Hl & Hsame & Hread);
          [unfold v1; apply lookup_insert_eq|].
        exists fm'. split; [exact Hl|]. split.
        -- intros Hno. exfalso. apply (Hno e (or_introl eq_refl)). reflexivity.
        -- intros _.
           destruct (in_dec String.eq_dec (path (file e))
                       (List.map (fun x => path (file x)) rest)) as [I|I].
           ++ apply Hread. apply in_map_iff in I.
              destruct I as (x & Hx & Hin). exists x. auto.
           ++ rewrite Hsame; [apply (recurrence_fields_read n)|].
              intros x Hin Hx. apply I. apply in_map_iff. exists x. auto.
      * destruct (Hstored p c fm1) as (fm' & Hl & Hsame & Hread);
          [unfold v1; rewrite lookup_insert_ne by exact E; exact Hp|].
        exists fm'. split; [exact Hl|]. split.
        -- intros Hno. apply Hsame. intros x Hin. apply Hno. right. exact Hin.
        -- intros (x & [<-|Hin] & Hx); [congruence|].
           apply Hread. exists x. auto.
    + intros p Hp. rewrite Hnone.
      * unfold v1. apply lookup_insert_ne. intros E. subst p.
        rewrite He in Hp. destruct Hp; discriminate.
      * unfold v1.
        destruct (String.eq_dec (path (file e)) p) as [E|E].
        -- subst p. rewrite He in Hp. destruct Hp; discriminate.
        -- rewrite lookup_insert_ne by exact E. exact Hp.
Qed.

End RuleSetting.

(** X6.  Setting a rule on the entries of the menu, all files of the
    vault, reads back: afterwards the recurrence value of every entry,
    in the vault and in the copy the menu holds, is the normalised
    rule, the legacy [recurrence] field is gone, and the files that are
    not among the entries are as before. *)
Theorem recurrence_rule_round_trip (entries : list FileEntry) (value : string)
    (v : gmap string Node) :
  (forall e, In e entries ->
     exists c fm0, v !! path (file e) = Some (FileNode c fm0)) ->
  exists (entries' : list FileEntry) (v' : gmap string Node),
    Controller.applyRecurrenceRuleToEntries entries value v = (Ok entries', v')
    /\ List.map file entries' = List.map file entries
    /\ (forall e, In e entries' ->
          Workflow.getRecurrenceValue (Some (frontmatter e))
          = Controller.normalizeRecurrence value
          /\ frontmatter e !! "recurrence" = None)
    /\ (forall e, In e entries ->
          exists c fm', v' !! path (file e) = Some (FileNode c fm')
            /\ Workflow.getRecurrenceValue (Some fm')
               = Controller.normalizeRecurrence value
            /\ fm' !! "recurrence" = None)
    /\ (forall p, (forall e, In e entries -> path (file e) <> p) ->
          v' !! p = v !! p).
Proof.
  intros Hex.
  destruct (normalizeRecurrence_canonical value) as (_ & _ & Htrim & _).
  destruct (applyToEntries_setRecurrenceFields _ entries Htrim v Hex)
    as (entries' & v' & Hrun & Hfiles & Hcopies & Hstored & Hnone).
  exists entries', v'. split; [exact Hrun|]. split; [exact Hfiles|].
  split; [exact Hcopies|]. split.
  - intros e Hin. destruct (Hex e Hin) as (c & fm0 & He).
    destruct (Hstored _ _ _ He) as (fm' & Hl & _ & Hread).
    exists c, fm'. split; [exact Hl|]. apply Hread. exists e. auto.
  - intros p Hno. destruct (v !! p) as [[c fm0|]|] eqn:Hp.
    + destruct (Hstored _ _ _ Hp) as (fm' & Hl & Hsame & _).
      rewrite Hl, (Hsame Hno). reflexivity.
    + rewrite <- Hp. apply Hnone. auto.
    + rewrite <- Hp. apply Hnone. auto.
Qed.

Lemma recurrence_rule_round_trip_witness :
  exists (entries' : list FileEntry) (v' : gmap string Node),
    Controller.applyRecurrenceRuleToEntries
      [{| file := legacyFile; frontmatter := legacyTask |}] " freq=weekly "
      legacyVault = (Ok entries', v')
    /\ List.map file entries'
       = List.map file [{| file := legacyFile; frontmatter := legacyTask |}]
    /\ (forall e, In e entries' ->
          Workflow.getRecurrenceValue (Some (frontmatter e))
          = Controller.normalizeRecurrence " freq=weekly "
          /\ frontmatter e !! "recurrence" = None)
    /\ (forall e, In e [{| file := legacyFile; frontmatter := legacyTask |}] ->
          exists c fm', v' !! path (file e) = Some (FileNode c fm')
            /\ Workflow.getRecurrenceValue (Some fm')
               = Controller.normalizeRecurrence " freq=weekly "
            /\ fm' !! "recurrence" = None)
    /\ (forall p,
          (forall e, In e [{| file := legacyFile; frontmatter := legacyTask |}] ->
             path (file e) <> p) ->
          v' !! p = legacyVault !! p).
Proof.
  apply (recurrence_rule_round_trip
           [{| file := legacyFile; frontmatter := legacyTask |}] " freq=weekly "
           legacyVault).
  intros e [<-|[]]. exists "", legacyTask. vm_compute. reflexivity.
Defined.

(** ** The status handler *)

Section StatusFacts.

Import Workflow.

Variable host : Host.

Lemma truthy_app_r (a b : string) :
  Str.truthy b = true -> Str.truthy (a +:+ b) = true.
Proof.
  intros H. destruct a as [|c r]; [exact H | reflexivity].
Qed.

Lemma toISOString_truthy (d : Date) (iso : string) :
  JsDate.toISOString d = Ok iso -> Str.truthy iso = true.
Proof.
  destruct d as [t|]; [|discriminate]. cbn [JsDate.toISOString].
  intros H. injection H as <-. apply truthy_app_r. reflexivity.
Qed.

Lemma assign_insert (key s : string) (fm : gmap string jsval) :
  Str.truthy s = true -> assign key (VStr s) fm = <[key := VStr s]> fm.
Proof.
  destruct s; [discriminate | reflexivity].
Qed.

(** The steps of [handleRecurrenceCompletion] after the copy. *)
Lemma successor_updates (fm : gmap string jsval) (v : gmap string Node)
    (dest content : string) (fm0 : gmap string jsval) (d : Date) (iso : string) :
  JsDate.toISOString d = Ok iso ->
  (await _ := updateFrontmatterValue (fileAt dest) "recurrenceRule" VNull in
   await _ := updateFrontmatterValue (fileAt dest) "recurrence" VNull in
   await _ := updateFrontmatterValue (fileAt dest) "status" (VStr "open") in
   await newScheduledISO := alift (JsDate.toISOString d) in
   await _ := updateFrontmatterValue (fileAt dest) "scheduled"
                (VStr newScheduledISO) in
   let timeEstimate := Value.toNumber (field fm "timeEstimate") in
   await endISO :=
     alift (computeEndISO host
              (<["timeEstimate" := VNum timeEstimate]>
                 {["scheduled" := VStr newScheduledISO]})) in
   await _ := updateFrontmatterValue (fileAt dest) "sheduledEnd"
                (if Str.truthy endISO then VStr endISO else VNull) in
   updateFrontmatterValue (fileAt dest) "title" (VStr (basename (fileAt dest))))
    (<[dest := FileNode content fm0]> v)
  = match computeEndISO host (endInput fm iso) with
    | Ok endISO =>
        (Ok tt,
         <[dest := FileNode content
                     (successorFrontmatter fm0 iso endISO
                        (basename (fileAt dest)))]> v)
    | Throw e =>
        (Throw e,
         <[dest := FileNode content
                     (assign "scheduled" (VStr iso)
                        (assign "status" (VStr "open")
                           (assign "recurrence" VNull
                              (assign "recurrenceRule" VNull fm0))))]> v)
    end.
Proof.
  intros Hiso. unfold abind at 1. rewrite updateFrontmatterValue_at.
  unfold abind at 1. rewrite updateFrontmatterValue_at.
  unfold abind at 1. rewrite updateFrontmatterValue_at.
  unfold abind at 1. unfold alift at 1. rewrite Hiso.
  unfold abind at 1. rewrite updateFrontmatterValue_at.
  cbv zeta. unfold abind at 1. unfold alift at 1.
  fold (endInput fm iso).
  destruct (computeEndISO host (endInput fm iso)) as [endISO|e]; [|reflexivity].
  unfold abind at 1. rewrite updateFrontmatterValue_at.
  rewrite updateFrontmatterValue_at. reflexivity.
Qed.

(** [handleRecurrenceCompletion] when the successor can be made. *)
Lemma handleRecurrenceCompletion_spawn (file : TFile) (fm : gmap string jsval)
    (v : gmap string Node) (content : string) (fm0 : gmap string jsval)
    (d : Date) (newName iso : string) :
  Str.truthy (getRecurrenceValue (Some fm)) = true ->
  Value.truthy (field fm "scheduled") = true ->
  Recurrence.computeNextOccurrence host (getRecurrenceValue (Some fm))
    (field fm "scheduled") = Some d ->
  NameGen.generateNextName (name file) d = Ok newName ->
  JsDate.toISOString d = Ok iso ->
  v !! path file = Some (FileNode content fm0) ->
  v !! destinationPath file newName = None ->
  handleRecurrenceCompletion host file fm v
  = match computeEndISO host (endInput fm iso) with
    | Ok endISO =>
        (Ok tt,
         <[destinationPath file newName :=
             FileNode content
               (successorFrontmatter fm0 iso endISO
                  (basename (fileAt (destinationPath file newName))))]> v)
    | Throw e =>
        (Throw e,
         <[destinationPath file newName :=
             FileNode content
               (assign "scheduled" (VStr iso)
                  (assign "status" (VStr "open")
                     (assign "recurrence" VNull
                        (assign "recurrenceRule" VNull fm0))))]> v)
    end.
Proof.
  intros Hr Hs Hn Hname Hiso Hsrc Hfree.
  unfold handleRecurrenceCompletion. rewrite Hr, Hs. cbn [negb]. rewrite Hn.
  cbv zeta. fold (destinationPath file newName).
  unfold abind at 1. unfold alift at 1. rewrite Hname.
  fold (destinationPath file newName).
  set (dest := destinationPath file newName) in *.
  unfold abind at 1. unfold getAbstractFileByPath at 1. rewrite Hfree.
  unfold abind at 1. unfold copy at 1. rewrite Hsrc, Hfree.
  unfold abind at 1. unfold getAbstractFileByPath at 1.
  rewrite lookup_insert_eq.
  apply (successor_updates fm v dest content fm0 d iso Hiso).
Qed.

Lemma computeNextOccurrence_valid (rrule : string) (scheduled : jsval)
    (d : Date) :
  Recurrence.computeNextOccurrence host rrule scheduled = Some d ->
  exists c : Z, d = Some c.
Proof.
  intros Hres.
  destruct (Recurrence.parseRecurrence rrule) as [parsed|e] eqn:Hp;
    [|unfold Recurrence.computeNextOccurrence in Hres; rewrite Hp in Hres;
      discriminate].
  destruct (JsDate.ofValue host scheduled) as [b|] eqn:Hb;
    [|rewrite computeNextOccurrence_invalid in Hres by exact Hb; discriminate].
  rewrite (computeNextOccurrence_search _ _ _ _ _ Hp Hb) in Hres.
  destruct (Recurrence.noFreq parsed); [discriminate|].
  apply search_Some in Hres. destruct Hres as (k & Hk & Hd & Hm & _).
  destruct d as [c|]; [|rewrite matchesRecurrence_invalid in Hm; discriminate].
  exists c. reflexivity.
Qed.

Lemma computeNextOccurrence_empty (scheduled : jsval) :
  Recurrence.computeNextOccurrence host "" scheduled = None.
Proof.
  apply (computeNextOccurrence_noFreq host "" scheduled
           {| freq := None; interval := Fin 1; byDay := [] |});
    reflexivity.
Qed.

End StatusFacts.

(** X7.  Setting the status to blocked clears the recurrence: the
    stored frontmatter and the copy the menu holds then have the status
    blocked and neither a [recurrenceRule] nor a [recurrence] field, no
    successor is made, and the other fields of the file and the rest of
    the vault are as before. *)
Theorem blocked_clears_recurrence (host : Host) (file : TFile)
    (fm : gmap string jsval) (v : gmap string Node) (content : string)
    (fm0 : gmap string jsval) :
  v !! path file = Some (FileNode content fm0) ->
  exists fm' fm1 : gmap string jsval,
    Workflow.onStatusChange host "blocked" file fm v
    = (Ok fm', <[path file := FileNode content fm1]> v)
    /\ Workflow.field fm1 "status" = VStr "blocked"
    /\ fm1 !! "recurrenceRule" = None /\ fm1 !! "recurrence" = None
    /\ Workflow.getRecurrenceValue (Some fm1) = ""
    /\ Workflow.field fm' "status" = VStr "blocked"
    /\ fm' !! "recurrenceRule" = None /\ fm' !! "recurrence" = None
    /\ Workflow.getRecurrenceValue (Some fm') = ""
    /\ (forall k, k <> "status" -> k <> "recurrenceRule" -> k <> "recurrence" ->
          fm1 !! k = fm0 !! k /\ fm' !! k = fm !! k).
Proof.
  intros Hv.
  exists (delete "recurrence" (delete "recurrenceRule" (<["status" := VStr "blocked"]> fm))),
         (delete "recurrence" (delete "recurrenceRule" (<["status" := VStr "blocked"]> fm0))).
  split.
  - unfold Workflow.onStatusChange, abind at 1.
    rewrite (updateFrontmatterValue_run _ _ _ _ _ _ Hv).
    cbn [String.eqb Ascii.eqb Bool.eqb orb andb].
    unfold abind at 1.
    rewrite (setRecurrenceFields_run file _ "" _ content
               (assign "status" (VStr "blocked") fm0) eq_refl)
      by apply lookup_insert_eq.
    cbn [Str.truthy Str.isEmpty negb]. unfold abind, aret.
    rewrite insert_insert_eq. reflexivity.
  - unfold Workflow.getRecurrenceValue, Workflow.field.
    repeat (rewrite ?lookup_delete_eq, ?lookup_insert_eq;
            rewrite ?(lookup_delete_ne (M := gmap string)) by discriminate).
    repeat (split; [reflexivity|]).
    intros k H1 H2 H3.
    rewrite !lookup_delete_ne by congruence.
    rewrite !lookup_insert_ne by congruence. auto.
Qed.

Lemma blocked_clears_recurrence_witness :
  exists fm' fm1 : gmap string jsval,
    Workflow.onStatusChange utcHost "blocked" legacyFile legacyTask legacyVault
    = (Ok fm', <[path legacyFile := FileNode "" fm1]> legacyVault)
    /\ Workflow.field fm1 "status" = VStr "blocked"
    /\ fm1 !! "recurrenceRule" = None /\ fm1 !! "recurrence" = None
    /\ Workflow.getRecurrenceValue (Some fm1) = ""
    /\ Workflow.field fm' "status" = VStr "blocked"
    /\ fm' !! "recurrenceRule" = None /\ fm' !! "recurrence" = None
    /\ Workflow.getRecurrenceValue (Some fm') = ""
    /\ (forall k, k <> "status" -> k <> "recurrenceRule" -> k <> "recurrence" ->
          fm1 !! k = legacyTask !! k /\ fm' !! k = legacyTask !! k).
Proof.
  apply (blocked_clears_recurrence utcHost legacyFile legacyTask legacyVault ""
           legacyTask).
  vm_compute. reflexivity.
Defined.



(** X9.  Completing a recurring task whose successor can be made, the
    next occurrence being [d], the name generated for it [newName], the
    task a file of the vault and the destination path free, copies the
    file to the destination and rewrites the frontmatter of the copy:
    no recurrence fields, status open, [scheduled] the ISO text of [d],
    [sheduledEnd] the end computed from it and the time estimate, and
    [title] the base name of the new file.  When the end cannot be
    computed (it is outside the range of dates) the handler throws with
    the copy made and the first four fields written. *)
Theorem completion_spawns_successor (host : Host) (file : TFile)
    (fm : gmap string jsval) (v : gmap string Node) (content : string)
    (fm0 : gmap string jsval) (d : Date) (newName : string) :
  Value.truthy (Workflow.field fm "scheduled") = true ->
  Recurrence.computeNextOccurrence host (Workflow.getRecurrenceValue (Some fm))
    (Workflow.field fm "scheduled") = Some d ->
  NameGen.generateNextName (name file) d = Ok newName ->
  v !! path file = Some (FileNode content fm0) ->
  v !! destinationPath file newName = None ->
  exists iso : string,
    JsDate.toISOString d = Ok iso
    /\ Workflow.handleRecurrenceCompletion host file fm v
       = match Workflow.computeEndISO host (endInput fm iso) with
         | Ok endISO =>
             (Ok tt,
              <[destinationPath file newName :=
                  FileNode content
                    (successorFrontmatter fm0 iso endISO
                       (basename
                          (Workflow.fileAt (destinationPath file newName))))]> v)
         | Throw e =>
             (Throw e,
              <[destinationPath file newName :=
                  FileNode content
                    (assign "scheduled" (VStr iso)
                       (assign "status" (VStr "open")
                          (assign "recurrence" VNull
                             (assign "recurrenceRule" VNull fm0))))]> v)
         end.
Proof.
  intros Hs Hn Hname Hsrc Hfree.
  destruct (computeNextOccurrence_valid host _ _ _ Hn) as (c & ->).
  eexists. split; [reflexivity|].
  apply (handleRecurrenceCompletion_spawn host file fm v content fm0 (Some c)
           newName); auto.
  destruct (Workflow.getRecurrenceValue (Some fm)); [|reflexivity].
  rewrite computeNextOccurrence_empty in Hn. discriminate.
Qed.

Lemma completion_spawns_successor_witness :
  exists iso : string,
    JsDate.toISOString (Some 1704186000000) = Ok iso
    /\ Workflow.handleRecurrenceCompletion utcHost legacyFile legacyTask legacyVault
       = match Workflow.computeEndISO utcHost (endInput legacyTask iso) with
         | Ok endISO =>
             (Ok tt,
              <[destinationPath legacyFile "Water plants 2024-01-02.md" :=
                  FileNode ""
                    (successorFrontmatter legacyTask iso endISO
                       (basename
                          (Workflow.fileAt
                             (destinationPath legacyFile
                                "Water plants 2024-01-02.md"))))]> legacyVault)
         | Throw e =>
             (Throw e,
              <[destinationPath legacyFile "Water plants 2024-01-02.md" :=
                  FileNode ""
                    (assign "scheduled" (VStr iso)
                       (assign "status" (VStr "open")
                          (assign "recurrence" VNull
                             (assign "recurrenceRule" VNull legacyTask))))]>
                legacyVault)
         end.
Proof.
  apply (completion_spawns_successor utcHost legacyFile legacyTask legacyVault ""
           legacyTask (Some 1704186000000) "Water plants 2024-01-02.md");
    vm_compute; reflexivity.
Defined.

(** ** ISO texts of dates *)

Section IsoFacts.

Import JsDate.

Local Ltac div_lia := Z.div_mod_to_equations; lia.

Lemma digitChar_code (n : Z) :
  Str.isDigit (digitChar n) = true /\ Str.code (digitChar n) - 48 = n mod 10.
Proof.
  unfold digitChar.
  assert (C : n mod 10 = 0 \/ n mod 10 = 1 \/ n mod 10 = 2 \/ n mod 10 = 3
              \/ n mod 10 = 4 \/ n mod 10 = 5 \/ n mod 10 = 6 \/ n mod 10 = 7
              \/ n mod 10 = 8 \/ n mod 10 = 9) by div_lia.
  destruct C as [E|[E|[E|[E|[E|[E|[E|[E|[E|E]]]]]]]]]; rewrite E;
    split; reflexivity.
Qed.

Lemma readDigits_pad (k j : nat) (acc m : Z) (rest : string) :
  readDigits (k + j) acc (pad k m +:+ rest)
  = readDigits j (acc * 10 ^ Z.of_nat k + m mod 10 ^ Z.of_nat k) rest.
Proof.
  revert j acc m rest. induction k as [|k IH]; intros j acc m rest.
  - cbn [pad Nat.add]. rewrite app_nil_l. f_equal. cbn. rewrite Z.mod_1_r. lia.
  - cbn [pad]. rewrite app_assoc, app_cons, app_nil_l.
    replace (S k + j)%nat with (k + S j)%nat by lia.
    rewrite IH. cbn [readDigits].
    destruct (digitChar_code m) as [-> ->]. f_equal.
    rewrite Nat2Z.inj_succ, Z.pow_succ_r by lia.
    assert (P : 0 < 10 ^ Z.of_nat k) by (apply Z.pow_pos_nonneg; lia).
    rewrite (Z.rem_mul_r m 10 (10 ^ Z.of_nat k)) by lia. lia.
Qed.

Lemma readDigits_pad_exact (w : nat) (m : Z) (rest : string) :
  0 <= m < 10 ^ Z.of_nat w ->
  readDigits w 0 (pad w m +:+ rest) = Some (m, rest).
Proof.
  intros H. replace w with (w + 0)%nat at 1 by lia.
  rewrite readDigits_pad. cbn [readDigits].
  rewrite Z.mod_small by lia. reflexivity.
Qed.

(** The first of the digits of [pad]. *)
Lemma pad_front (k : nat) (n : Z) :
  pad (S k) n = String (digitChar (n / 10 ^ Z.of_nat k)) (pad k n).
Proof.
  revert n. induction k as [|k IH]; intros n.
  - cbn [pad]. rewrite app_nil_l. change (10 ^ Z.of_nat 0) with 1.
    rewrite Z.div_1_r. reflexivity.
  - change (pad (S (S k)) n)
      with (pad (S k) (n / 10) +:+ String (digitChar n) EmptyString).
    rewrite IH, app_cons. cbn [pad]. f_equal. f_equal.
    rewrite Nat2Z.inj_succ, Z.pow_succ_r by lia.
    rewrite Z.div_div by (try apply Z.pow_pos_nonneg; lia). reflexivity.
Qed.

Lemma readYear_digit (c : ascii) (s : string) :
  Str.isDigit c = true -> readYear (String c s) = readDigits 4 0 (String c s).
Proof.
  intros H.
  destruct c as [[] [] [] [] [] [] [] []]; vm_compute in H;
    try discriminate H; reflexivity.
Qed.

Lemma YearFromTime_bounds (t : Z) :
  Z.abs t <= maxTime -> -271822 <= YearFromTime t <= 275761.
Proof.
  unfold maxTime, YearFromTime, YearFromDay, Day, msPerDay. intros H.
  destruct (_ <? _); [|destruct (_ <=? _)]; div_lia.
Qed.

Lemma readYear_yearString (y : Z) (rest : string) :
  -999999 <= y <= 999999 ->
  readYear (yearString y +:+ rest) = Some (y, rest).
Proof.
  intros H. unfold yearString.
  destruct ((0 <=? y) && (y <=? 9999)) eqn:E.
  - apply andb_true_iff in E. destruct E as [E1 E2].
    apply Z.leb_le in E1, E2.
    rewrite pad_front, app_cons, readYear_digit by apply digitChar_code.
    rewrite <- app_cons, <- pad_front.
    apply readDigits_pad_exact. change (10 ^ Z.of_nat 4) with 10000. lia.
  - destruct (y <? 0) eqn:N.
    + apply Z.ltb_lt in N.
      change ("-" +:+ pad 6 (Z.abs y)) with (String "-"%char (pad 6 (Z.abs y))).
      rewrite app_cons. cbn [readYear].
      rewrite readDigits_pad_exact
        by (change (10 ^ Z.of_nat 6) with 1000000; lia).
      destruct (Z.abs y =? 0) eqn:Z0; [apply Z.eqb_eq in Z0; lia|].
      f_equal. f_equal. lia.
    + apply Z.ltb_ge in N.
      change ("+" +:+ pad 6 (Z.abs y)) with (String "+"%char (pad 6 (Z.abs y))).
      rewrite app_cons. cbn [readYear].
      rewrite readDigits_pad_exact
        by (change (10 ^ Z.of_nat 6) with 1000000; lia).
      f_equal. f_equal. lia.
Qed.

Lemma readDashed_pad (m : Z) (rest : string) :
  0 <= m < 100 ->
  readDashed ("-" +:+ pad 2 m +:+ rest) = Some (Some m, rest).
Proof.
  intros H.
  change ("-" +:+ pad 2 m +:+ rest) with (String "-"%char (pad 2 m +:+ rest)).
  cbn [readDashed]. rewrite readDigits_pad_exact by exact H. reflexivity.
Qed.

(** The month of a time holds its day. *)
Lemma month_of_day (leap d : Z) :
  0 <= leap <= 1 -> 0 <= d < 365 + leap ->
  let m :=
    if d <? 31 then 0
    else if d <? 59 + leap then 1
    else if d <? 90 + leap then 2
    else if d <? 120 + leap then 3
    else if d <? 151 + leap then 4
    else if d <? 181 + leap then 5
    else if d <? 212 + leap then 6
    else if d <? 243 + leap then 7
    else if d <? 273 + leap then 8
    else if d <? 304 + leap then 9
    else if d <? 334 + leap then 10
    else 11 in
  monthStart leap m <= d
  /\ d < (if m =? 11 then 365 + leap else monthStart leap (m + 1)).
Proof.
  intros Hl Hd. cbv zeta.
  repeat match goal with
         | |- context [if ?x <? ?y then _ else _] =>
             let E := fresh "E" in
             destruct (x <? y) eqn:E;
             [apply Z.ltb_lt in E | apply Z.ltb_ge in E]
         end;
    repeat match goal with
           | |- context [monthStart ?l (?k + 1)] =>
               let r := eval vm_compute in (k + 1) in change (k + 1) with r
           end;
    cbn [monthStart Z.eqb Pos.eqb]; lia.
Qed.

Lemma DaysInMonth_starts (y m : Z) :
  0 <= m <= 11 ->
  DaysInMonth y m
  = (if m =? 11 then DaysInYear y
     else monthStart (if DaysInYear y =? 366 then 1 else 0) (m + 1))
    - monthStart (if DaysInYear y =? 366 then 1 else 0) m.
Proof.
  intros H. unfold DaysInMonth, MakeDay.
  rewrite (Z.div_small m 12), (Z.mod_small m 12), Z.add_0_r by lia.
  destruct (m =? 11) eqn:E.
  - apply Z.eqb_eq in E. subst m. change ((11 + 1) / 12) with 1.
    change ((11 + 1) mod 12) with 0. rewrite DayFromYear_succ.
    cbn [monthStart Z.eqb Pos.eqb]. lia.
  - apply Z.eqb_neq in E.
    rewrite (Z.div_small (m + 1) 12), (Z.mod_small (m + 1) 12), Z.add_0_r by lia.
    lia.
Qed.

Lemma DateFromTime_in_month (t : Z) :
  1 <= DateFromTime t <= DaysInMonth (YearFromTime t) (MonthFromTime t).
Proof.
  pose proof (MonthFromTime_range t) as Hm.
  rewrite DaysInMonth_starts by exact Hm.
  pose proof (DayWithinYear_range t) as R.
  pose proof (InLeapYear_DaysInYear t) as L.
  pose proof (DaysInYear_cases (YearFromTime t)) as C.
  fold (InLeapYear t).
  pose proof (month_of_day (InLeapYear t) (DayWithinYear t)) as M.
  cbv zeta in M. fold (MonthFromTime t) in M.
  unfold DateFromTime.
  destruct (MonthFromTime t =? 11); lia.
Qed.

Lemma MakeTime_fields (t : Z) :
  MakeTime (HourFromTime t) (MinFromTime t) (SecFromTime t) (msFromTime t)
  = TimeWithinDay t.
Proof.
  unfold MakeTime, HourFromTime, MinFromTime, SecFromTime, msFromTime,
    TimeWithinDay, msPerHour, msPerMinute, msPerSecond, msPerDay.
  div_lia.
Qed.

Lemma time_fields_range (t : Z) :
  0 <= HourFromTime t <= 23 /\ 0 <= MinFromTime t <= 59
  /\ 0 <= SecFromTime t <= 59 /\ 0 <= msFromTime t <= 999.
Proof.
  unfold HourFromTime, MinFromTime, SecFromTime, msFromTime, msPerHour,
    msPerMinute, msPerSecond.
  repeat split; div_lia.
Qed.

(** The ISO text of a time reads back as that time, in UTC. *)
Lemma parseISO_toISOString (t : Z) (iso : string) :
  Z.abs t <= maxTime ->
  toISOString (Some t) = Ok iso -> parseISO iso = Some (t, false).
Proof.
  intros Hv H. unfold toISOString in H.
  apply (f_equal (fun r => match r with Ok x => x | Throw _ => EmptyString end))
    in H.
  cbv beta iota in H. subst iso.
  pose proof (YearFromTime_bounds t Hv) as Hy.
  pose proof (MonthFromTime_range t) as Hm.
  pose proof (DateFromTime_in_month t) as Hd.
  pose proof (DateFromTime_range t) as Hd'.
  destruct (time_fields_range t) as (Hh & Hmi & Hs & Hms).
  unfold parseISO.
  rewrite readYear_yearString by lia. cbv iota beta.
  rewrite readDashed_pad by lia. cbv iota beta.
  rewrite readDashed_pad by lia. cbv iota beta zeta.
  replace (MonthFromTime t + 1 - 1) with (MonthFromTime t) by lia.
  replace ((1 <=? MonthFromTime t + 1) && (MonthFromTime t + 1 <=? 12)
           && (1 <=? DateFromTime t)
           && (DateFromTime t <=? DaysInMonth (YearFromTime t) (MonthFromTime t)))
    with true
    by (symmetry; rewrite !andb_true_iff, !Z.leb_le; lia).
  match goal with
  | |- context [("T" +:+ ?r)%string] =>
      change ("T" +:+ r) with (String "T"%char r)
  end.
  cbv iota beta.
  unfold readTime.
  rewrite readDigits_pad_exact by (change (10 ^ Z.of_nat 2) with 100; lia).
  match goal with
  | |- context [(":" +:+ ?r)%string] =>
      change (":" +:+ r) with (String ":"%char r)
  end.
  cbv iota beta.
  rewrite readDigits_pad_exact by (change (10 ^ Z.of_nat 2) with 100; lia).
  match goal with
  | |- context [(":" +:+ ?r)%string] =>
      change (":" +:+ r) with (String ":"%char r)
  end.
  unfold readSeconds.
  rewrite readDigits_pad_exact by (change (10 ^ Z.of_nat 2) with 100; lia).
  match goal with
  | |- context [("." +:+ ?r)%string] =>
      change ("." +:+ r) with (String "."%char r)
  end.
  cbv iota beta.
  rewrite readDigits_pad_exact by (change (10 ^ Z.of_nat 3) with 1000; lia).
  change (readOffset "Z") with (Some (Some 0)).
  cbv iota beta.
  replace ((HourFromTime t <=? 23) && (MinFromTime t <=? 59)
           && (SecFromTime t <=? 59)) with true
    by (symmetry; rewrite !andb_true_iff, !Z.leb_le; lia).
  cbn [orb].
  rewrite MakeTime_fields.
  pose proof (MakeDay_fields t 0) as D. rewrite !Z.add_0_r in D. rewrite D.
  rewrite Day_TimeWithinDay, Z.sub_0_r. reflexivity.
Qed.

Variable host : Host.

Lemma ofString_toISOString (t : Z) (iso : string) :
  Z.abs t <= maxTime ->
  toISOString (Some t) = Ok iso -> ofString host iso = Some t.
Proof.
  intros Hv H. unfold ofString.
  rewrite (parseISO_toISOString t iso Hv H). apply TimeClip_valid. exact Hv.
Qed.

Lemma ofString_Some (s : string) (t : Z) :
  ofString host s = Some t -> Z.abs t <= maxTime.
Proof.
  apply (ofValue_Some host (VStr s) t).
Qed.

(** The fields [handleRecurrenceCompletion] has written when it
    reaches the end date, under fields written later. *)
Lemma successor_fields (fm0 fm' : gmap string jsval) (iso : string) :
  Str.truthy iso = true ->
  (forall k, k <> "sheduledEnd" -> k <> "title" ->
     fm' !! k
     = assign "scheduled" (VStr iso)
         (assign "status" (VStr "open")
            (assign "recurrence" VNull
               (assign "recurrenceRule" VNull fm0))) !! k) ->
  Workflow.field fm' "status" = VStr "open"
  /\ Workflow.field fm' "scheduled" = VStr iso
  /\ fm' !! "recurrenceRule" = None /\ fm' !! "recurrence" = None
  /\ Workflow.getRecurrenceValue (Some fm') = ""
  /\ (forall k, k <> "status" -> k <> "scheduled" -> k <> "recurrenceRule" ->
        k <> "recurrence" -> k <> "sheduledEnd" -> k <> "title" ->
        fm' !! k = fm0 !! k).
Proof.
  intros Hi H.
  assert (R1 : fm' !! "recurrenceRule" = None).
  { rewrite H by discriminate.
    rewrite !lookup_assign_other by discriminate. apply lookup_delete_eq. }
  assert (R2 : fm' !! "recurrence" = None).
  { rewrite H by discriminate.
    rewrite !lookup_assign_other by discriminate. apply lookup_delete_eq. }
  split; [|split; [|split; [|split; [|split]]]].
  - unfold Workflow.field. rewrite H by discriminate.
    rewrite lookup_assign_other by discriminate.
    exact (field_assign_same "status" (VStr "open") _).
  - unfold Workflow.field. rewrite H by discriminate.
    rewrite (assign_insert _ _ _ Hi), lookup_insert_eq. reflexivity.
  - exact R1.
  - exact R2.
  - unfold Workflow.getRecurrenceValue, Workflow.field. rewrite R1, R2.
    reflexivity.
  - intros k K1 K2 K3 K4 K5 K6. rewrite H by assumption.
    rewrite !lookup_assign_other by assumption. reflexivity.
Qed.

End IsoFacts.

(** X10.  [normalizeInputDate] never throws, and what it returns is
    canonical: it is [null] exactly for the empty text and for a text
    that is not a date, and otherwise an ISO text that denotes the
    same instant as the input and that [normalizeInputDate] returns
    unchanged. *)
Theorem normalizeInputDate_canonical (host : Host) (value : string) :
  exists r : option string,
    Controller.normalizeInputDate host value = Ok r
    /\ (r = None <-> value = "" \/ JsDate.ofString host value = None)
    /\ (forall iso, r = Some iso ->
          JsDate.ofString host iso = JsDate.ofString host value
          /\ Controller.normalizeInputDate host iso = Ok (Some iso)).
Proof.
  unfold Controller.normalizeInputDate at 1.
  destruct value as [|c0 r0]; cbn [Str.truthy Str.isEmpty negb].
  - exists None. split; [reflexivity|]. split; [tauto | discriminate].
  - set (value := String c0 r0).
    destruct (JsDate.ofString host value) as [t|] eqn:Hd.
    + pose proof (ofString_Some host _ _ Hd) as Hv.
      cbn [JsDate.getTime Num.isNaN Num.ofZ].
      destruct (JsDate.toISOString (Some t)) as [iso|e] eqn:Hi; [|discriminate].
      exists (Some iso). split; [reflexivity|]. split.
      * split; [discriminate | intros [H|H]; discriminate].
      * intros iso' H. injection H as <-.
        pose proof (ofString_toISOString host t iso Hv Hi) as Hr.
        split; [exact Hr|].
        unfold Controller.normalizeInputDate.
        rewrite (toISOString_truthy _ _ Hi), Hr. cbn [negb].
        cbn [JsDate.getTime Num.isNaN Num.ofZ]. rewrite Hi. reflexivity.
    + exists None. split; [reflexivity|]. split; [tauto | discriminate].
Qed.

(** X11.  The successor made on completion: whether or not the end
    date can be computed, the new file has the status open, no
    recurrence rule of either spelling (completing it makes no further
    file), a [scheduled] text that reads back as the next occurrence,
    and otherwise the fields of the completed task except [sheduledEnd]
    and [title]; the completed task and every other entry of the vault
    are as before. *)
Theorem successor_is_open_and_not_recurring (host : Host) (file : TFile)
    (fm : gmap string jsval) (v : gmap string Node) (content : string)
    (fm0 : gmap string jsval) (d : Date) (newName : string) :
  Value.truthy (Workflow.field fm "scheduled") = true ->
  Recurrence.computeNextOccurrence host (Workflow.getRecurrenceValue (Some fm))
    (Workflow.field fm "scheduled") = Some d ->
  NameGen.generateNextName (name file) d = Ok newName ->
  v !! path file = Some (FileNode content fm0) ->
  v !! destinationPath file newName = None ->
  exists (r : Result unit) (v' : gmap string Node) (fm' : gmap string jsval)
         (iso : string),
    Workflow.handleRecurrenceCompletion host file fm v = (r, v')
    /\ v' !! destinationPath file newName = Some (FileNode content fm')
    /\ Workflow.field fm' "status" = VStr "open"
    /\ Workflow.field fm' "scheduled" = VStr iso
    /\ JsDate.ofValue host (VStr iso) = d
    /\ fm' !! "recurrenceRule" = None /\ fm' !! "recurrence" = None
    /\ Workflow.getRecurrenceValue (Some fm') = ""
    /\ Workflow.handleRecurrenceCompletion host
         (Workflow.fileAt (destinationPath file newName)) fm' v' = (Ok tt, v')
    /\ (forall k, k <> "status" -> k <> "scheduled" -> k <> "recurrenceRule" ->
          k <> "recurrence" -> k <> "sheduledEnd" -> k <> "title" ->
          fm' !! k = fm0 !! k)
    /\ (forall p, p <> destinationPath file newName -> v' !! p = v !! p).
Proof.
  intros Hs Hn Hname Hsrc Hfree.
  destruct (computeNextOccurrence_valid host _ _ _ Hn) as (c & ->).
  destruct (JsDate.toISOString (Some c)) as [iso|e] eqn:Hi; [|discriminate].
  pose proof (toISOString_truthy _ _ Hi) as Ht.
  assert (Hc : Z.abs c <= JsDate.maxTime).
  { destruct (Recurrence.parseRecurrence (Workflow.getRecurrenceValue (Some fm)))
      as [parsed|e] eqn:Hp;
      [|unfold Recurrence.computeNextOccurrence in Hn; rewrite Hp in Hn;
        discriminate].
    destruct (JsDate.ofValue host (Workflow.field fm "scheduled")) as [b|] eqn:Hb;
      [|rewrite computeNextOccurrence_invalid in Hn by exact Hb; discriminate].
    rewrite (computeNextOccurrence_search _ _ _ _ _ Hp Hb) in Hn.
    destruct (Recurrence.noFreq parsed); [discriminate|].
    apply search_Some in Hn. destruct Hn as (k & Hk & Hd & _).
    apply (candidateAt_Some host parsed (Some b) k c); [lia | auto]. }
  assert (Hr : Str.truthy (Workflow.getRecurrenceValue (Some fm)) = true).
  { destruct (Workflow.getRecurrenceValue (Some fm)); [|reflexivity].
    rewrite computeNextOccurrence_empty in Hn. discriminate. }
  pose proof (handleRecurrenceCompletion_spawn host file fm v content fm0
                (Some c) newName iso Hr Hs Hn Hname Hi Hsrc Hfree) as Hrun.
  assert (Hfin : forall (r : Result unit) (fm' : gmap string jsval),
            Workflow.handleRecurrenceCompletion host file fm v
            = (r, <[destinationPath file newName := FileNode content fm']> v) ->
            (forall k, k <> "sheduledEnd" -> k <> "title" ->
               fm' !! k
               = assign "scheduled" (VStr iso)
                   (assign "status" (VStr "open")
                      (assign "recurrence" VNull
                         (assign "recurrenceRule" VNull fm0))) !! k) ->
            exists (r : Result unit) (v' : gmap string Node)
                   (fm' : gmap string jsval) (iso : string),
              Workflow.handleRecurrenceCompletion host file fm v = (r, v')
              /\ v' !! destinationPath file newName = Some (FileNode content fm')
              /\ Workflow.field fm' "status" = VStr "open"
              /\ Workflow.field fm' "scheduled" = VStr iso
              /\ JsDate.ofValue host (VStr iso) = Some c
              /\ fm' !! "recurrenceRule" = None /\ fm' !! "recurrence" = None
              /\ Workflow.getRecurrenceValue (Some fm') = ""
              /\ Workflow.handleRecurrenceCompletion host
                   (Workflow.fileAt (destinationPath file newName)) fm' v'
                 = (Ok tt, v')
              /\ (forall k, k <> "status" -> k <> "scheduled" ->
                    k <> "recurrenceRule" -> k <> "recurrence" ->
                    k <> "sheduledEnd" -> k <> "title" -> fm' !! k = fm0 !! k)
              /\ (forall p, p <> destinationPath file newName ->
                    v' !! p = v !! p)).
  { intros r fm' Hrun' Hfm'.
    destruct (successor_fields fm0 fm' iso Ht Hfm')
      as (F1 & F2 & F3 & F4 & F5 & F6).
    exists r, (<[destinationPath file newName := FileNode content fm']> v), fm', iso.
    split; [exact Hrun'|]. split; [apply lookup_insert_eq|].
    split; [exact F1|]. split; [exact F2|].
    split; [apply (ofString_toISOString host c iso Hc Hi)|].
    split; [exact F3|]. split; [exact F4|]. split; [exact F5|].
    split; [unfold Workflow.handleRecurrenceCompletion; rewrite F5; reflexivity|].
    split; [exact F6|].
    intros p Hp. apply lookup_insert_ne. congruence. }
  destruct (Workflow.computeEndISO host (endInput fm iso)) as [endISO|e].
  - apply (Hfin _ _ Hrun). intros k K1 K2. unfold successorFrontmatter.
    rewrite !(lookup_assign_other _ k) by assumption. reflexivity.
  - apply (Hfin _ _ Hrun). reflexivity.
Qed.

Lemma successor_is_open_and_not_recurring_witness :
  exists (r : Result unit) (v' : gmap string Node) (fm' : gmap string jsval)
         (iso : string),
    Workflow.handleRecurrenceCompletion utcHost legacyFile legacyTask legacyVault
    = (r, v')
    /\ v' !! destinationPath legacyFile "Water plants 2024-01-02.md"
       = Some (FileNode "" fm')
    /\ Workflow.field fm' "status" = VStr "open"
    /\ Workflow.field fm' "scheduled" = VStr iso
    /\ JsDate.ofValue utcHost (VStr iso) = Some 1704186000000
    /\ fm' !! "recurrenceRule" = None /\ fm' !! "recurrence" = None
    /\ Workflow.getRecurrenceValue (Some fm') = ""
    /\ Workflow.handleRecurrenceCompletion utcHost
         (Workflow.fileAt (destinationPath legacyFile "Water plants 2024-01-02.md"))
         fm' v' = (Ok tt, v')
    /\ (forall k, k <> "status" -> k <> "scheduled" -> k <> "recurrenceRule" ->
          k <> "recurrence" -> k <> "sheduledEnd" -> k <> "title" ->
          fm' !! k = legacyTask !! k)
    /\ (forall p, p <> destinationPath legacyFile "Water plants 2024-01-02.md" ->
          v' !! p = legacyVault !! p).
Proof.
  apply (successor_is_open_and_not_recurring utcHost legacyFile legacyTask
           legacyVault "" legacyTask (Some 1704186000000)
           "Water plants 2024-01-02.md");
    vm_compute; reflexivity.
Defined.

(** X12.  The end of a task with a whole number [m] of minutes as time
    estimate, not zero, and a start that is a date: [computeEndISO] is
    the ISO text of the start plus [m] minutes, which reads back as
    that instant; when the sum is outside the range of dates it throws
    a RangeError. *)
Theorem computeEndISO_adds_minutes (host : Host) (fm : gmap string jsval)
    (t m : Z) :
  Value.truthy (Workflow.field fm "scheduled") = true ->
  JsDate.ofValue host (Workflow.field fm "scheduled") = Some t ->
  Value.toNumber (Workflow.field fm "timeEstimate") = Num.ofZ m ->
  m <> 0 ->
  Workflow.computeEndISO host fm
  = JsDate.toISOString (JsDate.TimeClip (t + m * 60000))
  /\ (Z.abs (t + m * 60000) <= JsDate.maxTime ->
      exists iso, Workflow.computeEndISO host fm = Ok iso
        /\ JsDate.ofValue host (VStr iso) = Some (t + m * 60000))
  /\ (JsDate.maxTime < Z.abs (t + m * 60000) ->
      Workflow.computeEndISO host fm = Throw RangeError).
Proof.
  intros Hs Hd He Hm.
  assert (E : Workflow.computeEndISO host fm
              = JsDate.toISOString (JsDate.TimeClip (t + m * 60000))).
  { unfold Workflow.computeEndISO. rewrite Hs, Hd, He. cbn [negb].
    cbn [JsDate.getTime]. change (Fin 60000) with (Num.ofZ 60000).
    rewrite mul_ofZ, add_ofZ, ofNumber_ofZ.
    assert (T : Num.truthy (Num.ofZ m) = true).
    { unfold Num.truthy, Num.ofZ. apply negb_true_iff.
      destruct (Qeq_bool (inject_Z m) 0) eqn:Q; [|reflexivity].
      apply Qeq_bool_iff in Q. unfold Qeq in Q. cbn in Q. lia. }
    rewrite T. reflexivity. }
  split; [exact E|]. split.
  - intros Hv. rewrite E, (TimeClip_valid _ Hv).
    destruct (JsDate.toISOString (Some (t + m * 60000))) as [iso|e] eqn:Hi;
      [|discriminate].
    exists iso. split; [reflexivity|].
    apply (ofString_toISOString host _ iso Hv Hi).
  - intros Hv. rewrite E. unfold JsDate.TimeClip.
    destruct (Z.abs (t + m * 60000) <=? JsDate.maxTime) eqn:L;
      [apply Z.leb_le in L; lia | reflexivity].
Qed.

Lemma computeEndISO_adds_minutes_witness :
  Workflow.computeEndISO utcHost
    (<["timeEstimate" := VStr "90"]> legacyTask)
  = JsDate.toISOString (JsDate.TimeClip (1704099600000 + 90 * 60000))
  /\ (Z.abs (1704099600000 + 90 * 60000) <= JsDate.maxTime ->
      exists iso,
        Workflow.computeEndISO utcHost (<["timeEstimate" := VStr "90"]> legacyTask)
        = Ok iso
        /\ JsDate.ofValue utcHost (VStr iso) = Some (1704099600000 + 90 * 60000))
  /\ (JsDate.maxTime < Z.abs (1704099600000 + 90 * 60000) ->
      Workflow.computeEndISO utcHost (<["timeEstimate" := VStr "90"]> legacyTask)
      = Throw RangeError).
Proof.
  apply (computeEndISO_adds_minutes utcHost
           (<["timeEstimate" := VStr "90"]> legacyTask) 1704099600000 90).
  - vm_compute. reflexivity.
  - vm_compute. reflexivity.
  - vm_compute. reflexivity.
  - discriminate.
Defined.

(** ** Names of successors *)

Section NameFacts.

Import NameGen.

Lemma allChars_app (p : ascii -> bool) (a b : string) :
  allChars p (a +:+ b) = allChars p a && allChars p b.
Proof.
  induction a as [|c a IH]; [reflexivity|].
  rewrite app_cons. cbn [allChars]. rewrite IH, andb_assoc. reflexivity.
Qed.

Lemma allChars_take (p : ascii -> bool) (n : nat) (s : string) :
  allChars p s = true -> allChars p (Str.take n s) = true.
Proof.
  revert s. induction n as [|n IH]; intros s H; [reflexivity|].
  destruct s as [|c r]; [reflexivity|].
  cbn [Str.take allChars] in *. apply andb_true_iff in H. destruct H as [H1 H2].
  rewrite H1, (IH r H2). reflexivity.
Qed.

Lemma length_take (n : nat) (s : string) :
  (n <= String.length s)%nat -> String.length (Str.take n s) = n.
Proof.
  revert s. induction n as [|n IH]; intros s H; [reflexivity|].
  destruct s as [|c r]; cbn [String.length] in H; [lia|].
  cbn [Str.take String.length]. rewrite IH by lia. reflexivity.
Qed.

Lemma isDigit_visible (c : ascii) : Str.isDigit c = true -> visible c = true.
Proof.
  unfold Str.isDigit, visible. cbv zeta. intros H.
  apply andb_true_iff in H. destruct H as [H1 H2]. apply Z.leb_le in H1, H2.
  apply andb_true_iff. split; [apply Z.leb_le | apply Z.ltb_lt]; lia.
Qed.

Lemma allChars_pad (w : nat) (n : Z) : allChars visible (JsDate.pad w n) = true.
Proof.
  revert n. induction w as [|w IH]; intros n; [reflexivity|].
  cbn [JsDate.pad]. rewrite allChars_app, IH. cbn [allChars andb].
  rewrite isDigit_visible by apply digitChar_code. reflexivity.
Qed.

Lemma length_pad (w : nat) (n : Z) : String.length (JsDate.pad w n) = w.
Proof.
  revert n. induction w as [|w IH]; intros n; [reflexivity|].
  cbn [JsDate.pad]. rewrite app_length, IH. cbn [String.length]. lia.
Qed.

Lemma allChars_yearString (y : Z) : allChars visible (JsDate.yearString y) = true.
Proof.
  unfold JsDate.yearString.
  destruct ((0 <=? y) && (y <=? 9999)); [apply allChars_pad|].
  rewrite allChars_app, allChars_pad. destruct (y <? 0); reflexivity.
Qed.

Lemma length_yearString (y : Z) : (4 <= String.length (JsDate.yearString y))%nat.
Proof.
  unfold JsDate.yearString.
  destruct ((0 <=? y) && (y <=? 9999)); [rewrite length_pad; lia|].
  rewrite app_length, length_pad. lia.
Qed.

Lemma dateStamp_visible (t : Z) : allChars visible (dateStamp t) = true.
Proof.
  unfold dateStamp, JsDate.toISOString. apply allChars_take.
  rewrite !allChars_app, !allChars_pad, allChars_yearString. reflexivity.
Qed.

Lemma dateStamp_length (t : Z) : String.length (dateStamp t) = 10%nat.
Proof.
  unfold dateStamp, JsDate.toISOString. apply length_take.
  pose proof (length_yearString (JsDate.YearFromTime t)).
  rewrite !app_length, !length_pad. cbn [String.length]. lia.
Qed.

Lemma visible_not_white (c : ascii) :
  visible c = true -> Str.isWhite (String c EmptyString) = false.
Proof.
  unfold visible. intros H. apply andb_true_iff in H. destruct H as [H1 H2].
  apply Z.leb_le in H1. apply Z.ltb_lt in H2. rewrite isWhite_ascii.
  repeat apply orb_false_intro; apply Z.eqb_neq; lia.
Qed.

Lemma visible_code (c : ascii) : visible c = true -> Str.code c < 128.
Proof.
  unfold visible. intros H. apply andb_true_iff in H. destruct H as [_ H].
  apply Z.ltb_lt in H. lia.
Qed.

(** A text of visible ASCII characters neither starts nor ends with
    white space. *)
Lemma visible_ends (s : string) :
  allChars visible s = true -> s <> EmptyString ->
  startsCont s = false
  /\ Str.chars s <> []
  /\ headNot Str.isWhite (Str.chars s)
  /\ endNot Str.isWhite (Str.chars s).
Proof.
  intros H N. destruct s as [|c r]; [congruence|]. clear N.
  revert c H. induction r as [|d r IH]; intros c H;
    cbn [allChars] in H; apply andb_true_iff in H; destruct H as [Hc Hr];
    rewrite (chars_ascii c _ (visible_code c Hc)); cbn [startsCont headNot];
    (split; [apply ascii_not_cont, visible_code, Hc|]);
    (split; [discriminate|]);
    (split; [apply visible_not_white, Hc|]).
  - apply endNot_single, visible_not_white, Hc.
  - destruct (IH d Hr) as (_ & Hn & _ & He).
    apply (endNot_app Str.isWhite [String c EmptyString]); assumption.
Qed.

Lemma dateStamp_ends (t : Z) :
  startsCont (dateStamp t) = false
  /\ Str.chars (dateStamp t) <> []
  /\ headNot Str.isWhite (Str.chars (dateStamp t))
  /\ endNot Str.isWhite (Str.chars (dateStamp t)).
Proof.
  apply visible_ends; [apply dateStamp_visible|].
  intros E. pose proof (dateStamp_length t) as L. rewrite E in L. discriminate.
Qed.

(** *** Extensions *)

Lemma allNotSeparator_dot (a e : string) :
  allNotSeparator (a +:+ "." +:+ e) = false.
Proof.
  induction a as [|c a IH]; [reflexivity|].
  rewrite app_cons. cbn [allNotSeparator]. rewrite IH. apply andb_false_r.
Qed.

Lemma extMatch_extension (a e : string) :
  isExtension e = true -> extMatch (a +:+ "." +:+ e) = Some ("." +:+ e).
Proof.
  unfold isExtension. intros H. apply andb_true_iff in H. destruct H as [H1 H2].
  induction a as [|c a IH].
  - change ("" +:+ "." +:+ e) with (String "."%char e).
    cbn [extMatch]. rewrite H1, H2. reflexivity.
  - rewrite app_cons. cbn [extMatch].
    rewrite allNotSeparator_dot, andb_false_r. exact IH.
Qed.

Lemma extMatch_suffix (s x : string) :
  extMatch s = Some x -> exists a, s = a +:+ x.
Proof.
  induction s as [|c r IH]; [discriminate|]. cbn [extMatch].
  destruct (Ascii.eqb c "." && Str.truthy r && allNotSeparator r).
  - intros H. injection H as <-. exists EmptyString. reflexivity.
  - intros H. destruct (IH H) as (a & ->). exists (String c a). reflexivity.
Qed.

Lemma take_stem (a b : string) :
  Str.take (String.length (a +:+ b) - String.length b) (a +:+ b) = a.
Proof.
  rewrite app_length.
  replace (String.length a + String.length b - String.length b)%nat
    with (String.length a) by lia.
  apply take_app.
Qed.

(** *** Date tokens *)

Lemma digitsThen_spec (n : nat) (s r : string) :
  digitsThen n s = Some r ->
  String.length s = (n + String.length r)%nat
  /\ (allChars visible r = true -> allChars visible s = true).
Proof.
  revert s. induction n as [|n IH]; intros s H.
  - injection H as <-. auto.
  - destruct s as [|c s']; [discriminate|]. cbn [digitsThen] in H.
    destruct (Str.isDigit c) eqn:D; [|discriminate].
    destruct (IH _ H) as [L A]. split; [cbn [String.length]; lia|].
    intros Hr. cbn [allChars]. rewrite (isDigit_visible _ D), (A Hr).
    reflexivity.
Qed.

Lemma dashThen_spec (s r : string) : dashThen s = Some r -> s = String "-"%char r.
Proof.
  destruct s as [|[[] [] [] [] [] [] [] []] s']; cbn [dashThen];
    try discriminate.
  intros H. injection H as <-. reflexivity.
Qed.

Lemma dateToken_spec (s r : string) :
  dateToken s = Some r ->
  String.length s = (10 + String.length r)%nat
  /\ (allChars visible r = true -> allChars visible s = true).
Proof.
  unfold dateToken.
  destruct (digitsThen 4 s) as [r1|] eqn:E1; [|discriminate].
  destruct (dashThen r1) as [r2|] eqn:E2; [|discriminate].
  destruct (digitsThen 2 r2) as [r3|] eqn:E3; [|discriminate].
  destruct (dashThen r3) as [r4|] eqn:E4; [|discriminate].
  intros E5.
  apply digitsThen_spec in E1, E3, E5. apply dashThen_spec in E2, E4.
  subst r1 r3. cbn [String.length allChars] in *.
  destruct E1 as [L1 A1], E3 as [L3 A3], E5 as [L5 A5].
  split; [lia|]. intros Hr. apply A1. apply A3. apply A5. exact Hr.
Qed.

Lemma matchHere_unfold (l : list string) :
  matchHere l
  = if match dateToken (Str.join l) with
       | Some rest => negb (laterDate (Str.chars rest)) && Str.isEmpty rest
       | None => false
       end
    then Some EmptyString
    else match l with
         | ch :: r =>
             if Str.isLineTerminator ch then None
             else option_map (String.append ch) (matchHere r)
         | [] => None
         end.
Proof. destruct l; reflexivity. Qed.

(** The match of a name that ends with a date: the first group is
    what precedes the date. *)
Lemma matchHere_stem (l : list string) (date1 : string) :
  forallb isChar l = true ->
  forallb (fun ch => negb (Str.isLineTerminator ch)) l = true ->
  dateToken date1 = Some EmptyString ->
  matchHere (l ++ Str.chars date1)%list = Some (Str.join l).
Proof.
  intros Hc Hl Hd. induction l as [|ch r IH].
  - cbn [app Str.join]. rewrite matchHere_unfold, join_chars, Hd. reflexivity.
  - cbn [forallb] in Hc, Hl.
    apply andb_true_iff in Hc. destruct Hc as [Hch Hc].
    apply andb_true_iff in Hl. destruct Hl as [Hlt Hl].
    apply negb_true_iff in Hlt.
    rewrite matchHere_unfold. cbn [app]. rewrite Hlt, (IH Hc Hl).
    cbn [option_map Str.join].
    destruct (dateToken (ch +:+ Str.join (r ++ Str.chars date1)%list))
      as [rest|] eqn:E; [|reflexivity].
    apply dateToken_spec in E. destruct E as [L _].
    apply dateToken_spec in Hd. destruct Hd as [L' _].
    rewrite app_length, join_app, app_length, join_chars in L.
    cbn [String.length] in L'.
    destruct ch as [|c0 ch']; [discriminate|]. cbn [String.length] in L.
    destruct rest as [|x rest']; [cbn [String.length] in L; lia|].
    rewrite andb_false_r. reflexivity.
Qed.

Lemma replaceTrailingDate_match (dateStr prefix : string) (l : list string) :
  matchHere l = Some prefix ->
  replaceTrailingDate dateStr l = Str.trim prefix +:+ " " +:+ dateStr.
Proof.
  intros H. destruct l; cbn [replaceTrailingDate]; rewrite H; reflexivity.
Qed.

Lemma endsWithDate_cons (c : ascii) (r : string) :
  endsWithDate (String c r) = false ->
  dateToken (String c r) <> Some EmptyString /\ endsWithDate r = false.
Proof.
  cbn [endsWithDate].
  destruct (dateToken (String c r)) as [[|x rest]|]; intros H;
    try discriminate; split; try exact H; discriminate.
Qed.

Lemma endsWithDate_token (s : string) :
  endsWithDate s = false -> dateToken s <> Some EmptyString.
Proof.
  destruct s as [|c r]; [intros _; discriminate|].
  intros H. apply endsWithDate_cons in H. apply H.
Qed.

Lemma endsWithDate_app (a b : string) :
  endsWithDate (a +:+ b) = false -> endsWithDate b = false.
Proof.
  induction a as [|c a IH]; [trivial|].
  rewrite app_cons. intros H. apply endsWithDate_cons in H. apply IH, H.
Qed.

Lemma matchHere_none (l : list string) :
  endsWithDate (Str.join l) = false -> matchHere l = None.
Proof.
  induction l as [|ch r IH]; intros H; rewrite matchHere_unfold;
    pose proof (endsWithDate_token _ H) as Ht;
    destruct (dateToken _) as [[|x rest]|]; try congruence;
    rewrite ?andb_false_r; try reflexivity;
    cbn [Str.join] in H; rewrite (IH (endsWithDate_app _ _ H));
    destruct (Str.isLineTerminator ch); reflexivity.
Qed.

Lemma replaceTrailingDate_keep (dateStr : string) (l : list string) :
  endsWithDate (Str.join l) = false -> replaceTrailingDate dateStr l = Str.join l.
Proof.
  induction l as [|ch r IH]; intros H.
  - cbn [replaceTrailingDate]. rewrite (matchHere_none _ H). reflexivity.
  - cbn [replaceTrailingDate]. rewrite (matchHere_none _ H).
    cbn [Str.join] in *. rewrite (IH (endsWithDate_app _ _ H)). reflexivity.
Qed.

Lemma replaceTrailingDate_none (dateStr s : string) :
  endsWithDate s = false -> replaceTrailingDate dateStr (Str.chars s) = s.
Proof.
  intros H. rewrite replaceTrailingDate_keep; rewrite join_chars; [reflexivity | exact H].
Qed.

Lemma replaceTrailingDate_shape (dateStr : string) (l : list string) :
  replaceTrailingDate dateStr l = Str.join l
  \/ exists pre, replaceTrailingDate dateStr l = pre +:+ " " +:+ dateStr.
Proof.
  induction l as [|ch r IH].
  - cbn [replaceTrailingDate]. destruct (matchHere []) as [p|]; [right; eauto|].
    left. reflexivity.
  - cbn [replaceTrailingDate].
    destruct (matchHere (ch :: r)) as [p|]; [right; eauto|].
    destruct IH as [E|(pre & E)]; rewrite E; [left; reflexivity|].
    right. exists (ch +:+ pre). rewrite app_assoc. reflexivity.
Qed.

(** *** Trimming around a text without white space at its ends *)

Lemma trim_app_keep (a b : string) :
  startsCont b = false -> Str.chars b <> [] ->
  headNot Str.isWhite (Str.chars b) -> endNot Str.isWhite (Str.chars b) ->
  Str.trim (a +:+ b) = Str.trimStart a +:+ b.
Proof.
  intros Hc Hn Hh He. unfold Str.trim, Str.trimStart.
  rewrite (chars_app a b Hc), (dropWhile_app_keep _ _ _ Hh).
  rewrite (dropEnd_app_keep _ _ _ He Hn), join_app, join_chars. reflexivity.
Qed.

Lemma chars_trimStart (s : string) :
  Str.chars (Str.trimStart s) = Str.dropWhile Str.isWhite (Str.chars s).
Proof. apply chars_join, proper_dropWhile, proper_chars. Qed.

Lemma forallb_dropWhile {A : Type} (p q : A -> bool) (l : list A) :
  forallb q l = true -> forallb q (Str.dropWhile p l) = true.
Proof.
  intros H. destruct (dropWhile_suffix p l) as (l0 & E & _).
  rewrite E, forallb_app in H. apply andb_true_iff in H. apply H.
Qed.

Lemma app_tail_inj (a c b d : string) :
  a +:+ b = c +:+ d -> String.length b = String.length d -> b = d.
Proof.
  revert c. induction a as [|x a IH]; intros c H L.
  - rewrite app_nil_l in H. destruct c as [|y c]; [exact H|].
    apply (f_equal String.length) in H. rewrite app_cons in H.
    cbn [String.length] in H. rewrite app_length in H. lia.
  - destruct c as [|y c].
    + rewrite app_nil_l in H. apply (f_equal String.length) in H.
      rewrite app_cons in H. cbn [String.length] in H.
      rewrite app_length in H. lia.
    + rewrite !app_cons in H. injection H as _ H. apply (IH c H L).
Qed.

(** [trim] of a trimmed stem followed by a space and a date stamp. *)
Lemma trim_stamped (x : string) (t : Z) :
  Str.trim x = x ->
  Str.trim (x +:+ " " +:+ dateStamp t)
  = (if Str.truthy x then x +:+ " " else "") +:+ dateStamp t.
Proof.
  destruct (dateStamp_ends t) as (Hc & Hn & Hh & He).
  intros Hx. destruct (Str.truthy x) eqn:Tx.
  - rewrite app_assoc. apply trim_fixed.
    + rewrite chars_app by reflexivity.
      destruct (trim_fixed_ends x Hx) as [Hhx _].
      pose proof (truthy_chars x Tx) as Nx.
      destruct (Str.chars x) as [|y l]; [congruence | exact Hhx].
    + rewrite chars_app by reflexivity.
      change (" " +:+ dateStamp t) with (String " "%char (dateStamp t)).
      rewrite chars_ascii by (vm_compute; reflexivity).
      change (String " " EmptyString :: Str.chars (dateStamp t))
        with ([String " "%char EmptyString] ++ Str.chars (dateStamp t))%list.
      rewrite List.app_assoc. apply endNot_app; assumption.
  - destruct x; [|discriminate]. rewrite !app_nil_l.
    change (" " +:+ dateStamp t) with (String " "%char (dateStamp t)).
    unfold Str.trim. rewrite chars_ascii by (vm_compute; reflexivity).
    cbn [Str.dropWhile]. change (Str.isWhite " ") with true. cbv iota.
    rewrite (cut_fixed _ _ Hh He). apply join_chars.
Qed.

Lemma generateNextName_eq (originalName : string) (t : Z) :
  generateNextName originalName (Some t)
  = (let ext := default EmptyString (extMatch originalName) in
     let baseName :=
       Str.trim (match extMatch originalName with
                 | Some _ =>
                     Str.take (String.length originalName - String.length ext)
                       originalName
                 | None => originalName
                 end) in
     let replaced := replaceTrailingDate (dateStamp t) (Str.chars baseName) in
     if negb (String.eqb replaced baseName) then Ok (Str.trim replaced +:+ ext)
     else Ok (baseName +:+ (if Str.truthy baseName then " " else "")
              +:+ dateStamp t +:+ ext)).
Proof. reflexivity. Qed.

End NameFacts.

(** X13.  A generated name always carries the date stamp of the next
    occurrence right before the extension of the original name, which
    is kept: for every name and every date, the result is some stem,
    then the stamp, then the extension. *)
Theorem next_name_carries_date (originalName : string) (t : Z) :
  let ext := default EmptyString (NameGen.extMatch originalName) in
  (exists a, originalName = a +:+ ext)
  /\ String.length (dateStamp t) = 10%nat
  /\ exists stem,
      NameGen.generateNextName originalName (Some t)
      = Ok (stem +:+ dateStamp t +:+ ext).
Proof.
  cbv zeta. split; [|split; [apply dateStamp_length|]].
  - destruct (NameGen.extMatch originalName) as [x|] eqn:E.
    + apply extMatch_suffix in E. exact E.
    + exists originalName. cbn [default]. rewrite app_nil_r. reflexivity.
  - rewrite generateNextName_eq. cbv zeta.
    set (ext := default EmptyString (NameGen.extMatch originalName)).
    set (baseName := Str.trim _).
    destruct (dateStamp_ends t) as (Hc & Hn & Hs & He).
    destruct (negb (String.eqb
                      (NameGen.replaceTrailingDate (dateStamp t) (Str.chars baseName))
                      baseName)) eqn:N.
    + destruct (replaceTrailingDate_shape (dateStamp t) (Str.chars baseName))
        as [E|(pre & E)].
      * rewrite E, join_chars, String.eqb_refl in N. discriminate.
      * rewrite E.
        replace (pre +:+ " " +:+ dateStamp t) with ((pre +:+ " ") +:+ dateStamp t)
          by apply app_assoc.
        rewrite trim_app_keep by assumption.
        exists (Str.trimStart (pre +:+ " ")). rewrite app_assoc. reflexivity.
    + exists (baseName +:+ (if Str.truthy baseName then " " else "")).
      rewrite app_assoc. reflexivity.
Qed.

(** X14.  The intended case of [generateNextName]: a name made of a
    stem on one line, a date, and an extension, with a stamp other than
    that date, gets the date replaced: the result is the trimmed stem,
    a space, the stamp and the extension (the stamp and the extension
    when the stem is blank). *)
Theorem next_name_replaces_trailing_date (stem date1 e : string) (t : Z) :
  oneLine stem = true ->
  NameGen.dateToken date1 = Some EmptyString ->
  isExtension e = true ->
  dateStamp t <> date1 ->
  NameGen.generateNextName (stem +:+ date1 +:+ "." +:+ e) (Some t)
  = Ok ((if Str.truthy (Str.trim stem) then Str.trim stem +:+ " " else "")
        +:+ dateStamp t +:+ "." +:+ e).
Proof.
  intros Hl Hd He Hne.
  assert (Hname : stem +:+ date1 +:+ "." +:+ e = (stem +:+ date1) +:+ "." +:+ e)
    by (symmetry; apply app_assoc).
  rewrite generateNextName_eq, Hname. cbv zeta.
  rewrite (extMatch_extension _ e He). cbn [default].
  rewrite take_stem.
  destruct (dateToken_spec _ _ Hd) as [Ld Ad].
  assert (Nd : date1 <> EmptyString) by (intros ->; discriminate).
  destruct (visible_ends date1 (Ad eq_refl) Nd) as (Dc & Dn & Ds & De).
  rewrite trim_app_keep by assumption.
  rewrite (chars_app _ _ Dc), chars_trimStart.
  rewrite (replaceTrailingDate_match _ (Str.trimStart stem)).
  2:{ apply matchHere_stem.
      - apply proper_forall, proper_dropWhile, proper_chars.
      - apply forallb_dropWhile. exact Hl.
      - exact Hd. }
  rewrite trimStart_trim.
  destruct (String.eqb_spec (Str.trim stem +:+ " " +:+ dateStamp t)
              (Str.trimStart stem +:+ date1)) as [E|E].
  - exfalso. apply Hne.
    replace (Str.trim stem +:+ " " +:+ dateStamp t)
      with ((Str.trim stem +:+ " ") +:+ dateStamp t) in E by apply app_assoc.
    apply (app_tail_inj _ _ _ _ E).
    rewrite dateStamp_length, Ld. reflexivity.
  - cbn [negb]. rewrite trim_stamped.
    + rewrite app_assoc. reflexivity.
    + apply trim_idem.
Qed.

Lemma next_name_replaces_trailing_date_witness :
  NameGen.generateNextName ("Weekly Report " +:+ "2024-01-08" +:+ "." +:+ "md")
    (Some 1705276800000)
  = Ok ((if Str.truthy (Str.trim "Weekly Report ")
         then Str.trim "Weekly Report " +:+ " " else "")
        +:+ dateStamp 1705276800000 +:+ "." +:+ "md").
Proof.
  apply (next_name_replaces_trailing_date "Weekly Report " "2024-01-08" "md"
           1705276800000).
  - reflexivity.
  - reflexivity.
  - reflexivity.
  - vm_compute. discriminate.
Defined.

(** X15.  A name with an extension whose trimmed stem does not end with
    a date gets the stamp appended: the result is the trimmed stem, a
    space when the stem is not blank, the stamp and the extension. *)
Theorem next_name_appends_date (stem e : string) (t : Z) :
  isExtension e = true ->
  endsWithDate (Str.trim stem) = false ->
  NameGen.generateNextName (stem +:+ "." +:+ e) (Some t)
  = Ok (Str.trim stem +:+ (if Str.truthy (Str.trim stem) then " " else "")
        +:+ dateStamp t +:+ "." +:+ e).
Proof.
  intros He Hn. rewrite generateNextName_eq. cbv zeta.
  rewrite (extMatch_extension _ e He). cbn [default].
  rewrite take_stem, (replaceTrailingDate_none _ _ Hn), String.eqb_refl.
  reflexivity.
Qed.

Lemma next_name_appends_date_witness :
  NameGen.generateNextName ("Standup" +:+ "." +:+ "md") (Some 1704186000000)
  = Ok (Str.trim "Standup" +:+ (if Str.truthy (Str.trim "Standup") then " " else "")
        +:+ dateStamp 1704186000000 +:+ "." +:+ "md").
Proof.
  apply (next_name_appends_date "Standup" "md" 1704186000000); reflexivity.
Defined.

(** ** File lists *)

Section FileListFacts.

Import Controller.

Lemma fold_addFile (files : list (option TFile)) :
  forall (seen : gset string) (res : list TFile),
    (forall p, p ∈ seen <-> p ∈ path <$> res) ->
    NoDup (path <$> res) ->
    let st := fold_left addFile files (seen, res) in
    (forall p, p ∈ fst st <-> p ∈ path <$> snd st)
    /\ NoDup (path <$> snd st)
    /\ (forall f, f ∈ snd st -> f ∈ res \/ Some f ∈ files)
    /\ (forall f, f ∈ res -> f ∈ snd st)
    /\ (forall f, Some f ∈ files -> path f ∈ path <$> snd st).
Proof.
  induction files as [|item rest IH]; intros seen res Hseen Hnd; cbv zeta.
  - cbn [fold_left fst snd]. repeat split; auto.
    + apply Hseen.
    + apply Hseen.
    + intros f H. apply elem_of_nil in H. destruct H.
  - cbn [fold_left].
    destruct item as [f0|]; cbn [addFile fst snd].
    + destruct (decide (path f0 ∈ seen)) as [Hin|Hout].
      * destruct (IH seen res Hseen Hnd) as (I1 & I2 & I3 & I4 & I5).
        split; [exact I1|]. split; [exact I2|]. split; [|split; [exact I4|]].
        -- intros f H. destruct (I3 f H) as [H'|H']; [left; exact H'|].
           right. apply elem_of_cons. right. exact H'.
        -- intros f H. apply elem_of_cons in H. destruct H as [H|H].
           ++ injection H as ->. apply Hseen in Hin.
              apply list_elem_of_fmap in Hin. destruct Hin as (g & -> & Hg).
              apply list_elem_of_fmap. exists g. split; [reflexivity|].
              apply I4. exact Hg.
           ++ apply I5. exact H.
      * assert (Hseen' : forall p, p ∈ ({[path f0]} ∪ seen : gset string)
                           <-> p ∈ path <$> (res ++ [f0])%list).
        { intros p. rewrite fmap_app, elem_of_app, elem_of_union,
            elem_of_singleton, <- Hseen.
          cbn [fmap list_fmap]. rewrite list_elem_of_singleton. tauto. }
        assert (Hnd' : NoDup (path <$> (res ++ [f0])%list)).
        { rewrite fmap_app. apply NoDup_app. split; [exact Hnd|]. split.
          - intros p Hp Hp'. cbn [fmap list_fmap] in Hp'.
            apply list_elem_of_singleton in Hp'. subst p.
            apply Hout. apply Hseen. exact Hp.
          - apply NoDup_singleton. }
        destruct (IH _ _ Hseen' Hnd') as (I1 & I2 & I3 & I4 & I5).
        split; [exact I1|]. split; [exact I2|]. split; [|split].
        -- intros f H. destruct (I3 f H) as [H'|H'].
           ++ apply elem_of_app in H'. destruct H' as [H'|H']; [left; exact H'|].
              apply list_elem_of_singleton in H'. subst f.
              right. apply elem_of_cons. left. reflexivity.
           ++ right. apply elem_of_cons. right. exact H'.
        -- intros f H. apply I4. apply elem_of_app. left. exact H.
        -- intros f H. apply elem_of_cons in H. destruct H as [H|H].
           ++ injection H as ->. apply list_elem_of_fmap. exists f0.
              split; [reflexivity|]. apply I4. apply elem_of_app. right.
              apply list_elem_of_singleton. reflexivity.
           ++ apply I5. exact H.
    + destruct (IH seen res Hseen Hnd) as (I1 & I2 & I3 & I4 & I5).
      split; [exact I1|]. split; [exact I2|]. split; [|split; [exact I4|]].
      * intros f H. destruct (I3 f H) as [H'|H']; [left; exact H'|].
        right. apply elem_of_cons. right. exact H'.
      * intros f H. apply elem_of_cons in H. destruct H as [H|H];
          [discriminate|]. apply I5. exact H.
Qed.

Lemma fold_addFile_fresh (l : list TFile) :
  forall (seen : gset string) (res : list TFile),
    NoDup (path <$> l) ->
    (forall f, f ∈ l -> path f ∉ seen) ->
    snd (fold_left addFile (Some <$> l) (seen, res)) = (res ++ l)%list.
Proof.
  induction l as [|f l IH]; intros seen res Hnd Hfresh.
  - cbn. rewrite List.app_nil_r. reflexivity.
  - cbn [fmap list_fmap fold_left addFile fst snd].
    destruct (decide (path f ∈ seen)) as [Hin|Hout].
    + exfalso. apply (Hfresh f); [apply elem_of_cons; left; reflexivity|exact Hin].
    + cbn [fmap list_fmap] in Hnd. apply NoDup_cons in Hnd.
      destruct Hnd as [Hf Hnd].
      change (list_fmap TFile (option TFile) Some l) with (Some <$> l).
      rewrite IH.
      * rewrite <- List.app_assoc. reflexivity.
      * exact Hnd.
      * intros g Hg Hin. apply elem_of_union in Hin. destruct Hin as [Hin|Hin].
        -- apply elem_of_singleton in Hin. apply Hf. rewrite <- Hin.
           apply list_elem_of_fmap. exists g. auto.
        -- apply (Hfresh g); [apply elem_of_cons; right; exact Hg | exact Hin].
Qed.

End FileListFacts.

(** X16.  [normalizeFileList] gives each path once: the paths of the
    result are pairwise different, every file of the result is one of
    the file handles given, every file handle given has its path in the
    result, and normalising the result again changes nothing. *)
Theorem normalizeFileList_unique (files : list (option TFile)) :
  let result := Controller.normalizeFileList files in
  NoDup (path <$> result)
  /\ (forall f, f ∈ result -> Some f ∈ files)
  /\ (forall f, Some f ∈ files -> path f ∈ path <$> result)
  /\ Controller.normalizeFileList (Some <$> result) = result.
Proof.
  cbv zeta. unfold Controller.normalizeFileList.
  destruct (fold_addFile files ∅ []) as (I1 & I2 & I3 & I4 & I5).
  - intros p. cbn [fmap list_fmap]. rewrite elem_of_nil. set_solver.
  - apply NoDup_nil. exact I.
  - split; [exact I2|]. split; [|split; [exact I5|]].
    + intros f H. destruct (I3 f H) as [H'|H']; [|exact H'].
      apply elem_of_nil in H'. destruct H'.
    + rewrite fold_addFile_fresh.
      * reflexivity.
      * exact I2.
      * intros f _ H. set_solver.
Qed.

(** ** Tags *)

Section TagFacts.

Import Controller.

Lemma headNot_white (l : list string) :
  headNot tagPrefixChar l -> headNot Str.isWhite l.
Proof.
  destruct l as [|x l]; [trivial|]. cbn [headNot]. unfold tagPrefixChar.
  intros H. apply orb_false_iff in H. apply H.
Qed.

Lemma headNot_cut {A : Type} (p q : A -> bool) (l : list A) :
  headNot q l -> headNot q (Str.dropEnd p l).
Proof.
  destruct l as [|x r]; [trivial|]. cbn [Str.dropEnd].
  destruct (forallb p (x :: r)); [intros _; exact I | trivial].
Qed.

(** The characters of a normalised tag. *)
Lemma chars_normalizeTag (s : string) :
  Str.chars (Str.trim (stripTagPrefix s))
  = Str.dropEnd Str.isWhite (Str.dropWhile tagPrefixChar (Str.chars s)).
Proof.
  rewrite chars_trim. unfold stripTagPrefix.
  rewrite (chars_join _ (proper_dropWhile _ _ (proper_chars s))).
  rewrite (dropWhile_fixed Str.isWhite); [reflexivity|].
  apply headNot_white, headNot_dropWhile.
Qed.

Lemma stripTagPrefix_trim (s : string) :
  stripTagPrefix (Str.trim (stripTagPrefix s)) = Str.trim (stripTagPrefix s).
Proof.
  unfold stripTagPrefix at 1. rewrite chars_normalizeTag.
  rewrite (dropWhile_fixed tagPrefixChar).
  - rewrite <- chars_normalizeTag. apply join_chars.
  - apply headNot_cut, headNot_dropWhile.
Qed.

(** What [normalizeTag] returns is empty or a normal tag. *)
Lemma normalizeTag_normal (v : jsval) :
  normalizeTag v = EmptyString \/ normalTag (normalizeTag v).
Proof.
  destruct v as [| | | |s|]; try (left; reflexivity).
  cbn [normalizeTag]. destruct (Str.truthy s); [|left; reflexivity].
  destruct (Str.truthy (Str.trim (stripTagPrefix s))) eqn:Hn.
  - right. split; [exact Hn|].
    cbn [normalizeTag]. rewrite Hn, stripTagPrefix_trim. apply trim_idem.
  - left. destruct (Str.trim (stripTagPrefix s)); [reflexivity | discriminate].
Qed.

Lemma normalizeTag_idem (v : jsval) :
  normalizeTag (VStr (normalizeTag v)) = normalizeTag v.
Proof.
  destruct (normalizeTag_normal v) as [E|[_ E]]; [rewrite E; reflexivity|].
  exact E.
Qed.

Lemma normalizedItems_normal (items : list jsval) :
  Forall normalTag (normalizedItems items).
Proof.
  unfold normalizedItems. induction items as [|v items IH]; [constructor|].
  cbn [List.map List.filter].
  destruct (Str.truthy (normalizeTag v)) eqn:E; [|exact IH].
  constructor; [|exact IH].
  destruct (normalizeTag_normal v) as [Z|N]; [rewrite Z in E; discriminate|].
  exact N.
Qed.

Lemma normalizedItems_fixed (l : list string) :
  Forall normalTag l -> normalizedItems (List.map VStr l) = l.
Proof.
  unfold normalizedItems. induction 1 as [|x l [Hx Hn] _ IH]; [reflexivity|].
  cbn [List.map List.filter]. rewrite Hn, Hx, IH. reflexivity.
Qed.

Lemma extractTags_list (items : list jsval) :
  extractTags (TagsList items) = normalizedItems items.
Proof.
  unfold extractTags, normalizedItems.
  induction items as [|v items IH]; [reflexivity|].
  cbn [List.flat_map List.map]. rewrite List.filter_app, IH.
  destruct v as [| | | |s|]; try reflexivity.
  cbn [List.filter]. destruct (Str.truthy (normalizeTag (VStr s))); reflexivity.
Qed.

(** The tags [addTagToFile] starts from are the tags of the file. *)
Lemma extractTags_items (tags : tagsval) :
  normalizedItems
    match tags with
    | TagsList items => items
    | TagsScalar (VStr s) => if Str.truthy s then [VStr s] else []
    | TagsScalar _ => []
    end
  = extractTags tags.
Proof.
  destruct tags as [v|items]; [|symmetry; apply extractTags_list].
  destruct v as [| | | |s|]; try reflexivity.
  destruct s as [|c r]; reflexivity.
Qed.

Lemma filter_filter (f g : string -> bool) (l : list string) :
  List.filter f (List.filter g l) = List.filter (fun t => g t && f t) l.
Proof.
  induction l as [|x l IH]; [reflexivity|]. cbn [List.filter].
  destruct (g x); cbn [List.filter andb]; [|exact IH].
  destruct (f x); rewrite IH; reflexivity.
Qed.

Lemma filter_normal (f : string -> bool) (l : list string) :
  Forall normalTag l -> Forall normalTag (List.filter f l).
Proof.
  induction 1 as [|x l Hx _ IH]; [constructor|]. cbn [List.filter].
  destruct (f x); [constructor; assumption | exact IH].
Qed.

End TagFacts.

(** X17.  Adding a tag: a tag that normalises to the empty text is
    refused and the property left alone; otherwise the property becomes
    the list of the tags the file had, in their order and normal form,
    with the normalised tag at the end unless it was among them, and
    adding the same tag again changes nothing. *)
Theorem add_tag_extends_tags (tags : tagsval) (tag : string) :
  let n := Controller.normalizeTag (VStr tag) in
  (n = "" -> Controller.addTagToFile tags tag = (None, tags))
  /\ (n <> "" ->
      exists tags' : tagsval,
        Controller.addTagToFile tags tag = (Some n, tags')
        /\ Controller.extractTags tags'
           = (if Recurrence.includes (Controller.extractTags tags) n
              then Controller.extractTags tags
              else (Controller.extractTags tags ++ [n])%list)
        /\ In n (Controller.extractTags tags')
        /\ Forall normalTag (Controller.extractTags tags')
        /\ Controller.addTagToFile tags' tag = (Some n, tags')).
Proof.
  cbv zeta. split.
  - intros E. unfold Controller.addTagToFile. rewrite E. reflexivity.
  - intros N.
    destruct (normalizeTag_normal (VStr tag)) as [Z|Hn]; [congruence|].
    set (n := Controller.normalizeTag (VStr tag)) in *.
    pose proof Hn as [Ht _].
    set (items2 := if Recurrence.includes (Controller.extractTags tags) n
                   then Controller.extractTags tags
                   else (Controller.extractTags tags ++ [n])%list).
    assert (Hgood : Forall normalTag items2).
    { assert (G : Forall normalTag (Controller.extractTags tags))
        by (rewrite <- extractTags_items; apply normalizedItems_normal).
      unfold items2. destruct (Recurrence.includes _ n); [exact G|].
      apply Forall_app. split; [exact G|]. constructor; [exact Hn | constructor]. }
    assert (Hin : In n items2).
    { unfold items2.
      destruct (Recurrence.includes (Controller.extractTags tags) n) eqn:I.
      - apply includes_In. exact I.
      - apply in_or_app. right. left. reflexivity. }
    assert (Hex : Controller.extractTags (TagsList (List.map VStr items2)) = items2)
      by (rewrite extractTags_list; apply normalizedItems_fixed; exact Hgood).
    exists (TagsList (List.map VStr items2)).
    split; [|split; [exact Hex|split; [rewrite Hex; exact Hin|split]]].
    + unfold Controller.addTagToFile. fold n. rewrite Ht. cbn [negb].
      rewrite extractTags_items. reflexivity.
    + rewrite Hex. exact Hgood.
    + unfold Controller.addTagToFile. fold n. rewrite Ht. cbn [negb].
      rewrite (normalizedItems_fixed _ Hgood).
      rewrite (proj2 (includes_In items2 n) Hin). reflexivity.
Qed.

Lemma add_tag_extends_tags_witness :
  exists tags' : tagsval,
    Controller.addTagToFile (TagsList [VStr "#a"; VNum (Fin 1)]) " b"
    = (Some (Controller.normalizeTag (VStr " b")), tags')
    /\ Controller.extractTags tags'
       = (if Recurrence.includes
               (Controller.extractTags (TagsList [VStr "#a"; VNum (Fin 1)]))
               (Controller.normalizeTag (VStr " b"))
          then Controller.extractTags (TagsList [VStr "#a"; VNum (Fin 1)])
          else (Controller.extractTags (TagsList [VStr "#a"; VNum (Fin 1)])
                ++ [Controller.normalizeTag (VStr " b")])%list)
    /\ In (Controller.normalizeTag (VStr " b")) (Controller.extractTags tags')
    /\ Forall normalTag (Controller.extractTags tags')
    /\ Controller.addTagToFile tags' " b"
       = (Some (Controller.normalizeTag (VStr " b")), tags').
Proof.
  apply (proj2 (add_tag_extends_tags (TagsList [VStr "#a"; VNum (Fin 1)]) " b")).
  vm_compute. discriminate.
Defined.

(** X18.  Removing a tag: the tags of the file afterwards are the tags
    it had, in normal form, without those equal to the tag removed; so
    the tag is not among them. *)
Theorem remove_tag_filters_tags (tags : tagsval) (tag : string) :
  Controller.extractTags (Controller.removeTagFromFile tags tag)
  = List.filter (fun t => negb (String.eqb t tag)) (Controller.extractTags tags)
  /\ ~ In tag (Controller.extractTags (Controller.removeTagFromFile tags tag)).
Proof.
  assert (E : Controller.extractTags (Controller.removeTagFromFile tags tag)
              = List.filter (fun t => negb (String.eqb t tag))
                  (Controller.extractTags tags)).
  { destruct tags as [v|items].
    - unfold Controller.removeTagFromFile. cbn [Controller.tagsTruthy].
      destruct v as [| |b|x|s|o]; cbn [Value.truthy negb]; try reflexivity.
      + destruct b; cbn [negb Controller.normalizeTag]; [|reflexivity].
        destruct (String.eqb "" tag); reflexivity.
      + destruct (Num.truthy x); cbn [negb Controller.normalizeTag];
          [|reflexivity].
        destruct (String.eqb "" tag); reflexivity.
      + destruct (Str.truthy s) eqn:T; cbn [negb].
        * unfold Controller.extractTags at 2. cbn [List.filter].
          destruct (String.eqb (Controller.normalizeTag (VStr s)) tag) eqn:Q.
          -- destruct (Str.truthy (Controller.normalizeTag (VStr s)));
               cbn [List.filter]; rewrite ?Q; reflexivity.
          -- unfold Controller.extractTags. cbn [List.filter].
             destruct (Str.truthy (Controller.normalizeTag (VStr s)));
               cbn [List.filter]; rewrite ?Q; reflexivity.
        * destruct s; [reflexivity | discriminate].
      + cbn [Controller.normalizeTag]. destruct (String.eqb "" tag); reflexivity.
    - unfold Controller.removeTagFromFile.
      cbn [Controller.tagsTruthy negb].
      rewrite extractTags_list. unfold Controller.normalizedItems at 1.
      rewrite filter_filter.
      set (kept := List.filter _ (List.map Controller.normalizeTag items)).
      assert (G : Forall normalTag kept).
      { unfold kept. rewrite <- filter_filter. apply filter_normal.
        apply normalizedItems_normal. }
      destruct kept as [|k kept'] eqn:K; [reflexivity|].
      cbn [List.length Nat.eqb]. rewrite extractTags_list.
      apply normalizedItems_fixed. exact G. }
  split; [exact E|]. rewrite E. intros H. apply List.filter_In in H.
  destruct H as [_ H]. rewrite String.eqb_refl in H. discriminate.
Qed.

(** ** Titles *)

Section TitleFacts.

Import Controller.

Local Open Scope list_scope.

Lemma forallb_dropEnd_keep {A : Type} (p q : A -> bool) (l : list A) :
  forallb q l = true -> forallb q (Str.dropEnd p l) = true.
Proof.
  intros H. destruct (dropEnd_prefix p l) as (l1 & E & _).
  rewrite E, forallb_app in H. apply andb_true_iff in H. apply H.
Qed.

Lemma forallb_cut {A : Type} (p q : A -> bool) (l : list A) :
  forallb q l = true -> forallb q (Str.dropEnd p (Str.dropWhile p l)) = true.
Proof. intros H. apply forallb_dropEnd_keep, forallb_dropWhile, H. Qed.

Lemma flat_map_single (f : string -> string) (l : list string) :
  flat_map (fun ch => [f ch]) l = List.map f l.
Proof. induction l as [|x l IH]; [reflexivity|]. cbn. rewrite IH. reflexivity. Qed.

Lemma proper_cleared (l : list string) :
  proper l = true -> proper (List.map cleared l) = true.
Proof.
  intros H. rewrite <- flat_map_single. apply proper_flat_map; [|exact H].
  intros ch _. unfold cleared. destruct (forbiddenChar ch); [right | left; reflexivity].
  split; [discriminate | reflexivity].
Qed.

Lemma cleared_clean (l : list string) :
  forallb notForbidden (List.map cleared l) = true.
Proof.
  induction l as [|x l IH]; [reflexivity|]. cbn [List.map forallb].
  rewrite IH, andb_true_r. unfold cleared, notForbidden.
  destruct (forbiddenChar x) eqn:E; [reflexivity | rewrite E; reflexivity].
Qed.

Lemma cleared_fixed (l : list string) :
  forallb notForbidden l = true -> List.map cleared l = l.
Proof.
  induction l as [|x l IH]; [reflexivity|]. cbn [List.map forallb].
  intros H. apply andb_true_iff in H. destruct H as [Hx Hl].
  rewrite (IH Hl). unfold cleared. unfold notForbidden in Hx.
  apply negb_true_iff in Hx. rewrite Hx. reflexivity.
Qed.

Lemma collapseFrom_proper (l : list string) :
  proper l = true ->
  forall b,
    proper (collapseFrom b l) = true
    /\ (b = false -> startsContL l = false ->
        startsContL (collapseFrom b l) = false).
Proof.
  induction l as [|ch r IH]; intros H b; [split; reflexivity|].
  pose proof (proper_cons _ _ H) as [Hc Hr].
  cbn [collapseFrom]. destruct (Str.isWhite ch) eqn:W.
  - destruct b.
    + split; [apply (IH Hr true) | discriminate].
    + split; [|reflexivity]. cbn [proper].
      rewrite (proj1 (IH Hr true)). reflexivity.
  - split; [|trivial]. cbn [proper] in *.
    rewrite Hc, (proj1 (IH Hr false)), andb_true_r. cbn [andb].
    apply andb_true_iff in H. destruct H as [H _].
    apply andb_true_iff in H. destruct H as [_ H].
    apply orb_true_iff in H. destruct H as [H|H]; [rewrite H; reflexivity|].
    apply negb_true_iff in H.
    rewrite (proj2 (IH Hr false) eq_refl H). apply orb_true_r.
Qed.

Lemma collapseFrom_forall (q : string -> bool) (l : list string) :
  q " " = true -> forallb q l = true ->
  forall b, forallb q (collapseFrom b l) = true.
Proof.
  intros Hq. induction l as [|ch r IH]; intros H b; [reflexivity|].
  cbn [forallb] in H. apply andb_true_iff in H. destruct H as [H1 H2].
  cbn [collapseFrom]. destruct (Str.isWhite ch).
  - destruct b; [apply IH, H2|]. cbn [forallb]. rewrite Hq, (IH H2). reflexivity.
  - cbn [forallb]. rewrite H1, (IH H2). reflexivity.
Qed.

Lemma collapseFrom_spaces (l : list string) :
  forall b, forallb spaceOrNotWhite (collapseFrom b l) = true.
Proof.
  induction l as [|ch r IH]; intros b; [reflexivity|].
  cbn [collapseFrom]. destruct (Str.isWhite ch) eqn:W.
  - destruct b; [apply IH|]. cbn [forallb]. rewrite IH. reflexivity.
  - cbn [forallb]. rewrite IH, andb_true_r. unfold spaceOrNotWhite.
    rewrite W. reflexivity.
Qed.

Lemma noDoubleWhite_cons (x : string) (l : list string) :
  noDoubleWhite (x :: l)
  = (negb (Str.isWhite x) || match l with
                             | y :: _ => negb (Str.isWhite y)
                             | [] => true
                             end)
    && noDoubleWhite l.
Proof.
  destruct l as [|y l]; [cbn [noDoubleWhite]; rewrite orb_true_r; reflexivity|].
  cbn [noDoubleWhite]. rewrite negb_andb. reflexivity.
Qed.

Lemma collapseFrom_single (l : list string) :
  forall b,
    noDoubleWhite (collapseFrom b l) = true
    /\ (b = true -> headNot Str.isWhite (collapseFrom b l)).
Proof.
  induction l as [|ch r IH]; intros b; [split; [reflexivity | intros _; exact I]|].
  cbn [collapseFrom]. destruct (Str.isWhite ch) eqn:W.
  - destruct b; [apply IH|].
    split; [|discriminate]. rewrite noDoubleWhite_cons.
    destruct (IH true) as [H1 H2]. rewrite H1, andb_true_r.
    specialize (H2 eq_refl). destruct (collapseFrom true r) as [|y l'].
    + apply orb_true_r.
    + cbn [headNot] in H2. rewrite H2. apply orb_true_r.
  - split; [|intros _; exact W]. rewrite noDoubleWhite_cons, W.
    cbn [negb orb]. apply (IH false).
Qed.

Lemma collapseFrom_fixed (l : list string) :
  forallb spaceOrNotWhite l = true -> noDoubleWhite l = true ->
  collapseFrom false l = l
  /\ (headNot Str.isWhite l -> collapseFrom true l = l).
Proof.
  induction l as [|ch r IH]; intros H1 H2; [split; reflexivity|].
  cbn [forallb] in H1. apply andb_true_iff in H1. destruct H1 as [Hc H1].
  rewrite noDoubleWhite_cons in H2. apply andb_true_iff in H2.
  destruct H2 as [Hd H2]. destruct (IH H1 H2) as [IH1 IH2].
  cbn [collapseFrom headNot]. destruct (Str.isWhite ch) eqn:W.
  - split; [|discriminate].
    unfold spaceOrNotWhite in Hc. rewrite W in Hc. cbn [negb orb] in Hc.
    apply String.eqb_eq in Hc. subst ch. rewrite IH2; [reflexivity|].
    cbn [negb orb] in Hd. destruct r as [|y r']; [exact I|].
    cbn [headNot]. apply negb_true_iff. exact Hd.
  - rewrite IH1. split; reflexivity.
Qed.

Lemma noDoubleWhite_app (a b : list string) :
  noDoubleWhite (a ++ b) = true ->
  noDoubleWhite a = true /\ noDoubleWhite b = true.
Proof.
  induction a as [|x a IH]; [intros H; split; [reflexivity | exact H]|].
  cbn [app]. rewrite !noDoubleWhite_cons. intros H.
  apply andb_true_iff in H. destruct H as [Hx H]. destruct (IH H) as [Ha Hb].
  split; [|exact Hb]. rewrite Ha, andb_true_r.
  destruct a as [|y a]; [apply orb_true_r | exact Hx].
Qed.

Lemma noDoubleWhite_cut (p : string -> bool) (l : list string) :
  noDoubleWhite l = true ->
  noDoubleWhite (Str.dropEnd p (Str.dropWhile p l)) = true.
Proof.
  intros H. destruct (dropWhile_suffix p l) as (l0 & E & _).
  rewrite E in H. apply noDoubleWhite_app in H. destruct H as [_ H].
  destruct (dropEnd_prefix p (Str.dropWhile p l)) as (l1 & E' & _).
  rewrite E' in H. apply noDoubleWhite_app in H. apply H.
Qed.

(** The characters of a title as [sanitizeFileName] cleans it. *)
Lemma chars_cleaned (str : string) :
  Str.chars (Str.trim (collapseSpaces (replaceForbidden str)))
  = Str.dropEnd Str.isWhite
      (Str.dropWhile Str.isWhite
         (collapseFrom false (List.map cleared (Str.chars str)))).
Proof.
  rewrite chars_trim. unfold collapseSpaces, replaceForbidden.
  pose proof (proper_cleared _ (proper_chars str)) as P.
  rewrite (chars_join _ P).
  rewrite (chars_join _ (proj1 (collapseFrom_proper _ P false))).
  reflexivity.
Qed.

Lemma cleanName_spec (s : string) :
  cleanName s = true
  <-> Str.truthy s = true /\ Str.trim s = s
      /\ forallb notForbidden (Str.chars s) = true
      /\ forallb spaceOrNotWhite (Str.chars s) = true
      /\ noDoubleWhite (Str.chars s) = true.
Proof.
  unfold cleanName. rewrite !andb_true_iff, String.eqb_eq. tauto.
Qed.

Lemma sanitizeFileName_fixed (val fallback : string) :
  Str.truthy val = true -> Str.trim val = val ->
  forallb notForbidden (Str.chars val) = true ->
  forallb spaceOrNotWhite (Str.chars val) = true ->
  noDoubleWhite (Str.chars val) = true ->
  sanitizeFileName val fallback = val.
Proof.
  intros H1 H2 H3 H4 H5. unfold sanitizeFileName. cbv zeta.
  rewrite H2, H1. cbn [negb].
  assert (E : collapseSpaces (replaceForbidden val) = val).
  { unfold collapseSpaces, replaceForbidden.
    rewrite (cleared_fixed _ H3), join_chars.
    rewrite (proj1 (collapseFrom_fixed _ H4 H5)). apply join_chars. }
  rewrite E, H2, H1. reflexivity.
Qed.

End TitleFacts.

(** X19.  The title row's [sanitizeFileName]: what it returns is the
    fallback or a clean name (not empty, no white space around it, none
    of the characters forbidden in file names, single spaces as its
    only white space), which it would return unchanged. *)
Theorem sanitizeFileName_clean (val fallback : string) :
  Controller.sanitizeFileName val fallback = fallback
  \/ (cleanName (Controller.sanitizeFileName val fallback) = true
      /\ forall fallback',
           Controller.sanitizeFileName
             (Controller.sanitizeFileName val fallback) fallback'
           = Controller.sanitizeFileName val fallback).
Proof.
  set (r := Controller.sanitizeFileName val fallback).
  assert (H : r = fallback
              \/ (Str.truthy r = true
                  /\ r = Str.trim (Controller.collapseSpaces
                                     (Controller.replaceForbidden (Str.trim val))))).
  { unfold r, Controller.sanitizeFileName. cbv zeta.
    destruct (Str.truthy (Str.trim val)); cbn [negb]; [|left; reflexivity].
    destruct (Str.truthy (Str.trim _)) eqn:T; [|left; reflexivity].
    right. split; [exact T | reflexivity]. }
  destruct H as [H|[T E]]; [left; exact H|]. right.
  assert (C : Str.trim r = r
              /\ forallb notForbidden (Str.chars r) = true
              /\ forallb spaceOrNotWhite (Str.chars r) = true
              /\ noDoubleWhite (Str.chars r) = true).
  { rewrite E. split; [apply trim_idem|]. rewrite chars_cleaned.
    split; [|split].
    - apply forallb_cut, collapseFrom_forall; [reflexivity | apply cleared_clean].
    - apply forallb_cut, collapseFrom_spaces.
    - apply noDoubleWhite_cut. apply (proj1 (collapseFrom_single _ false)). }
  destruct C as (C1 & C2 & C3 & C4).
  split; [apply cleanName_spec; auto|].
  intros fallback'. apply sanitizeFileName_fixed; assumption.
Qed.

(** X20.  A clean name is a valid title as typed: [sanitizeFileName]
    returns it unchanged, whatever the fallback. *)
Theorem clean_title_is_kept (val fallback : string) :
  cleanName val = true -> Controller.sanitizeFileName val fallback = val.
Proof.
  intros H. apply cleanName_spec in H. destruct H as (H1 & H2 & H3 & H4 & H5).
  apply sanitizeFileName_fixed; assumption.
Qed.

Lemma clean_title_is_kept_witness :
  Controller.sanitizeFileName "Plan Q3" "Untitled" = "Plan Q3".
Proof.
  apply (clean_title_is_kept "Plan Q3" "Untitled"). reflexivity.
Defined.

(** ** Dates of the input rows *)

Section InputDateFacts.

Import JsDate.

Local Ltac div_lia := Z.div_mod_to_equations; lia.

Lemma digitsOf_one (k : nat) (n : Z) (acc : string) :
  0 <= n < 10 ->
  Controller.digitsOf (S k) n acc = String (digitChar n) acc.
Proof.
  intros H. cbn [Controller.digitsOf].
  destruct (n <? 10) eqn:E; [reflexivity | apply Z.ltb_ge in E; lia].
Qed.

Lemma digitsOf_more (k : nat) (n : Z) (acc : string) :
  10 <= n ->
  Controller.digitsOf (S k) n acc
  = Controller.digitsOf k (n / 10) (String (digitChar n) acc).
Proof.
  intros H. cbn [Controller.digitsOf].
  destruct (n <? 10) eqn:E; [apply Z.ltb_lt in E; lia | reflexivity].
Qed.

Lemma log2_fuel (n b : Z) :
  0 < b -> b <= n ->
  exists k, S (Z.to_nat (Z.log2 n)) = (S (Z.to_nat (Z.log2 b)) + k)%nat.
Proof.
  intros Hb H. pose proof (Z.log2_le_mono b n H) as L.
  pose proof (Z.log2_nonneg b) as L0.
  exists (Z.to_nat (Z.log2 n) - Z.to_nat (Z.log2 b))%nat. lia.
Qed.

Lemma intToString_four (y : Z) :
  1000 <= y <= 9999 -> Controller.intToString y = pad 4 y.
Proof.
  intros H. unfold Controller.intToString.
  destruct (y <? 0) eqn:E; [apply Z.ltb_lt in E; lia|].
  destruct (log2_fuel y 1000) as (k & ->); [lia | lia|].
  change (S (Z.to_nat (Z.log2 1000)) + k)%nat
    with (S (S (S (S (6 + k)))))%nat.
  rewrite !digitsOf_more by div_lia.
  rewrite digitsOf_one by div_lia. reflexivity.
Qed.

Lemma pad_two (n : Z) : 0 <= n <= 99 -> Controller.pad n = pad 2 n.
Proof.
  intros H. unfold Controller.pad, Controller.intToString.
  destruct (n <? 0) eqn:E; [apply Z.ltb_lt in E; lia|].
  destruct (Z_lt_le_dec n 10) as [L|L].
  - rewrite digitsOf_one by lia. cbn [Controller.padStart2 pad].
    rewrite (Z.div_small n 10) by lia. reflexivity.
  - destruct (log2_fuel n 10) as (k & ->); [lia | lia|].
    change (S (Z.to_nat (Z.log2 10)) + k)%nat with (S (S (2 + k)))%nat.
    rewrite digitsOf_more by lia. rewrite digitsOf_one by div_lia.
    reflexivity.
Qed.

Lemma yearString_four (y : Z) : 0 <= y <= 9999 -> yearString y = pad 4 y.
Proof.
  intros H. unfold yearString.
  destruct ((0 <=? y) && (y <=? 9999)) eqn:E; [reflexivity|].
  apply andb_false_iff in E. destruct E as [E|E]; apply Z.leb_gt in E; lia.
Qed.

(** The text of a date input reads as the local time it shows. *)
Lemma parseISO_input (y m d h mi : Z) :
  0 <= y <= 9999 -> 0 <= m <= 11 -> 1 <= d <= DaysInMonth y m -> d <= 31 ->
  0 <= h <= 23 -> 0 <= mi <= 59 ->
  parseISO (pad 4 y +:+ "-" +:+ pad 2 (m + 1) +:+ "-" +:+ pad 2 d +:+ "T"
            +:+ pad 2 h +:+ ":" +:+ pad 2 mi)
  = Some (MakeDate (MakeDay y m d) (MakeTime h mi 0 0), true).
Proof.
  intros Hy Hm Hd Hd' Hh Hmi. unfold parseISO.
  rewrite <- (yearString_four y Hy).
  rewrite readYear_yearString by lia. cbv iota beta.
  rewrite readDashed_pad by lia. cbv iota beta.
  rewrite readDashed_pad by lia. cbv iota beta zeta.
  replace (m + 1 - 1) with m by lia.
  replace ((1 <=? m + 1) && (m + 1 <=? 12) && (1 <=? d)
           && (d <=? DaysInMonth y m)) with true
    by (symmetry; rewrite !andb_true_iff, !Z.leb_le; lia).
  match goal with
  | |- context [("T" +:+ ?r)%string] =>
      change ("T" +:+ r) with (String "T"%char r)
  end.
  cbv iota beta. unfold readTime.
  rewrite readDigits_pad_exact by (change (10 ^ Z.of_nat 2) with 100; lia).
  match goal with
  | |- context [(":" +:+ ?r)%string] =>
      change (":" +:+ r) with (String ":"%char r)
  end.
  cbv iota beta.
  rewrite <- (app_nil_r (pad 2 mi)).
  rewrite readDigits_pad_exact by (change (10 ^ Z.of_nat 2) with 100; lia).
  change (readSeconds "") with (Some (0, 0, EmptyString)).
  change (readOffset "") with (@Some (option Z) None).
  cbv iota beta.
  replace ((h <=? 23) && (mi <=? 59) && (0 <=? 59)) with true
    by (symmetry; rewrite !andb_true_iff, !Z.leb_le; lia).
  reflexivity.
Qed.

Lemma minute_fields (l : Z) :
  MakeDate (Day l) (MakeTime (HourFromTime l) (MinFromTime l) 0 0)
  = l - l mod 60000.
Proof.
  unfold MakeDate, Day, MakeTime, HourFromTime, MinFromTime, msPerDay,
    msPerHour, msPerMinute, msPerSecond.
  div_lia.
Qed.

Lemma year_lower (l : Z) :
  1000 <= YearFromTime l -> -30610224000000 <= l.
Proof.
  intros H. unfold YearFromTime in H.
  pose proof (YearFromDay_spec (Day l)) as [S _].
  pose proof (DayFromYear_mono 1000 _ H) as M.
  change (DayFromYear 1000) with (-354285) in M.
  pose proof (Day_bounds l) as B. unfold msPerDay in B. lia.
Qed.

End InputDateFacts.

(** X21.  The date shown in an input row, saved back: in a host at a
    constant offset of less than a day, for a stored date whose local
    year has four digits, [normalizeInputDate] of what
    [formatDateForInput] shows is the ISO text of the stored instant
    cut to the whole minute of local time. *)
Theorem input_date_round_trip (c : Z) (lp : string -> option Z) (value : jsval)
    (t : Z) :
  Value.truthy value = true ->
  JsDate.ofValue (fixedHost c lp) value = Some t ->
  Z.abs c < JsDate.msPerDay ->
  1000 <= JsDate.YearFromTime (t + c) <= 9999 ->
  exists iso : string,
    Controller.normalizeInputDate (fixedHost c lp)
      (Controller.formatDateForInput (fixedHost c lp) value) = Ok (Some iso)
    /\ JsDate.toISOString (Some (t - (t + c) mod 60000)) = Ok iso
    /\ JsDate.ofString (fixedHost c lp) iso = Some (t - (t + c) mod 60000).
Proof.
  intros Hv Hd Hc Hy.
  pose proof (ofValue_Some _ _ _ Hd) as Ht.
  set (l := t + c) in *.
  pose proof (year_lower l (proj1 Hy)) as Hl.
  assert (Hr : Z.abs (l - l mod 60000 - c) <= JsDate.maxTime).
  { unfold JsDate.maxTime, JsDate.msPerDay in *.
    pose proof (Z.mod_pos_bound l 60000). lia. }
  pose proof (MonthFromTime_range l) as Hm.
  pose proof (DateFromTime_in_month l) as Hdm.
  pose proof (DateFromTime_range l) as Hd31.
  destruct (time_fields_range l) as (Hh & Hmi & _ & _).
  assert (Hf : Controller.formatDateForInput (fixedHost c lp) value
               = JsDate.pad 4 (JsDate.YearFromTime l) +:+ "-"
                 +:+ JsDate.pad 2 (JsDate.MonthFromTime l + 1) +:+ "-"
                 +:+ JsDate.pad 2 (JsDate.DateFromTime l) +:+ "T"
                 +:+ JsDate.pad 2 (JsDate.HourFromTime l) +:+ ":"
                 +:+ JsDate.pad 2 (JsDate.MinFromTime l)).
  { unfold Controller.formatDateForInput. rewrite Hv, Hd. cbn [negb].
    replace (JsDate.LocalTime (fixedHost c lp) t) with l
      by (unfold JsDate.LocalTime, fixedHost; cbn [tzaUTC]; reflexivity).
    rewrite intToString_four by exact Hy.
    rewrite !pad_two by lia. reflexivity. }
  assert (Hp : JsDate.ofString (fixedHost c lp)
                 (Controller.formatDateForInput (fixedHost c lp) value)
               = Some (l - l mod 60000 - c)).
  { rewrite Hf. apply ofString_local_fixed; [|exact Hr].
    rewrite parseISO_input by lia.
    pose proof (MakeDay_fields l 0) as D. rewrite !Z.add_0_r in D.
    rewrite D, minute_fields. reflexivity. }
  destruct (JsDate.toISOString (Some (l - l mod 60000 - c))) as [iso|e] eqn:Hi;
    [|discriminate].
  replace (t - l mod 60000) with (l - l mod 60000 - c) by (unfold l; lia).
  exists iso. split; [|split; [exact Hi|]].
  - unfold Controller.normalizeInputDate. rewrite Hp.
    assert (T : Str.truthy (Controller.formatDateForInput (fixedHost c lp) value)
                = true).
    { rewrite Hf, pad_front. reflexivity. }
    rewrite T. cbn [negb JsDate.getTime Num.isNaN Num.ofZ]. rewrite Hi.
    reflexivity.
  - apply (ofString_toISOString (fixedHost c lp) _ iso Hr Hi).
Qed.

Lemma input_date_round_trip_witness :
  exists iso : string,
    Controller.normalizeInputDate (fixedHost 3600000 (fun _ => None))
      (Controller.formatDateForInput (fixedHost 3600000 (fun _ => None))
         (VStr "2024-03-05T07:08:09.123Z")) = Ok (Some iso)
    /\ JsDate.toISOString
         (Some (1709622489123 - (1709622489123 + 3600000) mod 60000)) = Ok iso
    /\ JsDate.ofString (fixedHost 3600000 (fun _ => None)) iso
       = Some (1709622489123 - (1709622489123 + 3600000) mod 60000).
Proof.
  apply (input_date_round_trip 3600000 (fun _ => None)
           (VStr "2024-03-05T07:08:09.123Z") 1709622489123).
  - reflexivity.
  - vm_compute. reflexivity.
  - vm_compute. reflexivity.
  - vm_compute. split; discriminate.
Defined.

(** ** The End row *)

Section EndRowFacts.

Variable host : Host.

Local Ltac div_lia := Z.div_mod_to_equations; lia.

Lemma round_minutes (d : Z) :
  mathRound (Num.div (Num.ofZ d) (Fin 60000)) = Num.ofZ ((d + 30000) / 60000).
Proof.
  unfold Num.div, Num.ofZ, mathRound.
  change (Qeq_bool 60000 0) with false. cbv iota.
  unfold Num.ofZ. f_equal. f_equal.
  rewrite <- (Qfloor_div_inject (d + 30000) 60000) by lia.
  apply Qfloor_comp. rewrite Qred_correct.
  unfold Qeq, Qdiv, Qmult, Qplus, Qinv, inject_Z. cbn. lia.
Qed.

Lemma max_zero (k : Z) : mathMax (Fin 0) (Num.ofZ k) = Num.ofZ (Z.max 0 k).
Proof.
  unfold mathMax. change (Fin 0) with (Num.ofZ 0). rewrite lt_ofZ.
  cbn [Num.isNaN Num.ofZ orb].
  destruct (0 <? k) eqn:E.
  - apply Z.ltb_lt in E. rewrite Z.max_r by lia. reflexivity.
  - apply Z.ltb_ge in E. rewrite Z.max_l by lia. reflexivity.
Qed.

Lemma truthy_ofZ (m : Z) : Num.truthy (Num.ofZ m) = negb (m =? 0).
Proof.
  unfold Num.truthy, Num.ofZ. f_equal.
  unfold Qeq_bool, inject_Z. cbn [Qnum Qden]. rewrite Z.mul_1_r.
  destruct m; reflexivity.
Qed.

(** The end computed from a start and whole minutes. *)
Lemma computeEndISO_minutes (fm : gmap string jsval) (s m : Z) :
  Value.truthy (Workflow.field fm "scheduled") = true ->
  JsDate.ofValue host (Workflow.field fm "scheduled") = Some s ->
  Value.toNumber (Workflow.field fm "timeEstimate") = Num.ofZ m ->
  Workflow.computeEndISO host fm
  = if m =? 0 then Ok EmptyString
    else JsDate.toISOString (JsDate.TimeClip (s + m * 60000)).
Proof.
  intros Hs Hd He. unfold Workflow.computeEndISO. rewrite Hs, Hd, He.
  cbn [negb JsDate.getTime]. change (Fin 60000) with (Num.ofZ 60000).
  rewrite mul_ofZ, add_ofZ, ofNumber_ofZ, truthy_ofZ.
  cbn [Num.isNaN Num.ofZ]. destruct (m =? 0); reflexivity.
Qed.

End EndRowFacts.

(** X22.  Setting the End of a scheduled task: with the start [s] and
    the end [e] entered, at most [2 ^ 53] milliseconds apart (the range
    in which the difference of the two time values is computed
    exactly), the handler writes the end as [sheduledEnd] and as
    [timeEstimate] the minutes from [s] to [e] rounded to the nearest
    whole number, or 0 when the end is not after the start; the End the
    row then shows is the start plus these minutes, within half a
    minute of the end entered, and nothing when the minutes are 0. *)
Theorem end_change_writes_estimate (host : Host) (task : TFile)
    (fm : gmap string jsval) (v : gmap string Node) (content : string)
    (fm0 : gmap string jsval) (inputValue : string) (s e : Z) :
  Value.truthy (Workflow.field fm "scheduled") = true ->
  JsDate.ofValue host (Workflow.field fm "scheduled") = Some s ->
  Str.truthy inputValue = true ->
  JsDate.ofString host inputValue = Some e ->
  Z.abs (e - s) <= 2 ^ 53 ->
  v !! path task = Some (FileNode content fm0) ->
  let m := Z.max 0 ((e - s + 30000) / 60000) in
  exists iso : string,
    JsDate.toISOString (Some e) = Ok iso
    /\ EndRow.onChange host [{| file := task; frontmatter := fm |}] inputValue v
       = (Ok [{| file := task;
                 frontmatter :=
                   <["sheduledEnd" := VStr iso]>
                     (<["timeEstimate" := VNum (Num.ofZ m)]> fm) |}],
          <[path task :=
              FileNode content
                (<["sheduledEnd" := VStr iso]>
                   (<["timeEstimate" := VNum (Num.ofZ m)]> fm0))]> v)
    /\ Workflow.computeEndISO host
         (<["sheduledEnd" := VStr iso]> (<["timeEstimate" := VNum (Num.ofZ m)]> fm))
       = (if m =? 0 then Ok EmptyString
          else JsDate.toISOString (JsDate.TimeClip (s + m * 60000)))
    /\ (if m =? 0 then e - s < 30000
        else -30000 < s + m * 60000 - e <= 30000).
Proof.
  intros Hs Hd Hi He _ Hv m.
  pose proof (ofString_Some host _ _ He) as Hev.
  destruct (JsDate.toISOString (Some e)) as [iso|err] eqn:Hiso; [|discriminate].
  pose proof (toISOString_truthy _ _ Hiso) as Ht.
  pose proof (ofString_toISOString host e iso Hev Hiso) as Hback.
  exists iso. split; [reflexivity|].
  assert (Hnew : EndRow.newEnd host fm inputValue = Ok (Some (iso, Num.ofZ m))).
  { unfold EndRow.newEnd, Controller.normalizeInputDate.
    rewrite Hs, Hi, He. cbn [negb JsDate.getTime Num.isNaN Num.ofZ].
    rewrite Hiso. cbn [rbind]. rewrite Ht, Hd, Hback.
    cbn [negb JsDate.getTime Num.isNaN Num.ofZ].
    fold (Num.ofZ e). fold (Num.ofZ s).
    rewrite sub_ofZ, round_minutes, max_zero. reflexivity. }
  assert (Hsched : forall x y : jsval,
             Workflow.field (<["sheduledEnd" := x]> (<["timeEstimate" := y]> fm))
               "scheduled" = Workflow.field fm "scheduled").
  { intros x y. unfold Workflow.field.
    rewrite !lookup_insert_ne by discriminate. reflexivity. }
  split; [|split].
  - unfold EndRow.onChange. cbn [frontmatter]. unfold abind at 1, alift.
    rewrite Hnew. cbn [Controller.applyToEntries file frontmatter].
    unfold abind at 1. unfold EndRow.writeEnd. rewrite Hs. cbn [negb].
    unfold abind at 1. rewrite (updateFrontmatterValue_run _ _ _ _ _ _ Hv).
    unfold abind at 1.
    rewrite (updateFrontmatterValue_run _ _ _ _ content
               (assign "timeEstimate" (VNum (Num.ofZ m)) fm0))
      by apply lookup_insert_eq.
    rewrite (assign_insert _ _ _ Ht), insert_insert_eq.
    unfold aret, abind. reflexivity.
  - rewrite (computeEndISO_minutes host _ s m).
    + reflexivity.
    + rewrite Hsched. exact Hs.
    + rewrite Hsched. exact Hd.
    + unfold Workflow.field. rewrite lookup_insert_ne by discriminate.
      rewrite lookup_insert_eq. reflexivity.
  - unfold m. destruct (Z.max 0 ((e - s + 30000) / 60000) =? 0) eqn:E.
    + apply Z.eqb_eq in E. Z.div_mod_to_equations. lia.
    + apply Z.eqb_neq in E. Z.div_mod_to_equations. lia.
Qed.

Lemma end_change_writes_estimate_witness :
  exists iso : string,
    JsDate.toISOString (Some 1704104100000) = Ok iso
    /\ EndRow.onChange utcHost
         [{| file := legacyFile; frontmatter := legacyTask |}]
         "2024-01-01T10:15" legacyVault
       = (Ok [{| file := legacyFile;
                 frontmatter :=
                   <["sheduledEnd" := VStr iso]>
                     (<["timeEstimate" :=
                          VNum (Num.ofZ
                                  (Z.max 0
                                     ((1704104100000 - 1704099600000 + 30000)
                                      / 60000)))]> legacyTask) |}],
          <[path legacyFile :=
              FileNode ""
                (<["sheduledEnd" := VStr iso]>
                   (<["timeEstimate" :=
                        VNum (Num.ofZ
                                (Z.max 0
                                   ((1704104100000 - 1704099600000 + 30000)
                                    / 60000)))]> legacyTask))]> legacyVault)
    /\ Workflow.computeEndISO utcHost
         (<["sheduledEnd" := VStr iso]>
            (<["timeEstimate" :=
                 VNum (Num.ofZ
                         (Z.max 0
                            ((1704104100000 - 1704099600000 + 30000) / 60000)))]>
               legacyTask))
       = (if Z.max 0 ((1704104100000 - 1704099600000 + 30000) / 60000) =? 0
          then Ok EmptyString
          else JsDate.toISOString
                 (JsDate.TimeClip
                    (1704099600000
                     + Z.max 0 ((1704104100000 - 1704099600000 + 30000) / 60000)
                       * 60000)))
    /\ (if Z.max 0 ((1704104100000 - 1704099600000 + 30000) / 60000) =? 0
        then 1704104100000 - 1704099600000 < 30000
        else -30000
             < 1704099600000
               + Z.max 0 ((1704104100000 - 1704099600000 + 30000) / 60000) * 60000
               - 1704104100000 <= 30000).
Proof.
  apply (end_change_writes_estimate utcHost legacyFile legacyTask legacyVault ""
           legacyTask "2024-01-01T10:15" 1704099600000 1704104100000);
    vm_compute; first [reflexivity | discriminate].
Defined.

(** ** Monthly rules at the end of a month *)

Section MonthEnd.

Import JsDate Recurrence.

Local Ltac div_lia := Z.div_mod_to_equations; lia.

Local Ltac month_cases m :=
  let C := fresh "C" in
  assert (C : m = 0 \/ m = 1 \/ m = 2 \/ m = 3 \/ m = 4 \/ m = 5 \/ m = 6
              \/ m = 7 \/ m = 8 \/ m = 9 \/ m = 10 \/ m = 11) by lia;
  destruct C as [C|[C|[C|[C|[C|[C|[C|[C|[C|[C|[C|C]]]]]]]]]]]; rewrite C in *.

Local Ltac month_starts :=
  repeat match goal with
         | |- context [monthStart ?a ?b] =>
             let r := eval vm_compute in (monthStart a b) in
             change (monthStart a b) with r
         | H : context [monthStart ?a ?b] |- _ =>
             let r := eval vm_compute in (monthStart a b) in
             change (monthStart a b) with r in H
         end.

Lemma MakeDay_in_year (y m d : Z) :
  0 <= m <= 11 ->
  MakeDay y m d
  = DayFromYear y + monthStart (if DaysInYear y =? 366 then 1 else 0) m + d - 1.
Proof.
  intros H. unfold MakeDay.
  rewrite (Z.div_small m 12), (Z.mod_small m 12), Z.add_0_r by lia.
  reflexivity.
Qed.

Lemma MakeDay_date (y m d k : Z) : MakeDay y m (d + k) = MakeDay y m d + k.
Proof. unfold MakeDay. cbv zeta. lia. Qed.

Lemma MakeDay_next_year (y d : Z) : MakeDay y 12 d = MakeDay (y + 1) 0 d.
Proof.
  unfold MakeDay. change (12 / 12) with 1. change (12 mod 12) with 0.
  change (0 / 12) with 0. change (0 mod 12) with 0. cbv zeta.
  rewrite (Z.add_0_r (y + 1)). reflexivity.
Qed.

Lemma leap_cases (y : Z) :
  (DaysInYear y = 365 /\ (if DaysInYear y =? 366 then 1 else 0) = 0)
  \/ (DaysInYear y = 366 /\ (if DaysInYear y =? 366 then 1 else 0) = 1).
Proof.
  destruct (DaysInYear_cases y) as [H|H]; rewrite H; auto.
Qed.

Lemma DaysInMonth_bounds (y m : Z) :
  0 <= m <= 11 -> 28 <= DaysInMonth y m <= 31.
Proof.
  intros H. rewrite DaysInMonth_starts by exact H.
  destruct (leap_cases y) as [[Hy ->]|[Hy ->]]; rewrite ?Hy;
    month_cases m; cbn [Z.eqb Pos.eqb]; month_starts; lia.
Qed.

Lemma DaysInMonth_december (y : Z) : DaysInMonth y 11 = 31.
Proof.
  rewrite DaysInMonth_starts by lia.
  destruct (leap_cases y) as [[Hy ->]|[Hy ->]]; rewrite Hy; reflexivity.
Qed.

Lemma DaysInMonth_january_next (y : Z) : DaysInMonth y 12 = 31.
Proof.
  unfold DaysInMonth. rewrite MakeDay_next_year.
  unfold MakeDay. change ((12 + 1) / 12) with 1. change ((12 + 1) mod 12) with 1.
  change (0 / 12) with 0. change (0 mod 12) with 0. cbv zeta.
  rewrite (Z.add_0_r (y + 1)). month_starts.
  generalize (DayFromYear (y + 1)). intros N.
  destruct (DaysInYear (y + 1) =? 366); month_starts; lia.
Qed.

(** The calendar fields of the time made from a year, a month, a day
    of that month and a time of day. *)
Lemma fields_of_MakeDay (y m d tw : Z) :
  0 <= m <= 11 -> 1 <= d <= DaysInMonth y m -> 0 <= tw < msPerDay ->
  YearFromTime (MakeDate (MakeDay y m d) tw) = y
  /\ MonthFromTime (MakeDate (MakeDay y m d) tw) = m
  /\ DateFromTime (MakeDate (MakeDay y m d) tw) = d.
Proof.
  intros Hm Hd Htw.
  set (l := MakeDate (MakeDay y m d) tw).
  assert (Hday : Day l = MakeDay y m d).
  { unfold l, MakeDate, Day, msPerDay in *.
    generalize (MakeDay y m d). intros N. div_lia. }
  rewrite MakeDay_in_year in Hday by exact Hm.
  rewrite DaysInMonth_starts in Hd by exact Hm.
  set (leap := if DaysInYear y =? 366 then 1 else 0) in *.
  assert (Hleap : (DaysInYear y = 365 /\ leap = 0)
                  \/ (DaysInYear y = 366 /\ leap = 1)) by apply leap_cases.
  assert (Hil0 : (if DaysInYear y =? 366 then 1 else 0) = leap) by reflexivity.
  clearbody leap.
  assert (Hin : 0 <= monthStart leap m + d - 1 < DaysInYear y).
  { destruct Hleap as [[Hy Hl]|[Hy Hl]]; rewrite Hl, ?Hy in *;
      month_cases m; cbn [Z.eqb Pos.eqb] in Hd; month_starts; lia. }
  assert (Hyear : YearFromTime l = y).
  { unfold YearFromTime. rewrite Hday. apply YearFromDay_unique.
    rewrite DayFromYear_succ. lia. }
  assert (Hdwy : DayWithinYear l = monthStart leap m + d - 1).
  { unfold DayWithinYear. rewrite Hyear, Hday. lia. }
  assert (Hil : InLeapYear l = leap).
  { unfold InLeapYear. rewrite Hyear. exact Hil0. }
  assert (Hmonth : MonthFromTime l = m).
  { unfold MonthFromTime. rewrite Hdwy, Hil. cbv zeta.
    destruct Hleap as [[Hy Hl]|[Hy Hl]]; rewrite Hl, ?Hy in *;
      month_cases m; cbn [Z.eqb Pos.eqb] in Hd; month_starts;
      repeat match goal with
             | |- context [if ?x <? ?z then _ else _] =>
                 let E := fresh "E" in
                 destruct (x <? z) eqn:E;
                 [apply Z.ltb_lt in E | apply Z.ltb_ge in E]
             end; lia. }
  split; [exact Hyear|]. split; [exact Hmonth|].
  unfold DateFromTime. rewrite Hdwy, Hil, Hmonth. lia.
Qed.

Lemma TimeWithinDay_range (l : Z) : 0 <= TimeWithinDay l < msPerDay.
Proof. unfold TimeWithinDay, msPerDay. div_lia. Qed.

(** One month on from a day every month has: the same day. *)
Lemma step_date_fits (l : Z) :
  DateFromTime l <= 28 -> DateFromTime (monthStepLocal l) = DateFromTime l.
Proof.
  intros H. pose proof (DateFromTime_range l) as R.
  pose proof (MonthFromTime_range l) as M.
  pose proof (TimeWithinDay_range l) as T.
  unfold monthStepLocal.
  destruct (Z.eq_dec (MonthFromTime l) 11) as [E|E].
  - rewrite E. change (11 + 1) with 12. rewrite MakeDay_next_year.
    apply fields_of_MakeDay; [lia | | exact T].
    pose proof (DaysInMonth_bounds (YearFromTime l + 1) 0). lia.
  - apply fields_of_MakeDay; [lia | | exact T].
    pose proof (DaysInMonth_bounds (YearFromTime l) (MonthFromTime l + 1)). lia.
Qed.

(** One month on from a day the next month lacks: a day at the start
    of the month after. *)
Lemma step_date_overflow (l : Z) :
  DaysInMonth (YearFromTime l) (MonthFromTime l + 1) < DateFromTime l ->
  DateFromTime (monthStepLocal l)
  = DateFromTime l - DaysInMonth (YearFromTime l) (MonthFromTime l + 1)
  /\ 1 <= DateFromTime (monthStepLocal l) <= 3
  /\ DateFromTime (monthStepLocal l) < DateFromTime l.
Proof.
  intros H. pose proof (DateFromTime_range l) as R.
  pose proof (MonthFromTime_range l) as M.
  pose proof (TimeWithinDay_range l) as T.
  set (Y := YearFromTime l) in *. set (Mo := MonthFromTime l) in *.
  set (D := DateFromTime l) in *.
  assert (M1 : Mo + 1 <= 10).
  { destruct (Z.eq_dec Mo 11) as [E|E];
      [rewrite E in H; change (11 + 1) with 12 in H;
       rewrite DaysInMonth_january_next in H; lia|].
    destruct (Z.eq_dec Mo 10) as [E'|E'];
      [rewrite E' in H; change (10 + 1) with 11 in H;
       rewrite DaysInMonth_december in H; lia|].
    lia. }
  pose proof (DaysInMonth_bounds Y (Mo + 1)) as B1.
  pose proof (DaysInMonth_bounds Y (Mo + 1 + 1)) as B2.
  assert (E : MakeDay Y (Mo + 1) D
              = MakeDay Y (Mo + 1 + 1) (D - DaysInMonth Y (Mo + 1))).
  { unfold DaysInMonth.
    replace D with (1 + (D - 1)) at 1 by lia.
    replace (D - (MakeDay Y (Mo + 1 + 1) 1 - MakeDay Y (Mo + 1) 1))
      with (1 + (D - 1 - (MakeDay Y (Mo + 1 + 1) 1 - MakeDay Y (Mo + 1) 1)))
      by lia.
    rewrite !MakeDay_date. lia. }
  unfold monthStepLocal. fold Y Mo D. rewrite E.
  destruct (fields_of_MakeDay Y (Mo + 1 + 1) (D - DaysInMonth Y (Mo + 1))
              (TimeWithinDay l)) as (_ & _ & F); [lia | lia | exact T|].
  rewrite F. lia.
Qed.

Variable c : Z.
Variable lp : string -> option Z.

Lemma matchesRecurrence_other_date (a b : Z) (parsed : ParsedRecurrence) :
  String.eqb (freqOrDaily parsed) "MONTHLY" = true ->
  DateFromTime (a + c) <> DateFromTime (b + c) ->
  matchesRecurrence (fixedHost c lp) (Some a) (Some b) parsed = false.
Proof.
  intros Hm Hd. rewrite matchesRecurrence_integers. cbv zeta.
  apply String.eqb_eq in Hm. rewrite Hm.
  cbn [String.eqb Ascii.eqb Bool.eqb].
  replace (LocalTime (fixedHost c lp) a) with (a + c) by reflexivity.
  replace (LocalTime (fixedHost c lp) b) with (b + c) by reflexivity.
  destruct (daysBetween a b <=? 0); [reflexivity|].
  destruct (monthsBetween (fixedHost c lp) a b <=? 0); [reflexivity|].
  destruct (negb _); [reflexivity|].
  apply Z.eqb_neq. exact Hd.
Qed.

Lemma incrementRecurrence_invalid (parsed : ParsedRecurrence) :
  incrementRecurrence (fixedHost c lp) None parsed = None.
Proof.
  unfold incrementRecurrence. cbn [getTime ofNumber].
  destruct (String.eqb (freqOrDaily parsed) "MONTHLY"); reflexivity.
Qed.

(** Once the candidates are on another day of the month than the
    anchor, a day every month has, the search finds nothing. *)
Lemma search_monthly_stuck (parsed : ParsedRecurrence) (b d1 : Z) :
  String.eqb (freqOrDaily parsed) "MONTHLY" = true ->
  d1 <> DateFromTime (b + c) -> d1 <= 28 ->
  forall (fuel : nat) (cand : Date),
    match cand with
    | Some t => Z.abs t <= maxTime /\ DateFromTime (t + c) = d1
    | None => True
    end ->
    search (fixedHost c lp) parsed (Some b) fuel cand = None.
Proof.
  intros Hm Hne H28. induction fuel as [|fuel IH]; intros cand Hc;
    [reflexivity|].
  rewrite search_S.
  assert (Hnext : match incrementRecurrence (fixedHost c lp) cand parsed with
                  | Some t => Z.abs t <= maxTime /\ DateFromTime (t + c) = d1
                  | None => True
                  end).
  { destruct cand as [t|]; [|rewrite incrementRecurrence_invalid; exact I].
    destruct Hc as [Hv Hd].
    assert (Et : Some t = Some (t + c - c)) by (f_equal; lia).
    rewrite Et. clear Et.
    rewrite increment_month_fixed;
      [|exact Hm | replace (t + c - c) with t by lia; exact Hv].
    destruct (TimeClip (monthStepLocal (t + c) - c)) as [u|] eqn:E; [|exact I].
    apply TimeClip_Some in E. destruct E as [-> E]. split; [exact E|].
    replace (monthStepLocal (t + c) - c + c) with (monthStepLocal (t + c)) by lia.
    rewrite step_date_fits; lia. }
  destruct (incrementRecurrence (fixedHost c lp) cand parsed) as [u|].
  - destruct Hnext as [Hv Hd].
    rewrite matchesRecurrence_other_date by (try exact Hm; lia).
    apply IH. auto.
  - rewrite matchesRecurrence_invalid. apply IH. exact I.
Qed.

End MonthEnd.

(** X23.  A MONTHLY rule never recurs from a day the following month
    lacks: in a host at a constant offset, when the anchor is on a day
    of the month greater than the number of days of the next month (the
    31st of January, say), the first candidate runs over into the month
    after, every later candidate keeps that other day of the month, none
    matches the anchor's, and [computeNextOccurrence] is [null] whatever
    the interval; so completing such a task makes no successor. *)
Theorem monthly_on_missing_day_never_recurs (c : Z) (lp : string -> option Z)
    (rrule : string) (scheduled : jsval) (parsed : ParsedRecurrence) (anchor : Z) :
  Recurrence.parseRecurrence rrule = Ok parsed ->
  freq parsed = Some "MONTHLY" ->
  JsDate.ofValue (fixedHost c lp) scheduled = Some anchor ->
  JsDate.DaysInMonth (JsDate.YearFromTime (anchor + c))
    (JsDate.MonthFromTime (anchor + c) + 1)
  < JsDate.DateFromTime (anchor + c) ->
  Recurrence.computeNextOccurrence (fixedHost c lp) rrule scheduled = None.
Proof.
  intros Hp Hf Ha Hover.
  pose proof (ofValue_Some _ _ _ Ha) as Hv.
  rewrite (computeNextOccurrence_search _ _ _ _ _ Hp Ha).
  destruct (Recurrence.noFreq parsed); [reflexivity|].
  assert (Hm : String.eqb (Recurrence.freqOrDaily parsed) "MONTHLY" = true)
    by (unfold Recurrence.freqOrDaily; rewrite Hf; reflexivity).
  destruct (step_date_overflow (anchor + c) Hover) as (Hd1 & Hr & Hlt).
  change Recurrence.maxIterations with (S 499). rewrite search_S.
  assert (Hstep : Recurrence.incrementRecurrence (fixedHost c lp) (Some anchor)
                    parsed
                  = JsDate.TimeClip (monthStepLocal (anchor + c) - c)).
  { assert (Et : Some anchor = Some (anchor + c - c)) by (f_equal; lia).
    rewrite Et. apply increment_month_fixed; [exact Hm|].
    replace (anchor + c - c) with anchor by lia. exact Hv. }
  rewrite Hstep.
  assert (Hne : JsDate.DateFromTime (monthStepLocal (anchor + c))
                <> JsDate.DateFromTime (anchor + c)).
  { lia. }
  destruct (JsDate.TimeClip (monthStepLocal (anchor + c) - c)) as [u|] eqn:E.
  - apply TimeClip_Some in E. destruct E as [-> E].
    rewrite matchesRecurrence_other_date;
      [|exact Hm
       |replace (monthStepLocal (anchor + c) - c + c)
          with (monthStepLocal (anchor + c)) by lia; exact Hne].
    apply (search_monthly_stuck c lp parsed anchor
             (JsDate.DateFromTime (monthStepLocal (anchor + c))) Hm Hne);
      [lia|].
    split; [exact E|].
    replace (monthStepLocal (anchor + c) - c + c)
      with (monthStepLocal (anchor + c)) by lia. reflexivity.
  - rewrite matchesRecurrence_invalid.
    apply (search_monthly_stuck c lp parsed anchor
             (JsDate.DateFromTime (monthStepLocal (anchor + c))) Hm Hne);
      [lia | exact I].
Qed.

Lemma monthly_on_missing_day_never_recurs_witness :
  Recurrence.computeNextOccurrence (fixedHost 0 (fun _ => None))
    "RRULE:FREQ=MONTHLY" (VStr "2024-01-31T09:00") = None.
Proof.
  apply (monthly_on_missing_day_never_recurs 0 (fun _ => None)
           "RRULE:FREQ=MONTHLY" (VStr "2024-01-31T09:00")
           {| freq := Some "MONTHLY"; interval := Fin 1; byDay := [] |}
           1706691600000).
  - vm_compute. reflexivity.
  - reflexivity.
  - vm_compute. reflexivity.
  - vm_compute. reflexivity.
Defined.

(** ** Weekly rules in the first week *)

Section FirstWeek.

Import Recurrence.

Variable c : Z.
Variable lp : string -> option Z.

(** A WEEKLY rule with weekdays: the search stops at the first of the
    six days after the anchor that is on a listed weekday. *)
Lemma search_weekly_first (parsed : ParsedRecurrence) (b k : Z) :
  freqOrDaily parsed = "WEEKLY" ->
  positive (interval parsed) = true ->
  1 <= k <= 6 ->
  Z.abs b <= JsDate.maxTime ->
  b + k * JsDate.msPerDay <= JsDate.maxTime ->
  includes (byDay parsed)
    (weekdayCodeOf (fixedHost c lp) (b + k * JsDate.msPerDay)) = true ->
  (forall j, 1 <= j < k ->
     includes (byDay parsed)
       (weekdayCodeOf (fixedHost c lp) (b + j * JsDate.msPerDay)) = false) ->
  forall (fuel : nat) (j : Z),
    0 <= j < k -> k - j <= Z.of_nat fuel ->
    search (fixedHost c lp) parsed (Some b) fuel (Some (b + j * JsDate.msPerDay))
    = Some (Some (b + k * JsDate.msPerDay)).
Proof.
  intros Hf Hpos Hk Hb Hmax Hin Hout.
  assert (Hlen : negb (Nat.eqb (List.length (byDay parsed)) 0) = true).
  { destruct (byDay parsed); [discriminate | reflexivity]. }
  induction fuel as [|fuel IH]; intros j Hj Hfuel; [lia|].
  rewrite search_S.
  assert (Hstep : incrementRecurrence (fixedHost c lp)
                    (Some (b + j * JsDate.msPerDay)) parsed
                  = Some (b + (j + 1) * JsDate.msPerDay)).
  { rewrite increment_day_fixed.
    - replace (b + j * JsDate.msPerDay + JsDate.msPerDay)
        with (b + (j + 1) * JsDate.msPerDay) by lia.
      apply TimeClip_valid. unfold JsDate.msPerDay in *. lia.
    - rewrite Hf. reflexivity.
    - unfold JsDate.msPerDay in *. lia. }
  rewrite Hstep, matchesRecurrence_integers. cbv zeta.
  rewrite daysBetween_steps, Hf, (orElse_positive _ Hpos), Hlen.
  replace (j + 1 <=? 0) with false by (symmetry; apply Z.leb_gt; lia).
  cbn [String.eqb Ascii.eqb Bool.eqb].
  rewrite (Z.div_small (j + 1) 7) by lia.
  rewrite (divides_zero _ Hpos). cbn [negb].
  destruct (Z.eq_dec (j + 1) k) as [E|E].
  - rewrite E, Hin. reflexivity.
  - rewrite Hout by lia. apply IH; lia.
Qed.

End FirstWeek.

(** X24.  A WEEKLY rule with weekdays ignores its interval in the first
    week: in a host at a constant offset, when one of the six days after
    the anchor is on a listed weekday, the next occurrence is the first
    such day, whatever the interval (the weeks are counted from the
    anchor, and these days are in week 0). *)
Theorem weekly_first_listed_day (c : Z) (lp : string -> option Z)
    (rrule : string) (scheduled : jsval) (parsed : ParsedRecurrence)
    (anchor k : Z) :
  Recurrence.parseRecurrence rrule = Ok parsed ->
  freq parsed = Some "WEEKLY" ->
  JsDate.ofValue (fixedHost c lp) scheduled = Some anchor ->
  1 <= k <= 6 ->
  anchor + k * JsDate.msPerDay <= JsDate.maxTime ->
  Recurrence.includes (byDay parsed)
    (weekdayCodeOf (fixedHost c lp) (anchor + k * JsDate.msPerDay)) = true ->
  (forall j, 1 <= j < k ->
     Recurrence.includes (byDay parsed)
       (weekdayCodeOf (fixedHost c lp) (anchor + j * JsDate.msPerDay)) = false) ->
  Recurrence.computeNextOccurrence (fixedHost c lp) rrule scheduled
  = Some (Some (anchor + k * JsDate.msPerDay)).
Proof.
  intros Hp Hf Ha Hk Hmax Hin Hout.
  pose proof (ofValue_Some _ _ _ Ha) as Hv.
  rewrite (computeNextOccurrence_search _ _ _ _ _ Hp Ha).
  unfold Recurrence.noFreq. rewrite Hf. cbn [Recurrence.falsy Str.isEmpty].
  replace (Some anchor) with (Some (anchor + 0 * JsDate.msPerDay)) at 2
    by (f_equal; lia).
  apply search_weekly_first; try assumption.
  - unfold Recurrence.freqOrDaily. rewrite Hf. reflexivity.
  - apply (parseRecurrence_positive _ _ Hp).
  - lia.
  - unfold Recurrence.maxIterations. lia.
Qed.

Lemma weekly_first_listed_day_witness :
  Recurrence.computeNextOccurrence (fixedHost 0 (fun _ => None))
    "RRULE:FREQ=WEEKLY;INTERVAL=2;BYDAY=WE" (VStr "2024-01-01T09:00")
  = Some (Some (1704099600000 + 2 * JsDate.msPerDay)).
Proof.
  apply (weekly_first_listed_day 0 (fun _ => None)
           "RRULE:FREQ=WEEKLY;INTERVAL=2;BYDAY=WE" (VStr "2024-01-01T09:00")
           {| freq := Some "WEEKLY"; interval := Fin 2; byDay := ["WE"] |}
           1704099600000 2).
  - vm_compute. reflexivity.
  - reflexivity.
  - vm_compute. reflexivity.
  - lia.
  - vm_compute. discriminate.
  - vm_compute. reflexivity.
  - intros j Hj. assert (j = 1) as -> by lia. vm_compute. reflexivity.
Defined.

(** ** The fields of a parsed rule *)

Section NormalFields.

Import Str Recurrence.

Local Open Scope list_scope.

(** *** The upper case of a character *)

Lemma assoc_In (k v : string) (l : list (string * string)) :
  assoc k l = Some v -> In (k, v) l.
Proof.
  induction l as [|[k' v'] l IH]; [discriminate|]. cbn [assoc].
  destruct (String.eqb_spec k k') as [->|_].
  - intros [= ->]. left. reflexivity.
  - intros H. right. apply IH, H.
Qed.

Lemma caseBytes_upperText (k r : string) :
  assoc k caseBytes = Some r -> upperText r = true.
Proof.
  intros H. apply assoc_In in H.
  assert (F : forallb (fun e => upperText (snd e)) caseBytes = true)
    by (vm_compute; reflexivity).
  rewrite List.forallb_forall in F. apply (F _ H).
Qed.

Lemma upperText_single (c : ascii) :
  upperChar c = c \/ upperText (String (upperChar c) EmptyString) = true.
Proof.
  destruct c as [[] [] [] [] [] [] [] []];
    first [left; reflexivity | right; vm_compute; reflexivity].
Qed.

Lemma isWhite_white (ch : string) :
  isWhite ch = true -> isChar ch = true /\ upperOf ch = ch.
Proof.
  unfold isWhite. intros H. apply List.existsb_exists in H.
  destruct H as (w & Hin & E). apply String.eqb_eq in E. subst w.
  assert (F : forallb (fun w => isChar w && String.eqb (upperOf w) w) whiteSpaces
              = true) by (vm_compute; reflexivity).
  rewrite List.forallb_forall in F. specialize (F _ Hin).
  apply andb_true_iff in F. destruct F as [F1 F2].
  apply String.eqb_eq in F2. split; assumption.
Qed.

(** The upper case of a character is the character itself, or a text
    of complete characters that upper case leaves as they are, without
    white space. *)
Lemma upperOf_cases (ch : string) :
  isChar ch = true ->
  upperOf ch = ch \/ (isWhite ch = false /\ upperText (upperOf ch) = true).
Proof.
  intros Hc. destruct (isWhite ch) eqn:W; [left; apply isWhite_white, W|].
  destruct ch as [|c [|d t]]; [discriminate| |].
  - cbn [upperOf]. destruct (upperText_single c) as [E|E].
    + left. rewrite E. reflexivity.
    + right. split; [reflexivity | exact E].
  - cbn [upperOf]. destruct (assoc (String c (String d t)) caseBytes) as [r|] eqn:E.
    + right. split; [reflexivity|]. apply (caseBytes_upperText _ _ E).
    + left. reflexivity.
Qed.

Lemma upperText_chars (r : string) :
  upperText r = true ->
  chars r <> [] /\ forallb solid (chars r) = true
  /\ forallb upperFixed (chars r) = true /\ forallb notWhite (chars r) = true.
Proof.
  unfold upperText. rewrite !andb_true_iff. intros [[[H1 H2] H3] H4].
  split; [apply truthy_chars, H1 | auto].
Qed.

Lemma proper_upperChars (l : list string) :
  proper l = true -> proper (upperChars l) = true.
Proof.
  intros H. apply proper_flat_map; [|exact H].
  intros ch Hc. destruct (upperOf_cases ch Hc) as [E|[_ E]].
  - left. rewrite E. apply chars_char, Hc.
  - right. apply upperText_chars in E. split; apply E.
Qed.

Lemma join_upperChars (l : list string) :
  join (upperChars l) = join (List.map upperOf l).
Proof.
  unfold upperChars. rewrite join_flat_map. f_equal.
  apply List.map_ext. intros ch. apply join_chars.
Qed.

Lemma chars_toUpperCase (s : string) :
  chars (toUpperCase s) = upperChars (chars s).
Proof.
  unfold toUpperCase. rewrite <- join_upperChars.
  apply chars_join, proper_upperChars, proper_chars.
Qed.

Lemma upperChars_fixed (l : list string) :
  forallb isChar l = true -> forallb upperFixed (upperChars l) = true.
Proof.
  induction l as [|ch l IH]; [reflexivity|]. cbn [forallb]. intros H.
  apply andb_true_iff in H. destruct H as [Hc Hl].
  unfold upperChars. cbn [flat_map]. rewrite forallb_app.
  fold (upperChars l). rewrite (IH Hl), andb_true_r.
  destruct (upperOf_cases ch Hc) as [E|[_ E]].
  - rewrite E, (chars_char ch Hc). cbn [forallb]. unfold upperFixed.
    rewrite E, String.eqb_refl. reflexivity.
  - apply upperText_chars in E. apply E.
Qed.

Lemma map_fixed (l : list string) :
  forallb upperFixed l = true -> List.map upperOf l = l.
Proof.
  induction l as [|x l IH]; [reflexivity|]. cbn [forallb List.map].
  intros H. apply andb_true_iff in H. destruct H as [Hx Hl].
  apply String.eqb_eq in Hx. rewrite Hx, (IH Hl). reflexivity.
Qed.

(** A text whose characters are their own upper case. *)
Lemma toUpperCase_fixed (s : string) :
  forallb upperFixed (chars s) = true -> toUpperCase s = s.
Proof.
  intros H. unfold toUpperCase. rewrite (map_fixed _ H). apply join_chars.
Qed.

Lemma fixed_toUpperCase (s : string) :
  forallb upperFixed (chars (toUpperCase s)) = true.
Proof.
  rewrite chars_toUpperCase. apply upperChars_fixed, proper_forall, proper_chars.
Qed.

Lemma toUpperCase_idem (s : string) : toUpperCase (toUpperCase s) = toUpperCase s.
Proof. apply toUpperCase_fixed, fixed_toUpperCase. Qed.

(** *** Upper case and white space *)

Lemma dropWhile_head {A : Type} (p : A -> bool) (a b : list A) :
  a <> [] -> forallb (fun x => negb (p x)) a = true ->
  dropWhile p (a ++ b) = a ++ b.
Proof.
  destruct a as [|x a]; [congruence|]. cbn [forallb app dropWhile].
  intros _ H. apply andb_true_iff in H. destruct H as [H _].
  apply negb_true_iff in H. rewrite H. reflexivity.
Qed.

Lemma forallb_head {A : Type} (p : A -> bool) (a b : list A) :
  a <> [] -> forallb (fun x => negb (p x)) a = true -> forallb p (a ++ b) = false.
Proof.
  destruct a as [|x a]; [congruence|]. cbn [forallb app].
  intros _ H. apply andb_true_iff in H. destruct H as [H _].
  apply negb_true_iff in H. rewrite H. reflexivity.
Qed.

Lemma dropEnd_app_split {A : Type} (p : A -> bool) (a b : list A) :
  forallb p b = false -> dropEnd p (a ++ b) = a ++ dropEnd p b.
Proof.
  intros H. induction a as [|x a IH]; [reflexivity|].
  cbn [app dropEnd]. change (x :: a ++ b) with ((x :: a) ++ b).
  rewrite (forallb_app_false p (x :: a) b H), IH. reflexivity.
Qed.

Lemma dropEnd_none {A : Type} (p : A -> bool) (a : list A) :
  forallb (fun x => negb (p x)) a = true -> dropEnd p a = a.
Proof.
  induction a as [|x a IH]; [reflexivity|]. cbn [forallb dropEnd].
  intros H. apply andb_true_iff in H. destruct H as [Hx Ha].
  apply negb_true_iff in Hx. rewrite Hx, (IH Ha). reflexivity.
Qed.

(** A character and its upper case as to white space. *)
Lemma upperOf_white (ch : string) :
  isChar ch = true ->
  (isWhite ch = true /\ chars (upperOf ch) = [ch])
  \/ (isWhite ch = false /\ chars (upperOf ch) <> []
      /\ forallb notWhite (chars (upperOf ch)) = true).
Proof.
  intros Hc. destruct (isWhite ch) eqn:W.
  - left. split; [reflexivity|].
    rewrite (proj2 (isWhite_white ch W)). apply chars_char, Hc.
  - right. split; [reflexivity|].
    destruct (upperOf_cases ch Hc) as [E|[_ E]].
    + rewrite E, (chars_char ch Hc). split; [discriminate|].
      cbn [forallb]. unfold notWhite. rewrite W. reflexivity.
    + apply upperText_chars in E. split; apply E.
Qed.

Lemma upperChars_cons (ch : string) (l : list string) :
  upperChars (ch :: l) = chars (upperOf ch) ++ upperChars l.
Proof. reflexivity. Qed.

Lemma forallb_upperChars (l : list string) :
  forallb isChar l = true ->
  forallb isWhite (upperChars l) = forallb isWhite l.
Proof.
  induction l as [|ch l IH]; [reflexivity|]. cbn [forallb]. intros H.
  apply andb_true_iff in H. destruct H as [Hc Hl].
  rewrite upperChars_cons.
  destruct (upperOf_white ch Hc) as [[W E]|(W & N & F)].
  - rewrite E, W. cbn [app forallb]. rewrite W, (IH Hl). reflexivity.
  - rewrite W, (forallb_head isWhite _ _ N F). reflexivity.
Qed.

Lemma dropWhile_upperChars (l : list string) :
  forallb isChar l = true ->
  dropWhile isWhite (upperChars l) = upperChars (dropWhile isWhite l).
Proof.
  induction l as [|ch l IH]; [reflexivity|]. cbn [forallb]. intros H.
  apply andb_true_iff in H. destruct H as [Hc Hl].
  rewrite upperChars_cons. cbn [dropWhile].
  destruct (upperOf_white ch Hc) as [[W E]|(W & N & F)].
  - rewrite E, W. cbn [app dropWhile]. rewrite W. apply IH, Hl.
  - rewrite W, (dropWhile_head isWhite _ _ N F). reflexivity.
Qed.

Lemma dropEnd_upperChars (l : list string) :
  forallb isChar l = true ->
  dropEnd isWhite (upperChars l) = upperChars (dropEnd isWhite l).
Proof.
  induction l as [|ch l IH]; [reflexivity|]. intros H.
  pose proof H as H'. cbn [forallb] in H.
  apply andb_true_iff in H. destruct H as [Hc Hl].
  cbn [dropEnd]. destruct (forallb isWhite (ch :: l)) eqn:A.
  - apply dropEnd_all. rewrite (forallb_upperChars _ H'). exact A.
  - rewrite !upperChars_cons, <- (IH Hl).
    destruct (forallb isWhite (upperChars l)) eqn:B.
    + rewrite (dropEnd_app_all isWhite _ _ B), (dropEnd_all isWhite _ B).
      rewrite List.app_nil_r.
      destruct (upperOf_white ch Hc) as [[W E]|(W & N & F)].
      * exfalso. rewrite (forallb_upperChars _ Hl) in B.
        cbn [forallb] in A. rewrite W, B in A. discriminate.
      * apply dropEnd_none. exact F.
    + apply dropEnd_app_split. exact B.
Qed.

Lemma trim_toUpperCase (s : string) : trim (toUpperCase s) = toUpperCase (trim s).
Proof.
  pose proof (proper_forall _ (proper_chars s)) as H.
  unfold trim at 1. rewrite chars_toUpperCase.
  rewrite (dropWhile_upperChars _ H).
  rewrite (dropEnd_upperChars _ (forallb_dropWhile _ _ _ H)).
  unfold toUpperCase. rewrite chars_trim. apply join_upperChars.
Qed.

Lemma normalField_upper_trim (s : string) : normalField (toUpperCase (trim s)).
Proof.
  split; [apply toUpperCase_idem|].
  rewrite trim_toUpperCase, trim_idem. reflexivity.
Qed.

Lemma normalField_trim (s : string) : toUpperCase s = s -> normalField (trim s).
Proof.
  intros H. split; [|apply trim_idem].
  rewrite <- trim_toUpperCase, H. reflexivity.
Qed.

(** *** The pieces of a text in upper case *)

Lemma split_cases (sep : ascii) (s : string) :
  split sep s = [s]
  \/ exists p rest, s = p +:+ String sep rest /\ split sep s = p :: split sep rest.
Proof.
  induction s as [|c r IH]; [left; reflexivity|].
  cbn [split]. destruct (Ascii.eqb_spec c sep) as [->|N].
  - right. exists EmptyString, r. split; reflexivity.
  - destruct IH as [E|(p & rest & E & S)].
    + left. rewrite E. reflexivity.
    + right. exists (String c p), rest. rewrite S, E. split; reflexivity.
Qed.

Lemma split_fixed (sep : ascii) (n : nat) :
  code sep < 128 ->
  forall s, (String.length s <= n)%nat ->
    forallb upperFixed (chars s) = true ->
    Forall (fun p => toUpperCase p = p) (split sep s).
Proof.
  intros Hsep. induction n as [|n IH]; intros s Hn Hs.
  - destruct s; [|cbn [String.length] in Hn; lia].
    repeat constructor.
  - destruct (split_cases sep s) as [E|(p & rest & E & S)].
    + rewrite E. repeat constructor. apply toUpperCase_fixed, Hs.
    + rewrite S. subst s.
      rewrite chars_app in Hs
        by (cbn [startsCont]; apply ascii_not_cont, Hsep).
      rewrite (chars_ascii sep rest Hsep), forallb_app in Hs.
      apply andb_true_iff in Hs. destruct Hs as [Hp Hr].
      cbn [forallb] in Hr. apply andb_true_iff in Hr. destruct Hr as [_ Hr].
      constructor; [apply toUpperCase_fixed, Hp|].
      apply IH; [|exact Hr].
      rewrite app_length in Hn. cbn [String.length] in Hn. lia.
Qed.

Lemma byDay_normal (v : string) :
  Forall (fun d => truthy d = true /\ normalField d)
    (List.filter truthy (List.map trim (split ","%char (toUpperCase v)))).
Proof.
  pose proof (split_fixed ","%char _ ltac:(vm_compute; reflexivity)
                (toUpperCase v) (le_n _) (fixed_toUpperCase v)) as F.
  induction F as [|p ps Hp _ IH]; [constructor|].
  cbn [List.map List.filter]. destruct (truthy (trim p)) eqn:T; [|exact IH].
  constructor; [|exact IH]. split; [exact T | apply normalField_trim; exact Hp].
Qed.

(** The fields of a rule are normal when they are set. *)
Lemma parsePart_normal (result result' : ParsedRecurrence) (part : string) :
  (forall f, freq result = Some f -> normalField f) ->
  Forall (fun d => truthy d = true /\ normalField d) (byDay result) ->
  parsePart result part = Ok result' ->
  (forall f, freq result' = Some f -> normalField f)
  /\ Forall (fun d => truthy d = true /\ normalField d) (byDay result').
Proof.
  intros Hf Hb. unfold parsePart.
  destruct (split "=" part !! 0%nat) as [k|]; cbn [falsy orb];
    [|intros [= <-]; auto].
  destruct (split "=" part !! 1%nat) as [v|];
    [|rewrite orb_true_r; intros [= <-]; auto].
  cbn [falsy].
  destruct (isEmpty k || isEmpty v); [intros [= <-]; auto|].
  cbn [callTrim rbind].
  destruct (String.eqb _ "FREQ").
  { intros [= <-]. cbn [freq byDay]. split; [|exact Hb].
    intros f [= <-]. apply normalField_upper_trim. }
  destruct (String.eqb _ "INTERVAL").
  { destruct (negb _ && _); intros [= <-]; auto. }
  destruct (String.eqb _ "BYDAY"); intros [= <-]; auto.
  cbn [freq byDay]. split; [exact Hf | apply byDay_normal].
Qed.

Lemma forEachPart_normal (parts : list string) :
  forall result result' : ParsedRecurrence,
    (forall f, freq result = Some f -> normalField f) ->
    Forall (fun d => truthy d = true /\ normalField d) (byDay result) ->
    forEachPart parts result = Ok result' ->
    (forall f, freq result' = Some f -> normalField f)
    /\ Forall (fun d => truthy d = true /\ normalField d) (byDay result').
Proof.
  induction parts as [|part rest IH]; intros result result' Hf Hb.
  - intros [= <-]. auto.
  - cbn [forEachPart].
    destruct (parsePart result part) as [r1|e] eqn:E; [|discriminate].
    cbn [rbind]. destruct (parsePart_normal _ _ _ Hf Hb E) as [Hf1 Hb1].
    apply IH; assumption.
Qed.

End NormalFields.

(** X25.  The parser normalises what it keeps: the frequency of a
    parsed rule, when there is one, is in upper case without white space
    around it, and so is every weekday code of its BYDAY list, none of
    which is empty. *)
Theorem parsed_fields_are_normal (rrule : string) (parsed : ParsedRecurrence) :
  Recurrence.parseRecurrence rrule = Ok parsed ->
  (forall f, freq parsed = Some f -> normalField f)
  /\ Forall (fun d => Str.truthy d = true /\ normalField d) (byDay parsed).
Proof.
  unfold Recurrence.parseRecurrence.
  destruct (Str.isEmpty _).
  - intros [= <-]. split; [discriminate | constructor].
  - apply forEachPart_normal; [discriminate | constructor].
Qed.

Lemma parsed_fields_are_normal_witness :
  (forall f,
     freq {| freq := Some "WEEKLY"; interval := Fin 1; byDay := ["MO"; "WE"] |}
     = Some f -> normalField f)
  /\ Forall (fun d => Str.truthy d = true /\ normalField d)
       (byDay {| freq := Some "WEEKLY"; interval := Fin 1; byDay := ["MO"; "WE"] |}).
Proof.
  apply (parsed_fields_are_normal "rrule:freq=weekly; byday= mo ,we,").
  vm_compute. reflexivity.
Defined.
